(* ===== verification/_CoqProject ===== *)
-Q . S2P
Spec2Rocq.v
Traces.v
JsString.v
Uri.v
Platform.v
Calendar.v
Blog.v
Store.v
Http.v
Auth.v
Handlers.v
Server.v
Refinement.v
Browser.v
Completeness.v
Names.v
Secret.v
Wire.v
Client.v
Console.v
