(* ===== verification/Spec2Rocq.v ===== *)
(** * A verified model of the blogging server (src/server.js)

    The program is one Express application: an authentication middleware that
    decodes a signed session cookie, a login gate ([mustBeLoggedIn]), and
    eleven route handlers that validate form input and run single SQL
    statements against two tables ([user] and [post]).  Every handler is a
    synchronous function, so a run of the server is a sequence of requests,
    each handled atomically.

    ** Files (in dependency order)

    - [Spec2Rocq] (this file): the prelude.  The state-and-exception monad
      [eff] in which JavaScript statement sequences are written ([Throw]
      keeps the state reached so far, as a thrown exception keeps the side
      effects already made), its laws, the [blog] hint databases and the
      tactics shared by the other files.
    - [Traces]: labelled runs of a step relation and the simulation diagram
      between two step relations, lifted from steps to runs.
    - [JsString]: JavaScript strings as lists of UTF-16 code units, with
      [trim], [length], truthiness and the test of [/^[a-zA-Z0-9]+$/].
    - [Uri]: [encodeURIComponent] and [decodeURIComponent] of ECMAScript
      (UTF-16 surrogate pairs, UTF-8, percent escapes), which the cookie
      parser, the parser of forms and the router call.
    - [Platform]: the values exchanged with the libraries the server only
      calls, and one interface ([Class]) per library: the SQLite column
      affinity, bcrypt, jsonwebtoken and the clock.  The first three have a
      small executable instance used to run the scenarios.
    - [Calendar]: [Date.prototype.toISOString] on time values from 1970 to
      9999, by the calendar arithmetic of ECMAScript; it implements the
      interface of the clock.
    - [Blog]: the abstract specification.  A blog is a map of accounts by
      name and a map of posts by id; its steps are the events a client can
      tell apart (registered, logged in, published, nothing), each allowed
      by the data model of the specification (valid names and passwords,
      titles and bodies that are not blank).
    - [Store]: the two tables and every SQL statement of server.js as an
      operation on them, with the schema's constraints as an invariant.
    - [Http]: requests, the response object ([res.render], [res.redirect],
      [res.cookie], [res.clearCookie]) and what the client receives.
    - [Auth]: the authentication middleware and [mustBeLoggedIn].
    - [Handlers]: the route handlers, statement by statement.
    - [Server]: routing, the handling of one request, and runs of the server
      as a step relation with the invariants of every reachable state.
    - [Refinement]: the server implements [Blog]: a simulation from
      [Server.step] to [Blog.blog_step], and the properties of the abstract
      blog transferred to every run of the server.
    - [Browser]: a client that keeps the cookies the responses set, composed
      with the server, for theorems on whole sessions.
    - [Completeness]: the converse of [Refinement]: every step of [Blog] is
      performed by some request, a simulation from [Blog.blog_step] to
      [Server.step].
    - [Names]: the user names made of digits, which SQLite stores as
      numbers, followed through registration and login.
    - [Secret]: the process started without [JWTSECRET]: what its
      registrations and logins do.
    - [Wire]: requests and responses as text.  The middleware of lines
      40-43 ([express.urlencoded], [express.json], [express.static],
      [cookieParser]) and the path handling of the router, from the
      request target, the header Cookie and the body to [Http.request];
      status codes and the header Set-Cookie; the server on raw requests
      ([receive], [listen]).
    - [Client]: the client of RFC 6265 on the texts of [Wire]: the line
      Set-Cookie read back (name, value, Max-Age, Expires with the dates of
      cookies), the jar, the header Cookie, and the loop of a client and
      the server on raw requests.
    - [Console]: what the process prints ([console.log], lines 104, 116,
      136, 152, 153 and 303): the console of one request and of a run, and
      a reference that says which lines they are.

    The header of each file says how its definitions correspond to the
    source, by function and line of src/server.js.

    ** How the parts interact

    A request enters [Server.app]: [Auth.authenticate] (lines 46-64) turns
    the session cookie into [req.user]; [Server.match_route] selects the
    route; the handler of [Handlers] runs in the monad [handler] over the
    response object, the database and the console of the process;
    [Server.handle] gives the client's [outcome] and the next database.  The handlers call the
    statements of [Store] through [query], [run] and [exec], and the
    libraries through the interfaces of [Platform], so every theorem on
    handlers and runs holds for every implementation of the interfaces.
    [Browser.visit] closes the loop: the cookies of an outcome update the
    client's jar, and the jar is the cookie header of the next request.
    [Wire.receive] puts the middleware of lines 40-43 in front of
    [Server.handle]: the body is parsed (or the request refused with 413
    or 400), a file of [public] is served, the header Cookie is parsed,
    the path is split and its parameter decoded (or the request refused
    with 400), and the request that results is handled.  [Wire.listen] is
    [Server.serve] on such requests.  [Client.wire_visit] closes the loop
    on text: the lines that [Wire.set_cookie_line] writes for the headers of
    an answer are parsed by the client, and its jar is written into the
    header Cookie of its next raw request; [Client.wire_browse_refines]
    proves that this loop is the one of [Browser].  The console is a
    field of the state of a handler that [Http.console_log] appends to;
    [Console.console_after] runs the application on the requests of a run
    with the console the requests before have left, and
    [Console.listen_console] does so for the requests as they arrive,
    after the line that the callback of [app.listen] prints.

    ** Modelling choices

    - Strings are sequences of 16-bit code units (type [N]), so [length],
      [trim] and the character classes are those of ECMAScript.
    - The columns declared [STRING] have NUMERIC affinity in SQLite: a text
      that is a well-formed number is stored as that number.  The coercion
      is the interface function [numeric_affinity]; nothing is assumed of it
      beyond what SQLite documents.
    - [ORDER BY createdDate DESC] is the interface function [order_by] of
      [Sqlite], of which the laws say that it returns the same rows,
      sorted: the order of two posts of the same date is the choice of the
      engine, and no theorem fixes it.
    - The columns [id] and [authorid] and the claim [userId] are integers
      without a bound.  [authorid] is nullable in the schema (line 27) and
      a token can carry any JSON, but the only INSERT of a post binds
      [req.user.userId] (line 113), which comes from a token the server
      signed with the id of a row (lines 242, 287): a row of [post] always
      has an author, and [Refinement.ids_bounded] bounds the ids.
    - bcrypt and jsonwebtoken are interfaces with the laws the server relies
      on (a hash verifies against its own plaintext; a token signed with the
      server's secret decodes to its claims).  Unforgeability is not a law:
      the theorems on identity speak of the claims a cookie verifies to.
    - [req.userid], which the owner checks read, is assigned nowhere in the
      source: it is the constant [undefined].
    - An exception thrown by a handler is a value ([Throw]) that keeps the
      state reached; Express turns it into a 500 response unless a response
      was already sent, in which case the client keeps the response sent.
    - The clock is read once per request ([env]); the salt drawn by
      [bcrypt.genSaltSync] is an input of the request.
    - The configuration is what the handlers read of [process.env]
      ([Http.config_of_env]): the secret [JWTSECRET], where the empty text
      stands for an unset variable too, and whether [NODE_ENV] is
      "production".  [jwt.sign] raises when the secret is unset or empty
      ([Platform.jwt_sign]), so the theorems that end in a session assume
      a secret ([secret_set]) and [Secret] follows the process without
      one.  What [jwt.verify] accepts under an empty secret is left to the
      interface [Jwt]: versions of the library differ on it.
    - The client of [Browser] and of [Client] reads the same clock as the
      server and receives a response at the moment it is sent.  The client
      follows RFC 6265: attributes are split at ";", the last Max-Age
      counts and goes before the last Expires, a date is read token by
      token (time, day, month, year, in any order), a cookie whose time
      has passed is dropped.  Time values are at or after 1970.
    - [Wire] follows the libraries that Express 4 loads: body-parser 1.x
      with [querystring] ([extended: false]), cookie 0.4 and cookie-parser
      1.4, path-to-regexp 0.1.  [JSON.parse] and the lenient decoding that
      [querystring] falls back to on escapes that are not UTF-8 are
      interfaces ([Json], [Querystring]); the files of [public] are a
      predicate on paths.  The request target is in origin form and
      bodies are UTF-8.  A HEAD request is answered by the route of GET,
      an OPTIONS request by the router (200 when the path has a route),
      a request of another method finds no route; the parameter of a path
      is decoded before the method is looked at.
    - A call of [console.log] is recorded with its arguments as values (a
      string, a number, [req.user], a row), not with the text that
      [util.inspect] writes for them; the console only grows.
    - [req.body] keeps the four fields the handlers read, each when it is
      a string: a field that is missing, repeated in a form or not a string
      in JSON makes [.trim()] raise in the same way.

    ** Bounds and fuel

    Every operation of the server is a total function and a run is a finite
    list of requests, so nothing of the server is bounded by fuel.  The one
    bounded search is in [Calendar]: the year of a day number is found by
    stepping through at most [years] = 8036 years from 1970 and the month by
    stepping through at most 11 months.  Time values are restricted to
    [0 <= t <= iso_max] (9999-12-31T23:59:59.999Z); [date_fields_fit] proves
    that within this range the search ends before the fuel does (the year
    found is at most 9999 and the day left is a day of that year),
    [year_of_fuel] that more fuel gives the same result
    ([to_iso_string_terminates] puts the two together for the text), and
    the laws of the clock are stated for this range only, because from the
    year 10000 on [toISOString] changes its format.  [decodeURIComponent]
    consumes one code unit or a whole escape sequence at each step and is
    defined by well-founded recursion on the length of the text, so it is
    total without fuel.  The limits of body-parser ([body_limit] = 102400
    bytes, [parameter_limit] = 1000) are the defaults of the library, which
    line 40 does not change.  Row ids are integers without a bound in the
    model, while SQLite keeps them in 64 bits and better-sqlite3 hands them
    over as numbers, exact up to 2^53: [Refinement.ids_bounded] proves that
    the ids of a run are at most the number of its requests, so the bound
    is out of reach and the model loses nothing by leaving it out.

    ** What the theorems show

    - [JsString]: [trim] and the user-name test meet their specifications.
    - [Uri]: decoding inverts encoding on every string whose encoding is
      defined (the strings without unpaired surrogates); the UTF-8 decoder
      accepts exactly the shortest forms of the scalar values; a text
      without "%" decodes to itself and a text of unreserved characters
      encodes to itself.
    - [Platform]: tokens round-trip until their expiry; the interfaces of
      SQLite, bcrypt and jsonwebtoken have instances, so their laws are
      satisfiable.
    - [Calendar]: the ISO text has 24 characters and the order of the texts
      is the order of the time values (so is injective), which is what
      [ORDER BY createdDate] relies on; the fields written are the date of
      the time value by the reference definitions of ECMAScript
      ([DayFromYear], the table of the months, [MakeDate]); the search for
      the year terminates within its bound.
    - [Blog]: the invariant of the abstract blog (ids issued in order, one
      account per name and per id, names and texts valid, passwords hashed,
      every post's author has an account) holds of every run; every account
      was opened by an event of the run.
    - [Store]: every statement preserves the schema's invariant [wf_db];
      each query returns exactly the rows its SQL text selects; UNIQUE and
      AUTOINCREMENT behave as SQLite's; the dashboard query lists by time.
    - [Http]: a response is sent at most once; the effect predicates
      ([preserving], [writes_with], [answers], [quiet], and [stable R] for
      any preorder [R] on states) compose along [bind] and [try_catch].
    - [Auth]: the middleware computes the session of the cookie, never
      raises, never answers.
    - [Handlers]: the behaviour of each form handler on each branch
      (created, rejected with which errors, duplicate, wrong password),
      that a registration followed by a login under the same name and
      password is granted the session of the new account
      ([register_then_login]), the login gate, the session's duration, the
      dashboard's content and order,
      and the actual behaviour of the owner check: the edit and delete
      routes never reach their action.
    - [Server]: for every request and every run, what can be written (one
      user, or one post in the name of the session), the invariant of the
      schema in every reachable database, that stored rows are never
      changed or removed, that every request is answered, and the scenario
      of the specification run end to end by evaluation.
    - [Refinement]: [handle] simulates [blog_step] under the relation
      [matches] (each row of [user] is an account, each row of [post] an
      entry, the AUTOINCREMENT counters are the ids issued), with the event
      determined by the outcome ([announces]: a session cookie granted for a
      new or an old account, a redirect to a new post).  From it: every
      reachable database holds the data model (valid names, hashed
      passwords, texts that are not blank), a login raises only in
      [jwt.sign] and only without a secret, authors registered in the
      run, a session is only granted for a stored user,
      and row ids are at most the number of requests.
    - [Completeness]: the validation of the handlers refuses nothing the
      data model allows: when the secret is set, for every step of the
      abstract blog there is a request that performs it, and every run of the abstract blog is a run
      of the server.  With [Refinement], the server and the abstract blog
      have the same runs up to what [announces] lets a client observe.
    - [Browser]: a registration followed by a post within a day publishes
      under the new account; after a logout the client is anonymous; the
      cookie's Max-Age covers the validity of its token and exceeds it by
      less than a second.
    - [Names]: two names of digits that denote the same number are one
      account, for the registration and for the login.
    - [Secret]: without a secret no response of any run sets the session
      cookie ([unset_secret_no_session]); a valid
      registration stores its user and is answered 500, after which the
      name is taken and a login with the right password is answered 500
      ([unset_secret_locks_out]).
    - [Client]: the date that [toUTCString] writes is parsed back to its
      time value without the milliseconds; the client reads from the two
      headers the server writes what [Browser.keep_cookie] says, so the
      loop of client and server on text refines the loop of [Browser];
      Max-Age and Expires of the session cookie agree up to a second; a
      registration followed by a post, and a logout, end to end on text.
    - [Wire]: the body a browser writes for a form is parsed back to the
      form; the session cookie survives the header Set-Cookie, the client
      and the header Cookie, among cookies of other names; a posted form
      and a path with an encoded parameter are handled as the requests of
      [Http] they denote; a parameter with an escape that writes no
      character is answered 400, on the three routes with a parameter and
      for every method ([receive_bad_param]);
      refusals and static files leave the database alone; every header
      Set-Cookie that a handler queues has a line, so [res.cookie] and
      [res.clearCookie] never raise ([handle_set_cookie]); and every run
      of the server on raw requests is a run of the abstract blog
      ([listen_simulates]).
    - [Console]: the console of a run is the one of the reference, which reads the route, the session, the fields [title]
      and [body] and the rows the request names, for the requests of the
      application ([console_after_expected]) and for the requests as they
      arrive ([listen_console_expected]); what a request prints depends
      neither on the field [password] of its form nor on the hashes in the
      database ([console_hides_passwords]).

    ** Not modelled

    The EJS views (only the view name and the values given to it are kept:
    the templates are not in src/), the content of static files, the text
    in which the console shows an object, response headers other than
    Set-Cookie, the WAL mode and the
    transactions of the storage engine (each statement is atomic and the
    handlers are synchronous), the cryptography behind bcrypt and the token
    signature, and the cookie attributes a browser enforces on its own side
    (HttpOnly, Secure, SameSite).  Of the environment: the file .env that
    dotenv reads (the variables are given as [Http.process_env]) and the
    listening socket (the requests are the inputs of a run).  Of the
    protocol: request targets in
    absolute form, charsets other than UTF-8 and compressed bodies.  Of
    SQLite: the conversion of a text with a fraction or an exponent to a
    floating-point number, which stays behind the interface [Sqlite]
    because it is the rounding of the engine, not a rule of the program:
    for such a text (a user name like [1e5] is one) the theorems say what
    holds of whatever SQLite stores.

    ** Plan

    Done: strings and validation; the store and its invariant; the response
    object; the middleware and the gate; all eleven handlers; routing; runs
    and their invariants; the calendar behind [toISOString]; the abstract
    blog, the refinement theorem and its converse; browser sessions; names
    of digits; URI escapes; the middleware and the router on requests as
    text, status codes and Set-Cookie; the client of RFC 6265 on these
    texts; the console; the process without [JWTSECRET].  What is left of
    src/server.js is listed under "Not modelled": it is code of the
    libraries and of the engine, or files that are not in src/. *)

From stdpp Require Export base tactics strings numbers option list gmap.

(** ** Results and the state-and-exception monad *)

Inductive result (E A : Type) : Type :=
| Ok (a : A)
| Throw (e : E).
Arguments Ok {E A} a.
Arguments Throw {E A} e.

Definition eff (S E A : Type) : Type := S -> result E A * S.

Definition eff_ret {S E A} (a : A) : eff S E A := fun s => (Ok a, s).

Definition eff_bind {S E A B} (f : A -> eff S E B) (m : eff S E A) : eff S E B :=
  fun s =>
    match m s with
    | (Ok a, s') => f a s'
    | (Throw e, s') => (Throw e, s')
    end.

Definition throw {S E A} (e : E) : eff S E A := fun s => (Throw e, s).

Definition try_catch {S E A} (m : eff S E A) (h : E -> eff S E A) : eff S E A :=
  fun s =>
    match m s with
    | (Ok a, s') => (Ok a, s')
    | (Throw e, s') => h e s'
    end.

Definition get_state {S E} : eff S E S := fun s => (Ok s, s).

Definition modify_state {S E} (f : S -> S) : eff S E unit := fun s => (Ok tt, f s).

#[export] Instance eff_mret {S E} : MRet (eff S E) := fun A => @eff_ret S E A.
#[export] Instance eff_mbind {S E} : MBind (eff S E) := fun A B => @eff_bind S E A B.
#[export] Instance eff_fmap {S E} : FMap (eff S E) :=
  fun A B f m => eff_bind (fun a => eff_ret (f a)) m.

Definition is_ok {E A} (r : result E A) : bool :=
  match r with Ok _ => true | Throw _ => false end.

(** ** Hint databases and tactics *)

Create HintDb blog discriminated.
Create Rewrite HintDb blog.

Ltac eff_unfold :=
  unfold fmap, mbind, mret, eff_fmap, eff_mbind, eff_mret, eff_bind, eff_ret,
    throw, try_catch, get_state, modify_state in *.

(** [lia] after replacing the divisions and remainders by their equations. *)
Ltac lia_div := Z.div_mod_to_equations; lia.

(** A decidable proposition on closed terms, by evaluating its decision. *)
Ltac evaluate := apply (bool_decide_unpack _); by vm_compute.

Ltac destruct_match :=
  match goal with
  | |- context [match ?x with _ => _ end] => destruct x eqn:?
  | H : context [match ?x with _ => _ end] |- _ => destruct x eqn:?
  end.

(** ** Laws of the monad *)

Section eff_laws.
Context {S E : Type}.

Lemma eff_bind_ret_l {A B} (a : A) (f : A -> eff S E B) s :
  (mret a ≫= f) s = f a s.
Proof. reflexivity. Qed.

Lemma eff_bind_ret_r {A} (m : eff S E A) s :
  (m ≫= mret) s = m s.
Proof. eff_unfold. by destruct (m s) as [[]]. Qed.

Lemma eff_bind_assoc {A B C} (m : eff S E A) (f : A -> eff S E B)
    (g : B -> eff S E C) s :
  ((m ≫= f) ≫= g) s = (m ≫= (fun a => f a ≫= g)) s.
Proof. eff_unfold. by destruct (m s) as [[]]. Qed.

Lemma eff_bind_throw {A B} (e : E) (f : A -> eff S E B) s :
  (throw e ≫= f) s = (Throw e, s).
Proof. reflexivity. Qed.

Lemma eff_bind_ok {A B} (m : eff S E A) (f : A -> eff S E B) s a s' :
  m s = (Ok a, s') -> (m ≫= f) s = f a s'.
Proof. intros Hm. eff_unfold. by rewrite Hm. Qed.

Lemma eff_bind_fail {A B} (m : eff S E A) (f : A -> eff S E B) s e s' :
  m s = (Throw e, s') -> (m ≫= f) s = (Throw e, s').
Proof. intros Hm. eff_unfold. by rewrite Hm. Qed.

Lemma try_catch_ok {A} (m : eff S E A) h s a s' :
  m s = (Ok a, s') -> try_catch m h s = (Ok a, s').
Proof. intros Hm. unfold try_catch. by rewrite Hm. Qed.

Lemma try_catch_fail {A} (m : eff S E A) h s e s' :
  m s = (Throw e, s') -> try_catch m h s = h e s'.
Proof. intros Hm. unfold try_catch. by rewrite Hm. Qed.
End eff_laws.

#[export] Hint Rewrite @eff_bind_ret_l @eff_bind_throw : blog.

(** ** Lists

    Facts on [forallb] and [filter] that the files on texts share. *)

Section list_facts.
Context {A : Type}.

Lemma nth_elem_of (l : list A) (i : nat) (d : A) : nth i l d ∈ d :: l.
Proof.
  destruct (nth_in_or_default i l d) as [Hi| ->]; [|by left].
  right. by apply list_elem_of_In.
Qed.

Lemma forallb_not_elem (f : A -> bool) (l : list A) (x : A) :
  forallb f l = true -> f x = false -> x ∉ l.
Proof.
  intros Hl Hx Hin. rewrite forallb_forall in Hl.
  apply list_elem_of_In, Hl in Hin. congruence.
Qed.

Lemma forallb_impl (f g : A -> bool) (l : list A) :
  (forall x, f x = true -> g x = true) ->
  forallb f l = true -> forallb g l = true.
Proof.
  intros Hfg. rewrite !forallb_forall. intros Hl x Hx. by apply Hfg, Hl.
Qed.

Lemma forallb_fmap (f : A -> bool) (g : A -> A) (l : list A) :
  forallb f (g <$> l) = forallb (f ∘ g) l.
Proof. induction l as [|x l IH]; [done|]. csimpl. by rewrite IH. Qed.

Lemma filter_all (P : A -> Prop) `{!forall x, Decision (P x)} (l : list A) :
  Forall P l -> filter P l = l.
Proof.
  induction 1 as [|x l Hx _ IH]; [done|].
  by rewrite filter_cons_True, IH.
Qed.

End list_facts.
