(* ===== verification/Traces.v ===== *)
(** * Runs and simulations

    Generic definitions shared by the server and its abstract
    specification: the runs of a labelled transition relation ([trace]), and
    simulations between two such relations, lifted from steps to runs. *)

From S2P Require Import Spec2Rocq.

(** ** Runs of a labelled transition relation *)

Inductive trace {S L : Type} (R : S -> L -> S -> Prop) : S -> list L -> S -> Prop :=
| trace_nil s : trace R s [] s
| trace_cons s l s' ls s'' :
    R s l s' -> trace R s' ls s'' -> trace R s (l :: ls) s''.

(** A relation [sim] between the states of two transition relations is a
    simulation when every step of the first from related states is matched
    by a step of the second to related states, with labels related by
    [same]; [inv] is an invariant of the first that the diagram may use. *)
Definition simulation {S1 L1 S2 L2 : Type}
    (R1 : S1 -> L1 -> S1 -> Prop) (R2 : S2 -> L2 -> S2 -> Prop)
    (inv : S1 -> Prop) (sim : S1 -> S2 -> Prop) (same : L1 -> L2 -> Prop) : Prop :=
  forall s l s' t, inv s -> sim s t -> R1 s l s' ->
    exists l' t', R2 t l' t' /\ sim s' t' /\ same l l'.

Section trace_facts.
Context {S L : Type} (R : S -> L -> S -> Prop).

Lemma trace_one s l s' : R s l s' -> trace R s [l] s'.
Proof. intros. eapply trace_cons; [done|constructor]. Qed.

Lemma trace_app s ls s' ls' s'' :
  trace R s ls s' -> trace R s' ls' s'' -> trace R s (ls ++ ls') s''.
Proof. induction 1; [done|]. intros. simpl. eapply trace_cons; eauto. Qed.

Lemma trace_app_inv s ls ls' s'' :
  trace R s (ls ++ ls') s'' ->
  exists s', trace R s ls s' /\ trace R s' ls' s''.
Proof.
  revert s. induction ls as [|l ls IH]; intros s; simpl.
  - intros. exists s. split; [constructor|done].
  - inversion 1 as [|? ? s1 ? ? Hstep Hrest]; subst.
    destruct (IH _ Hrest) as (s' & ? & ?). exists s'. split; [|done].
    by eapply trace_cons.
Qed.

Lemma trace_rtc s ls s' :
  trace R s ls s' -> rtc (fun a b => exists l, R a l b) s s'.
Proof. induction 1; [done|]. eapply rtc_l; eauto. Qed.

Lemma rtc_trace s s' :
  rtc (fun a b => exists l, R a l b) s s' -> exists ls, trace R s ls s'.
Proof.
  induction 1 as [|s s1 s2 [l Hstep] _ [ls IH]]; [exists []; constructor|].
  exists (l :: ls). by eapply trace_cons.
Qed.

(** An invariant of the steps is an invariant of the runs. *)
Lemma trace_invariant (inv : S -> Prop) s ls s' :
  (forall a l b, inv a -> R a l b -> inv b) ->
  inv s -> trace R s ls s' -> inv s'.
Proof. intros Hstep Hs Hrun. induction Hrun; eauto. Qed.

End trace_facts.

(** ** Simulations

    A simulation of steps is a simulation of runs. *)

Section simulation.
Context {S1 L1 S2 L2 : Type}.
Context (R1 : S1 -> L1 -> S1 -> Prop) (R2 : S2 -> L2 -> S2 -> Prop).
Context (inv : S1 -> Prop) (sim : S1 -> S2 -> Prop) (same : L1 -> L2 -> Prop).

Lemma simulation_trace s ls s' t :
  (forall a l b, inv a -> R1 a l b -> inv b) ->
  simulation R1 R2 inv sim same ->
  inv s -> sim s t -> trace R1 s ls s' ->
  exists ls' t', trace R2 t ls' t' /\ sim s' t' /\ Forall2 same ls ls'.
Proof.
  intros Hinv Hsim Hs Ht Hrun. revert t Ht.
  induction Hrun as [s|s l s1 ls s2 Hstep Hrun IH]; intros t Ht.
  - exists [], t. split_and!; [constructor|done|constructor].
  - destruct (Hsim _ _ _ _ Hs Ht Hstep) as (l' & t1 & Hstep' & Ht1 & Hl).
    destruct (IH (Hinv _ _ _ Hs Hstep) _ Ht1) as (ls' & t2 & Hrun' & Ht2 & Hls).
    exists (l' :: ls'), t2. split_and!; [by eapply trace_cons|done|by constructor].
Qed.

End simulation.
