(* ===== verification/JsString.v ===== *)
(** * JavaScript strings

    A string is its sequence of UTF-16 code units, each a number below
    [2^16] kept as an [N].  The operations are the ones server.js applies to
    the fields of a form: [String.prototype.trim], [length], the truth value
    of a string in a condition, and the test of the regular expression
    [/^[a-zA-Z0-9]+$/] (lines 100-101, 209-210, 218-226, 264-265).

    [js] turns a literal of the development into a JavaScript string; it is
    how the examples write their inputs. *)

From S2P Require Import Spec2Rocq.

Abbreviation jsstring := (list N).

Definition js (s : string) : jsstring :=
  Ascii.N_of_ascii <$> String.list_ascii_of_string s.

(** The code points [trim] strips: WhiteSpace (TAB, VT, FF, ZWNBSP and the
    category Zs) and LineTerminator (LF, CR, LS, PS) of ECMAScript. *)
Definition is_white_space (c : N) : bool :=
  ((9 <=? c) && (c <=? 13) || (c =? 32) || (c =? 160) || (c =? 0x1680)
   || (0x2000 <=? c) && (c <=? 0x200A)
   || (c =? 0x2028) || (c =? 0x2029) || (c =? 0x202F) || (c =? 0x205F)
   || (c =? 0x3000) || (c =? 0xFEFF))%N.

Fixpoint trimStart (s : jsstring) : jsstring :=
  match s with
  | [] => []
  | c :: s' => if is_white_space c then trimStart s' else s
  end.

Definition trimEnd (s : jsstring) : jsstring :=
  reverse (trimStart (reverse s)).

Definition trim (s : jsstring) : jsstring := trimEnd (trimStart s).

(** [s.length] *)
Definition js_length (s : jsstring) : Z := Z.of_nat (length s).

(** The truth value of a string in a condition: only the empty string is
    falsy. *)
Definition truthy (s : jsstring) : bool :=
  match s with [] => false | _ :: _ => true end.

(** The class [[a-zA-Z0-9]]. *)
Definition is_alnum (c : N) : bool :=
  ((97 <=? c) && (c <=? 122) || (65 <=? c) && (c <=? 90)
   || (48 <=? c) && (c <=? 57))%N.

(** [/^[a-zA-Z0-9]+$/.test(s)]: without the [m] flag the anchors are the
    ends of the string, so the whole string is one or more letters or
    digits. *)
Definition test_alnum (s : jsstring) : bool :=
  truthy s && forallb is_alnum s.

(** A string made of white space only (possibly empty): what [trim] maps to
    the empty string. *)
Definition blank (s : jsstring) : bool := forallb is_white_space s.

(** ** [trimStart] *)

Lemma trimStart_decompose s :
  ∃ pre, s = pre ++ trimStart s ∧ blank pre = true.
Proof.
  induction s as [|c s [pre [Hs Hpre]]]; [by exists []|].
  simpl. destruct (is_white_space c) eqn:Hc.
  - exists (c :: pre). simpl. rewrite Hc, Hpre. by rewrite <- Hs.
  - by exists [].
Qed.

Lemma trimStart_head s c :
  head (trimStart s) = Some c → is_white_space c = false.
Proof.
  induction s as [|d s IH]; [done|]. simpl.
  destruct (is_white_space d) eqn:Hd; [done|]. simpl. congruence.
Qed.

Lemma trimStart_fixed s :
  (∀ c, head s = Some c → is_white_space c = false) → trimStart s = s.
Proof. destruct s as [|c s]; [done|]. intros H. simpl. by rewrite (H c). Qed.

Lemma trimStart_blank_app pre s :
  blank pre = true → trimStart (pre ++ s) = trimStart s.
Proof.
  induction pre as [|c pre IH]; [done|]. simpl.
  intros [-> ?]%andb_prop. auto.
Qed.

Lemma trimStart_blank s : blank s = true → trimStart s = [].
Proof.
  intros H. rewrite <- (app_nil_r s). by rewrite trimStart_blank_app.
Qed.

Lemma trimStart_nil_blank s : trimStart s = [] → blank s = true.
Proof.
  destruct (trimStart_decompose s) as [pre [Hs Hpre]]. intros Hnil.
  rewrite Hs, Hnil, app_nil_r. done.
Qed.

(** ** [trimEnd], by reversal *)

Lemma blank_reverse s : blank (reverse s) = blank s.
Proof.
  unfold blank. apply eq_true_iff_eq.
  rewrite !forallb_forall. setoid_rewrite <- list_elem_of_In.
  by setoid_rewrite elem_of_reverse.
Qed.

Lemma blank_app s t : blank (s ++ t) = blank s && blank t.
Proof. apply forallb_app. Qed.

Lemma trimEnd_decompose s :
  ∃ post, s = trimEnd s ++ post ∧ blank post = true.
Proof.
  destruct (trimStart_decompose (reverse s)) as [pre [Hs Hpre]].
  exists (reverse pre). split; [|by rewrite blank_reverse].
  unfold trimEnd. rewrite <- reverse_app, <- Hs. by rewrite reverse_involutive.
Qed.

Lemma trimEnd_last s c :
  last (trimEnd s) = Some c → is_white_space c = false.
Proof. unfold trimEnd. rewrite last_reverse. apply trimStart_head. Qed.

Lemma trimEnd_fixed s :
  (∀ c, last s = Some c → is_white_space c = false) → trimEnd s = s.
Proof.
  intros H. unfold trimEnd. rewrite trimStart_fixed.
  - apply reverse_involutive.
  - intros c. rewrite head_reverse. apply H.
Qed.

Lemma trimEnd_head s c : head (trimEnd s) = Some c → head s = Some c.
Proof.
  destruct (trimEnd_decompose s) as [post [Hs _]]. intros Hc.
  rewrite Hs. destruct (trimEnd s); by simplify_eq/=.
Qed.

Lemma trimEnd_blank s : blank s = true → trimEnd s = [].
Proof.
  intros H. unfold trimEnd. rewrite trimStart_blank; [done|].
  by rewrite blank_reverse.
Qed.

(** ** [trim] *)

Lemma trim_head s c : head (trim s) = Some c → is_white_space c = false.
Proof. intros H%trimEnd_head. by eapply trimStart_head. Qed.

Lemma trim_last s c : last (trim s) = Some c → is_white_space c = false.
Proof. apply trimEnd_last. Qed.

Lemma trim_decompose s :
  ∃ pre post, s = pre ++ trim s ++ post
              ∧ blank pre = true ∧ blank post = true.
Proof.
  destruct (trimStart_decompose s) as [pre [Hs Hpre]].
  destruct (trimEnd_decompose (trimStart s)) as [post [Ht Hpost]].
  exists pre, post. split_and!; [|done..].
  unfold trim. by rewrite <- Ht.
Qed.

Lemma trim_fixed s :
  (∀ c, head s = Some c → is_white_space c = false) →
  (∀ c, last s = Some c → is_white_space c = false) →
  trim s = s.
Proof.
  intros Hh Hl. unfold trim. rewrite (trimStart_fixed s Hh).
  by apply trimEnd_fixed.
Qed.

(** Trimming twice is trimming once. *)
Lemma trim_idemp s : trim (trim s) = trim s.
Proof. apply trim_fixed; [apply trim_head | apply trim_last]. Qed.

Lemma trim_length s : (length (trim s) ≤ length s)%nat.
Proof.
  destruct (trim_decompose s) as (pre & post & Hs & _).
  rewrite Hs at 2. rewrite !length_app. lia.
Qed.

Lemma trim_blank s : trim s = [] ↔ blank s = true.
Proof.
  split.
  - intros Hnil. destruct (trim_decompose s) as (pre & post & Hs & Hp & Hq).
    rewrite Hs, Hnil. simpl. by rewrite blank_app, Hp, Hq.
  - intros H. unfold trim. rewrite trimStart_blank; [|done].
    by apply trimEnd_blank.
Qed.

Lemma truthy_trim s : truthy (trim s) = negb (blank s).
Proof.
  destruct (blank s) eqn:Hb.
  - apply trim_blank in Hb. by rewrite Hb.
  - destruct (trim s) eqn:Ht; [|done].
    apply trim_blank in Ht. congruence.
Qed.

(** ** The character classes *)

Ltac bool_to_prop :=
  rewrite ?orb_true_iff, ?andb_true_iff, ?N.leb_le, ?N.eqb_eq in *.

Lemma is_alnum_spec c :
  is_alnum c = true ↔ (97 ≤ c ≤ 122 ∨ 65 ≤ c ≤ 90 ∨ 48 ≤ c ≤ 57)%N.
Proof. unfold is_alnum. bool_to_prop. lia. Qed.

Lemma is_white_space_spec c :
  is_white_space c = true ↔
  (9 ≤ c ≤ 13 ∨ c = 32 ∨ c = 160 ∨ c = 0x1680 ∨ 0x2000 ≤ c ≤ 0x200A
   ∨ c = 0x2028 ∨ c = 0x2029 ∨ c = 0x202F ∨ c = 0x205F ∨ c = 0x3000
   ∨ c = 0xFEFF)%N.
Proof. unfold is_white_space. bool_to_prop. lia. Qed.

Lemma is_alnum_not_white_space c : is_alnum c = true → is_white_space c = false.
Proof.
  intros H%is_alnum_spec. apply not_true_is_false.
  intros Hw%is_white_space_spec. lia.
Qed.

Lemma test_alnum_spec s :
  test_alnum s = true ↔ s ≠ [] ∧ Forall (λ c, is_alnum c = true) s.
Proof.
  unfold test_alnum. rewrite andb_true_iff, forallb_forall, Forall_forall.
  setoid_rewrite list_elem_of_In. by destruct s; intuition.
Qed.

Lemma test_alnum_trim s : test_alnum s = true → trim s = s.
Proof.
  intros [_ Hall]%test_alnum_spec. rewrite Forall_forall in Hall.
  apply trim_fixed; intros c Hc; apply is_alnum_not_white_space, Hall.
  - by apply head_Some_elem_of.
  - by apply last_Some_elem_of.
Qed.

Lemma js_length_nonneg s : (0 ≤ js_length s)%Z.
Proof. unfold js_length. lia. Qed.

Lemma js_length_js s : js_length (js s) = Z.of_nat (String.length s).
Proof.
  unfold js_length, js. rewrite length_fmap. f_equal.
  induction s; simpl; congruence.
Qed.

(** ** Specifications *)

Lemma trimEnd_blank_app s post :
  blank post = true → trimEnd (s ++ post) = trimEnd s.
Proof.
  intros Hb. unfold trimEnd.
  by rewrite reverse_app, trimStart_blank_app by (by rewrite blank_reverse).
Qed.

Lemma trim_unique pre t post :
  blank pre = true → blank post = true →
  (∀ c, head t = Some c → is_white_space c = false) →
  (∀ c, last t = Some c → is_white_space c = false) →
  trim (pre ++ t ++ post) = t.
Proof.
  intros Hpre Hpost Hh Hl. unfold trim. rewrite trimStart_blank_app by done.
  destruct t as [|c t].
  - by rewrite trimStart_blank, trimEnd_blank.
  - rewrite <- app_comm_cons, trimStart_fixed by (intros ? [= <-]; by apply Hh).
    rewrite app_comm_cons, trimEnd_blank_app by done. by apply trimEnd_fixed.
Qed.

(** [trim] returns the one substring of its argument that is
    preceded and followed by white space only and neither starts nor ends
    with a white-space character (of the ECMAScript classes WhiteSpace and
    LineTerminator). *)
Theorem trim_spec s t :
  trim s = t ↔
  ∃ pre post, s = pre ++ t ++ post
              ∧ blank pre = true ∧ blank post = true
              ∧ (∀ c, head t = Some c → is_white_space c = false)
              ∧ (∀ c, last t = Some c → is_white_space c = false).
Proof.
  split.
  - intros <-. destruct (trim_decompose s) as (pre & post & Hs & Hpre & Hpost).
    exists pre, post. split_and!; [done..|apply trim_head|apply trim_last].
  - intros (pre & post & -> & Hpre & Hpost & Hh & Hl). by apply trim_unique.
Qed.

(** The test [/^[a-zA-Z0-9]+$/] accepts exactly the non-empty strings of
    ASCII letters and digits. *)
Theorem test_alnum_correct s :
  test_alnum s = true ↔
  s ≠ [] ∧ Forall (λ c, 97 ≤ c ≤ 122 ∨ 65 ≤ c ≤ 90 ∨ 48 ≤ c ≤ 57)%N s.
Proof.
  rewrite test_alnum_spec. apply and_iff_compat_l, Forall_iff. intros c.
  apply is_alnum_spec.
Qed.
