(* ===== verification/Uri.v ===== *)
(** * URI escapes: [encodeURIComponent] and [decodeURIComponent]

    The middleware of lines 40 and 43 and the router of Express hand to the
    handlers strings that a client sent percent-encoded: the fields of a
    form, the value of a cookie, the parameter [:id] of a path.  They decode
    them with [decodeURIComponent] of ECMAScript (19.2.6), and [res.cookie]
    (lines 248, 293) encodes the value it sets with [encodeURIComponent].

    - [utf8_encode], [utf8_decode]: the UTF-8 form of a code point, and the
      code point of a byte sequence that is the UTF-8 form of one (overlong
      forms, surrogates and values above U+10FFFF are refused).
    - [utf16_encode], [pair_value]: code points as code units of a string.
    - [percent_encode], [encodeURIComponent]: every code unit that is not
      kept (for [encodeURIComponent]: that is not unreserved) is replaced
      by the escapes of the UTF-8 form of its code point; [None] stands for
      the URIError raised on an unpaired surrogate.
    - [decodeURIComponent]: the inverse; [None] stands for the URIError
      raised on an escape that is malformed or not UTF-8.  It consumes
      three, six, nine or twelve code units at a time and is defined by
      well-founded recursion on the length of the string.

    The theorems: the two are inverse of each other on well-formed strings,
    the decoder accepts only the shortest form of a code point, a string
    without "%" decodes to itself and a string of unreserved characters
    encodes to itself. *)

From Equations Require Import Equations.
From S2P Require Import Spec2Rocq JsString.

Local Open Scope Z_scope.

(** ** Code points and code units *)

(** A byte, and a code unit of a string. *)
Definition byte (b : Z) : Prop := 0 ≤ b < 256.

Definition code_unit (c : N) : Prop := (c < 65536)%N.

Definition is_high_surrogate (c : N) : bool := ((0xD800 <=? c) && (c <? 0xDC00))%N.
Definition is_low_surrogate (c : N) : bool := ((0xDC00 <=? c) && (c <? 0xE000))%N.

(** A Unicode scalar value: a code point that is not a surrogate. *)
Definition scalar (cp : Z) : Prop := 0 ≤ cp < 0xD800 ∨ 0xE000 ≤ cp ≤ 0x10FFFF.

(** The code point of a surrogate pair. *)
Definition pair_value (hi lo : N) : Z :=
  (Z.of_N hi - 0xD800) * 0x400 + (Z.of_N lo - 0xDC00) + 0x10000.

(** [UTF16EncodeCodePoint] *)
Definition utf16_encode (cp : Z) : jsstring :=
  if decide (cp < 0x10000) then [Z.to_N cp]
  else [Z.to_N (0xD800 + (cp - 0x10000) / 0x400);
        Z.to_N (0xDC00 + (cp - 0x10000) mod 0x400)].

(** A string of code units in which every surrogate is paired. *)
Fixpoint well_formed (s : jsstring) : bool :=
  match s with
  | [] => true
  | c :: s' =>
      if is_high_surrogate c then
        match s' with
        | d :: s'' => is_low_surrogate d && well_formed s''
        | [] => false
        end
      else negb (is_low_surrogate c) && well_formed s'
  end.

(** ** UTF-8 *)

Definition utf8_encode (cp : Z) : list Z :=
  if decide (cp < 0x80) then [cp]
  else if decide (cp < 0x800) then [0xC0 + cp / 64; 0x80 + cp mod 64]
  else if decide (cp < 0x10000) then
    [0xE0 + cp / 4096; 0x80 + cp / 64 mod 64; 0x80 + cp mod 64]
  else
    [0xF0 + cp / 262144; 0x80 + cp / 4096 mod 64; 0x80 + cp / 64 mod 64;
     0x80 + cp mod 64].

(** The number of bytes that the first byte of a sequence announces: one
    more than the ones it starts with, and none for a byte that starts with
    one or with more than four ones. *)
Definition utf8_length (b : Z) : option nat :=
  if decide (b < 0x80) then Some 1%nat
  else if decide (b < 0xC0) then None
  else if decide (b < 0xE0) then Some 2%nat
  else if decide (b < 0xF0) then Some 3%nat
  else if decide (b < 0xF8) then Some 4%nat
  else None.

(** The six bits that a continuation byte [10xxxxxx] carries. *)
Definition continuation (b : Z) : option Z :=
  if decide (0x80 ≤ b < 0xC0) then Some (b - 0x80) else None.

(** The code point of a sequence of bytes that is the UTF-8 form of a
    Unicode scalar value. *)
Definition utf8_decode (bs : list Z) : option Z :=
  match bs with
  | [b] => if decide (0 ≤ b < 0x80) then Some b else None
  | [b1; b2] =>
      x2 ← continuation b2;
      let v := (b1 - 0xC0) * 64 + x2 in
      if decide (0xC0 ≤ b1 < 0xE0 ∧ 0x80 ≤ v) then Some v else None
  | [b1; b2; b3] =>
      x2 ← continuation b2; x3 ← continuation b3;
      let v := ((b1 - 0xE0) * 64 + x2) * 64 + x3 in
      if decide (0xE0 ≤ b1 < 0xF0 ∧ 0x800 ≤ v ∧ ¬ 0xD800 ≤ v < 0xE000)
      then Some v else None
  | [b1; b2; b3; b4] =>
      x2 ← continuation b2; x3 ← continuation b3; x4 ← continuation b4;
      let v := (((b1 - 0xF0) * 64 + x2) * 64 + x3) * 64 + x4 in
      if decide (0xF0 ≤ b1 < 0xF8 ∧ 0x10000 ≤ v ≤ 0x10FFFF)
      then Some v else None
  | _ => None
  end.

(** ** Escapes *)

(** A digit of an escape, in upper case, and the value of a digit in
    either case. *)
Definition hex_digit (d : Z) : N :=
  Z.to_N (if decide (d < 10) then 48 + d else 55 + d).

Definition hex_value (c : N) : option Z :=
  if ((48 <=? c) && (c <=? 57))%N then Some (Z.of_N c - 48)
  else if ((65 <=? c) && (c <=? 70))%N then Some (Z.of_N c - 55)
  else if ((97 <=? c) && (c <=? 102))%N then Some (Z.of_N c - 87)
  else None.

(** The escape [%XY] of a byte, and the escapes of a sequence of bytes. *)
Definition escape (b : Z) : jsstring :=
  [37%N; hex_digit (b / 16); hex_digit (b mod 16)].

Definition escapes (bs : list Z) : jsstring := bs ≫= escape.

(** The byte of the two digits that follow a "%". *)
Definition hex_pair (s : jsstring) : option Z :=
  match s with
  | h :: l :: _ => a ← hex_value h; b ← hex_value l; Some (16 * a + b)
  | _ => None
  end.

(** The bytes of the [n] escapes that [s] starts with. *)
Fixpoint take_escapes (n : nat) (s : jsstring) : option (list Z) :=
  match n with
  | O => Some []
  | S n' =>
      match s with
      | c :: s' =>
          if decide (c = 37%N) then
            b ← hex_pair s'; bs ← take_escapes n' (drop 2 s'); Some (b :: bs)
          else None
      | [] => None
      end
  end.

(** The scalar value that the escapes after a "%" write: two hexadecimal
    digits for the first byte, the escapes of the continuation bytes that
    the first byte announces, and the value they are the shortest UTF-8
    form of; [None] when a digit is missing or is not hexadecimal, when
    the byte cannot start a sequence, when a continuation is missing, and
    when the bytes are an overlong form, a surrogate or a value above
    0x10FFFF. *)
Definition escape_value (s : jsstring) : option Z :=
  b ← hex_pair s;
  n ← utf8_length b;
  bs ← take_escapes (n - 1) (drop 2 s);
  utf8_decode (b :: bs).

(** ** Encoding and decoding *)

(** The characters that [encodeURIComponent] leaves as they are: letters,
    digits and [- _ . ! ~ * ' ( )]. *)
Definition is_unreserved (c : N) : bool :=
  (is_alnum c || (c =? 45) || (c =? 95) || (c =? 46) || (c =? 33) || (c =? 126)
   || (c =? 42) || (c =? 39) || (c =? 40) || (c =? 41))%N.

(** [Encode] of ECMAScript, for the set [keep] of characters left as they
    are. *)
Fixpoint percent_encode (keep : N → bool) (s : jsstring) : option jsstring :=
  match s with
  | [] => Some []
  | c :: s' =>
      if keep c then (c ::.) <$> percent_encode keep s'
      else if is_high_surrogate c then
        match s' with
        | d :: s'' =>
            if is_low_surrogate d
            then (escapes (utf8_encode (pair_value c d)) ++.)
                   <$> percent_encode keep s''
            else None
        | [] => None
        end
      else if is_low_surrogate c then None
      else (escapes (utf8_encode (Z.of_N c)) ++.) <$> percent_encode keep s'
  end.

Definition encodeURIComponent (s : jsstring) : option jsstring :=
  percent_encode is_unreserved s.

Equations? decodeURIComponent (s : jsstring) : option jsstring
    by wf (length s) lt :=
decodeURIComponent [] := Some [];
decodeURIComponent (c :: s') :=
  if decide (c = 37%N) then
    b ← hex_pair s';
    n ← utf8_length b;
    bs ← take_escapes (n - 1) (drop 2 s');
    v ← utf8_decode (b :: bs);
    r ← decodeURIComponent (drop (2 + 3 * (n - 1)) s');
    Some (utf16_encode v ++ r)
  else (c ::.) <$> decodeURIComponent s'.
Proof. all: rewrite ?length_drop; simpl; lia. Qed.

(** The digits of the escapes. *)
Definition is_hex_upper (c : N) : bool :=
  ((48 <=? c) && (c <=? 57) || (65 <=? c) && (c <=? 70))%N.

(** The characters of a string encoded with [keep]: the kept ones, "%" and
    the digits of the escapes. *)
Definition is_encoded_char (keep : N → bool) (c : N) : bool :=
  (keep c || (c =? 37) || is_hex_upper c)%N.

(** A string without "%". *)
Definition plain (s : jsstring) : bool := forallb (λ c, negb (c =? 37)%N) s.

(** ** UTF-8 *)

Lemma utf8_encode_bytes cp : 0 ≤ cp ≤ 0x10FFFF → Forall byte (utf8_encode cp).
Proof.
  intros Hcp. unfold utf8_encode, byte.
  repeat case_decide; repeat constructor; lia_div.
Qed.

Lemma continuation_Some b x :
  continuation b = Some x ↔ 0x80 ≤ b < 0xC0 ∧ x = b - 0x80.
Proof.
  unfold continuation. case_decide; split; [intros [= <-]|intros [_ ->]|..];
    try done. by intros [].
Qed.

(** The continuation bytes of a sequence, as hypotheses on their ranges. *)
Ltac continuations :=
  repeat match goal with
    | |- continuation ?b ≫= _ = _ → _ =>
        let H := fresh "Hc" in
        destruct (continuation b) eqn:H; [|done];
        apply continuation_Some in H as [? ->]; cbn [mbind option_bind]
    end.

(** The decoder inverts the encoder on scalar values. *)
Lemma utf8_decode_encode cp : scalar cp → utf8_decode (utf8_encode cp) = Some cp.
Proof.
  intros Hcp. unfold utf8_encode, scalar in *.
  repeat case_decide; unfold utf8_decode, continuation;
    repeat (rewrite decide_True by lia_div; cbn [mbind option_bind]);
    f_equal; lia_div.
Qed.

(** The decoder accepts the shortest form of a scalar value and nothing
    else. *)
Lemma utf8_encode_decode bs cp :
  utf8_decode bs = Some cp → utf8_encode cp = bs ∧ scalar cp.
Proof.
  unfold utf8_decode. destruct bs as [|b1 [|b2 [|b3 [|b4 [|]]]]]; try done;
    continuations; (case_decide; [|done]); intros [= <-];
    unfold utf8_encode, scalar; (split; [|lia]);
    repeat (first [rewrite decide_True by lia | rewrite decide_False by lia]);
    repeat (f_equal; try lia_div).
Qed.

Lemma utf8_length_encode cp :
  0 ≤ cp ≤ 0x10FFFF →
  ∃ b bs, utf8_encode cp = b :: bs ∧ utf8_length b = Some (S (length bs)).
Proof.
  intros Hcp. unfold utf8_encode. repeat case_decide; eexists _, _;
    (split; [done|]); unfold utf8_length;
    repeat (first [rewrite decide_True by lia_div
                  | rewrite decide_False by lia_div]); done.
Qed.

(** The ranges of [utf8_length] and [continuation], read as the bit
    patterns [0xxxxxxx], [10xxxxxx], [110xxxxx], [1110xxxx] and
    [11110xxx]. *)
Lemma utf8_bit_patterns b :
  byte b →
  continuation b
  = (if Z.land b 0xC0 =? 0x80 then Some (Z.land b 0x3F) else None)
  ∧ utf8_length b
    = (if Z.land b 0x80 =? 0 then Some 1%nat
       else if Z.land b 0xE0 =? 0xC0 then Some 2%nat
       else if Z.land b 0xF0 =? 0xE0 then Some 3%nat
       else if Z.land b 0xF8 =? 0xF0 then Some 4%nat
       else None).
Proof.
  intros Hb.
  assert (Forall (λ b,
            continuation b
            = (if Z.land b 0xC0 =? 0x80 then Some (Z.land b 0x3F) else None)
            ∧ utf8_length b
              = (if Z.land b 0x80 =? 0 then Some 1%nat
                 else if Z.land b 0xE0 =? 0xC0 then Some 2%nat
                 else if Z.land b 0xF0 =? 0xE0 then Some 3%nat
                 else if Z.land b 0xF8 =? 0xF0 then Some 4%nat
                 else None)) (seqZ 0 256)) as Hall
    by evaluate.
  rewrite Forall_seqZ in Hall. apply Hall. unfold byte in Hb. lia.
Qed.

(** ** UTF-16 *)

Lemma surrogate_range hi lo :
  is_high_surrogate hi = true → is_low_surrogate lo = true →
  (0xD800 ≤ hi < 0xDC00)%N ∧ (0xDC00 ≤ lo < 0xE000)%N.
Proof.
  unfold is_high_surrogate, is_low_surrogate.
  rewrite !andb_true_iff, !N.leb_le, !N.ltb_lt. tauto.
Qed.

Lemma utf16_encode_unit c : code_unit c → utf16_encode (Z.of_N c) = [c].
Proof.
  unfold code_unit, utf16_encode. intros Hc.
  rewrite decide_True by lia. by rewrite N2Z.id.
Qed.

Lemma utf16_encode_pair hi lo :
  is_high_surrogate hi = true → is_low_surrogate lo = true →
  utf16_encode (pair_value hi lo) = [hi; lo].
Proof.
  intros Hhi Hlo. destruct (surrogate_range hi lo Hhi Hlo).
  unfold utf16_encode, pair_value. rewrite decide_False by lia.
  f_equal; [|f_equal]; apply N2Z.inj; rewrite Z2N.id; lia_div.
Qed.

Lemma scalar_pair hi lo :
  is_high_surrogate hi = true → is_low_surrogate lo = true →
  scalar (pair_value hi lo).
Proof.
  intros Hhi Hlo. destruct (surrogate_range hi lo Hhi Hlo).
  unfold scalar, pair_value. lia.
Qed.

Lemma scalar_unit c :
  code_unit c → is_high_surrogate c = false → is_low_surrogate c = false →
  scalar (Z.of_N c).
Proof.
  unfold code_unit, scalar, is_high_surrogate, is_low_surrogate.
  rewrite !andb_false_iff, !N.leb_gt, !N.ltb_ge. lia.
Qed.

Lemma scalar_range cp : scalar cp → 0 ≤ cp ≤ 0x10FFFF.
Proof. unfold scalar. lia. Qed.

(** ** Escapes *)

Lemma hex_value_digit d : 0 ≤ d < 16 → hex_value (hex_digit d) = Some d.
Proof.
  intros Hd.
  assert (Forall (λ d, hex_value (hex_digit d) = Some d) (seqZ 0 16))
    as Hall by evaluate.
  rewrite Forall_seqZ in Hall. apply Hall. lia.
Qed.

Lemma hex_digit_upper d : 0 ≤ d < 16 → is_hex_upper (hex_digit d) = true.
Proof.
  intros Hd.
  assert (Forall (λ d, is_hex_upper (hex_digit d) = true) (seqZ 0 16))
    as Hall by evaluate.
  rewrite Forall_seqZ in Hall. apply Hall. lia.
Qed.

Lemma hex_pair_escape b t :
  byte b → hex_pair (hex_digit (b / 16) :: hex_digit (b mod 16) :: t) = Some b.
Proof.
  intros Hb. unfold hex_pair, byte in *.
  rewrite !hex_value_digit by lia_div. simpl. f_equal. lia_div.
Qed.

Lemma escapes_cons b bs :
  escapes (b :: bs)
  = 37%N :: hex_digit (b / 16) :: hex_digit (b mod 16) :: escapes bs.
Proof. done. Qed.

Lemma length_escapes bs : length (escapes bs) = (3 * length bs)%nat.
Proof.
  induction bs as [|b bs IH]; [done|]. rewrite escapes_cons. simpl.
  rewrite IH. lia.
Qed.

Lemma take_escapes_app bs t :
  Forall byte bs → take_escapes (length bs) (escapes bs ++ t) = Some bs.
Proof.
  induction 1 as [|b bs Hb Hbs IH]; [done|].
  rewrite escapes_cons. cbn [length take_escapes app].
  rewrite decide_True by done. rewrite hex_pair_escape by done.
  cbn [drop mbind option_bind]. by rewrite drop_0, IH.
Qed.

Lemma drop_escapes bs t : drop (3 * length bs) (escapes bs ++ t) = t.
Proof. by rewrite <- length_escapes, drop_app_length. Qed.

Lemma escapes_chars keep bs :
  Forall byte bs → forallb (is_encoded_char keep) (escapes bs) = true.
Proof.
  induction 1 as [|b bs Hb Hbs IH]; [done|]. rewrite escapes_cons.
  unfold byte in Hb. cbn [forallb]. unfold is_encoded_char at 1 2 3.
  rewrite !hex_digit_upper by lia_div. by rewrite IH, !orb_true_r.
Qed.

(** ** Decoding, one step at a time *)

Lemma decode_nil : decodeURIComponent [] = Some [].
Proof. by simp decodeURIComponent. Qed.

Lemma decode_unescaped c s :
  c ≠ 37%N → decodeURIComponent (c :: s) = (c ::.) <$> decodeURIComponent s.
Proof. intros Hc. simp decodeURIComponent. by rewrite decide_False. Qed.

Lemma decode_escapes b bs t :
  byte b → Forall byte bs → utf8_length b = Some (S (length bs)) →
  decodeURIComponent (escapes (b :: bs) ++ t)
  = v ← utf8_decode (b :: bs); r ← decodeURIComponent t;
    Some (utf16_encode v ++ r).
Proof.
  intros Hb Hbs Hn. rewrite escapes_cons. cbn [app].
  simp decodeURIComponent.
  rewrite decide_True by done. rewrite hex_pair_escape by done.
  cbn [mbind option_bind]. rewrite Hn. cbn [mbind option_bind].
  replace (S (length bs) - 1)%nat with (length bs) by lia.
  cbn [drop]. rewrite drop_0, take_escapes_app by done.
  cbn [mbind option_bind]. cbn [Nat.add drop]. by rewrite drop_escapes.
Qed.

Lemma decode_code_point cp t :
  scalar cp →
  decodeURIComponent (escapes (utf8_encode cp) ++ t)
  = (utf16_encode cp ++.) <$> decodeURIComponent t.
Proof.
  intros Hcp. pose proof (scalar_range cp Hcp) as Hr.
  destruct (utf8_length_encode cp Hr) as (b & bs & Heq & Hn).
  pose proof (utf8_encode_bytes cp Hr) as Hbs.
  pose proof (utf8_decode_encode cp Hcp) as Hdec. rewrite Heq in *.
  apply Forall_cons in Hbs as [Hb Hbs].
  rewrite decode_escapes, Hdec by done. simpl.
  by destruct (decodeURIComponent t).
Qed.

(** A string without "%" decodes to itself. *)
Lemma decode_plain s : plain s = true → decodeURIComponent s = Some s.
Proof.
  induction s as [|c s IH]; [done|]. simpl. intros [Hc Hs]%andb_prop.
  rewrite decode_unescaped by (by intros ->). by rewrite IH.
Qed.

(** A text whose first escape does not write a scalar value has no
    decoding: [decodeURIComponent] raises URIError. *)
Lemma decode_bad_escape pre rest :
  plain pre = true → escape_value rest = None →
  decodeURIComponent (pre ++ 37%N :: rest) = None.
Proof.
  intros Hpre Hbad. induction pre as [|c pre IH]; simpl in *.
  - simp decodeURIComponent. rewrite decide_True by done.
    unfold escape_value in Hbad.
    destruct (hex_pair rest) as [b|]; [|done]. cbn [mbind option_bind] in *.
    destruct (utf8_length b) as [n|]; [|done]. cbn [mbind option_bind] in *.
    destruct (take_escapes _ _) as [bs|]; [|done]. cbn [mbind option_bind] in *.
    by rewrite Hbad.
  - apply andb_prop in Hpre as [Hc Hpre].
    rewrite decode_unescaped by (by intros ->). by rewrite IH.
Qed.

(** Only the empty string decodes to the empty string. *)
Lemma decode_nonempty s : decodeURIComponent s = Some [] → s = [].
Proof.
  destruct s as [|c s]; [done|]. simp decodeURIComponent.
  case_decide; [|by destruct (decodeURIComponent s)].
  destruct (hex_pair s) as [b|]; [|done]. cbn [mbind option_bind].
  destruct (utf8_length b) as [n|]; [|done]. cbn [mbind option_bind].
  destruct (take_escapes _ _) as [bs|]; [|done]. cbn [mbind option_bind].
  destruct (utf8_decode (b :: bs)) as [v|]; [|done]. cbn [mbind option_bind].
  destruct (decodeURIComponent (drop _ s)); [|done]. cbn [mbind option_bind].
  unfold utf16_encode. by case_decide.
Qed.

(** ** Encoding *)

Section percent_encode.
Variable keep : N → bool.

(** The three ways in which [percent_encode] extends its result: a kept
    character, a surrogate pair, another code unit. *)
Lemma percent_encode_ind (P : jsstring → jsstring → Prop) :
  P [] [] →
  (∀ c s t, keep c = true → percent_encode keep s = Some t → P s t →
            P (c :: s) (c :: t)) →
  (∀ c d s t, keep c = false →
     is_high_surrogate c = true → is_low_surrogate d = true →
     percent_encode keep s = Some t → P s t →
     P (c :: d :: s) (escapes (utf8_encode (pair_value c d)) ++ t)) →
  (∀ c s t, keep c = false →
     is_high_surrogate c = false → is_low_surrogate c = false →
     percent_encode keep s = Some t → P s t →
     P (c :: s) (escapes (utf8_encode (Z.of_N c)) ++ t)) →
  ∀ s t, percent_encode keep s = Some t → P s t.
Proof.
  intros Hnil Hkeep Hpair Hunit s.
  induction s as [s IH] using (induction_ltof1 _ length). unfold ltof in IH.
  intros t. destruct s as [|c s]; [by intros [= <-]|]. simpl.
  destruct (keep c) eqn:Hk.
  { destruct (percent_encode keep s) as [t'|] eqn:Ht'; intros [= <-].
    apply Hkeep; [done..|]. apply IH; [simpl; lia|done]. }
  destruct (is_high_surrogate c) eqn:Hhi.
  { destruct s as [|d s]; [done|]. destruct (is_low_surrogate d) eqn:Hlo; [|done].
    destruct (percent_encode keep s) as [t'|] eqn:Ht'; intros [= <-].
    apply Hpair; [done..|]. apply IH; [simpl; lia|done]. }
  destruct (is_low_surrogate c) eqn:Hlo; [done|].
  destruct (percent_encode keep s) as [t'|] eqn:Ht'; intros [= <-].
  apply Hunit; [done..|]. apply IH; [simpl; lia|done].
Qed.

(** The characters of an encoded string. *)
Lemma percent_encode_chars s t :
  Forall code_unit s → percent_encode keep s = Some t →
  forallb (is_encoded_char keep) t = true.
Proof.
  intros Hs Ht. revert s t Ht Hs.
  apply (percent_encode_ind
           (λ s t, Forall code_unit s → forallb _ t = true)).
  - done.
  - intros c s t Hk _ IH [_ ?]%Forall_cons. simpl.
    unfold is_encoded_char at 1. by rewrite Hk, IH.
  - intros c d s t _ Hhi Hlo _ IH [_ [_ ?]%Forall_cons]%Forall_cons.
    rewrite forallb_app, escapes_chars, IH; [done..|].
    by apply utf8_encode_bytes, scalar_range, scalar_pair.
  - intros c s t _ _ _ _ IH [Hc ?]%Forall_cons.
    rewrite forallb_app, escapes_chars, IH; [done..|].
    apply utf8_encode_bytes. unfold code_unit in Hc. lia.
Qed.

(** A string of kept characters encodes to itself. *)
Lemma percent_encode_kept s :
  forallb keep s = true → percent_encode keep s = Some s.
Proof.
  induction s as [|c s IH]; [done|]. simpl. intros [-> Hs]%andb_prop.
  by rewrite IH.
Qed.

Hypothesis keep_not_percent : keep 37%N = false.

(** Decoding inverts encoding. *)
Lemma decode_percent_encode s t :
  Forall code_unit s → percent_encode keep s = Some t →
  decodeURIComponent t = Some s.
Proof.
  intros Hs Ht. revert s t Ht Hs.
  apply (percent_encode_ind
           (λ s t, Forall code_unit s → decodeURIComponent t = Some s)).
  - done.
  - intros c s t Hk _ IH [_ ?]%Forall_cons.
    rewrite decode_unescaped by (intros ->; congruence). by rewrite IH.
  - intros c d s t _ Hhi Hlo _ IH [_ [_ ?]%Forall_cons]%Forall_cons.
    rewrite decode_code_point by (by apply scalar_pair).
    rewrite IH by done. simpl. by rewrite utf16_encode_pair.
  - intros c s t _ Hhi Hlo _ IH [Hc ?]%Forall_cons.
    rewrite decode_code_point by (by apply scalar_unit).
    rewrite IH by done. simpl. by rewrite utf16_encode_unit.
Qed.

Hypothesis keep_not_surrogate :
  ∀ c, keep c = true → is_high_surrogate c = false ∧ is_low_surrogate c = false.

(** Encoding raises exactly on the strings with an unpaired surrogate. *)
Lemma percent_encode_defined s :
  is_Some (percent_encode keep s) ↔ well_formed s = true.
Proof.
  induction s as [s IH] using (induction_ltof1 _ length). unfold ltof in IH.
  destruct s as [|c s]; [by split; [|eauto]|]. simpl.
  destruct (keep c) eqn:Hk.
  { destruct (keep_not_surrogate c Hk) as [-> ->].
    rewrite fmap_is_Some. simpl. apply IH. simpl. lia. }
  destruct (is_high_surrogate c).
  { destruct s as [|d s]; [by split; [intros []|]|].
    destruct (is_low_surrogate d); [|by split; [intros []|]].
    rewrite fmap_is_Some. simpl. apply IH. simpl. lia. }
  destruct (is_low_surrogate c); [by split; [intros []|]|].
  rewrite fmap_is_Some. simpl. apply IH. simpl. lia.
Qed.

End percent_encode.

(** ** The theorems *)

Lemma is_unreserved_ascii c : is_unreserved c = true → (c < 128)%N.
Proof.
  unfold is_unreserved, is_alnum.
  rewrite !orb_true_iff, !andb_true_iff, !N.leb_le, !N.eqb_eq. lia.
Qed.

Lemma is_unreserved_not_surrogate c :
  is_unreserved c = true →
  is_high_surrogate c = false ∧ is_low_surrogate c = false.
Proof.
  intros Hc%is_unreserved_ascii. unfold is_high_surrogate, is_low_surrogate.
  rewrite !andb_false_iff, !N.leb_gt. lia.
Qed.

(** [decodeURIComponent] inverts [encodeURIComponent]: when the
    encoding of a string of code units is defined, it is made of unreserved
    characters, "%" and upper-case hexadecimal digits only, and it decodes
    to the string. *)
Theorem decode_encode s t :
  Forall code_unit s → encodeURIComponent s = Some t →
  decodeURIComponent t = Some s
  ∧ forallb (is_encoded_char is_unreserved) t = true.
Proof.
  intros Hs Ht. split.
  - by apply (decode_percent_encode is_unreserved).
  - by apply (percent_encode_chars is_unreserved s).
Qed.

(** [encodeURIComponent] raises URIError exactly on the strings in
    which a surrogate is not paired. *)
Theorem encodeURIComponent_defined s :
  is_Some (encodeURIComponent s) ↔ well_formed s = true.
Proof.
  apply percent_encode_defined. apply is_unreserved_not_surrogate.
Qed.

(** The decoder of UTF-8 accepts a sequence of bytes only if it is the
    form that the encoder gives to a Unicode scalar value: overlong forms,
    surrogates and values above U+10FFFF are refused. *)
Theorem utf8_canonical bs cp :
  utf8_decode bs = Some cp ↔ scalar cp ∧ utf8_encode cp = bs.
Proof.
  split.
  - by intros [? ?]%utf8_encode_decode.
  - intros [Hcp <-]. by apply utf8_decode_encode.
Qed.

(** ** The theorems on examples *)

Lemma decode_encode_witness :
  decodeURIComponent (js "a%20b%26c%3D%E2%82%AC%F0%9F%98%80")
  = Some (js "a b&c=" ++ [0x20AC; 0xD83D; 0xDE00]%N)
  ∧ forallb (is_encoded_char is_unreserved)
            (js "a%20b%26c%3D%E2%82%AC%F0%9F%98%80") = true.
Proof.
  apply (decode_encode (js "a b&c=" ++ [0x20AC; 0xD83D; 0xDE00]%N));
    [|by vm_compute].
  evaluate.
Defined.

(** What follows a "%" and writes no scalar value: a digit that is not
    hexadecimal, a digit that is missing, a continuation byte on its own,
    a byte above 0xF7, a truncated sequence, an overlong form of "/", a
    surrogate; and two escapes that do. *)
Example escape_value_examples :
  escape_value <$> [js "4G"; js "4"; js "80"; js "FF"; js "E2%82";
                    js "C0%AF"; js "ED%A0%80"; js "41"; js "e2%82%ac"]
  = [None; None; None; None; None; None; None; Some 0x41; Some 0x20AC].
Proof. by vm_compute. Qed.

(** Escapes that are not UTF-8: an overlong form of "/", a surrogate, a
    truncated sequence, a continuation byte on its own, a digit that is not
    hexadecimal. *)
Example decodeURIComponent_refuses :
  decodeURIComponent <$> [js "%C0%AF"; js "%ED%A0%80"; js "%E2%82"; js "%80";
                          js "%4G"; js "%"]
  = [None; None; None; None; None; None].
Proof. by vm_compute. Qed.
