(* ===== verification/Platform.v ===== *)
(** * The libraries behind the server

    server.js calls four libraries whose code is not part of the repository:
    better-sqlite3 (lines 7-35 and every [db.prepare]), bcrypt (lines 230-231
    and 274), jsonwebtoken (lines 50-53, 239-246, 284-291) and the clock
    ([Date], lines 110, 241, 286).  This file fixes the values exchanged
    with them and states, as one [Class] each, what the server relies on.

    - [value]: what a column holds and what a JavaScript expression of the
      handlers evaluates to: [undefined], [null], an integral number, a
      non-integral number (kept by its IEEE-754 bits) or a string.
    - [Sqlite]: the coercion SQLite applies to a text stored in, or compared
      with, a column of NUMERIC affinity.  The columns [username],
      [password], [title] and [body] are declared [STRING] (lines 16-17,
      27-28), a type name that SQLite gives NUMERIC affinity; [id] and
      [authorid] are INTEGER, where the same coercion applies to a text
      operand of a comparison.  Among its laws: a text of at most 18
      digits is stored as the integer it denotes ([digits_value]).
      The class also holds [order_by], the order in which a SELECT with
      ORDER BY returns its rows: the same rows, sorted, with the order of
      rows that compare equal left to the engine.
    - [Bcrypt]: [hashSync] and [compareSync].
    - [Jwt]: the codec of tokens, from which [jwt_token] (the token that
      [jwt.sign] returns), [jwt_sign] (which raises when the secret is
      unset or empty) and [jwt_verify] (with the expiry check of
      jsonwebtoken) are defined.  A token is
      written in the characters of base64url and the point
      ([is_token_char]), and nothing else decodes.
    - [Clock]: [toISOString] and the order of its results; [Calendar]
      implements it.

    The instances of [Sqlite], [Bcrypt] and [Jwt] at the end of the file
    are small executable stand-ins used to run the scenarios; no theorem of
    the development depends on them except the examples that name them. *)

From stdpp Require Import sorting.
From S2P Require Import Spec2Rocq JsString.

Local Open Scope Z_scope.

(** ** Values *)

Inductive value : Type :=
| VUndefined
| VNull
| VNum (n : Z)
| VReal (bits : Z)
| VStr (s : jsstring).

#[export] Instance value_eq_dec : EqDecision value.
Proof. solve_decision. Defined.

(** [a === b] and [a !== b] on these values. *)
Definition strict_eq (a b : value) : bool := bool_decide (a = b).
Definition strict_neq (a b : value) : bool := negb (strict_eq a b).

(** The truth value of an expression in a condition. *)
Definition truthy_value (v : value) : bool :=
  match v with
  | VUndefined | VNull => false
  | VNum n => negb (n =? 0)
  | VReal _ => true
  | VStr s => truthy s
  end.

(** The exceptions a handler can raise. *)
Inductive exn : Type :=
| TypeError
| ReferenceError
| ERR_HTTP_HEADERS_SENT
| SqliteError
| BcryptError
| JsonWebTokenError
| TokenExpiredError
| SecretOrPrivateKeyError.

#[export] Instance exn_eq_dec : EqDecision exn.
Proof. solve_decision. Defined.

(** ** SQLite: NUMERIC affinity *)

(** The characters with which a numeric literal can start, for SQLite's
    text-to-number conversion: a digit, a sign, a point, or one of the six
    ASCII spaces it skips. *)
Definition can_start_number (c : N) : bool :=
  ((48 <=? c) && (c <=? 57) || (c =? 43) || (c =? 45) || (c =? 46)
   || (9 <=? c) && (c <=? 13) || (c =? 32))%N.

(** The integer that a text of decimal digits denotes. *)
Definition is_digit (c : N) : bool := ((48 <=? c) && (c <=? 57))%N.

Definition digits_value (s : jsstring) : Z :=
  foldl (λ acc c, 10 * acc + (Z.of_N c - 48)) 0 s.

Class Sqlite : Type := {
  (** the value stored when the text [s] is bound to a NUMERIC column *)
  numeric_affinity : jsstring → value;
  (** a text that is not a number is stored as it is *)
  numeric_affinity_text s t : numeric_affinity s = VStr t → t = s;
  (** the result is a number or a text *)
  numeric_affinity_stored s :
    numeric_affinity s ≠ VUndefined ∧ numeric_affinity s ≠ VNull;
  (** a text that does not start like a number is not one *)
  numeric_affinity_start c s :
    can_start_number c = false → numeric_affinity (c :: s) = VStr (c :: s);
  (** a text of one to eighteen decimal digits is an integer literal that
      fits 64 bits: it is stored as that integer *)
  numeric_affinity_digits s :
    truthy s = true → forallb is_digit s = true → (length s ≤ 18)%nat →
    numeric_affinity s = VNum (digits_value s);
  (** the rows of a SELECT as [ORDER BY] returns them, for the order [R]
      of its terms: the same rows, sorted; the order of two rows that [R]
      does not tell apart is the choice of the engine *)
  order_by {A} (R : relation A) `{!∀ x y, Decision (R x y)} : list A → list A;
  order_by_perm {A} (R : relation A) `{!∀ x y, Decision (R x y)} l :
    order_by R l ≡ₚ l;
  order_by_sorted {A} (R : relation A) `{!∀ x y, Decision (R x y)}
      `{!Total R, !Transitive R} l :
    StronglySorted R (order_by R l);
}.

(** ** bcrypt *)

Class Bcrypt : Type := {
  (** [bcrypt.hashSync(data, salt)] *)
  hashSync : jsstring → jsstring → jsstring;
  (** [bcrypt.compareSync(data, hash)] on two strings *)
  compareSync : jsstring → jsstring → bool;
  compareSync_hashSync data salt : compareSync data (hashSync data salt) = true;
  (** a hash starts with ["$"] *)
  hashSync_head data salt : head (hashSync data salt) = Some 36%N;
}.

(** ** jsonwebtoken *)

(** The payload of a session token: the three claims the server signs and
    the [iat] claim that [jwt.sign] adds. *)
Record claims : Type := Claims {
  exp : Z;
  userId : Z;
  username : value;
  iat : Z;
}.

#[export] Instance claims_eq_dec : EqDecision claims.
Proof. solve_decision. Defined.

(** The characters of a token: those of base64url and the point that
    separates the header, the payload and the signature. *)
Definition is_token_char (c : N) : bool :=
  (is_alnum c || (c =? 45) || (c =? 95) || (c =? 46))%N.

Class Jwt : Type := {
  (** the token that carries the claims [c], signed with [secret] *)
  jwt_encode : claims → jsstring → jsstring;
  (** the claims of a token whose signature [secret] verifies *)
  jwt_decode : jsstring → jsstring → option claims;
  jwt_decode_encode c secret : jwt_decode (jwt_encode c secret) secret = Some c;
  jwt_encode_truthy c secret : truthy (jwt_encode c secret) = true;
  (** the empty string is not a token *)
  jwt_decode_nil secret : jwt_decode [] secret = None;
  (** a token is written in the characters of tokens, and nothing else
      decodes *)
  jwt_encode_chars c secret : forallb is_token_char (jwt_encode c secret) = true;
  jwt_decode_chars token secret c :
    jwt_decode token secret = Some c → forallb is_token_char token = true;
}.

Section jwt.
Context `{!Jwt}.

(** The token that [jwt.sign({exp, userId, username}, secret)] returns at
    the time [now] (in seconds): the library adds [iat]. *)
Definition jwt_token (e : Z) (uid : Z) (name : value) (secret : jsstring)
    (now : Z) : jsstring :=
  jwt_encode {| exp := e; userId := uid; username := name; iat := now |} secret.

(** [jwt.sign(payload, secret)]: the library raises an [Error]
    ("secretOrPrivateKey must have a value") when the secret is
    [undefined] or empty, before it signs. *)
Definition jwt_sign (e : Z) (uid : Z) (name : value) (secret : jsstring)
    (now : Z) : result exn jsstring :=
  if truthy secret then Ok (jwt_token e uid name secret now)
  else Throw SecretOrPrivateKeyError.

(** [jwt.verify(token, secret)] at the time [now] (in seconds): a token
    that does not decode raises [JsonWebTokenError]; one whose [exp] is
    reached raises [TokenExpiredError]. *)
Definition jwt_verify (token secret : jsstring) (now : Z) : result exn claims :=
  match jwt_decode token secret with
  | None => Throw JsonWebTokenError
  | Some c => if exp c <=? now then Throw TokenExpiredError else Ok c
  end.

End jwt.

(** ** The clock *)

(** The order of two strings compared code unit by code unit, as SQLite's
    BINARY collation orders ASCII texts. *)
Fixpoint text_leb (s t : jsstring) : bool :=
  match s, t with
  | [], _ => true
  | _ :: _, [] => false
  | c :: s', d :: t' => (c <? d)%N || (c =? d)%N && text_leb s' t'
  end.

(** The last millisecond of the year 9999: up to it [toISOString] has its
    24-character form. *)
Definition iso_max : Z := 253402300799999.

Class Clock : Type := {
  (** [new Date(ms).toISOString()] *)
  toISOString : Z → jsstring;
  toISOString_mono a b :
    0 ≤ a → a ≤ b → b ≤ iso_max →
    text_leb (toISOString a) (toISOString b) = true;
  toISOString_inj a b :
    0 ≤ a ≤ iso_max → 0 ≤ b ≤ iso_max →
    toISOString a = toISOString b → a = b;
}.

(** ** Stand-ins *)

(** A text made of at most 18 decimal digits is stored as the integer it
    denotes; every other text is kept.  (SQLite also converts signed,
    fractional and exponent literals.) *)
Definition decimal_affinity (s : jsstring) : value :=
  if truthy s && forallb is_digit s && bool_decide (length s ≤ 18)%nat
  then VNum (digits_value s)
  else VStr s.

(** A hash that keeps the salt and the data in clear. *)
Definition clear_hash (data salt : jsstring) : jsstring :=
  36%N :: salt ++ 36%N :: data.

Definition clear_compare (data hash : jsstring) : bool :=
  bool_decide (36%N :: data `suffix_of` hash).

(** A positive number in binary, least significant digit first, and back. *)
Fixpoint pos_bits (p : positive) : jsstring :=
  match p with
  | xH => []
  | xO q => 48%N :: pos_bits q
  | xI q => 49%N :: pos_bits q
  end.

Fixpoint bits_pos (s : jsstring) : option positive :=
  match s with
  | [] => Some xH
  | c :: s' =>
      if (c =? 48)%N then xO <$> bits_pos s'
      else if (c =? 49)%N then xI <$> bits_pos s'
      else None
  end.

(** A token that is the secret, the four claims and nothing else, written
    in binary after the letter e. *)
Definition value_code (v : value) : jsstring + (Z + Z) + bool :=
  match v with
  | VUndefined => inr false
  | VNull => inr true
  | VNum n => inl (inr (inl n))
  | VReal b => inl (inr (inr b))
  | VStr s => inl (inl s)
  end.

Definition value_decode (x : jsstring + (Z + Z) + bool) : value :=
  match x with
  | inr false => VUndefined
  | inr true => VNull
  | inl (inr (inl n)) => VNum n
  | inl (inr (inr b)) => VReal b
  | inl (inl s) => VStr s
  end.

#[export] Instance value_countable : Countable value.
Proof. apply (inj_countable' value_code value_decode). by intros []. Defined.

Definition plain_encode (c : claims) (secret : jsstring) : jsstring :=
  101%N :: pos_bits (encode (secret, (exp c, userId c, username c, iat c))).

Definition plain_decode (token secret : jsstring) : option claims :=
  match token with
  | 101%N :: bits =>
      match bits_pos bits ≫= decode with
      | Some (k, (e, u, n, i)) =>
          if bool_decide (k = secret)
          then Some {| exp := e; userId := u; username := n; iat := i |}
          else None
      | None => None
      end
  | _ => None
  end.

(** The last [width] decimal digits of [n], most significant first. *)
Fixpoint digits_of (width : nat) (n : Z) : jsstring :=
  match width with
  | O => []
  | S w => digits_of w (n / 10) ++ [Z.to_N (48 + n mod 10)]
  end.

(** ** Facts on values and tokens *)

Lemma strict_eq_true a b : strict_eq a b = true ↔ a = b.
Proof. unfold strict_eq. apply bool_decide_eq_true. Qed.

Lemma strict_neq_true a b : strict_neq a b = true ↔ a ≠ b.
Proof.
  unfold strict_neq, strict_eq. rewrite negb_true_iff. apply bool_decide_eq_false.
Qed.

Lemma strict_neq_undefined_stored (v : value) :
  v ≠ VUndefined → strict_neq v VUndefined = true.
Proof. by rewrite strict_neq_true. Qed.

Lemma text_leb_refl s : text_leb s s = true.
Proof. induction s as [|c s IH]; [done|]. simpl. by rewrite N.eqb_refl, IH, orb_true_r. Qed.

Lemma text_leb_total s t : text_leb s t = true ∨ text_leb t s = true.
Proof.
  revert t. induction s as [|c s IH]; intros [|d t]; simpl; auto.
  destruct (N.ltb_spec c d), (N.ltb_spec d c), (N.eqb_spec c d), (N.eqb_spec d c);
    simpl; auto; lia.
Qed.

Lemma text_leb_trans s t u :
  text_leb s t = true → text_leb t u = true → text_leb s u = true.
Proof.
  revert t u. induction s as [|c s IH]; intros [|d t] [|e u]; simpl; try done.
  destruct (N.ltb_spec c d), (N.ltb_spec d e), (N.ltb_spec c e),
    (N.eqb_spec c d), (N.eqb_spec d e), (N.eqb_spec c e); simpl; try done; try lia.
  apply IH.
Qed.

Lemma text_leb_antisym s t :
  text_leb s t = true → text_leb t s = true → s = t.
Proof.
  revert t. induction s as [|c s IH]; intros [|d t]; simpl; try done.
  destruct (N.ltb_spec c d), (N.ltb_spec d c), (N.eqb_spec c d), (N.eqb_spec d c);
    simpl; try done; try lia.
  intros. f_equal; auto.
Qed.

Section jwt_facts.
Context `{!Jwt}.

Lemma jwt_verify_sign e uid name secret now now' :
  now' < e →
  jwt_verify (jwt_token e uid name secret now) secret now'
  = Ok {| exp := e; userId := uid; username := name; iat := now |}.
Proof.
  intros Hlt. unfold jwt_verify, jwt_token. rewrite jwt_decode_encode. simpl.
  by rewrite (proj2 (Z.leb_gt e now')).
Qed.

Lemma jwt_verify_expired e uid name secret now now' :
  e ≤ now' →
  jwt_verify (jwt_token e uid name secret now) secret now' = Throw TokenExpiredError.
Proof.
  intros Hle. unfold jwt_verify, jwt_token. rewrite jwt_decode_encode. simpl.
  by rewrite (proj2 (Z.leb_le e now')).
Qed.

(** A token the server signed verifies to the claims it was signed
    with (and the time of signing) strictly before its expiry, and raises
    [TokenExpiredError] from the expiry on. *)
Theorem jwt_sign_verify e uid name secret now now' :
  jwt_verify (jwt_token e uid name secret now) secret now'
  = if bool_decide (now' < e)
    then Ok {| exp := e; userId := uid; username := name; iat := now |}
    else Throw TokenExpiredError.
Proof.
  case_bool_decide; [by apply jwt_verify_sign|apply jwt_verify_expired; lia].
Qed.

Lemma jwt_verify_Ok token secret now c :
  jwt_verify token secret now = Ok c ↔
  jwt_decode token secret = Some c ∧ now < exp c.
Proof.
  unfold jwt_verify. destruct (jwt_decode token secret) as [c'|]; [|by split; [|intros []]].
  destruct (Z.leb_spec (exp c') now); split; try done.
  - intros [[= ->] ?]. lia.
  - by intros [= ->].
  - by intros [[= ->] _].
Qed.

End jwt_facts.

(** A bcrypt hash stored in a [STRING] column is stored as the text it is. *)
Lemma numeric_affinity_hash `{!Sqlite, !Bcrypt} data salt :
  numeric_affinity (hashSync data salt) = VStr (hashSync data salt).
Proof.
  pose proof (hashSync_head data salt) as Hh.
  destruct (hashSync data salt) as [|c h]; simplify_eq/=.
  by apply numeric_affinity_start.
Qed.

(** ** The stand-ins implement the interfaces *)

Lemma decimal_affinity_text s t : decimal_affinity s = VStr t → t = s.
Proof. unfold decimal_affinity. case_match; congruence. Qed.

Lemma decimal_affinity_start c s :
  can_start_number c = false → decimal_affinity (c :: s) = VStr (c :: s).
Proof.
  intros Hc. unfold decimal_affinity. simpl.
  assert (is_digit c = false) as ->; [|done].
  unfold can_start_number, is_digit in *.
  destruct ((48 <=? c)%N && (c <=? 57)%N); [done..].
Qed.

Lemma decimal_affinity_stored s :
  decimal_affinity s ≠ VUndefined ∧ decimal_affinity s ≠ VNull.
Proof. unfold decimal_affinity. by case_match. Qed.

Lemma decimal_affinity_digits s :
  truthy s = true → forallb is_digit s = true → (length s ≤ 18)%nat →
  decimal_affinity s = VNum (digits_value s).
Proof.
  intros Hs Hd Hlen. unfold decimal_affinity.
  by rewrite Hs, Hd, bool_decide_true.
Qed.

#[export] Instance decimal_sqlite : Sqlite := {|
  numeric_affinity := decimal_affinity;
  numeric_affinity_text := decimal_affinity_text;
  numeric_affinity_stored := decimal_affinity_stored;
  numeric_affinity_start := decimal_affinity_start;
  numeric_affinity_digits := decimal_affinity_digits;
  order_by := @merge_sort;
  order_by_perm := @merge_sort_Permutation;
  order_by_sorted A R _ _ _ := StronglySorted_merge_sort R;
|}.

Lemma clear_compare_hash data salt : clear_compare data (clear_hash data salt) = true.
Proof.
  unfold clear_compare, clear_hash. apply bool_decide_eq_true.
  by exists (36%N :: salt).
Qed.

#[export] Instance clear_bcrypt : Bcrypt := {|
  hashSync := clear_hash;
  compareSync := clear_compare;
  compareSync_hashSync := clear_compare_hash;
  hashSync_head := λ _ _, eq_refl;
|}.

Lemma bits_pos_bits p : bits_pos (pos_bits p) = Some p.
Proof. induction p as [p IH|p IH|]; simpl; by rewrite ?IH. Qed.

Lemma pos_bits_chars p : forallb is_token_char (pos_bits p) = true.
Proof. induction p; simpl; by rewrite ?IHp. Qed.

Lemma bits_pos_chars s p : bits_pos s = Some p → forallb is_token_char s = true.
Proof.
  revert p. induction s as [|c s IH]; intros p; [done|]. simpl.
  destruct (N.eqb_spec c 48) as [->|]; [|destruct (N.eqb_spec c 49) as [->|]];
    [| |done]; destruct (bits_pos s) eqn:Hs; simpl; try done; eauto.
Qed.

Lemma plain_decode_encode c secret : plain_decode (plain_encode c secret) secret = Some c.
Proof.
  unfold plain_decode, plain_encode. rewrite bits_pos_bits. simpl.
  rewrite decode_encode.
  rewrite bool_decide_true by done. by destruct c.
Qed.

Lemma plain_encode_chars c secret :
  forallb is_token_char (plain_encode c secret) = true.
Proof. apply pos_bits_chars. Qed.

Lemma plain_decode_chars token secret c :
  plain_decode token secret = Some c → forallb is_token_char token = true.
Proof.
  destruct token as [|h bits]; [done|]. unfold plain_decode.
  destruct (N.eqb_spec h 101) as [->|]; [|by repeat case_match].
  destruct (bits_pos bits) as [p|] eqn:Hbits; [|done].
  intros _. simpl. by eapply bits_pos_chars.
Qed.

#[export] Instance plain_jwt : Jwt := {|
  jwt_encode := plain_encode;
  jwt_decode := plain_decode;
  jwt_decode_encode := plain_decode_encode;
  jwt_encode_truthy := λ _ _, eq_refl;
  jwt_decode_nil := λ _, eq_refl;
  jwt_encode_chars := plain_encode_chars;
  jwt_decode_chars := plain_decode_chars;
|}.

Lemma text_leb_app s t u v :
  length s = length t →
  text_leb (s ++ u) (t ++ v) = if decide (s = t) then text_leb u v else text_leb s t.
Proof.
  revert t. induction s as [|c s IH]; intros [|d t] Hlen; simplify_eq/=; [done|].
  rewrite (IH t) by done.
  destruct (N.ltb_spec c d), (N.eqb_spec c d); try lia; simpl;
    repeat case_decide; simplify_eq; try done; lia.
Qed.

Lemma digits_of_length w n : length (digits_of w n) = w.
Proof. revert n. induction w; intros n; simpl; [done|]. rewrite length_app, IHw. simpl. lia. Qed.

Lemma digits_of_digits w k : forallb is_digit (digits_of w k) = true.
Proof.
  revert k. induction w as [|w IH]; intros k; [done|]. simpl.
  rewrite forallb_app, IH. simpl. unfold is_digit.
  assert (0 ≤ k mod 10 < 10) by lia_div.
  rewrite andb_true_r. bool_to_prop. lia.
Qed.

Lemma digits_value_snoc s c :
  digits_value (s ++ [c]) = 10 * digits_value s + (Z.of_N c - 48).
Proof. unfold digits_value. by rewrite foldl_app. Qed.

(** Reading the digits of a number that fits its width gives the number. *)
Lemma digits_value_of w k :
  0 ≤ k < 10 ^ Z.of_nat w → digits_value (digits_of w k) = k.
Proof.
  revert k. induction w as [|w IH]; intros k Hk.
  - simpl in *. unfold digits_value. simpl. lia.
  - cbn [digits_of]. rewrite digits_value_snoc, IH.
    + assert (0 ≤ k mod 10 < 10) by lia_div. rewrite Z2N.id by lia. lia_div.
    + rewrite Nat2Z.inj_succ, Z.pow_succ_r in Hk by lia. lia_div.
Qed.

Lemma digits_of_inj w a b :
  0 ≤ a < 10 ^ Z.of_nat w → 0 ≤ b < 10 ^ Z.of_nat w →
  digits_of w a = digits_of w b → a = b.
Proof.
  revert a b. induction w as [|w IH]; intros a b Ha Hb; [simpl in *; lia|].
  rewrite Nat2Z.inj_succ, Z.pow_succ_r in Ha, Hb by lia.
  simpl. intros [Hq Hr]%app_inj_tail.
  apply IH in Hq; [|lia_div..].
  assert (a mod 10 = b mod 10) by (pose proof (Z.mod_pos_bound a 10); lia_div).
  rewrite (Z.div_mod a 10), (Z.div_mod b 10) by lia. congruence.
Qed.

Lemma digits_of_mono w a b :
  0 ≤ a → a ≤ b → b < 10 ^ Z.of_nat w →
  text_leb (digits_of w a) (digits_of w b) = true.
Proof.
  revert a b. induction w as [|w IH]; intros a b Ha Hab Hb; [done|].
  rewrite Nat2Z.inj_succ, Z.pow_succ_r in Hb by lia. simpl.
  rewrite text_leb_app by (by rewrite !digits_of_length).
  case_decide as Heq; [|apply IH; lia_div].
  apply digits_of_inj in Heq; [|lia_div..]. simpl.
  destruct (N.ltb_spec (Z.to_N (48 + a mod 10)) (Z.to_N (48 + b mod 10))); [done|].
  destruct (N.eqb_spec (Z.to_N (48 + a mod 10)) (Z.to_N (48 + b mod 10))); [done|lia_div].
Qed.
