(* ===== verification/Calendar.v ===== *)
(** * The calendar: [Date.prototype.toISOString]

    The server stamps a post with [new Date().toISOString()] (line 110) and
    the dashboard sorts by that text (line 77), so the order of the
    dashboard is the order of time only because the ISO form is written
    field by field, most significant first, each with a fixed width.

    - [render], [fits], [lex_leb]: fields of fixed width with separators,
      and the lexicographic order that the order of the texts coincides
      with.
    - [is_leap], [year_of], [month_of], [date_fields]: the proleptic
      Gregorian calendar in UTC, by counting years and months from 1970.
      [years] iterations are enough up to the year 9999, the last one
      [toISOString] writes with four digits ([iso_max]).
    - [to_iso_string]: the text [YYYY-MM-DDTHH:mm:ss.sssZ], proved strictly
      increasing in the time value and therefore an instance of
      [Platform.Clock].
    - [date_fields_fuel], [to_iso_string_fuel]: the same with the bound of
      the search for the year as a parameter, to state that the search
      ends within [years] steps.
    - [day_from_year], [month_start], [make_date]: the reference
      definitions of ECMAScript, which go from the fields to the time
      value; [date_fields] is proved to invert them.
    - [week_day], [clock_text], [to_utc_string]:
      [Date.prototype.toUTCString], the form in which [res.cookie] writes
      the attribute Expires. *)

From S2P Require Import Spec2Rocq JsString Platform.

Local Open Scope Z_scope.

(** ** Definitions *)

(** The fields [ks], each written with the width and followed by the
    separator that [ws] gives it. *)
Fixpoint render (ws : list (nat * N)) (ks : list Z) : jsstring :=
  match ws, ks with
  | (w, sep) :: ws', k :: ks' => digits_of w k ++ sep :: render ws' ks'
  | _, _ => []
  end.

(** Each field fits its width. *)
Fixpoint fits (ws : list (nat * N)) (ks : list Z) : Prop :=
  match ws, ks with
  | (w, _) :: ws', k :: ks' => 0 ≤ k < 10 ^ Z.of_nat w ∧ fits ws' ks'
  | [], [] => True
  | _, _ => False
  end.

(** The lexicographic orders on lists of fields. *)
Fixpoint lex_ltb (ks ls : list Z) : bool :=
  match ks, ls with
  | k :: ks', l :: ls' => (k <? l) || (k =? l) && lex_ltb ks' ls'
  | _, _ => false
  end.

Fixpoint lex_leb (ks ls : list Z) : bool :=
  match ks, ls with
  | k :: ks', l :: ls' => (k <? l) || (k =? l) && lex_leb ks' ls'
  | _, _ => true
  end.

Definition is_leap (y : Z) : bool :=
  (y mod 4 =? 0) && (negb (y mod 100 =? 0) || (y mod 400 =? 0)).

Definition year_days (leap : bool) : Z := if leap then 366 else 365.

(** The year of the day [d] counted from the first day of the year [y],
    and the day within that year. *)
Fixpoint year_of (fuel : nat) (y d : Z) : Z * Z :=
  match fuel with
  | O => (y, d)
  | S f =>
      if d <? year_days (is_leap y) then (y, d)
      else year_of f (y + 1) (d - year_days (is_leap y))
  end.

Definition month_days (leap : bool) (m : Z) : Z :=
  if m =? 2 then (if leap then 29 else 28)
  else if (m =? 4) || (m =? 6) || (m =? 9) || (m =? 11) then 30
  else 31.

(** The month of the day [d] counted from the first day of the month [m],
    and the day within that month. *)
Fixpoint month_of (fuel : nat) (leap : bool) (m d : Z) : Z * Z :=
  match fuel with
  | O => (m, d)
  | S f =>
      if d <? month_days leap m then (m, d)
      else month_of f leap (m + 1) (d - month_days leap m)
  end.

(** The years from 1970 that a time value up to [iso_max] can reach. *)
Definition years : nat := Z.to_nat 8036.

(** Year, month, day, hours, minutes, seconds and milliseconds of a time
    value, in UTC, with the year searched for in at most [fuel] steps. *)
Definition date_fields_fuel (fuel : nat) (ms : Z) : list Z :=
  let days := ms / 86400000 in
  let r := ms mod 86400000 in
  let '(y, yd) := year_of fuel 1970 days in
  let '(m, md) := month_of 11 (is_leap y) 1 yd in
  [y; m; md + 1; r / 3600000; r / 60000 mod 60; r / 1000 mod 60; r mod 1000].

Definition date_fields (ms : Z) : list Z := date_fields_fuel years ms.

(** The widths and separators of [YYYY-MM-DDTHH:mm:ss.sssZ]. *)
Definition iso_format : list (nat * N) :=
  [(4%nat, 45%N); (2%nat, 45%N); (2%nat, 84%N); (2%nat, 58%N); (2%nat, 58%N);
   (2%nat, 46%N); (3%nat, 90%N)].

(** [new Date(ms).toISOString()] for a time value from 1970 to 9999. *)
Definition to_iso_string_fuel (fuel : nat) (ms : Z) : jsstring :=
  render iso_format (date_fields_fuel fuel ms).

Definition to_iso_string (ms : Z) : jsstring := to_iso_string_fuel years ms.

Definition year_field (ms : Z) : Z := (year_of years 1970 (ms / 86400000)).1.
Definition year_day (ms : Z) : Z := (year_of years 1970 (ms / 86400000)).2.
Definition month_field (ms : Z) : Z :=
  (month_of 11 (is_leap (year_field ms)) 1 (year_day ms)).1.
Definition month_day (ms : Z) : Z :=
  (month_of 11 (is_leap (year_field ms)) 1 (year_day ms)).2.

(** *** The reference: the calendar of ECMAScript

    [toISOString] is specified through [DayFromYear], the table of
    [MonthFromTime] and [MakeDay]/[MakeDate], which compute a time value
    from its fields; [date_fields] searches in the other direction. *)

(** [DayFromYear(y)]: the number of the first day of the year [y]. *)
Definition day_from_year (y : Z) : Z :=
  365 * (y - 1970) + (y - 1969) / 4 - (y - 1901) / 100 + (y - 1601) / 400.

(** The day within its year on which the month [m] (from 1) starts. *)
Definition month_start (leap : bool) (m : Z) : Z :=
  nth (Z.to_nat (m - 1))
      [0; 31; 59; 90; 120; 151; 181; 212; 243; 273; 304; 334; 365] 0
  + (if leap && (2 <? m) then 1 else 0).

(** [MakeDate(MakeDay(y, m - 1, d), MakeTime(h, mi, s, ms))] *)
Definition make_date (ks : list Z) : Z :=
  match ks with
  | [y; m; d; h; mi; s; ms] =>
      (day_from_year y + month_start (is_leap y) m + (d - 1)) * 86400000
      + h * 3600000 + mi * 60000 + s * 1000 + ms
  | _ => 0
  end.

(** *** [Date.prototype.toUTCString]

    The form in which [res.cookie] writes the attribute Expires. *)

(** [WeekDay(t)]: the first day of 1970 was a Thursday. *)
Definition week_day (ms : Z) : Z := (ms / 86400000 + 4) mod 7.

Definition day_names : list string :=
  ["Sun"; "Mon"; "Tue"; "Wed"; "Thu"; "Fri"; "Sat"]%string.

Definition month_names : list string :=
  ["Jan"; "Feb"; "Mar"; "Apr"; "May"; "Jun"; "Jul"; "Aug"; "Sep"; "Oct"; "Nov";
   "Dec"]%string.

(** The time of day, as in [22:13:20]. *)
Definition clock_text (h mi s : Z) : jsstring :=
  digits_of 2 h ++ 58%N :: digits_of 2 mi ++ 58%N :: digits_of 2 s.

(** [new Date(ms).toUTCString()], as in [Thu, 01 Jan 1970 00:00:00 GMT]. *)
Definition to_utc_string (ms : Z) : jsstring :=
  match date_fields ms with
  | [y; m; d; h; mi; s; _] =>
      js (nth (Z.to_nat (week_day ms)) day_names "") ++ js ", "
      ++ digits_of 2 d ++ 32%N :: js (nth (Z.to_nat (m - 1)) month_names "")
      ++ 32%N :: digits_of 4 y ++ 32%N :: clock_text h mi s ++ js " GMT"
  | _ => []
  end.

(** The month found for the day [d] of a year is a month, the day left is
    a day of that month, and together they denote [d]. *)
Definition month_ok (leap : bool) (d : Z) : Prop :=
  1 ≤ (month_of 11 leap 1 d).1 ≤ 12
  ∧ 0 ≤ (month_of 11 leap 1 d).2 < month_days leap (month_of 11 leap 1 d).1
  ∧ month_start leap (month_of 11 leap 1 d).1 + (month_of 11 leap 1 d).2 = d.

#[local] Instance month_ok_dec leap d : Decision (month_ok leap d).
Proof. unfold month_ok. apply _. Defined.

(** ** Fields of fixed width *)

Lemma lex_ltb_cons k ks l ls :
  lex_ltb (k :: ks) (l :: ls) = true ↔ k < l ∨ (k = l ∧ lex_ltb ks ls = true).
Proof.
  simpl. rewrite orb_true_iff, andb_true_iff, Z.ltb_lt, Z.eqb_eq. tauto.
Qed.

Lemma lex_ltb_irrefl ks : lex_ltb ks ks = false.
Proof.
  induction ks as [|k ks IH]; [done|]. simpl.
  by rewrite Z.ltb_irrefl, Z.eqb_refl, IH.
Qed.

Lemma lex_ltb_leb ks ls : lex_ltb ks ls = true → lex_leb ks ls = true.
Proof.
  revert ls. induction ks as [|k ks IH]; intros [|l ls]; simpl; try done.
  destruct (k <? l); [done|]. destruct (k =? l); [apply IH|done].
Qed.

Lemma lex_leb_refl ks : lex_leb ks ks = true.
Proof.
  induction ks as [|k ks IH]; [done|]. simpl.
  by rewrite Z.eqb_refl, IH, orb_true_r.
Qed.

Lemma text_leb_cons_same c s t : text_leb (c :: s) (c :: t) = text_leb s t.
Proof. simpl. by rewrite N.ltb_irrefl, N.eqb_refl. Qed.

(** The order of the texts is the order of the fields. *)
Lemma text_leb_render ws ks ls :
  fits ws ks → fits ws ls →
  text_leb (render ws ks) (render ws ls) = lex_leb ks ls.
Proof.
  revert ks ls. induction ws as [|[w sep] ws IH]; intros [|k ks] [|l ls];
    simpl; try done.
  intros [Hk Hks] [Hl Hls].
  rewrite text_leb_app by (by rewrite !digits_of_length).
  case_decide as Heq.
  - apply digits_of_inj in Heq as ->; [|done..].
    by rewrite text_leb_cons_same, IH, Z.ltb_irrefl, Z.eqb_refl.
  - assert (k ≠ l) as Hne by congruence.
    rewrite (proj2 (Z.eqb_neq k l)) by done. rewrite andb_false_l, orb_false_r.
    destruct (Z.ltb_spec k l) as [Hlt|Hge].
    + apply digits_of_mono; lia.
    + apply not_true_is_false. intros Hle.
      pose proof (digits_of_mono w l k) as Hle'.
      destruct Heq. apply text_leb_antisym; [done|]. apply Hle'; lia.
Qed.

Lemma render_inj ws ks ls :
  fits ws ks → fits ws ls → render ws ks = render ws ls → ks = ls.
Proof.
  revert ks ls. induction ws as [|[w sep] ws IH]; intros [|k ks] [|l ls];
    simpl; try done.
  intros [Hk Hks] [Hl Hls] Heq.
  apply app_inj_1 in Heq as [Hd [= Hr]]; [|by rewrite !digits_of_length].
  f_equal; [by eapply digits_of_inj|by apply IH].
Qed.

(** ** The calendar *)

(** *** Years *)

Lemma year_days_bounds leap : 365 ≤ year_days leap ≤ 366.
Proof. destruct leap; simpl; lia. Qed.

Lemma year_of_ge fuel y d : y ≤ (year_of fuel y d).1.
Proof.
  revert y d. induction fuel as [|f IH]; intros y d; simpl; [done|].
  destruct (d <? _); [done|]. specialize (IH (y + 1) (d - year_days (is_leap y))).
  lia.
Qed.

Lemma year_of_day_ge fuel y d : 0 ≤ d → 0 ≤ (year_of fuel y d).2.
Proof.
  revert y d. induction fuel as [|f IH]; intros y d Hd; simpl; [done|].
  destruct (Z.ltb_spec d (year_days (is_leap y))); [done|]. apply IH. lia.
Qed.

(** With enough fuel the day is within its year. *)
Lemma year_of_day_lt fuel y d :
  d < 365 * Z.of_nat fuel →
  (year_of fuel y d).2 < year_days (is_leap (year_of fuel y d).1).
Proof.
  revert y d. induction fuel as [|f IH]; intros y d Hd; simpl.
  - pose proof (year_days_bounds (is_leap y)). simpl in Hd. lia.
  - destruct (Z.ltb_spec d (year_days (is_leap y))); [done|]. apply IH.
    pose proof (year_days_bounds (is_leap y)). lia.
Qed.

(** Later days have later years, or later days of the same year. *)
Lemma year_of_lt fuel y d d' :
  d < d' →
  (year_of fuel y d).1 < (year_of fuel y d').1
  ∨ (year_of fuel y d).1 = (year_of fuel y d').1
    ∧ (year_of fuel y d).2 < (year_of fuel y d').2.
Proof.
  revert y d d'. induction fuel as [|f IH]; intros y d d' Hd; simpl; [lia|].
  destruct (Z.ltb_spec d (year_days (is_leap y))),
           (Z.ltb_spec d' (year_days (is_leap y))); simpl; [lia| |lia|].
  - pose proof (year_of_ge f (y + 1) (d' - year_days (is_leap y))). lia.
  - apply (IH (y + 1)). lia.
Qed.

Lemma day_from_year_succ y :
  day_from_year (y + 1) = day_from_year y + year_days (is_leap y).
Proof.
  unfold day_from_year, year_days, is_leap.
  destruct (Z.eqb_spec (y mod 4) 0), (Z.eqb_spec (y mod 100) 0),
    (Z.eqb_spec (y mod 400) 0); simpl; lia_div.
Qed.

(** The search keeps the day number: the year found and the day within it
    denote the day the search started from. *)
Lemma year_of_day fuel y d :
  day_from_year (year_of fuel y d).1 + (year_of fuel y d).2
  = day_from_year y + d.
Proof.
  revert y d. induction fuel as [|f IH]; intros y d; simpl; [done|].
  destruct (d <? _); [done|]. rewrite IH, day_from_year_succ. lia.
Qed.

(** The search ends within [fuel] years when the day is within them: more
    fuel changes nothing. *)
Lemma year_of_fuel fuel k y d :
  d < 365 * Z.of_nat fuel → year_of (fuel + k) y d = year_of fuel y d.
Proof.
  revert y d. induction fuel as [|f IH]; intros y d Hd; simpl.
  - destruct k; simpl; [done|]. pose proof (year_days_bounds (is_leap y)).
    by rewrite (proj2 (Z.ltb_lt _ _)) by lia.
  - destruct (d <? _); [done|]. apply IH.
    pose proof (year_days_bounds (is_leap y)). lia.
Qed.

(** *** Months *)

Lemma month_days_bounds leap m : 28 ≤ month_days leap m ≤ 31.
Proof. unfold month_days. repeat case_match; lia. Qed.

Lemma month_of_ge fuel leap m d : m ≤ (month_of fuel leap m d).1.
Proof.
  revert m d. induction fuel as [|f IH]; intros m d; simpl; [done|].
  destruct (d <? _); [done|]. specialize (IH (m + 1) (d - month_days leap m)).
  lia.
Qed.

Lemma month_of_le fuel leap m d : (month_of fuel leap m d).1 ≤ m + Z.of_nat fuel.
Proof.
  revert m d. induction fuel as [|f IH]; intros m d; simpl; [lia|].
  destruct (d <? _); simpl; [lia|].
  specialize (IH (m + 1) (d - month_days leap m)). lia.
Qed.

Lemma month_of_day_ge fuel leap m d : 0 ≤ d → 0 ≤ (month_of fuel leap m d).2.
Proof.
  revert m d. induction fuel as [|f IH]; intros m d Hd; simpl; [done|].
  destruct (Z.ltb_spec d (month_days leap m)); [done|]. apply IH. lia.
Qed.

Lemma month_of_lt fuel leap m d d' :
  d < d' →
  (month_of fuel leap m d).1 < (month_of fuel leap m d').1
  ∨ (month_of fuel leap m d).1 = (month_of fuel leap m d').1
    ∧ (month_of fuel leap m d).2 < (month_of fuel leap m d').2.
Proof.
  revert m d d'. induction fuel as [|f IH]; intros m d d' Hd; simpl; [lia|].
  destruct (Z.ltb_spec d (month_days leap m)),
           (Z.ltb_spec d' (month_days leap m)); simpl; [lia| |lia|].
  - pose proof (month_of_ge f leap (m + 1) (d' - month_days leap m)). lia.
  - apply (IH (m + 1)). lia.
Qed.

(** With the days of a year the search ends in a month of the year. *)
Lemma month_of_start leap d : 0 ≤ d < year_days leap → month_ok leap d.
Proof.
  intros Hd.
  assert (Forall (month_ok leap) (seqZ 0 (year_days leap)))
    as Hall by (destruct leap; evaluate).
  rewrite Forall_seqZ in Hall. apply Hall. lia.
Qed.

Lemma month_of_day_lt leap d :
  0 ≤ d < year_days leap → (month_of 11 leap 1 d).2 < 31.
Proof.
  intros (_ & [_ Hlt] & _)%month_of_start.
  pose proof (month_days_bounds leap (month_of 11 leap 1 d).1). lia.
Qed.

(** *** The fields of a time value *)

Lemma date_fields_eq ms :
  date_fields ms
  = [year_field ms; month_field ms; month_day ms + 1;
     ms mod 86400000 / 3600000; ms mod 86400000 / 60000 mod 60;
     ms mod 86400000 / 1000 mod 60; ms mod 86400000 mod 1000].
Proof.
  unfold date_fields, date_fields_fuel, month_field, month_day, year_field,
    year_day.
  destruct (year_of _ _ _) as [y yd]. cbn [fst snd].
  by destruct (month_of _ _ _ _) as [m md].
Qed.

Lemma iso_max_days ms : 0 ≤ ms ≤ iso_max → 0 ≤ ms / 86400000 ≤ 2932896.
Proof. unfold iso_max. intros. lia_div. Qed.

Lemma year_field_bounds ms : 0 ≤ ms ≤ iso_max → 1970 ≤ year_field ms ≤ 9999.
Proof.
  intros Hms%iso_max_days. unfold year_field. split; [apply year_of_ge|].
  destruct (decide (ms / 86400000 = 2932896)) as [->|Hne]; [by vm_compute|].
  destruct (year_of_lt years 1970 (ms / 86400000) 2932896) as [Hlt|[Heq _]];
    [lia| |];
    [assert ((year_of years 1970 2932896).1 = 9999) as <- by (by vm_compute)..];
    lia.
Qed.

Lemma year_day_bounds ms :
  0 ≤ ms ≤ iso_max → 0 ≤ year_day ms < year_days (is_leap (year_field ms)).
Proof.
  intros Hms%iso_max_days. unfold year_day, year_field. split.
  - apply year_of_day_ge. lia.
  - apply year_of_day_lt. unfold years. lia.
Qed.

Lemma to_iso_string_eq ms : to_iso_string ms = render iso_format (date_fields ms).
Proof. done. Qed.

Lemma date_fields_fit ms : 0 ≤ ms ≤ iso_max → fits iso_format (date_fields ms).
Proof.
  intros Hms. rewrite date_fields_eq. pose proof (year_field_bounds ms Hms).
  pose proof (year_day_bounds ms Hms) as Hyd.
  pose proof (month_of_day_lt _ _ Hyd).
  pose proof (month_of_day_ge 11 (is_leap (year_field ms)) 1 (year_day ms)
                (proj1 Hyd)).
  pose proof (month_of_ge 11 (is_leap (year_field ms)) 1 (year_day ms)).
  pose proof (month_of_le 11 (is_leap (year_field ms)) 1 (year_day ms)).
  unfold month_field, month_day, iso_format. cbn [fits Z.of_nat Pos.of_succ_nat Pos.succ].
  split_and!; try done; lia_div.
Qed.

(** [MakeDate] maps the fields of a time value back to it. *)
Lemma make_date_fields ms :
  0 ≤ ms ≤ iso_max → make_date (date_fields ms) = ms.
Proof.
  intros Hms. rewrite date_fields_eq. unfold make_date.
  destruct (month_of_start _ _ (year_day_bounds ms Hms)) as (_ & _ & Hm).
  fold (month_field ms) (month_day ms) in Hm.
  pose proof (year_of_day years 1970 (ms / 86400000)) as Hy.
  fold (year_field ms) (year_day ms) in Hy.
  change (day_from_year 1970) with 0 in Hy.
  replace (day_from_year (year_field ms)
           + month_start (is_leap (year_field ms)) (month_field ms)
           + (month_day ms + 1 - 1)) with (ms / 86400000) by lia.
  lia_div.
Qed.

(** The fields of a time value, each in its range. *)
Lemma date_fields_ranges ms :
  0 ≤ ms ≤ iso_max →
  1970 ≤ year_field ms ≤ 9999 ∧ 1 ≤ month_field ms ≤ 12
  ∧ 0 ≤ month_day ms < 31
  ∧ 0 ≤ ms mod 86400000 / 3600000 < 24.
Proof.
  intros Hms. pose proof (year_day_bounds ms Hms) as Hyd.
  destruct (month_of_start _ _ Hyd) as (Hm & Hd & _).
  pose proof (month_of_day_lt _ _ Hyd).
  split; [by apply year_field_bounds|]. split; [done|].
  split; [unfold month_day; lia|lia_div].
Qed.

(** The time value of the fields without the milliseconds. *)
Lemma make_date_whole y m d h mi s r :
  make_date [y; m; d; h; mi; s; 0] = make_date [y; m; d; h; mi; s; r] - r.
Proof. unfold make_date. lia. Qed.

Lemma make_date_seconds ms :
  0 ≤ ms ≤ iso_max →
  make_date [year_field ms; month_field ms; month_day ms + 1;
             ms mod 86400000 / 3600000; ms mod 86400000 / 60000 mod 60;
             ms mod 86400000 / 1000 mod 60; 0]
  = ms / 1000 * 1000.
Proof.
  intros Hms. rewrite (make_date_whole _ _ _ _ _ _ (ms mod 86400000 mod 1000)).
  rewrite <- date_fields_eq, make_date_fields by done. lia_div.
Qed.

Lemma to_utc_string_eq ms :
  to_utc_string ms
  = js (nth (Z.to_nat (week_day ms)) day_names ""%string) ++ js ", "
    ++ digits_of 2 (month_day ms + 1) ++ 32%N
    :: js (nth (Z.to_nat (month_field ms - 1)) month_names ""%string)
    ++ 32%N :: digits_of 4 (year_field ms) ++ 32%N
    :: clock_text (ms mod 86400000 / 3600000) (ms mod 86400000 / 60000 mod 60)
                  (ms mod 86400000 / 1000 mod 60)
    ++ js " GMT".
Proof. unfold to_utc_string. by rewrite date_fields_eq. Qed.

(** The time of day of a later moment of the same day is later, field by
    field. *)
Lemma time_fields_lt r r' :
  0 ≤ r → r < r' →
  lex_ltb [r / 3600000; r / 60000 mod 60; r / 1000 mod 60; r mod 1000]
          [r' / 3600000; r' / 60000 mod 60; r' / 1000 mod 60; r' mod 1000]
  = true.
Proof.
  intros Hr Hlt. rewrite !lex_ltb_cons. cbn [lex_ltb]. lia_div.
Qed.

(** A later time value has later fields. *)
Lemma date_fields_lt a b :
  0 ≤ a → a < b → lex_ltb (date_fields a) (date_fields b) = true.
Proof.
  intros Ha Hab. rewrite !date_fields_eq. do 3 rewrite lex_ltb_cons.
  destruct (decide (a / 86400000 = b / 86400000)) as [Heq|Hne].
  - unfold month_field, month_day, year_field, year_day. rewrite Heq.
    right. split; [done|]. right. split; [done|]. right. split; [done|].
    apply time_fields_lt; lia_div.
  - assert (a / 86400000 < b / 86400000) as Hd by lia_div.
    unfold month_field, month_day, year_field, year_day.
    destruct (year_of_lt years 1970 _ _ Hd) as [Hy|[Hy Hyd]]; [by left|].
    right. split; [done|]. rewrite Hy.
    destruct (month_of_lt 11 (is_leap (year_of years 1970 (b / 86400000)).1) 1
                _ _ Hyd) as [Hm|[Hm Hmd]]; [by left|].
    right. split; [done|]. left. lia.
Qed.

(** ** The clock of JavaScript *)

Lemma to_iso_string_mono a b :
  0 ≤ a → a ≤ b → b ≤ iso_max →
  text_leb (to_iso_string a) (to_iso_string b) = true.
Proof.
  intros Ha Hab Hb. rewrite !to_iso_string_eq.
  rewrite text_leb_render by (apply date_fields_fit; lia).
  destruct (decide (a = b)) as [->|Hne]; [apply lex_leb_refl|].
  apply lex_ltb_leb, date_fields_lt; lia.
Qed.

Lemma to_iso_string_inj a b :
  0 ≤ a ≤ iso_max → 0 ≤ b ≤ iso_max →
  to_iso_string a = to_iso_string b → a = b.
Proof.
  intros Ha Hb Heq. rewrite !to_iso_string_eq in Heq.
  apply render_inj in Heq; [|by apply date_fields_fit..].
  destruct (Z.lt_trichotomy a b) as [Hlt|[->|Hlt]]; [|done|];
    apply date_fields_lt in Hlt; try lia;
    by rewrite Heq, lex_ltb_irrefl in Hlt.
Qed.

#[export] Instance iso_clock : Clock := {|
  toISOString := to_iso_string;
  toISOString_mono := to_iso_string_mono;
  toISOString_inj := to_iso_string_inj;
|}.

(** The ISO form of a time value has 24 characters. *)
Lemma to_iso_string_length ms : length (to_iso_string ms) = 24%nat.
Proof.
  rewrite to_iso_string_eq, date_fields_eq. unfold iso_format. cbn [render].
  repeat (rewrite length_app, digits_of_length; cbn [length]). done.
Qed.

(** For time values from 1970 to the end of the year 9999,
    [toISOString] gives a text of 24 characters, and the order of the texts
    (the one ORDER BY uses) is the order of the time values. *)
Theorem to_iso_string_order a b :
  0 ≤ a ≤ iso_max → 0 ≤ b ≤ iso_max →
  length (to_iso_string a) = 24%nat
  ∧ (text_leb (to_iso_string a) (to_iso_string b) = true ↔ a ≤ b).
Proof.
  intros Ha Hb. split; [apply to_iso_string_length|]. split.
  - intros Hle. destruct (Z.le_gt_cases a b) as [|Hlt]; [done|].
    assert (to_iso_string a = to_iso_string b) as Heq%to_iso_string_inj;
      [|lia..].
    apply text_leb_antisym; [done|]. apply to_iso_string_mono; lia.
  - intros Hab. apply to_iso_string_mono; lia.
Qed.

(** The text [toISOString] writes for a time value from 1970 to 9999
    is the rendering of seven fields that are the date and the time of that
    value: a year, a month from 1 to 12, a day of that month, hours, minutes,
    seconds and milliseconds in their ranges, which [MakeDate] of ECMAScript
    maps back to the time value.  The search of the year ends within its
    fuel: more fuel gives the same year. *)
Theorem to_iso_string_date ms :
  0 ≤ ms ≤ iso_max →
  ∃ y m d h mi s f,
    to_iso_string ms = render iso_format [y; m; d; h; mi; s; f]
    ∧ make_date [y; m; d; h; mi; s; f] = ms
    ∧ 1970 ≤ y ≤ 9999 ∧ 1 ≤ m ≤ 12 ∧ 1 ≤ d ≤ month_days (is_leap y) m
    ∧ 0 ≤ h < 24 ∧ 0 ≤ mi < 60 ∧ 0 ≤ s < 60 ∧ 0 ≤ f < 1000
    ∧ ∀ k, (year_of (years + k) 1970 (ms / 86400000)).1 = y.
Proof.
  intros Hms. pose proof (make_date_fields ms Hms) as Hmake.
  rewrite to_iso_string_eq. rewrite date_fields_eq in *.
  pose proof (year_field_bounds ms Hms).
  destruct (month_of_start _ _ (year_day_bounds ms Hms)) as (? & ? & _).
  fold (month_field ms) (month_day ms) in *.
  do 7 eexists. do 2 (split; [done|]). split_and!; try lia; try lia_div.
  intros k. rewrite year_of_fuel; [done|].
  apply iso_max_days in Hms. unfold years. lia.
Qed.

(** C40: the search for the year terminates within its fuel.  For a time
    value from 1970 to 9999 the search stops because it has reached the
    year (the day left is a day of that year), not because the fuel ran
    out: with [years] steps or more, however many, [toISOString] gives
    the same text. *)
Theorem to_iso_string_terminates fuel ms :
  0 ≤ ms ≤ iso_max → (years ≤ fuel)%nat →
  to_iso_string_fuel fuel ms = to_iso_string ms
  ∧ 0 ≤ year_day ms < year_days (is_leap (year_field ms)).
Proof.
  intros Hms Hfuel. split; [|by apply year_day_bounds].
  unfold to_iso_string, to_iso_string_fuel, date_fields_fuel.
  replace fuel with (years + (fuel - years))%nat by lia.
  rewrite year_of_fuel; [done|].
  apply iso_max_days in Hms. unfold years. lia.
Qed.

Lemma to_iso_string_order_witness :
  length (to_iso_string 1700000000000) = 24%nat
  ∧ (text_leb (to_iso_string 1700000000000) (to_iso_string 1700086400000) = true
     ↔ 1700000000000 ≤ 1700086400000).
Proof. apply to_iso_string_order; by vm_compute. Defined.

Lemma to_iso_string_date_witness :
  ∃ y m d h mi s f,
    to_iso_string 1709251199999 = render iso_format [y; m; d; h; mi; s; f]
    ∧ make_date [y; m; d; h; mi; s; f] = 1709251199999
    ∧ 1970 ≤ y ≤ 9999 ∧ 1 ≤ m ≤ 12 ∧ 1 ≤ d ≤ month_days (is_leap y) m
    ∧ 0 ≤ h < 24 ∧ 0 ≤ mi < 60 ∧ 0 ≤ s < 60 ∧ 0 ≤ f < 1000
    ∧ ∀ k, (year_of (years + k) 1970 (1709251199999 / 86400000)).1 = y.
Proof. apply to_iso_string_date. by vm_compute. Defined.

Lemma to_iso_string_terminates_witness :
  to_iso_string_fuel (Z.to_nat 10000) 1700000000000
  = to_iso_string 1700000000000
  ∧ 0 ≤ year_day 1700000000000
      < year_days (is_leap (year_field 1700000000000)).
Proof.
  apply (to_iso_string_terminates (Z.to_nat 10000) 1700000000000);
    [by vm_compute|unfold years; lia].
Defined.

(** With too little fuel the search stops early and the date is wrong. *)
Example to_iso_string_fuel_short :
  to_iso_string_fuel 30 1700000000000 = js "2000-12-84T22:13:20.000Z".
Proof. by vm_compute. Qed.

(** The time of the examples, the expiry that [res.clearCookie] sets and a
    leap day, in the form of the attribute Expires. *)
Example to_utc_string_examples :
  to_utc_string 1700000000000 = js "Tue, 14 Nov 2023 22:13:20 GMT"
  ∧ to_utc_string 1 = js "Thu, 01 Jan 1970 00:00:00 GMT"
  ∧ to_utc_string 1709251199999 = js "Thu, 29 Feb 2024 23:59:59 GMT".
Proof. by vm_compute. Qed.

(** The first and the last moment, a leap day, and the time of the
    examples. *)
Example to_iso_string_examples :
  to_iso_string 0 = js "1970-01-01T00:00:00.000Z"
  ∧ to_iso_string iso_max = js "9999-12-31T23:59:59.999Z"
  ∧ to_iso_string 1709251199999 = js "2024-02-29T23:59:59.999Z"
  ∧ to_iso_string 1700000000000 = js "2023-11-14T22:13:20.000Z".
Proof. by vm_compute. Qed.

