(* ===== verification/Blog.v ===== *)
(** * The blog, abstractly

    What the server promises its users, stated without tables, requests or
    responses: accounts found by name, posts found by id, and four kinds of
    event.

    - [blog]: the accounts by user name (so that a name has one account by
      construction), the posts by id, and the number of ids issued so far.
    - [event]: what one request did, as its client can tell: it opened an
      account and got a session for it ([Registered]), got a session for an
      account it proved to know the password of ([LoggedIn]), published a
      post under an account ([Published]), or none of these ([Quiet]).
    - [blog_step]: when each event may happen and how it changes the blog.
      There is no event that changes or removes a post or an account:
      that is what server.js implements (see [Handlers.fetch_owned_post]).
    - [valid_name], [valid_password], [hashed], [valid_text], [stamped]:
      the data model of the specification (a name of 3 to 10 letters and
      digits, the hash of a trimmed password of 6 to 70 characters, a title
      and a body that are not blank, a date that is the ISO form of a time),
      each as a column of the database holds it.
    - [blog_ok]: the invariant of the abstract blog.

    [Refinement] proves that every request handled by the server is one of
    these steps; the theorems of this file then hold of every run of the
    server. *)

From S2P Require Import Spec2Rocq Traces JsString Platform.

Local Open Scope Z_scope.

(** ** State *)

Record account : Type := Account {
  account_id : Z;
  account_password : value;
}.

Record entry : Type := Entry {
  entry_date : jsstring;
  entry_title : value;
  entry_body : value;
  entry_author : Z;
}.

Record blog : Type := Blog {
  accounts : gmap value account;
  entries : gmap Z entry;
  accounts_issued : Z;
  entries_issued : Z;
}.

Definition empty_blog : blog := Blog ∅ ∅ 0 0.

Inductive event : Type :=
| Registered (name : value) (id : Z)
| LoggedIn (name : value) (id : Z)
| Published (id author : Z)
| Quiet.

#[export] Instance account_eq_dec : EqDecision account.
Proof. solve_decision. Defined.
#[export] Instance entry_eq_dec : EqDecision entry.
Proof. solve_decision. Defined.
#[export] Instance event_eq_dec : EqDecision event.
Proof. solve_decision. Defined.

(** The account with the id [id] belongs to the name [name]. *)
Definition account_of (id : Z) (name : value) (b : blog) : Prop :=
  ∃ acc, accounts b !! name = Some acc ∧ account_id acc = id.

(** ** Steps *)

Definition open_account (name : value) (hash : jsstring) (b : blog) : blog :=
  Blog (<[name := Account (accounts_issued b + 1) (VStr hash)]> (accounts b))
       (entries b) (accounts_issued b + 1) (entries_issued b).

Definition publish (en : entry) (b : blog) : blog :=
  Blog (accounts b) (<[entries_issued b + 1 := en]> (entries b))
       (accounts_issued b) (entries_issued b + 1).

Section blog.
Context `{!Sqlite, !Bcrypt, !Clock}.

(** ** The data model

    A text is held by a [STRING] column as [numeric_affinity] stores it. *)

(** A user name: 3 to 10 letters and digits. *)
Definition valid_name (v : value) : Prop :=
  ∃ s, v = numeric_affinity s ∧ 3 ≤ js_length s ≤ 10 ∧ test_alnum s = true.

(** A title or a body: a text that is not blank. *)
Definition valid_text (v : value) : Prop :=
  ∃ s, v = numeric_affinity s ∧ blank s = false.

(** A password as it is hashed and compared: 6 to 70 characters, without
    white space around it. *)
Definition valid_password (p : jsstring) : Prop :=
  6 ≤ js_length p ≤ 70 ∧ trim p = p.

(** A stored password: the hash of a valid password. *)
Definition hashed (v : value) : Prop :=
  ∃ password salt, v = VStr (hashSync password salt) ∧ valid_password password.

(** The date of a post: the ISO form of a time. *)
Definition stamped (s : jsstring) : Prop := ∃ t, s = toISOString t.

Inductive blog_step : blog → event → blog → Prop :=
| blog_registers b name password salt :
    accounts b !! name = None →
    valid_name name →
    valid_password password →
    blog_step b (Registered name (accounts_issued b + 1))
              (open_account name (hashSync password salt) b)
| blog_logs_in b name acc password hash :
    accounts b !! name = Some acc →
    account_password acc = VStr hash →
    trim password = password →
    compareSync password hash = true →
    blog_step b (LoggedIn name (account_id acc)) b
| blog_publishes b en name :
    account_of (entry_author en) name b →
    stamped (entry_date en) →
    valid_text (entry_title en) → valid_text (entry_body en) →
    blog_step b (Published (entries_issued b + 1) (entry_author en)) (publish en b)
| blog_quiet b :
    blog_step b Quiet b.

(** ** The invariant *)

Record blog_ok (b : blog) : Prop := BlogOk {
  ok_issued : 0 ≤ accounts_issued b ∧ 0 ≤ entries_issued b;
  ok_account : ∀ name acc, accounts b !! name = Some acc →
    valid_name name ∧ hashed (account_password acc)
    ∧ 0 < account_id acc ≤ accounts_issued b;
  ok_ids : ∀ n1 n2 a1 a2,
    accounts b !! n1 = Some a1 → accounts b !! n2 = Some a2 →
    account_id a1 = account_id a2 → n1 = n2;
  ok_entry : ∀ id en, entries b !! id = Some en →
    0 < id ≤ entries_issued b ∧ stamped (entry_date en)
    ∧ valid_text (entry_title en) ∧ valid_text (entry_body en)
    ∧ ∃ name, account_of (entry_author en) name b;
}.

(** The accounts of [b] were opened by events of [evs]. *)
Definition opened_in (evs : list event) (b : blog) : Prop :=
  ∀ name acc, accounts b !! name = Some acc →
              Registered name (account_id acc) ∈ evs.

End blog.

(** ** The invariant holds of every run *)

Section blog_facts.
Context `{!Sqlite, !Bcrypt, !Clock}.

Lemma blog_ok_empty : blog_ok empty_blog.
Proof. split; simpl; [lia|intros ??|intros ????|intros ??]; by rewrite lookup_empty. Qed.

Lemma account_of_open id name n hash b :
  accounts b !! n = None → account_of id name b →
  account_of id name (open_account n hash b).
Proof.
  intros Hn (acc & Hacc & Hid). exists acc. split; [|done]. simpl.
  rewrite lookup_insert_ne; [done|]. congruence.
Qed.

Lemma open_account_ok name password salt b :
  accounts b !! name = None → valid_name name → valid_password password →
  blog_ok b → blog_ok (open_account name (hashSync password salt) b).
Proof.
  intros Hfree Hname Hpw [[??] Hacc Hids Hen]. split; simpl; [lia|..].
  - intros n a [[<- <-]|[_ Ha%Hacc]]%lookup_insert_Some; simpl.
    + split_and!; [done|by eexists _, _|lia..].
    + destruct Ha as (? & ? & ?). split_and!; [done..|lia|lia].
  - intros n1 n2 a1 a2.
    intros [[<- <-]|[? Hn1]]%lookup_insert_Some
           [[<- <-]|[? Hn2]]%lookup_insert_Some;
      simpl; [done| | |by eauto].
    + apply Hacc in Hn2. lia.
    + apply Hacc in Hn1. lia.
  - intros id en (? & ? & ? & ? & n & Hn)%Hen. split_and!; [lia|lia|done..|].
    exists n. by apply account_of_open.
Qed.

Lemma publish_ok en name b :
  account_of (entry_author en) name b → stamped (entry_date en) →
  valid_text (entry_title en) → valid_text (entry_body en) →
  blog_ok b → blog_ok (publish en b).
Proof.
  intros Hau Hd Ht Hb [[??] Hacc Hids Hen]. split; simpl; [lia|done..|].
  intros id e [[<- <-]|[_ He%Hen]]%lookup_insert_Some.
  - split_and!; [lia|lia|done..|by exists name].
  - destruct He as (? & ? & ? & ? & ?). split_and!; [lia|lia|done..].
Qed.

Lemma blog_step_ok b ev b' : blog_ok b → blog_step b ev b' → blog_ok b'.
Proof.
  intros Hok Hstep.
  destruct Hstep as [b name pw s Hfree Hname Hpw|??????|b en name Hau Hd Ht Hb|?];
    [by apply open_account_ok|done|by eapply publish_ok|done].
Qed.

Lemma blog_trace_ok b evs b' : blog_ok b → trace blog_step b evs b' → blog_ok b'.
Proof. apply trace_invariant, blog_step_ok. Qed.

(** ** Who has an account opened it *)

Lemma blog_step_opened pre b ev b' :
  opened_in pre b → blog_step b ev b' → opened_in (pre ++ [ev]) b'.
Proof.
  intros Hpre Hstep n a Ha. apply elem_of_app.
  destruct Hstep as [b0 name pw s Hfree Hname Hpw|??????|b0 en name Hau Hd Ht Hb|?];
    simpl in Ha; try (left; by apply Hpre).
  apply lookup_insert_Some in Ha as [[<- <-]|[_ Ha]]; [|left; by apply Hpre].
  right. simpl. by apply list_elem_of_singleton.
Qed.

Lemma blog_trace_opened pre b evs b' :
  opened_in pre b → trace blog_step b evs b' → opened_in (pre ++ evs) b'.
Proof.
  intros Hpre Hrun. revert pre Hpre.
  induction Hrun as [b|b ev b1 evs b2 Hstep Hrun IH]; intros pre Hpre.
  - by rewrite app_nil_r.
  - rewrite cons_middle, app_assoc. apply IH. by eapply blog_step_opened.
Qed.

Lemma opened_in_empty : opened_in [] empty_blog.
Proof. intros n a. simpl. by rewrite lookup_empty. Qed.

(** In a run from the empty blog, the author of every post opened an
    account in this run. *)
Lemma blog_authors_registered evs b id en :
  trace blog_step empty_blog evs b → entries b !! id = Some en →
  ∃ name, Registered name (entry_author en) ∈ evs.
Proof.
  intros Hrun Hen.
  destruct (ok_entry _ (blog_trace_ok _ _ _ blog_ok_empty Hrun) _ _ Hen)
    as (_ & _ & _ & _ & name & acc & Hacc & <-).
  exists name. by apply (blog_trace_opened [] _ _ _ opened_in_empty Hrun).
Qed.

End blog_facts.
