(* ===== verification/Store.v ===== *)
(** * The store: two tables and the SQL statements of server.js

    The schema (lines 11-35) declares [user(id, username, password)] and
    [post(id, createdDate, title, body, authorid)].  A table is the finite
    map from row ids to rows together with the counter that AUTOINCREMENT
    keeps (the largest row id ever assigned, [sqlite_sequence.seq]).

    Each statement the handlers prepare is one operation here:

    - [select_user_by_username]  lines 213 and 267-269
    - [insert_user]              lines 232-234
    - [select_user_by_id]        lines 236-238
    - [select_posts_by_author]   lines 77-78
    - [insert_post]              lines 106-114
    - [select_post_by_id]        lines 118-119, 144-145, 165-166, 191-192
    - [select_post_with_author]  lines 125-131
    - [update_post]              lines 182-185
    - [delete_post]              lines 202-203

    A statement that violates a constraint of the schema (UNIQUE on
    [username], the foreign key of [authorid], which better-sqlite3 enforces)
    raises [SqliteError] and changes nothing.

    A text bound to a [STRING] column, or compared with a numeric column, is
    coerced by [numeric_affinity]; [createdDate] is TEXT and always bound to
    a string, [authorid] is INTEGER and always bound to an integer, so these
    two columns are kept at their types.

    [wf_db] is the invariant of the schema: rows are stored under their own
    id, ids are positive and at most the counter, user names are unique,
    every post's author exists.  Every statement preserves it. *)

From stdpp Require Import sorting.
From S2P Require Import Spec2Rocq JsString Platform.

Local Open Scope Z_scope.

(** ** Rows, tables, the database *)

Record user : Type := User {
  user_id : Z;
  user_username : value;
  user_password : value;
}.

Record post : Type := Post {
  post_id : Z;
  post_createdDate : jsstring;
  post_title : value;
  post_body : value;
  post_authorid : Z;
}.

(** A row of the join of [post] with [user] (line 126): the post and the
    author's name, [null] when no user has the post's [authorid]. *)
Record post_with_username : Type := PostWithUsername {
  joined_post : post;
  joined_username : value;
}.

Record table (A : Type) : Type := Table {
  rows : gmap Z A;
  seq : Z;
}.
Arguments Table {A} rows seq.
Arguments rows {A} t.
Arguments seq {A} t.

Record database : Type := Database {
  user_table : table user;
  post_table : table post;
}.

#[export] Instance user_eq_dec : EqDecision user.
Proof. solve_decision. Defined.
#[export] Instance post_eq_dec : EqDecision post.
Proof. solve_decision. Defined.

(** [createTables] on a file that holds no table yet. *)
Definition empty_table {A} : table A := Table ∅ 0.
Definition empty_db : database := Database empty_table empty_table.

(** [createTables] (lines 11-35): both statements are CREATE TABLE IF NOT
    EXISTS, so an existing database is left as it is. *)
Definition createTables (file : option database) : database :=
  match file with
  | None => empty_db
  | Some db => db
  end.

(** The rows of a table, and the insertion of a row under the next id. *)
Definition table_rows {A} (t : table A) : list A := (map_to_list (rows t)).*2.

Definition table_insert {A} (mk : Z → A) (t : table A) : Z * table A :=
  let id := seq t + 1 in
  (id, Table (<[id := mk id]> (rows t)) id).

(** The order of [ORDER BY createdDate DESC]. *)
Definition newer_first (p q : post) : Prop :=
  text_leb (post_createdDate q) (post_createdDate p) = true.

#[export] Instance newer_first_dec p q : Decision (newer_first p q).
Proof. unfold newer_first. apply _. Defined.

Section statements.
Context `{!Sqlite}.

(** A bound parameter as SQLite compares it with a numeric column: a text
    takes the column's affinity, a number is compared as it is. *)
Definition column_operand (v : value) : value :=
  match v with
  | VStr s => numeric_affinity s
  | _ => v
  end.

(** [SELECT * FROM user WHERE username = ?] *)
Definition select_user_by_username (name : jsstring) (db : database) : option user :=
  head (filter (λ u, user_username u = numeric_affinity name)
               (table_rows (user_table db))).

(** [SELECT * FROM user WHERE id = ?] with a number. *)
Definition select_user_by_id (id : Z) (db : database) : option user :=
  rows (user_table db) !! id.

(** [INSERT INTO user (username, password) VALUES (?, ?)]; the result is
    [lastInsertRowid]. *)
Definition insert_user (name hashed : jsstring) (db : database)
    : result exn Z * database :=
  match select_user_by_username name db with
  | Some _ => (Throw SqliteError, db)
  | None =>
      let '(id, t) :=
        table_insert (λ id, User id (numeric_affinity name) (numeric_affinity hashed))
                     (user_table db) in
      (Ok id, Database t (post_table db))
  end.

(** [SELECT * FROM post WHERE authorid = ? ORDER BY createdDate DESC] *)
Definition select_posts_by_author (uid : Z) (db : database) : list post :=
  order_by newer_first
    (filter (λ p, post_authorid p = uid) (table_rows (post_table db))).

(** [INSERT INTO post (createdDate, title, body, authorid) VALUES (?, ?, ?, ?)] *)
Definition insert_post (created title body : jsstring) (uid : Z) (db : database)
    : result exn Z * database :=
  match select_user_by_id uid db with
  | None => (Throw SqliteError, db)
  | Some _ =>
      let '(id, t) :=
        table_insert (λ id, Post id created (numeric_affinity title)
                                 (numeric_affinity body) uid)
                     (post_table db) in
      (Ok id, Database (user_table db) t)
  end.

(** [SELECT * FROM post WHERE id = ?] *)
Definition select_post_by_id (id : value) (db : database) : option post :=
  match column_operand id with
  | VNum n => rows (post_table db) !! n
  | _ => None
  end.

(** [SELECT post.*, user.username FROM post LEFT JOIN user
     ON post.authorid = user.id WHERE post.id = ?] *)
Definition select_post_with_author (id : value) (db : database)
    : option post_with_username :=
  p ← select_post_by_id id db;
  Some (PostWithUsername p
          (match select_user_by_id (post_authorid p) db with
           | Some u => user_username u
           | None => VNull
           end)).

(** [UPDATE post SET title = ?, body = ? WHERE id = ?] *)
Definition update_post (title body : jsstring) (id : value) (db : database)
    : database :=
  match column_operand id with
  | VNum n =>
      Database (user_table db)
        (Table (alter (λ p, Post (post_id p) (post_createdDate p)
                                 (numeric_affinity title) (numeric_affinity body)
                                 (post_authorid p))
                      n (rows (post_table db)))
               (seq (post_table db)))
  | _ => db
  end.

(** [DELETE FROM post WHERE id = ?] *)
Definition delete_post (id : value) (db : database) : database :=
  match column_operand id with
  | VNum n =>
      Database (user_table db)
        (Table (delete n (rows (post_table db))) (seq (post_table db)))
  | _ => db
  end.

(** ** The invariant of the schema *)

Definition wf_table {A} (key : A → Z) (t : table A) : Prop :=
  0 ≤ seq t ∧ ∀ k r, rows t !! k = Some r → key r = k ∧ 0 < k ≤ seq t.

Definition unique_usernames (db : database) : Prop :=
  ∀ i j u v, rows (user_table db) !! i = Some u →
             rows (user_table db) !! j = Some v →
             user_username u = user_username v → i = j.

Definition stored (v : value) : Prop := v ≠ VUndefined ∧ v ≠ VNull.

Definition wf_user (u : user) : Prop :=
  stored (user_username u) ∧ stored (user_password u).

Definition wf_post (db : database) (p : post) : Prop :=
  stored (post_title p) ∧ stored (post_body p)
  ∧ is_Some (rows (user_table db) !! post_authorid p).

Record wf_db (db : database) : Prop := WfDb {
  wf_users : wf_table user_id (user_table db);
  wf_posts : wf_table post_id (post_table db);
  wf_unique : unique_usernames db;
  wf_user_rows : ∀ k u, rows (user_table db) !! k = Some u → wf_user u;
  wf_post_rows : ∀ k p, rows (post_table db) !! k = Some p → wf_post db p;
}.

(** Every row of [db] is a row of [db'], under the same id and with the
    same content. *)
Definition extends (db db' : database) : Prop :=
  (∀ k u, rows (user_table db) !! k = Some u → rows (user_table db') !! k = Some u)
  ∧ (∀ k p, rows (post_table db) !! k = Some p → rows (post_table db') !! k = Some p).

End statements.

(** Inputs of the examples: a database with one user and one post. *)
Definition example_users : database :=
  (insert_user (js "alice1") (js "$hash") empty_db).2.

Definition example_posts : database :=
  (insert_post (js "2024-01-01T00:00:00.000Z") (js "Hi") (js "World") 1
               example_users).2.

#[export] Instance extends_preorder : PreOrder extends.
Proof.
  split; [by split|]. intros a b c [Hu Hp] [Hu' Hp']. split; eauto.
Qed.

(** ** Tables *)

Section table.
Context {A : Type}.
Implicit Types (t : table A) (key : A → Z).

Lemma elem_of_table_rows t r : r ∈ table_rows t ↔ ∃ k, rows t !! k = Some r.
Proof.
  unfold table_rows. rewrite list_elem_of_fmap. split.
  - intros [[k r'] [-> Hin%elem_of_map_to_list]]. by exists k.
  - intros [k Hk]. exists (k, r). by rewrite elem_of_map_to_list.
Qed.

Lemma wf_table_fresh key t : wf_table key t → rows t !! (seq t + 1) = None.
Proof.
  intros [_ Hwf]. destruct (rows t !! (seq t + 1)) as [r|] eqn:Hr; [|done].
  apply Hwf in Hr. lia.
Qed.

Lemma wf_table_empty key : wf_table key (@empty_table A).
Proof. split; [done|]. intros k r. simpl. by rewrite lookup_empty. Qed.

Lemma wf_table_insert key mk t :
  wf_table key t → (∀ k, key (mk k) = k) →
  wf_table key (table_insert mk t).2.
Proof.
  intros [Hseq Hwf] Hmk. split; simpl; [lia|]. intros k r.
  rewrite lookup_insert_Some.
  intros [[<- <-]|[_ Hk%Hwf]]; [split; [done|lia]|lia].
Qed.

Lemma wf_table_alter key f t n :
  wf_table key t → (∀ r, key (f r) = key r) →
  wf_table key (Table (alter f n (rows t)) (seq t)).
Proof.
  intros [Hseq Hwf] Hf. split; [done|]. intros k r. simpl.
  rewrite lookup_alter_Some.
  intros [(-> & r' & Hr'%Hwf & ->)|[_ Hr%Hwf]]; [by rewrite Hf|done].
Qed.

Lemma wf_table_delete key t n :
  wf_table key t → wf_table key (Table (delete n (rows t)) (seq t)).
Proof.
  intros [Hseq Hwf]. split; [done|]. intros k r. simpl.
  rewrite lookup_delete_Some. intros [_ Hr]. by apply Hwf.
Qed.

End table.

(** ** The statements *)

Section statement_facts.
Context `{!Sqlite}.
Implicit Types (db : database) (name : jsstring).

(** *** Users *)

Lemma select_user_by_username_Some name db u :
  select_user_by_username name db = Some u →
  (∃ k, rows (user_table db) !! k = Some u)
  ∧ user_username u = numeric_affinity name.
Proof.
  unfold select_user_by_username. intros Hh%head_Some_elem_of.
  apply list_elem_of_filter in Hh as [Hname Hin]. by rewrite <- elem_of_table_rows.
Qed.

Lemma select_user_by_username_None name db :
  select_user_by_username name db = None ↔
  ∀ k u, rows (user_table db) !! k = Some u →
         user_username u ≠ numeric_affinity name.
Proof.
  unfold select_user_by_username. rewrite head_None. split.
  - intros Hnil k u Hk Hname.
    assert (u ∈ filter (λ u, user_username u = numeric_affinity name)
                       (table_rows (user_table db))) as Hin.
    { apply list_elem_of_filter. split; [done|]. apply elem_of_table_rows. eauto. }
    rewrite Hnil in Hin. by apply elem_of_nil in Hin.
  - intros Hno. apply elem_of_nil_inv. intros u [Hname Hin]%list_elem_of_filter.
    apply elem_of_table_rows in Hin as [k Hk]. by eapply Hno.
Qed.

Lemma select_user_by_username_unique name db k u :
  wf_db db → rows (user_table db) !! k = Some u →
  user_username u = numeric_affinity name →
  select_user_by_username name db = Some u.
Proof.
  intros Hwf Hk Hname.
  destruct (select_user_by_username name db) as [v|] eqn:Hsel.
  - apply select_user_by_username_Some in Hsel as [[j Hj] Hv].
    assert (k = j) as <- by (eapply (wf_unique _ Hwf); [done..|congruence]).
    congruence.
  - rewrite select_user_by_username_None in Hsel. by destruct (Hsel k u).
Qed.

Lemma insert_user_taken name hashed db u :
  select_user_by_username name db = Some u →
  insert_user name hashed db = (Throw SqliteError, db).
Proof. intros Hsel. unfold insert_user. by rewrite Hsel. Qed.

Lemma insert_user_free name hashed db :
  select_user_by_username name db = None →
  insert_user name hashed db
  = (Ok (seq (user_table db) + 1),
     Database (Table (<[seq (user_table db) + 1 :=
                        User (seq (user_table db) + 1) (numeric_affinity name)
                             (numeric_affinity hashed)]> (rows (user_table db)))
                     (seq (user_table db) + 1))
              (post_table db)).
Proof. intros Hsel. unfold insert_user. by rewrite Hsel. Qed.

Lemma insert_user_inv name hashed db r db' :
  insert_user name hashed db = (r, db') →
  (r = Throw SqliteError ∧ db' = db ∧ is_Some (select_user_by_username name db))
  ∨ (select_user_by_username name db = None
     ∧ r = Ok (seq (user_table db) + 1)
     ∧ post_table db' = post_table db
     ∧ seq (user_table db') = seq (user_table db) + 1
     ∧ rows (user_table db')
       = <[seq (user_table db) + 1 :=
             User (seq (user_table db) + 1) (numeric_affinity name)
                  (numeric_affinity hashed)]> (rows (user_table db))).
Proof.
  destruct (select_user_by_username name db) as [u|] eqn:Hsel.
  - rewrite (insert_user_taken _ _ _ u Hsel). intros [= <- <-]. left. eauto.
  - rewrite (insert_user_free _ _ _ Hsel). intros [= <- <-]. right. done.
Qed.


Lemma wf_user_inserted name hashed id :
  wf_user (User id (numeric_affinity name) (numeric_affinity hashed)).
Proof. split; apply numeric_affinity_stored. Qed.

Lemma insert_user_wf name hashed db :
  wf_db db → wf_db (insert_user name hashed db).2.
Proof.
  intros Hwf. destruct (insert_user name hashed db) as [r db'] eqn:Hins.
  apply insert_user_inv in Hins as [(_ & -> & _)|(Hfree & _ & Hp & Hseq & Hrows)];
    [done|]. simpl.
  rewrite select_user_by_username_None in Hfree.
  pose proof (wf_table_fresh _ _ (wf_users _ Hwf)) as Hfresh.
  destruct Hwf as [[Hs Hu] Hposts Huniq Hur Hpr].
  split; rewrite ?Hp.
  - split; [lia|]. intros k r'. rewrite Hrows, Hseq, lookup_insert_Some.
    intros [[<- <-]|[_ Hk%Hu]]; [split; [done|lia]|lia].
  - done.
  - intros i j u v. rewrite Hrows, !lookup_insert_Some.
    intros [[<- <-]|[? Hi]] [[<- <-]|[? Hj]] Heq; simpl in *; try done.
    + by destruct (Hfree j v).
    + by destruct (Hfree i u).
    + by eapply Huniq.
  - intros k u. rewrite Hrows, lookup_insert_Some.
    intros [[<- <-]|[_ Hk]]; [apply wf_user_inserted|by eapply Hur].
  - intros k p Hk. destruct (Hpr k p Hk) as (? & ? & [a Ha]).
    split_and!; [done..|]. rewrite Hrows.
    destruct (decide (seq (user_table db) + 1 = post_authorid p)) as [Heq|?];
      [rewrite <- Heq in Ha; congruence|]. by rewrite lookup_insert_ne.
Qed.

Lemma insert_user_select name hashed db id db' :
  wf_db db → insert_user name hashed db = (Ok id, db') →
  select_user_by_username name db'
  = Some (User id (numeric_affinity name) (numeric_affinity hashed))
  ∧ select_user_by_id id db'
    = Some (User id (numeric_affinity name) (numeric_affinity hashed)).
Proof.
  intros Hwf Hins. pose proof (insert_user_wf name hashed db Hwf) as Hwf'.
  rewrite Hins in Hwf'. simpl in Hwf'.
  apply insert_user_inv in Hins as [(? & _)|(_ & [= ->] & _ & _ & Hrows)]; [done|].
  assert (select_user_by_id (seq (user_table db) + 1) db'
          = Some (User (seq (user_table db) + 1) (numeric_affinity name)
                       (numeric_affinity hashed))) as Hid.
  { unfold select_user_by_id. by rewrite Hrows, lookup_insert_eq. }
  split; [|done]. by eapply select_user_by_username_unique.
Qed.

Lemma insert_user_keeps name hashed db k u :
  wf_db db → rows (user_table db) !! k = Some u →
  rows (user_table (insert_user name hashed db).2) !! k = Some u.
Proof.
  intros Hwf Hk. destruct (insert_user name hashed db) as [r db'] eqn:Hins.
  apply insert_user_inv in Hins as [(_ & -> & _)|(_ & _ & _ & _ & Hrows)]; [done|].
  simpl. rewrite Hrows, lookup_insert_ne; [done|].
  intros <-. by rewrite (wf_table_fresh _ _ (wf_users _ Hwf)) in Hk.
Qed.

Lemma insert_user_posts name hashed db :
  post_table (insert_user name hashed db).2 = post_table db.
Proof.
  destruct (insert_user name hashed db) as [r db'] eqn:Hins.
  by apply insert_user_inv in Hins as [(_ & -> & _)|(_ & _ & ? & _)].
Qed.


(** *** Posts *)

Lemma insert_post_inv created title body uid db r db' :
  insert_post created title body uid db = (r, db') →
  (r = Throw SqliteError ∧ db' = db ∧ select_user_by_id uid db = None)
  ∨ (is_Some (select_user_by_id uid db)
     ∧ r = Ok (seq (post_table db) + 1)
     ∧ user_table db' = user_table db
     ∧ seq (post_table db') = seq (post_table db) + 1
     ∧ rows (post_table db')
       = <[seq (post_table db) + 1 :=
             Post (seq (post_table db) + 1) created (numeric_affinity title)
                  (numeric_affinity body) uid]> (rows (post_table db))).
Proof.
  unfold insert_post. destruct (select_user_by_id uid db) as [u|] eqn:Hsel.
  - intros [= <- <-]. right. eauto 10.
  - intros [= <- <-]. left. done.
Qed.

Lemma insert_post_wf created title body uid db :
  wf_db db → wf_db (insert_post created title body uid db).2.
Proof.
  intros Hwf. destruct (insert_post created title body uid db) as [r db'] eqn:Hins.
  apply insert_post_inv in Hins as [(_ & -> & _)|(Hu & _ & Hut & Hseq & Hrows)];
    [done|]. simpl.
  destruct Hwf as [Husers [Hs Hp] Huniq Hur Hpr].
  split; unfold unique_usernames; rewrite ?Hut; try done.
  - split; [lia|]. intros k r'. rewrite Hrows, Hseq, lookup_insert_Some.
    intros [[<- <-]|[_ Hk%Hp]]; [split; [done|lia]|lia].
  - intros k p. rewrite Hrows, lookup_insert_Some. unfold wf_post. rewrite Hut.
    intros [[<- <-]|[_ Hk]]; [|by eapply Hpr].
    split_and!; [apply numeric_affinity_stored..|done].
Qed.

Lemma insert_post_select created title body uid db id db' :
  insert_post created title body uid db = (Ok id, db') →
  select_post_by_id (VNum id) db'
  = Some (Post id created (numeric_affinity title) (numeric_affinity body) uid).
Proof.
  intros [(? & _)|(_ & [= ->] & _ & _ & Hrows)]%insert_post_inv; [done|].
  unfold select_post_by_id. simpl. by rewrite Hrows, lookup_insert_eq.
Qed.

Lemma insert_post_keeps created title body uid db k p :
  wf_db db → rows (post_table db) !! k = Some p →
  rows (post_table (insert_post created title body uid db).2) !! k = Some p.
Proof.
  intros Hwf Hk. destruct (insert_post created title body uid db) as [r db'] eqn:Hins.
  apply insert_post_inv in Hins as [(_ & -> & _)|(_ & _ & _ & _ & Hrows)]; [done|].
  simpl. rewrite Hrows, lookup_insert_ne; [done|].
  intros <-. by rewrite (wf_table_fresh _ _ (wf_posts _ Hwf)) in Hk.
Qed.

Lemma insert_post_users created title body uid db :
  user_table (insert_post created title body uid db).2 = user_table db.
Proof.
  destruct (insert_post created title body uid db) as [r db'] eqn:Hins.
  by apply insert_post_inv in Hins as [(_ & -> & _)|(_ & _ & ? & _)].
Qed.

Lemma insert_post_fresh created title body uid db id db' k p :
  wf_db db → insert_post created title body uid db = (Ok id, db') →
  rows (post_table db) !! k = Some p → k < id.
Proof.
  intros Hwf [(? & _)|(_ & [= ->] & _)]%insert_post_inv Hk; [done|].
  apply (wf_posts _ Hwf) in Hk. lia.
Qed.

Lemma select_post_by_id_Some id db p :
  select_post_by_id id db = Some p ↔
  ∃ n, column_operand id = VNum n ∧ rows (post_table db) !! n = Some p.
Proof.
  unfold select_post_by_id.
  destruct (column_operand id) as [| |n| |]; split;
    try done; try (by intros (? & [=] & _)); [by eauto|].
  by intros (m & [= ->] & Hm).
Qed.

Lemma update_post_users title body id db :
  user_table (update_post title body id db) = user_table db.
Proof. unfold update_post. by destruct (column_operand id). Qed.

Lemma update_post_missing title body id db :
  select_post_by_id id db = None → update_post title body id db = db.
Proof.
  unfold select_post_by_id, update_post.
  destruct (column_operand id) as [| |n| |]; try done. intros Hn.
  rewrite alter_id; [by destruct db as [? []]|]. intros p. by rewrite Hn.
Qed.

Lemma update_post_lookup title body id db k :
  rows (post_table (update_post title body id db)) !! k
  = if decide (column_operand id = VNum k)
    then (λ p, Post (post_id p) (post_createdDate p) (numeric_affinity title)
                    (numeric_affinity body) (post_authorid p))
         <$> rows (post_table db) !! k
    else rows (post_table db) !! k.
Proof.
  unfold update_post. destruct (column_operand id) as [| |n| |] eqn:Hid;
    try by rewrite decide_False.
  simpl. rewrite lookup_alter. repeat case_decide; simplify_eq; done.
Qed.

Lemma update_post_wf title body id db :
  wf_db db → wf_db (update_post title body id db).
Proof.
  intros Hwf. unfold update_post. destruct (column_operand id) as [| |n| |]; try done.
  destruct Hwf as [Husers Hposts Huniq Hur Hpr]. split; simpl; try done.
  - by apply wf_table_alter.
  - intros k p. rewrite lookup_alter_Some. unfold wf_post. simpl.
    intros [(-> & q & Hq & ->)|[_ Hk]]; [|by eapply Hpr].
    destruct (Hpr _ _ Hq) as (_ & _ & Ha).
    split_and!; [apply numeric_affinity_stored..|done].
Qed.

Lemma delete_post_users id db : user_table (delete_post id db) = user_table db.
Proof. unfold delete_post. by destruct (column_operand id). Qed.

Lemma delete_post_missing id db :
  select_post_by_id id db = None → delete_post id db = db.
Proof.
  unfold select_post_by_id, delete_post.
  destruct (column_operand id) as [| |n| |]; try done. intros Hn.
  rewrite delete_id by done. by destruct db as [? []].
Qed.

Lemma delete_post_lookup id db k :
  rows (post_table (delete_post id db)) !! k
  = if decide (column_operand id = VNum k) then None
    else rows (post_table db) !! k.
Proof.
  unfold delete_post. destruct (column_operand id) as [| |n| |] eqn:Hid;
    try by rewrite decide_False.
  simpl. rewrite lookup_delete. repeat case_decide; simplify_eq; done.
Qed.

Lemma delete_post_select id db : select_post_by_id id (delete_post id db) = None.
Proof.
  unfold select_post_by_id. destruct (column_operand id) as [| |n| |] eqn:Hid;
    try done.
  by rewrite delete_post_lookup, Hid, decide_True.
Qed.

Lemma delete_post_idemp id db :
  delete_post id (delete_post id db) = delete_post id db.
Proof. apply delete_post_missing, delete_post_select. Qed.

Lemma delete_post_wf id db : wf_db db → wf_db (delete_post id db).
Proof.
  intros Hwf. unfold delete_post. destruct (column_operand id) as [| |n| |]; try done.
  destruct Hwf as [Husers Hposts Huniq Hur Hpr]. split; simpl; try done.
  - by apply wf_table_delete.
  - intros k p [_ Hk]%lookup_delete_Some. by eapply Hpr.
Qed.

(** AUTOINCREMENT: the id of a deleted post is not given to a post
    inserted later. *)
Lemma insert_post_after_delete created title body uid id db new db' :
  wf_db db → is_Some (select_post_by_id id db) →
  insert_post created title body uid (delete_post id db) = (Ok new, db') →
  column_operand id ≠ VNum new.
Proof.
  intros Hwf [p [n [Hid Hn]]%select_post_by_id_Some] Hins Heq.
  rewrite Hid in Heq. simplify_eq.
  apply insert_post_inv in Hins as [(? & _)|(_ & [= Hnew] & _)]; [done|].
  apply (wf_posts _ Hwf) in Hn. unfold delete_post in Hnew. rewrite Hid in Hnew.
  simpl in Hnew. lia.
Qed.

(** *** The dashboard query *)

#[local] Instance newer_first_total : Total newer_first.
Proof. intros p q. apply text_leb_total. Qed.

#[local] Instance newer_first_trans : Transitive newer_first.
Proof. intros p q r Hpq Hqr. eapply text_leb_trans; eauto. Qed.

Lemma select_posts_by_author_perm uid db :
  select_posts_by_author uid db
  ≡ₚ filter (λ p, post_authorid p = uid) (table_rows (post_table db)).
Proof. apply order_by_perm. Qed.

Lemma select_posts_by_author_sorted uid db :
  StronglySorted newer_first (select_posts_by_author uid db).
Proof. apply order_by_sorted; apply _. Qed.

Lemma elem_of_select_posts_by_author uid db p :
  p ∈ select_posts_by_author uid db ↔
  post_authorid p = uid ∧ ∃ k, rows (post_table db) !! k = Some p.
Proof.
  rewrite select_posts_by_author_perm, list_elem_of_filter.
  by rewrite elem_of_table_rows.
Qed.

End statement_facts.

(** The order of a sorted list, by positions. *)
Lemma StronglySorted_lookup {A} (R : relation A) l i j x y :
  StronglySorted R l → l !! i = Some x → l !! j = Some y → (i < j)%nat → R x y.
Proof.
  intros Hs Hi Hj Hij. rewrite <- (take_drop j l) in Hs.
  apply (StronglySorted_app_1_elem_of _ _ _ _ _ Hs).
  - apply list_elem_of_lookup. exists i. by rewrite lookup_take_lt.
  - apply list_elem_of_lookup. exists 0%nat. by rewrite lookup_drop, Nat.add_0_r.
Qed.

(** The dashboard query lists posts stamped by the clock from the latest
    time to the earliest. *)
Lemma select_posts_by_author_time_order `{!Sqlite, !Clock} uid db i j p q tp tq :
  select_posts_by_author uid db !! i = Some p →
  select_posts_by_author uid db !! j = Some q →
  (i < j)%nat →
  post_createdDate p = toISOString tp → post_createdDate q = toISOString tq →
  0 ≤ tp ≤ iso_max → 0 ≤ tq ≤ iso_max →
  tq ≤ tp.
Proof.
  intros Hi Hj Hij Hp Hq Htp Htq.
  pose proof (StronglySorted_lookup _ _ _ _ _ _
                (select_posts_by_author_sorted uid db) Hi Hj Hij) as Hle.
  unfold newer_first in Hle. rewrite Hp, Hq in Hle.
  destruct (Z.le_gt_cases tq tp) as [|Hlt]; [done|].
  assert (toISOString tp = toISOString tq) as Heq%toISOString_inj; [|lia..].
  apply text_leb_antisym; [|done]. apply toISOString_mono; lia.
Qed.

Lemma wf_db_empty : wf_db empty_db.
Proof.
  split; try apply wf_table_empty; intros ? *; simpl; by rewrite lookup_empty.
Qed.

(** ** Main theorems *)

Section store_theorems.
Context `{!Sqlite}.
Implicit Types (db : database) (name : jsstring).

(** Every statement of the server keeps the invariant of the schema:
    rows stay under their own id, ids stay within the AUTOINCREMENT counter,
    user names stay unique and every post keeps an existing author. *)
Theorem statements_keep_wf db name hashed created title body uid id :
  wf_db db →
  wf_db (insert_user name hashed db).2
  ∧ wf_db (insert_post created title body uid db).2
  ∧ wf_db (update_post title body id db)
  ∧ wf_db (delete_post id db).
Proof.
  intros Hwf. split_and!;
    [by apply insert_user_wf|by apply insert_post_wf
    |by apply update_post_wf|by apply delete_post_wf].
Qed.

(** In a well-formed database the lookup by user name returns a row
    exactly when that row is stored and its name is the stored form of the
    name looked up; it returns nothing exactly when no row has that name. *)
Theorem select_user_by_username_correct name db u :
  wf_db db →
  select_user_by_username name db = Some u ↔
  (∃ k, rows (user_table db) !! k = Some u)
  ∧ user_username u = numeric_affinity name.
Proof.
  intros Hwf. split; [apply select_user_by_username_Some|].
  intros [[k Hk] Hname]. by eapply select_user_by_username_unique.
Qed.

(** The dashboard query returns exactly the stored posts of the author,
    each as often as it is stored, ordered from the newest [createdDate] to
    the oldest. *)
Theorem select_posts_by_author_correct uid db :
  select_posts_by_author uid db
  ≡ₚ filter (λ p, post_authorid p = uid) (table_rows (post_table db))
  ∧ StronglySorted newer_first (select_posts_by_author uid db)
  ∧ ∀ p, p ∈ select_posts_by_author uid db ↔
         post_authorid p = uid ∧ ∃ k, rows (post_table db) !! k = Some p.
Proof.
  split_and!; [apply select_posts_by_author_perm
              |apply select_posts_by_author_sorted
              |apply elem_of_select_posts_by_author].
Qed.

(** UPDATE changes the title and the body of the post with the given id
    and nothing else: the post keeps its id, its date and its author, and
    every other post is left as it is. *)
Theorem update_post_only_title_body title body id db k p :
  rows (post_table (update_post title body id db)) !! k = Some p →
  ∃ q, rows (post_table db) !! k = Some q
       ∧ post_id p = post_id q
       ∧ post_createdDate p = post_createdDate q
       ∧ post_authorid p = post_authorid q
       ∧ (column_operand id ≠ VNum k → p = q)
       ∧ (column_operand id = VNum k →
          post_title p = numeric_affinity title
          ∧ post_body p = numeric_affinity body).
Proof.
  rewrite update_post_lookup. case_decide as Hid.
  - destruct (rows (post_table db) !! k) as [q|]; [|done]. intros [= <-].
    exists q. by split_and!.
  - intros Hk. exists p. by split_and!.
Qed.

(** UNIQUE on [username]: an INSERT whose name, as SQLite stores it,
    is the name of a stored user raises and changes nothing.  Names are
    compared in their stored form, so a name made of digits collides with
    every other spelling of the same number. *)
Theorem insert_user_unique name hashed db k u :
  rows (user_table db) !! k = Some u →
  user_username u = numeric_affinity name →
  insert_user name hashed db = (Throw SqliteError, db).
Proof.
  intros Hk Hname.
  destruct (select_user_by_username name db) as [v|] eqn:Hsel;
    [by eapply insert_user_taken|].
  rewrite select_user_by_username_None in Hsel. by destruct (Hsel k u).
Qed.

(** DELETE removes the post with the given id, if there is one, and
    nothing else: every other post and every user is left as it is, and so
    is the AUTOINCREMENT counter. *)
Theorem delete_post_only_that_post id db :
  user_table (delete_post id db) = user_table db
  ∧ seq (post_table (delete_post id db)) = seq (post_table db)
  ∧ ∀ k, rows (post_table (delete_post id db)) !! k
         = if decide (column_operand id = VNum k) then None
           else rows (post_table db) !! k.
Proof.
  split_and!; [apply delete_post_users| |apply delete_post_lookup].
  unfold delete_post. by destruct (column_operand id).
Qed.

End store_theorems.

Lemma statements_keep_wf_witness :
  wf_db (insert_user (js "bob22") (js "$h") example_users).2
  ∧ wf_db (insert_post (js "2024") (js "a") (js "b") 1 example_users).2
  ∧ wf_db (update_post (js "a") (js "b") (VNum 1) example_users)
  ∧ wf_db (delete_post (VNum 1) example_users).
Proof.
  apply (statements_keep_wf example_users).
  apply (insert_user_wf (js "alice1") (js "$hash") empty_db wf_db_empty).
Defined.

Lemma select_user_by_username_correct_witness :
  select_user_by_username (js "alice1") example_users
  = Some (User 1 (VStr (js "alice1")) (VStr (js "$hash")))
  ↔ (∃ k, rows (user_table example_users) !! k
          = Some (User 1 (VStr (js "alice1")) (VStr (js "$hash"))))
    ∧ VStr (js "alice1") = numeric_affinity (js "alice1").
Proof.
  apply (select_user_by_username_correct (js "alice1") example_users).
  apply (insert_user_wf (js "alice1") (js "$hash") empty_db wf_db_empty).
Defined.

Lemma update_post_only_title_body_witness :
  ∃ q, rows (post_table example_posts) !! 1 = Some q
       ∧ 1 = post_id q
       ∧ js "2024-01-01T00:00:00.000Z" = post_createdDate q
       ∧ 1 = post_authorid q
       ∧ (column_operand (VStr (js "1")) ≠ VNum 1 →
          Post 1 (js "2024-01-01T00:00:00.000Z") (VStr (js "New")) (VNum 42) 1 = q)
       ∧ (column_operand (VStr (js "1")) = VNum 1 →
          VStr (js "New") = numeric_affinity (js "New")
          ∧ VNum 42 = numeric_affinity (js "42")).
Proof.
  apply (update_post_only_title_body (js "New") (js "42") (VStr (js "1"))
           example_posts 1
           (Post 1 (js "2024-01-01T00:00:00.000Z") (VStr (js "New")) (VNum 42) 1)).
  reflexivity.
Defined.

(** A user whose name is a number, stored as the number. *)
Lemma insert_user_unique_witness :
  insert_user (js "0123") (js "$h")
    (insert_user (js "123") (js "$hash") empty_db).2
  = (Throw SqliteError, (insert_user (js "123") (js "$hash") empty_db).2).
Proof.
  apply (insert_user_unique (js "0123") (js "$h")
           (insert_user (js "123") (js "$hash") empty_db).2 1
           (User 1 (VNum 123) (VStr (js "$hash")))); reflexivity.
Defined.

Lemma insert_post_after_delete_witness :
  column_operand (VStr (js "1")) ≠ VNum 2.
Proof.
  apply (insert_post_after_delete (js "2024") (js "a") (js "b") 1 (VStr (js "1"))
           example_posts 2
           (insert_post (js "2024") (js "a") (js "b") 1
              (delete_post (VStr (js "1")) example_posts)).2).
  - apply insert_post_wf, insert_user_wf, wf_db_empty.
  - by eexists.
  - reflexivity.
Defined.
