(* ===== verification/Http.v ===== *)
(** * Requests and the response object

    What Express hands to a handler of server.js and what the handler does
    with it.

    - [request]: the parts of [req] the handlers read: [req.cookies] (as
      cookie-parser fills it), [req.body] (as the urlencoded and JSON
      parsers fill it; only the fields that are strings are kept, since a
      field of another type behaves like a missing one: [.trim()] raises
      [TypeError]), [req.params], and [req.user], which the authentication
      middleware assigns.  [req.userid], which lines 137, 155, 172 and 198
      read, is a property nobody assigns: it evaluates to [undefined].
    - [response]: the state of [res]: [res.locals], the cookies queued by
      [res.cookie] and [res.clearCookie], and what was sent.  [res_render]
      and [res_redirect] send the response; any of the four operations
      raises [ERR_HTTP_HEADERS_SENT] once a response was sent, as
      [setHeader] does.
    - [hstate], [handler]: a computation over the response, the database
      and the console of the process that can raise an exception;
      [outcome] is what the client receives.
    - [config], [config_of_env]: what the handlers read of [process.env]
      (the secret of the tokens and whether the process runs in
      production).
    - [console_log]: a call of [console.log] appends its arguments
      ([log_value]) to the console ([st_log]); [print_all] is a sequence
      of calls.
    - [preserving] and [writes_with] say what a computation may do to the
      database, [answers] that it sends the response before it returns,
      [quiet] that it neither writes nor sets a cookie; [solve_preserving],
      [solve_writes], [solve_answers] and [solve_quiet] prove them statement
      by statement. *)

From S2P Require Import Spec2Rocq JsString Platform Store.

Local Open Scope Z_scope.

(** ** Requests *)

Inductive method : Type := GET | POST.

#[export] Instance method_eq_dec : EqDecision method.
Proof. solve_decision. Defined.

Record request : Type := Request {
  req_method : method;
  req_path : list jsstring;
  req_cookies : gmap string jsstring;
  req_body : gmap string jsstring;
  req_params : gmap string jsstring;
  req_user : option claims;
}.

(** [req.user = u] *)
Definition set_user (u : option claims) (req : request) : request :=
  Request (req_method req) (req_path req) (req_cookies req) (req_body req)
          (req_params req) u.

(** [req.body.f = s] *)
Definition set_body (f : string) (s : jsstring) (req : request) : request :=
  Request (req_method req) (req_path req) (req_cookies req)
          (<[f := s]> (req_body req)) (req_params req) (req_user req).

(** [req.params = ps], by the router. *)
Definition set_params (ps : gmap string jsstring) (req : request) : request :=
  Request (req_method req) (req_path req) (req_cookies req) (req_body req)
          ps (req_user req).

(** [req.userid] *)
Definition req_userid (req : request) : value := VUndefined.

(** [req.params.id] as a value *)
Definition param_id (req : request) : value :=
  match req_params req !! "id"%string with
  | Some s => VStr s
  | None => VUndefined
  end.

(** The configuration read from the environment of the process:
    [process.env.JWTSECRET] and [process.env.NODE_ENV === "production"].
    The empty text stands for a secret that is unset too: the token
    library tests the secret for truthiness before it signs. *)
Record config : Type := Config {
  JWTSECRET : jsstring;
  production : bool;
}.

(** [process.env], which line 1 fills from the file .env: the variables
    that are set. *)
Definition process_env : Type := gmap string jsstring.

(** What the handlers read of the environment [vars]. *)
Definition config_of_env (vars : process_env) : config :=
  Config (default [] (vars !! "JWTSECRET"%string))
         (bool_decide (vars !! "NODE_ENV"%string = Some (js "production"))).

(** What a request reads from outside the program: the clock ([Date.now()],
    in milliseconds, read once per request) and the salt drawn by
    [bcrypt.genSaltSync(10)]. *)
Record env : Type := Env {
  now : Z;
  salt : jsstring;
}.

(** [Math.floor(Date.now() / 1000)] *)
Definition now_seconds (e : env) : Z := now e / 1000.

(** ** Responses *)

(** The object given to [res.render] beside the view's name. *)
Record render_options : Type := RenderOptions {
  opt_errors : option (list string);
  opt_posts : option (list post);
  opt_post : option post_with_username;
  opt_isAuthor : option bool;
}.

Definition no_options : render_options := RenderOptions None None None None.
Definition with_errors (errors : list string) : render_options :=
  RenderOptions (Some errors) None None None.
Definition with_posts (posts : list post) : render_options :=
  RenderOptions None (Some posts) None None.
Definition with_post (p : post_with_username) (isAuthor : option bool)
    : render_options :=
  RenderOptions None None (Some p) isAuthor.

(** A row of [post] given to a view: it has no [username] property. *)
Definition plain_post (p : post) : post_with_username :=
  PostWithUsername p VUndefined.

Record cookie_options : Type := CookieOptions {
  httpOnly : bool;
  secure : bool;
  sameSite : string;
  maxAge : option Z;
}.

Inductive cookie_header : Type :=
| SetCookie (name : string) (val : jsstring) (opts : cookie_options)
| ClearCookie (name : string) (opts : cookie_options).

Inductive sent : Type :=
| Rendered (view : string) (opts : render_options)
| Redirected (location : string).

Record response : Type := Response {
  locals_errors : list string;
  locals_user : option claims;
  res_cookies : list cookie_header;
  res_sent : option sent;
}.

(** The response object Express creates for a request. *)
Definition fresh_response : response := Response [] None [] None.

(** ** The console *)

(** An argument of [console.log]: a string (a literal or a concatenation),
    a number, [req.user] (the claims of the session or [false]), or a row
    of [post] with the name of its author. *)
Inductive log_value : Type :=
| LogString (s : jsstring)
| LogNumber (n : Z)
| LogUser (u : option claims)
| LogPost (p : post_with_username).

(** A call of [console.log]: its arguments. *)
Definition log_line : Type := list log_value.

(** ** Handlers *)

(** The state a handler runs on: the response object, the database and
    what the process has printed. *)
Record hstate : Type := HState {
  st_res : response;
  st_db : database;
  st_log : list log_line;
}.

Abbreviation handler := (eff hstate exn).

(** [res.locals.errors = errors] *)
Definition set_locals_errors (errors : list string) : handler unit :=
  modify_state (λ st,
    HState (Response errors (locals_user (st_res st)) (res_cookies (st_res st))
                     (res_sent (st_res st)))
           (st_db st) (st_log st)).

(** [res.locals.user = user] *)
Definition set_locals_user (user : option claims) : handler unit :=
  modify_state (λ st,
    HState (Response (locals_errors (st_res st)) user (res_cookies (st_res st))
                     (res_sent (st_res st)))
           (st_db st) (st_log st)).

(** [setHeader] once the headers are sent. *)
Definition check_headers : handler unit :=
  st ← get_state;
  match res_sent (st_res st) with
  | Some _ => throw ERR_HTTP_HEADERS_SENT
  | None => mret tt
  end.

(** The state once [s] is sent, and once the header [c] is queued. *)
Definition mark_sent (s : sent) (st : hstate) : hstate :=
  HState (Response (locals_errors (st_res st)) (locals_user (st_res st))
                   (res_cookies (st_res st)) (Some s))
         (st_db st) (st_log st).

Definition queue_header (c : cookie_header) (st : hstate) : hstate :=
  HState (Response (locals_errors (st_res st)) (locals_user (st_res st))
                   (res_cookies (st_res st) ++ [c]) (res_sent (st_res st)))
         (st_db st) (st_log st).

Definition send (s : sent) : handler unit :=
  check_headers;; modify_state (mark_sent s).

Definition add_header (c : cookie_header) : handler unit :=
  check_headers;; modify_state (queue_header c).

(** [res.render(view, opts)] *)
Definition res_render (view : string) (opts : render_options) : handler unit :=
  send (Rendered view opts).

(** [res.redirect(url)] *)
Definition res_redirect (url : string) : handler unit :=
  send (Redirected url).

(** [res.cookie(name, val, opts)] *)
Definition res_cookie (name : string) (val : jsstring) (opts : cookie_options)
    : handler unit :=
  add_header (SetCookie name val opts).

(** [res.clearCookie(name, opts)] *)
Definition res_clearCookie (name : string) (opts : cookie_options)
    : handler unit :=
  add_header (ClearCookie name opts).

(** A statement that reads the database. *)
Definition query {A} (q : database → A) : handler A :=
  st ← get_state; mret (q (st_db st)).

(** A statement that changes the database or raises. *)
Definition run {A} (q : database → result exn A * database) : handler A :=
  λ st, let '(r, db) := q (st_db st) in (r, HState (st_res st) db (st_log st)).

(** A statement that changes the database and cannot raise. *)
Definition exec (q : database → database) : handler unit :=
  modify_state (λ st, HState (st_res st) (q (st_db st)) (st_log st)).

(** The state once the lines [ls] are printed. *)
Definition printed (ls : list log_line) (st : hstate) : hstate :=
  HState (st_res st) (st_db st) (st_log st ++ ls).

(** [console.log(args)] *)
Definition console_log (args : log_line) : handler unit :=
  modify_state (printed [args]).

(** Calls of [console.log] that follow one another. *)
Definition print_all (ls : list log_line) : handler unit :=
  foldr (λ args rest, console_log args;; rest) (mret tt) ls.

#[global] Arguments print_all : simpl never.

(** The value of an expression that raises when it has none. *)
Definition lift_result {A} (r : result exn A) : handler A :=
  match r with
  | Ok a => mret a
  | Throw e => throw e
  end.

(** [o.p] where [o] may be [undefined] or [null]. *)
Definition property {A} (o : option A) : handler A :=
  match o with
  | Some a => mret a
  | None => throw TypeError
  end.

(** [req.body.f.trim()] and the other uses of a field as a string. *)
Definition body_field (f : string) (req : request) : handler jsstring :=
  property (req_body req !! f).

(** ** What the client receives *)

Inductive reply : Type :=
| Sent (s : sent)
| InternalServerError
| NotFound
| NoReply.

Record outcome : Type := Outcome {
  out_reply : reply;
  out_cookies : list cookie_header;
  out_error : option exn;
}.

(** ** Inputs of the examples *)

Definition example_config : config := Config (js "top secret") false.

(** The configuration of a process started without [JWTSECRET]. *)
Definition unset_config : config :=
  config_of_env {[ "NODE_ENV"%string := js "development" ]}.

Definition example_env : env := Env 1700000000000 (js "salt").

(** A form posted to [path] by a client that holds no cookie. *)
Definition example_form (path : string) (fields : list (string * string))
    : request :=
  Request POST [js path] ∅ (list_to_map (prod_map id js <$> fields)) ∅ None.

(** The request as the middleware hands it on for the session [c]. *)
Definition as_user (c : claims) (req : request) : request :=
  set_user (Some c) req.

(** The request as the router hands it on for the parameter [id]. *)
Definition with_id (id : string) (req : request) : request :=
  set_params {[ "id"%string := js id ]} req.

Definition example_state (db : database) : hstate :=
  HState fresh_response db [].

(** A computation that leaves the database as it is, whatever it returns. *)
Definition preserving {A} (m : handler A) : Prop :=
  ∀ st, st_db (m st).2 = st_db st.

(** A computation that leaves the database as it is or changes it as [Q]
    allows. *)
Definition writes_with {A} (Q : database → database → Prop) (m : handler A)
    : Prop :=
  ∀ st, st_db (m st).2 = st_db st ∨ Q (st_db st) (st_db (m st).2).

(** A computation that has sent the response whenever it returns. *)
Definition answers {A} (m : handler A) : Prop :=
  ∀ st a st', m st = (Ok a, st') → is_Some (res_sent (st_res st')).

(** A header that sets no cookie value. *)
Definition is_clear (c : cookie_header) : bool :=
  match c with ClearCookie _ _ => true | SetCookie _ _ _ => false end.

(** The second state has the database of the first and its cookies,
    followed by headers that clear cookies. *)
Definition hushed (st st' : hstate) : Prop :=
  st_db st' = st_db st
  ∧ ∃ cs, res_cookies (st_res st') = res_cookies (st_res st) ++ cs
          ∧ forallb is_clear cs = true.

(** A computation whose final state is related to its initial state by [R]. *)
Definition stable (R : relation hstate) {A} (m : handler A) : Prop :=
  ∀ st, R st (m st).2.

(** A computation that writes nothing and grants no session. *)
Definition quiet {A} (m : handler A) : Prop := stable hushed m.

(** ** The response object *)

Definition headers_sent (st : hstate) : bool :=
  bool_decide (is_Some (res_sent (st_res st))).

Lemma send_fresh s st :
  res_sent (st_res st) = None → send s st = (Ok tt, mark_sent s st).
Proof. intros Hs. unfold send, check_headers. eff_unfold. by rewrite Hs. Qed.

Lemma send_sent s st :
  is_Some (res_sent (st_res st)) → send s st = (Throw ERR_HTTP_HEADERS_SENT, st).
Proof. intros [s' Hs]. unfold send, check_headers. eff_unfold. by rewrite Hs. Qed.

Lemma add_header_fresh c st :
  res_sent (st_res st) = None → add_header c st = (Ok tt, queue_header c st).
Proof. intros Hs. unfold add_header, check_headers. eff_unfold. by rewrite Hs. Qed.

Lemma add_header_sent c st :
  is_Some (res_sent (st_res st)) →
  add_header c st = (Throw ERR_HTTP_HEADERS_SENT, st).
Proof. intros [s' Hs]. unfold add_header, check_headers. eff_unfold. by rewrite Hs. Qed.

(** A response is sent at most once: a second [res.render] or
    [res.redirect] raises [ERR_HTTP_HEADERS_SENT] and leaves the first
    response and the database in place. *)
Lemma send_twice s1 s2 st :
  res_sent (st_res st) = None →
  ∃ st', (send s1;; send s2) st = (Throw ERR_HTTP_HEADERS_SENT, st')
         ∧ res_sent (st_res st') = Some s1 ∧ st_db st' = st_db st.
Proof.
  intros Hs. exists (send s1 st).2.
  rewrite (eff_bind_ok _ _ _ _ _ (send_fresh s1 st Hs)), (send_fresh s1 st Hs).
  by rewrite send_sent by (simpl; eauto).
Qed.

Lemma send_db s st : st_db (send s st).2 = st_db st.
Proof.
  destruct (res_sent (st_res st)) eqn:Hs.
  - by rewrite send_sent.
  - by rewrite send_fresh.
Qed.

Lemma add_header_db c st : st_db (add_header c st).2 = st_db st.
Proof.
  destruct (res_sent (st_res st)) eqn:Hs.
  - by rewrite add_header_sent.
  - by rewrite add_header_fresh.
Qed.


(** ** Computations that do not write *)

Section preserving.
Context {A B : Type}.

Lemma preserving_ret (a : A) : preserving (mret a).
Proof. done. Qed.

Lemma preserving_throw (e : exn) : preserving (@throw _ _ A e).
Proof. done. Qed.

Lemma preserving_bind (m : handler A) (f : A → handler B) :
  preserving m → (∀ a, preserving (f a)) → preserving (m ≫= f).
Proof.
  intros Hm Hf st. specialize (Hm st). eff_unfold.
  destruct (m st) as [[a|e] st']; simpl in *; [|done]. by rewrite Hf.
Qed.

Lemma preserving_fmap (g : A → B) (m : handler A) :
  preserving m → preserving (g <$> m).
Proof. intros Hm. by apply preserving_bind. Qed.

Lemma preserving_try_catch (m : handler A) (h : exn → handler A) :
  preserving m → (∀ e, preserving (h e)) → preserving (try_catch m h).
Proof.
  intros Hm Hh st. specialize (Hm st). unfold try_catch.
  destruct (m st) as [[a|e] st']; simpl in *; [done|]. by rewrite Hh.
Qed.

Lemma preserving_query (q : database → A) : preserving (query q).
Proof. done. Qed.

Lemma preserving_property (o : option A) : preserving (property o).
Proof. by destruct o. Qed.

Lemma preserving_lift_result (r : result exn A) : preserving (lift_result r).
Proof. by destruct r. Qed.

End preserving.

Lemma preserving_send s : preserving (send s).
Proof. intros st. apply send_db. Qed.

Lemma preserving_add_header c : preserving (add_header c).
Proof. intros st. apply add_header_db. Qed.

Lemma preserving_set_locals_errors errors : preserving (set_locals_errors errors).
Proof. done. Qed.

Lemma preserving_set_locals_user user : preserving (set_locals_user user).
Proof. done. Qed.

Lemma preserving_console_log args : preserving (console_log args).
Proof. done. Qed.

Lemma print_all_run ls st : print_all ls st = (Ok tt, printed ls st).
Proof.
  revert st. induction ls as [|args ls IH]; intros st.
  - unfold printed. rewrite app_nil_r. by destruct st.
  - unfold print_all. cbn [foldr]. fold (print_all ls). unfold console_log.
    eff_unfold. rewrite IH. unfold printed. simpl. by rewrite <- app_assoc.
Qed.

Lemma preserving_print_all ls : preserving (print_all ls).
Proof. intros st. by rewrite print_all_run. Qed.

#[export] Hint Resolve preserving_ret preserving_throw preserving_query
  preserving_property preserving_lift_result preserving_send
  preserving_add_header preserving_set_locals_errors preserving_set_locals_user
  preserving_console_log preserving_print_all : blog.

(** Decompose a handler into its statements and close each with the hints. *)
Ltac preserving_step :=
  match goal with
  | |- preserving (_ ≫= _) => apply preserving_bind; [|intros ?]
  | |- preserving (_ <$> _) => apply preserving_fmap
  | |- preserving (try_catch _ _) => apply preserving_try_catch; [|intros ?]
  | |- preserving (match ?x with _ => _ end) => destruct x
  | |- preserving (let _ := _ in _) => cbv zeta
  | |- preserving _ => solve [auto with blog]
  end.

Ltac solve_preserving := repeat preserving_step.

Lemma preserving_res_render v o : preserving (res_render v o).
Proof. apply preserving_send. Qed.

Lemma preserving_res_redirect u : preserving (res_redirect u).
Proof. apply preserving_send. Qed.

Lemma preserving_res_cookie n v o : preserving (res_cookie n v o).
Proof. apply preserving_add_header. Qed.

Lemma preserving_res_clearCookie n o : preserving (res_clearCookie n o).
Proof. apply preserving_add_header. Qed.

Lemma preserving_body_field f req : preserving (body_field f req).
Proof. apply preserving_property. Qed.

#[export] Hint Resolve preserving_res_render preserving_res_redirect
  preserving_res_cookie preserving_res_clearCookie preserving_body_field : blog.

Lemma preserving_bind_db {A B} (m : handler A) (f : A → handler B) st :
  (∀ a, preserving (f a)) → st_db ((m ≫= f) st).2 = st_db (m st).2.
Proof.
  intros Hf. eff_unfold. destruct (m st) as [[a|e] st']; simpl; [|done].
  by rewrite Hf.
Qed.

(** The database after a write followed by statements that do not write. *)
Lemma run_bind_db {A B} (q : database → result exn A * database)
    (f : A → handler B) st :
  (∀ a, preserving (f a)) → st_db ((run q ≫= f) st).2 = (q (st_db st)).2.
Proof.
  intros Hf. unfold run. eff_unfold.
  destruct (q (st_db st)) as [[a|e] db']; simpl; [|done]. by rewrite Hf.
Qed.

(** ** Computations that write *)

Section writes.
Context {A B : Type} (Q : database → database → Prop).

Lemma writes_with_preserving (m : handler A) : preserving m → writes_with Q m.
Proof. intros Hm st. by left. Qed.

Lemma writes_with_bind (m : handler A) (f : A → handler B) :
  preserving m → (∀ a, writes_with Q (f a)) → writes_with Q (m ≫= f).
Proof.
  intros Hm Hf st. specialize (Hm st). eff_unfold.
  destruct (m st) as [[a|e] st']; simpl in *; [|by left].
  rewrite <- Hm. apply Hf.
Qed.

Lemma writes_with_run (q : database → result exn A * database) (f : A → handler B) :
  (∀ db, Q db (q db).2) → (∀ a, preserving (f a)) → writes_with Q (run q ≫= f).
Proof. intros Hq Hf st. right. rewrite run_bind_db by done. apply Hq. Qed.

Lemma writes_with_ret_bind (a : A) (f : A → handler B) :
  writes_with Q (f a) → writes_with Q (property (Some a) ≫= f).
Proof. intros Hf st. apply Hf. Qed.

End writes.

Ltac writes_step :=
  match goal with
  | |- writes_with _ (run _ ≫= _) =>
      apply writes_with_run; [intros ?|intros ?; solve_preserving]
  | |- writes_with _ (property (Some _) ≫= _) => apply writes_with_ret_bind
  | |- writes_with _ (_ ≫= _) =>
      apply writes_with_bind; [solve_preserving|intros ?]
  | |- writes_with _ (match ?x with _ => _ end) => destruct x
  | |- writes_with _ (let _ := _ in _) => cbv zeta
  | |- writes_with _ _ => apply writes_with_preserving; solve_preserving
  end.

Ltac solve_writes := repeat writes_step.

(** ** Computations that answer *)

Section answers.
Context {A B : Type}.

Lemma answers_send s : answers (send s).
Proof.
  intros st a st'. destruct (res_sent (st_res st)) eqn:Hs.
  - by rewrite send_sent.
  - rewrite send_fresh by done. intros [= _ <-]. simpl. eauto.
Qed.

Lemma answers_throw (e : exn) : answers (@throw _ _ A e).
Proof. by intros st a st'. Qed.

Lemma answers_bind (m : handler A) (f : A → handler B) :
  (∀ a, answers (f a)) → answers (m ≫= f).
Proof.
  intros Hf st b st'. eff_unfold.
  destruct (m st) as [[a|e] st1]; [apply Hf|done].
Qed.

Lemma answers_seq_ret (m : handler A) (b : B) st :
  answers m →
  match (m;; mret b) st with
  | (Ok _, st') => is_Some (res_sent (st_res st'))
  | (Throw _, _) => True
  end.
Proof.
  intros Hm. specialize (Hm st). eff_unfold.
  destruct (m st) as [[a|e] st']; [by eapply Hm|done].
Qed.

End answers.

Ltac answers_step :=
  match goal with
  | |- answers (_ ≫= _) => apply answers_bind; intros ?
  | |- answers (match ?x with _ => _ end) => destruct x
  | |- answers (let _ := _ in _) => cbv zeta
  | |- answers (throw _) => apply answers_throw
  | |- answers (res_render _ _) => apply answers_send
  | |- answers (res_redirect _) => apply answers_send
  end.

Ltac solve_answers := repeat answers_step.

(** ** Computations that write nothing and grant no session *)

#[export] Instance hushed_preorder : PreOrder hushed.
Proof.
  split.
  - intros st. split; [done|]. exists []. by rewrite app_nil_r.
  - intros a b c [Hdb (cs & Hcs & Hclear)] [Hdb' (cs' & Hcs' & Hclear')].
    split; [congruence|]. exists (cs ++ cs').
    rewrite Hcs', Hcs, app_assoc, forallb_app, Hclear, Hclear'. done.
Qed.

Section stable.
Context (R : relation hstate) `{!PreOrder R}.
Context {A B : Type}.

Lemma stable_ret (a : A) : stable R (mret a).
Proof. by intros st. Qed.

Lemma stable_throw (e : exn) : stable R (@throw _ _ A e).
Proof. by intros st. Qed.

Lemma stable_bind (m : handler A) (f : A → handler B) :
  stable R m → (∀ a, stable R (f a)) → stable R (m ≫= f).
Proof.
  intros Hm Hf st. specialize (Hm st). eff_unfold.
  destruct (m st) as [[a|e] st']; simpl in *; [|done]. etrans; [done|apply Hf].
Qed.

Lemma stable_fmap (g : A → B) (m : handler A) : stable R m → stable R (g <$> m).
Proof. intros Hm. apply stable_bind; [done|]. intros a st. done. Qed.

Lemma stable_query (q : database → A) : stable R (query q).
Proof. by intros st. Qed.

Lemma stable_property (o : option A) : stable R (property o).
Proof. destruct o; by intros st. Qed.

Lemma stable_lift_result (r : result exn A) : stable R (lift_result r).
Proof. destruct r; by intros st. Qed.

Lemma stable_try_catch (m : handler A) (h : exn → handler A) :
  stable R m → (∀ x, stable R (h x)) → stable R (try_catch m h).
Proof.
  intros Hm Hh st. specialize (Hm st). unfold try_catch.
  destruct (m st) as [[a|x] st']; [done|]. etrans; [done|apply Hh].
Qed.

End stable.

(** The steps that are the same for every relation. *)
Ltac stable_step :=
  match goal with
  | |- stable ?R (_ ≫= _) => apply (stable_bind R); [|intros ?]
  | |- stable ?R (_ <$> _) => apply (stable_fmap R)
  | |- stable ?R (try_catch _ _) => apply (stable_try_catch R); [|intros ?]
  | |- stable _ (match ?x with _ => _ end) => destruct x
  | |- stable _ (let _ := _ in _) => cbv zeta
  | |- stable ?R (mret _) => apply (stable_ret R)
  | |- stable ?R (throw _) => apply (stable_throw R)
  | |- stable ?R (query _) => apply (stable_query R)
  | |- stable ?R (property _) => apply (stable_property R)
  | |- stable ?R (body_field _ _) => apply (stable_property R)
  | |- stable ?R (lift_result _) => apply (stable_lift_result R)
  end.

Lemma quiet_send s : quiet (send s).
Proof.
  intros st. destruct (res_sent (st_res st)) eqn:Hs.
  - by rewrite send_sent.
  - rewrite send_fresh by done. split; [done|]. exists []. by rewrite app_nil_r.
Qed.

Lemma quiet_console_log args : quiet (console_log args).
Proof. intros st. split; [done|]. exists []. by rewrite app_nil_r. Qed.

Lemma quiet_print_all ls : quiet (print_all ls).
Proof.
  intros st. rewrite print_all_run. split; [done|]. exists [].
  by rewrite app_nil_r.
Qed.

Lemma quiet_clearCookie n o : quiet (res_clearCookie n o).
Proof.
  intros st. unfold res_clearCookie. destruct (res_sent (st_res st)) eqn:Hs.
  - by rewrite add_header_sent.
  - rewrite add_header_fresh by done. split; [done|]. by eexists [_].
Qed.

Ltac quiet_step :=
  match goal with
  | |- quiet _ => unfold quiet
  | |- stable hushed _ => stable_step
  | |- stable hushed (res_render _ _) => apply quiet_send
  | |- stable hushed (res_redirect _) => apply quiet_send
  | |- stable hushed (res_clearCookie _ _) => apply quiet_clearCookie
  | |- stable hushed (console_log _) => apply quiet_console_log
  | |- stable hushed (print_all _) => apply quiet_print_all
  end.

Ltac solve_quiet := repeat quiet_step.

(** ** The theorems on the examples *)

Lemma send_twice_witness :
  ∃ st', (send (Redirected "/");; send (Redirected "/post/1"))
           (example_state empty_db)
         = (Throw ERR_HTTP_HEADERS_SENT, st')
         ∧ res_sent (st_res st') = Some (Redirected "/")
         ∧ st_db st' = st_db (example_state empty_db).
Proof.
  apply (send_twice (Redirected "/") (Redirected "/post/1")
           (example_state empty_db)). reflexivity.
Defined.
