(* ===== verification/Auth.v ===== *)
(** * Authentication: the middleware and the login gate

    - [authenticate] is the middleware of lines 46-64, run before every
      route: it resets [res.locals.errors], decodes the cookie
      [ourSimpleApp] with [jwt.verify] inside a [try], assigns [req.user]
      (the claims, or [null] when the cookie is absent, empty or does not
      verify) and copies it to [res.locals.user].
    - [mustBeLoggedIn] is the gate of lines 67-72: it runs the next handler
      when [req.user] is set and redirects to ["/"] otherwise.

    [session] is the identity a request carries, as a function of its
    cookie; the middleware is proved to compute it, never to raise and never
    to answer the request itself. *)

From S2P Require Import Spec2Rocq JsString Platform Store Http.

Local Open Scope Z_scope.

Section auth.
Context `{!Jwt}.
Variable cfg : config.

Definition authenticate (e : env) (req : request) : handler request :=
  set_locals_errors [];;
  user ← try_catch
    (match req_cookies req !! "ourSimpleApp"%string with
     | Some token =>
         if truthy token then
           decoded ← lift_result (jwt_verify token (JWTSECRET cfg) (now_seconds e));
           mret (Some decoded)
         else mret None
     | None => mret None
     end)
    (λ _, mret None);
  set_locals_user user;;
  mret (set_user user req).

Definition mustBeLoggedIn (req : request) (next : handler unit) : handler unit :=
  match req_user req with
  | Some _ => next
  | None => res_redirect "/"
  end.

(** The identity of a request: the claims of its session cookie when the
    cookie verifies at the time of the request. *)
Definition session (e : env) (req : request) : option claims :=
  token ← req_cookies req !! "ourSimpleApp"%string;
  c ← jwt_decode token (JWTSECRET cfg);
  if bool_decide (now_seconds e < exp c) then Some c else None.

(** ** The middleware *)

(** The middleware computes [session], never raises, leaves the database
    alone and does not answer the request. *)
Lemma authenticate_run e req st :
  authenticate e req st
  = (Ok (set_user (session e req) req),
     HState (Response [] (session e req) (res_cookies (st_res st))
                      (res_sent (st_res st)))
            (st_db st) (st_log st)).
Proof.
  unfold authenticate, session. eff_unfold.
  destruct (req_cookies req !! "ourSimpleApp"%string) as [[|c token]|]; simpl;
    [by rewrite jwt_decode_nil| |done].
  unfold jwt_verify. destruct (jwt_decode _ _) as [d|]; simpl; [|done].
  destruct (Z.leb_spec (exp d) (now_seconds e)); simpl.
  - by rewrite bool_decide_false by lia.
  - by rewrite bool_decide_true.
Qed.

Lemma session_Some e req c :
  session e req = Some c ↔
  ∃ token, req_cookies req !! "ourSimpleApp"%string = Some token
           ∧ jwt_verify token (JWTSECRET cfg) (now_seconds e) = Ok c.
Proof.
  unfold session.
  destruct (req_cookies req !! "ourSimpleApp"%string) as [token|]; simpl;
    [|by split; [|intros (? & [=] & _)]].
  split.
  - destruct (jwt_decode token (JWTSECRET cfg)) as [d|] eqn:Hd; simpl; [|done].
    case_bool_decide; [|done]. intros [= ->]. exists token.
    by rewrite jwt_verify_Ok.
  - intros (tok & [= <-] & [Hd Hlt]%jwt_verify_Ok). rewrite Hd. simpl.
    by rewrite bool_decide_true.
Qed.

(** A cookie the server signed is accepted until its expiry and refused
    from then on. *)
Lemma session_signed e req ex uid name t0 :
  req_cookies req !! "ourSimpleApp"%string
  = Some (jwt_token ex uid name (JWTSECRET cfg) t0) →
  session e req
  = if bool_decide (now_seconds e < ex)
    then Some (Claims ex uid name t0) else None.
Proof.
  intros Hc. unfold session. rewrite Hc. unfold jwt_token. simpl.
  by rewrite jwt_decode_encode.
Qed.

(** ** The gate *)

Lemma mustBeLoggedIn_anonymous req next st :
  req_user req = None → mustBeLoggedIn req next st = res_redirect "/" st.
Proof. intros Hu. unfold mustBeLoggedIn. by rewrite Hu. Qed.

Lemma mustBeLoggedIn_user req next st c :
  req_user req = Some c → mustBeLoggedIn req next st = next st.
Proof. intros Hu. unfold mustBeLoggedIn. by rewrite Hu. Qed.

(** Whatever the next handler does, the gate lets an anonymous request
    change nothing in the database. *)
Lemma mustBeLoggedIn_db req next st :
  st_db (mustBeLoggedIn req next st).2 ≠ st_db st → is_Some (req_user req).
Proof.
  destruct (req_user req) eqn:Hu; [by eauto|].
  rewrite mustBeLoggedIn_anonymous by done. unfold res_redirect.
  by rewrite send_db.
Qed.

Lemma preserving_authenticate e req : preserving (authenticate e req).
Proof. unfold authenticate. solve_preserving. Qed.

Lemma preserving_mustBeLoggedIn req next :
  preserving next → preserving (mustBeLoggedIn req next).
Proof. intros. unfold mustBeLoggedIn. solve_preserving. Qed.

(** C5: the middleware never raises and never answers the request; it
    resets [res.locals.errors], and hands on the request with [req.user]
    (copied to [res.locals.user]) set to the claims of the session cookie
    exactly when the cookie is present and [jwt.verify] accepts it at the
    time of the request, and to [null] otherwise.  The database, the
    queued cookies and the console are untouched. *)
Theorem authenticate_sound e req st :
  ∃ user,
    authenticate e req st
    = (Ok (set_user user req),
       HState (Response [] user (res_cookies (st_res st)) (res_sent (st_res st)))
              (st_db st) (st_log st))
    ∧ ∀ c, user = Some c ↔
           ∃ token, req_cookies req !! "ourSimpleApp"%string = Some token
                    ∧ jwt_verify token (JWTSECRET cfg) (now_seconds e) = Ok c.
Proof.
  exists (session e req). split; [apply authenticate_run|]. apply session_Some.
Qed.

End auth.

#[export] Hint Resolve preserving_authenticate preserving_mustBeLoggedIn : blog.
