(* ===== verification/Handlers.v ===== *)
(** * The route handlers

    One definition per route of server.js, statement by statement, the
    login gate included where the route has it:

    - [get_home]           GET /                 lines 75-82
    - [get_logout]         GET /logout           lines 84-91
    - [get_create_post]    GET /create-post      lines 93-95
    - [post_create_post]   POST /create-post     lines 97-122
    - [get_post]           GET /post/:id         lines 124-140
    - [get_edit_post]      GET /edit-post/:id    lines 142-162
    - [post_edit_post]     POST /edit-post/:id   lines 164-188
    - [post_delete_post]   POST /delete-post/:id lines 190-206
    - [post_register]      POST /register        lines 207-256
    - [get_login]          GET /login            lines 258-260
    - [post_login]         POST /login           lines 262-301

    [start_session] is what the registration and the login end with
    (lines 239-255 and 284-300): [jwt.sign], which raises when the process
    has no secret, then the session cookie and the redirect.

    A [return] ends the handler; a call of [res.redirect] or [res.render]
    that is not returned does not: the statements after it run, and the
    next attempt to send raises.  Reading a property of [undefined] raises
    [TypeError]; calling [sharedPostValidation] (line 176) or reading
    [params] (line 187), which nothing defines, raises [ReferenceError].

    The calls of [console.log] are statements of the handlers: line 104
    ([user_line]) and line 116 ([author_line]) in [post_create_post], line
    136 in [get_post], lines 152 and 153 ([owner_lines]) in
    [get_edit_post], where line 153 prints [post.userId], a column the
    table does not have.

    The validation of the two forms is kept apart from the handlers
    ([post_errors], [register_errors]) so that it can be stated on its own.

    The lemmas named [*_run] compute a handler on a fresh response, branch
    by branch; the lemmas named [preserving_*] and [*_db] say what each
    handler may write.  The theorems of the last part state the behaviour
    of the forms (registration, login, new post), of the login gate, of the
    session cookie and of the owner check, each applied to the example
    requests defined after the handlers. *)

From stdpp Require Import pretty.
From S2P Require Import Spec2Rocq JsString Platform Calendar Store Http Auth.

Local Open Scope Z_scope.

Section handlers.
Context `{!Sqlite, !Bcrypt, !Jwt, !Clock}.
Variable cfg : config.

(** The options of the session cookie (lines 248-253, 293-298) and of its
    removal (lines 85-89). *)
Definition session_cookie_options : cookie_options :=
  CookieOptions true (production cfg) "strict" (Some (1000 * 60 * 60 * 24)).

Definition clear_cookie_options : cookie_options :=
  CookieOptions true (production cfg) "strict" None.

(** [errors.push(msg)] when [cond] holds. *)
Definition push_if (cond : bool) (msg : string) (errors : list string)
    : list string :=
  if cond then errors ++ [msg] else errors.

(** Lines 98-101: the errors of a new post. *)
Definition post_errors (title body : jsstring) : list string :=
  push_if (negb (truthy (trim body))) "Add a body"
    (push_if (negb (truthy (trim title))) "Add a title" []).

(** Lines 208-226: the errors of a registration, given whether the name is
    taken. *)
Definition register_errors (taken : bool) (username password : jsstring)
    : list string :=
  push_if ((js_length password <? 6) || (70 <? js_length password))
          "Password should be 6-70 characters long"
    (push_if (negb (test_alnum username))
             "Username should only contain letters and numbers"
       (push_if ((js_length username <? 3) || (10 <? js_length username))
                "Username should be 3-10 characters long"
          (push_if taken "User already exists" []))).

(** [errors.length] in a condition. *)
Definition has_errors (errors : list string) : bool :=
  match errors with [] => false | _ :: _ => true end.

(** Lines 239-255 and 284-300: sign a token for the user, set the session
    cookie, redirect home. *)
Definition start_session (e : env) (u : user) : handler unit :=
  ourTokenValue ←
    lift_result (jwt_sign (now_seconds e + 60 * 60 * 24) (user_id u)
                          (user_username u) (JWTSECRET cfg) (now_seconds e));
  res_cookie "ourSimpleApp" ourTokenValue session_cookie_options;;
  res_redirect "/".

(** [bcrypt.compareSync(password, hash)] where [hash] was read from a row. *)
Definition compare_password (password : jsstring) (hash : value) : handler bool :=
  match hash with
  | VStr h => mret (compareSync password h)
  | _ => throw BcryptError
  end.

(** Line 176: [sharedPostValidation] is not defined. *)
Definition sharedPostValidation (req : request) : handler (list string) :=
  throw ReferenceError.

(** Line 104: [console.log("User object:", req.user)], and line 116:
    [console.log("Creating post with author ID:", req.user.userId)]. *)
Definition user_line (u : option claims) : log_line :=
  [LogString (js "User object:"); LogUser u].

Definition author_line (id : Z) : log_line :=
  [LogString (js "Creating post with author ID:"); LogNumber id].

(** Lines 152-153: ["aurthorid:" + post.authorid] and
    ["userid:" + post.userId]; a row of [post] has no property [userId]. *)
Definition owner_lines (p : post) : list log_line :=
  [[LogString (js "aurthorid:" ++ js (pretty (post_authorid p)))];
   [LogString (js "userid:undefined")]].

(** Lines 144-157, 165-174, 191-200: fetch the post and check its owner;
    [lines] is what the route prints between the two (lines 152-153, in
    the edit form only). *)
Definition fetch_owned_post (req : request) (lines : post → list log_line)
    (k : post → handler unit) : handler unit :=
  post ← query (select_post_by_id (param_id req));
  (if post is Some _ then res_redirect "/" else mret tt);;
  p ← property post;
  print_all (lines p);;
  if strict_neq (VNum (post_authorid p)) (req_userid req)
  then res_redirect "/"
  else k p.

Definition get_home (req : request) : handler unit :=
  match req_user req with
  | Some user =>
      posts ← query (select_posts_by_author (userId user));
      res_render "dashboard" (with_posts posts)
  | None => res_render "homepage" no_options
  end.

Definition get_logout (req : request) : handler unit :=
  res_clearCookie "ourSimpleApp" clear_cookie_options;;
  res_redirect "/".

Definition get_create_post (req : request) : handler unit :=
  mustBeLoggedIn req (res_render "create-post" no_options).

Definition post_create_post (e : env) (req : request) : handler unit :=
  mustBeLoggedIn req (
    title ← body_field "title" req;
    body ← body_field "body" req;
    let errors := post_errors title body in
    if has_errors errors then res_render "create-post" (with_errors errors)
    else
      console_log (user_line (req_user req));;
      user ← property (req_user req);
      result ← run (insert_post (toISOString (now e)) title body (userId user));
      console_log (author_line (userId user));;
      realPost ← query (select_post_by_id (VNum result)) ≫= property;
      res_redirect ("/post/" +:+ pretty (post_id realPost))).

Definition get_post (req : request) : handler unit :=
  post ← query (select_post_with_author (param_id req));
  match post with
  | None => res_redirect "/"
  | Some post =>
      console_log [LogPost post];;
      let isAuthor :=
        strict_eq (VNum (post_authorid (joined_post post))) (req_userid req) in
      res_render "single-post" (with_post post (Some isAuthor))
  end.

Definition get_edit_post (req : request) : handler unit :=
  mustBeLoggedIn req (
    fetch_owned_post req owner_lines (λ p,
      res_render "edit-post" (with_post (plain_post p) None))).

Definition post_edit_post (req : request) : handler unit :=
  mustBeLoggedIn req (
    fetch_owned_post req (λ _, []) (λ p,
      errors ← sharedPostValidation req;
      if has_errors errors then res_render "edit-post" (with_errors errors)
      else
        title ← body_field "title" req;
        body ← body_field "body" req;
        exec (update_post title body (param_id req));;
        params_id ← throw ReferenceError;
        res_redirect ("/post/" +:+ params_id))).

Definition post_delete_post (req : request) : handler unit :=
  mustBeLoggedIn req (
    fetch_owned_post req (λ _, []) (λ p,
      exec (delete_post (param_id req));;
      res_redirect "/")).

Definition post_register (e : env) (req : request) : handler unit :=
  username ← trim <$> body_field "username" req;
  password ← trim <$> body_field "password" req;
  existing ← query (select_user_by_username username);
  let errors := register_errors (bool_decide (is_Some existing)) username password in
  if has_errors errors then res_render "homepage" (with_errors errors)
  else
    let hashedPassword := hashSync password (salt e) in
    result ← run (insert_user username hashedPassword);
    ourUser ← query (select_user_by_id result) ≫= property;
    start_session e ourUser.

Definition get_login (req : request) : handler unit :=
  res_render "login" no_options.

Definition post_login (e : env) (req : request) : handler unit :=
  username ← trim <$> body_field "username" req;
  password ← trim <$> body_field "password" req;
  user ← query (select_user_by_username username);
  errors ← match user with
           | None => mret ["username or password not found"%string]
           | Some u =>
               validPassword ← compare_password password (user_password u);
               mret (push_if (negb validPassword)
                             "username or password not found" [])
           end;
  if has_errors errors then res_render "login" (with_errors errors)
  else
    user ← property user;
    start_session e user.

(** The states the handlers leave: once the user is stored, after a
    registration, a failed login and a new post. *)
Definition stored (e : env) (username password : jsstring) (st : hstate)
    : hstate :=
  HState (st_res st)
         (insert_user username (hashSync password (salt e)) (st_db st)).2
         (st_log st).

Definition registered (e : env) (username password : jsstring) (st : hstate)
    : hstate :=
  let id := seq (user_table (st_db st)) + 1 in
  mark_sent (Redirected "/")
    (queue_header
       (SetCookie "ourSimpleApp"
          (jwt_token (now_seconds e + 86400) id (numeric_affinity username)
                    (JWTSECRET cfg) (now_seconds e))
          session_cookie_options)
       (stored e username password st)).

Definition login_failed (st : hstate) : hstate :=
  mark_sent (Rendered "login"
               (with_errors ["username or password not found"%string])) st.

Definition created (e : env) (title body : jsstring) (c : claims) (st : hstate)
    : hstate :=
  mark_sent (Redirected ("/post/" +:+ pretty (seq (post_table (st_db st)) + 1)))
    (HState (st_res st)
            (insert_post (toISOString (now e)) title body (userId c) (st_db st)).2
            (st_log st ++ [user_line (Some c); author_line (userId c)])).

End handlers.

(** ** Inputs of the examples

    A registration of ["alice1"], the database it leaves, the claims of
    her session, a post of hers, and requests that are refused. *)
Definition alice_form : request :=
  example_form "register" [("username", " alice1 "); ("password", "secret1")]%string.

Definition alice_db : database :=
  (insert_user (js "alice1") (hashSync (js "secret1") (js "salt")) empty_db).2.

Definition alice_row : user :=
  User 1 (VStr (js "alice1")) (VStr (hashSync (js "secret1") (js "salt"))).

Definition alice : claims := Claims 1700086400 1 (VStr (js "alice1")) 1700000000.

Definition alice_cookie : jsstring :=
  jwt_token 1700086400 1 (VStr (js "alice1")) (JWTSECRET example_config) 1700000000.

Definition hello_form : request :=
  as_user alice
    (example_form "create-post" [("title", "Hi"); ("body", "World")]%string).

Definition hello_db : database :=
  (insert_post (toISOString 1700000000000) (js "Hi") (js "World") 1 alice_db).2.

Definition short_form : request :=
  example_form "register" [("username", "al"); ("password", "secret1")]%string.

Definition wrong_login : request :=
  example_form "login" [("username", "alice1"); ("password", "secret2")]%string.

Definition alice_login : request :=
  example_form "login" [("username", "alice1 "); ("password", " secret1")]%string.

Definition blank_form : request :=
  as_user alice
    (example_form "create-post" [("title", "  "); ("body", "World")]%string).

Definition delete_form : request :=
  with_id "1" (as_user alice (example_form "delete-post" [])).

(** Two posts of alice, the second a day after the first. *)
Definition two_posts_db : database :=
  (insert_post (toISOString 1700086400000) (js "Later") (js "...") 1 hello_db).2.

(** ** Validation *)

Lemma has_errors_false errors : has_errors errors = false ↔ errors = [].
Proof. by destruct errors. Qed.

Lemma push_if_nil cond msg errors :
  push_if cond msg errors = [] ↔ cond = false ∧ errors = [].
Proof.
  unfold push_if. destruct cond; [rewrite app_nil|]; intuition congruence.
Qed.

Lemma elem_of_push_if cond msg errors m :
  m ∈ push_if cond msg errors ↔ m ∈ errors ∨ cond = true ∧ m = msg.
Proof.
  unfold push_if. destruct cond; [rewrite elem_of_app, list_elem_of_singleton|];
    split; try tauto; intros [?|[? ?]]; auto; done.
Qed.

Lemma post_errors_nil title body :
  post_errors title body = [] ↔ blank title = false ∧ blank body = false.
Proof.
  unfold post_errors. rewrite !push_if_nil, !truthy_trim, !negb_involutive.
  tauto.
Qed.

Lemma register_errors_nil taken username password :
  register_errors taken username password = [] ↔
  taken = false ∧ 3 ≤ js_length username ≤ 10 ∧ test_alnum username = true
  ∧ 6 ≤ js_length password ≤ 70.
Proof.
  unfold register_errors.
  rewrite !push_if_nil, !orb_false_iff, !Z.ltb_ge, negb_false_iff. tauto.
Qed.

Lemma register_errors_taken taken username password :
  "User already exists"%string ∈ register_errors taken username password ↔
  taken = true.
Proof.
  unfold register_errors. rewrite !elem_of_push_if, elem_of_nil.
  split; [|tauto]. intros [[[[[]|[? _]]|[_ [=]]]|[_ [=]]]|[_ [=]]]. done.
Qed.

Section behaviour.
Context `{!Sqlite, !Bcrypt, !Jwt, !Clock}.
Variable cfg : config.

(** ** Editing and deleting *)

(** The check of the owner never lets its continuation run: an existing
    post is answered by a redirect to ["/"] and the second [res.redirect]
    raises; a missing post raises at [post.authorid]. *)
Lemma fetch_owned_post_run req lines k st :
  fetch_owned_post req lines k st
  = match select_post_by_id (param_id req) (st_db st) with
    | None => (Throw TypeError, st)
    | Some p =>
        (Throw ERR_HTTP_HEADERS_SENT,
         if res_sent (st_res st) is Some _ then st
         else printed (lines p) (mark_sent (Redirected "/") st))
    end.
Proof.
  unfold fetch_owned_post, query, property, res_redirect. eff_unfold.
  destruct (select_post_by_id (param_id req) (st_db st)) as [p|]; simpl; [|done].
  destruct (res_sent (st_res st)) as [s|] eqn:Hs.
  - by rewrite send_sent by eauto.
  - rewrite send_fresh by done. simpl. rewrite print_all_run.
    by rewrite send_sent by (simpl; eauto).
Qed.

(** ** Registration *)

Lemma start_session_run e u st :
  truthy (JWTSECRET cfg) = true →
  res_sent (st_res st) = None →
  start_session cfg e u st
  = (Ok tt,
     mark_sent (Redirected "/")
       (queue_header
          (SetCookie "ourSimpleApp"
             (jwt_token (now_seconds e + 86400) (user_id u) (user_username u)
                       (JWTSECRET cfg) (now_seconds e))
             (session_cookie_options cfg)) st)).
Proof.
  intros Hsecret Hs. unfold start_session, jwt_sign, res_cookie, res_redirect.
  rewrite Hsecret. cbn [lift_result]. rewrite eff_bind_ret_l.
  rewrite (eff_bind_ok _ _ _ _ _ (add_header_fresh _ st Hs)).
  by rewrite send_fresh.
Qed.

(** Without a secret [jwt.sign] raises before anything is sent. *)
Lemma start_session_unsigned e u st :
  truthy (JWTSECRET cfg) = false →
  start_session cfg e u st = (Throw SecretOrPrivateKeyError, st).
Proof.
  intros Hsecret. unfold start_session, jwt_sign. by rewrite Hsecret.
Qed.

Lemma post_register_run e req st username password :
  req_body req !! "username"%string = Some username →
  req_body req !! "password"%string = Some password →
  res_sent (st_res st) = None →
  post_register cfg e req st
  = let errors :=
      register_errors
        (bool_decide (is_Some (select_user_by_username (trim username) (st_db st))))
        (trim username) (trim password) in
    if has_errors errors
    then (Ok tt, mark_sent (Rendered "homepage" (with_errors errors)) st)
    else if truthy (JWTSECRET cfg)
         then (Ok tt, registered cfg e (trim username) (trim password) st)
         else (Throw SecretOrPrivateKeyError,
               stored e (trim username) (trim password) st).
Proof.
  intros Hu Hp Hs.
  unfold post_register, body_field, query, property, registered, stored, run.
  rewrite Hu, Hp. eff_unfold. simpl.
  destruct (has_errors _) eqn:Herr.
  { unfold res_render. by rewrite send_fresh. }
  apply has_errors_false, register_errors_nil in Herr as (Hfree & _).
  apply bool_decide_eq_false in Hfree.
  rewrite insert_user_free by (by destruct (select_user_by_username _ _); [destruct Hfree; eauto|]).
  simpl. unfold select_user_by_id. simpl. rewrite lookup_insert_eq.
  destruct (truthy (JWTSECRET cfg)) eqn:Hsecret.
  - by rewrite start_session_run.
  - by rewrite start_session_unsigned.
Qed.

Lemma post_register_missing e req st :
  req_body req !! "username"%string = None ∨ req_body req !! "password"%string = None →
  post_register cfg e req st = (Throw TypeError, st).
Proof.
  unfold post_register, body_field, property. eff_unfold.
  intros [->| ->]; [done|]. by destruct (req_body req !! "username"%string).
Qed.

(** *** Login *)

Lemma post_login_run e req st username password :
  req_body req !! "username"%string = Some username →
  req_body req !! "password"%string = Some password →
  res_sent (st_res st) = None →
  post_login cfg e req st
  = match select_user_by_username (trim username) (st_db st) with
    | None => (Ok tt, login_failed st)
    | Some u =>
        match user_password u with
        | VStr h =>
            if compareSync (trim password) h
            then start_session cfg e u st
            else (Ok tt, login_failed st)
        | _ => (Throw BcryptError, st)
        end
    end.
Proof.
  intros Hu Hp Hs. unfold post_login, body_field, query, property, compare_password.
  rewrite Hu, Hp. eff_unfold. simpl.
  destruct (select_user_by_username _ _) as [u|]; simpl;
    [|unfold res_render; by rewrite send_fresh].
  destruct (user_password u); simpl; try done.
  destruct (compareSync _ _); simpl; [done|].
  unfold res_render. by rewrite send_fresh.
Qed.

Lemma post_login_missing e req st :
  req_body req !! "username"%string = None ∨ req_body req !! "password"%string = None →
  post_login cfg e req st = (Throw TypeError, st).
Proof.
  unfold post_login, body_field, property. eff_unfold.
  intros [->| ->]; [done|]. by destruct (req_body req !! "username"%string).
Qed.

(** *** New posts *)

Lemma post_create_post_run e req st c title body :
  req_user req = Some c →
  req_body req !! "title"%string = Some title →
  req_body req !! "body"%string = Some body →
  res_sent (st_res st) = None →
  post_create_post e req st
  = let errors := post_errors title body in
    if has_errors errors
    then (Ok tt, mark_sent (Rendered "create-post" (with_errors errors)) st)
    else if select_user_by_id (userId c) (st_db st) is Some _
         then (Ok tt, created e title body c st)
         else (Throw SqliteError, printed [user_line (Some c)] st).
Proof.
  intros Hc Ht Hb Hs.
  unfold post_create_post, mustBeLoggedIn, body_field, query, property, created, run.
  rewrite Hc, Ht, Hb. eff_unfold. simpl.
  destruct (has_errors _) eqn:Herr.
  { unfold res_render. by rewrite send_fresh. }
  unfold insert_post. destruct (select_user_by_id _ _) as [u|]; simpl; [|done].
  unfold select_post_by_id. simpl. rewrite lookup_insert_eq. simpl.
  unfold res_redirect. rewrite send_fresh by done.
  unfold mark_sent. simpl. by rewrite <- app_assoc.
Qed.

Lemma post_create_post_missing e req st c :
  req_user req = Some c →
  req_body req !! "title"%string = None ∨ req_body req !! "body"%string = None →
  post_create_post e req st = (Throw TypeError, st).
Proof.
  intros Hc. unfold post_create_post, mustBeLoggedIn, body_field, property.
  rewrite Hc. eff_unfold.
  intros [->| ->]; [done|]. by destruct (req_body req !! "title"%string).
Qed.

(** *** Reading *)

(** C39: the page of a post is rendered with [isAuthor] false for every
    visitor, the author included, after the row is printed; a post that
    does not exist is answered by a redirect to "/". *)
Lemma get_post_run req st :
  res_sent (st_res st) = None →
  get_post req st
  = (Ok tt,
     match select_post_with_author (param_id req) (st_db st) with
     | None => mark_sent (Redirected "/") st
     | Some p =>
         mark_sent (Rendered "single-post" (with_post p (Some false)))
                   (printed [[LogPost p]] st)
     end).
Proof.
  intros Hs. unfold get_post, query, res_redirect, res_render. eff_unfold.
  destruct (select_post_with_author _ _) as [p|]; simpl; by rewrite send_fresh.
Qed.

Lemma get_home_run req st :
  res_sent (st_res st) = None →
  get_home req st
  = (Ok tt,
     match req_user req with
     | Some c =>
         mark_sent (Rendered "dashboard"
                      (with_posts (select_posts_by_author (userId c) (st_db st)))) st
     | None => mark_sent (Rendered "homepage" no_options) st
     end).
Proof.
  intros Hs. unfold get_home, query, res_render. eff_unfold.
  destruct (req_user req); simpl; by rewrite send_fresh.
Qed.

Lemma get_logout_run req st :
  res_sent (st_res st) = None →
  get_logout cfg req st
  = (Ok tt,
     mark_sent (Redirected "/")
       (queue_header (ClearCookie "ourSimpleApp" (clear_cookie_options cfg)) st)).
Proof.
  intros Hs. unfold get_logout, res_clearCookie, res_redirect.
  rewrite (eff_bind_ok _ _ _ _ _ (add_header_fresh _ st Hs)).
  by rewrite send_fresh.
Qed.

(** ** What the handlers write *)

Lemma preserving_start_session e u : preserving (start_session cfg e u).
Proof. unfold start_session. solve_preserving. Qed.

Lemma preserving_compare_password password hash :
  preserving (compare_password password hash).
Proof. unfold compare_password. solve_preserving. Qed.

#[local] Hint Resolve preserving_start_session preserving_compare_password : blog.

Lemma preserving_fetch_owned_post req lines k :
  preserving (fetch_owned_post req lines k).
Proof. intros st. rewrite fetch_owned_post_run. by repeat case_match. Qed.

#[local] Hint Resolve preserving_fetch_owned_post : blog.

Lemma preserving_get_home req : preserving (get_home req).
Proof. unfold get_home. solve_preserving. Qed.

Lemma preserving_get_logout req : preserving (get_logout cfg req).
Proof. unfold get_logout. solve_preserving. Qed.

Lemma preserving_get_create_post req : preserving (get_create_post req).
Proof. unfold get_create_post. solve_preserving. Qed.

Lemma preserving_get_post req : preserving (get_post req).
Proof. unfold get_post. solve_preserving. Qed.

Lemma preserving_get_edit_post req : preserving (get_edit_post req).
Proof. unfold get_edit_post. solve_preserving. Qed.

Lemma preserving_post_edit_post req : preserving (post_edit_post req).
Proof. unfold post_edit_post. solve_preserving. Qed.

Lemma preserving_post_delete_post req : preserving (post_delete_post req).
Proof. unfold post_delete_post. solve_preserving. Qed.

Lemma preserving_get_login req : preserving (get_login req).
Proof. unfold get_login. solve_preserving. Qed.

Lemma preserving_post_login e req : preserving (post_login cfg e req).
Proof. unfold post_login. solve_preserving. Qed.

(** The handlers that neither write nor grant a session. *)

Lemma quiet_fetch_owned_post req lines k :
  quiet (fetch_owned_post req lines k).
Proof.
  intros st. rewrite fetch_owned_post_run.
  destruct (select_post_by_id _ _); [|done].
  destruct (res_sent (st_res st)); [done|].
  split; [done|]. exists []. by rewrite app_nil_r.
Qed.

Lemma quiet_get_home req : quiet (get_home req).
Proof. unfold get_home. solve_quiet. Qed.

Lemma quiet_get_logout req : quiet (get_logout cfg req).
Proof. unfold get_logout. solve_quiet. Qed.

Lemma quiet_get_create_post req : quiet (get_create_post req).
Proof. unfold get_create_post, mustBeLoggedIn. solve_quiet. Qed.

Lemma quiet_get_post req : quiet (get_post req).
Proof. unfold get_post. solve_quiet. Qed.

Lemma quiet_get_login req : quiet (get_login req).
Proof. unfold get_login. solve_quiet. Qed.

Lemma quiet_gated_owner req lines k :
  quiet (mustBeLoggedIn req (fetch_owned_post req lines k)).
Proof. unfold mustBeLoggedIn. solve_quiet. apply quiet_fetch_owned_post. Qed.

(** The two handlers that write run one INSERT at most. *)
Lemma post_register_db e req :
  writes_with (λ db db', ∃ username password,
                 db' = (insert_user username (hashSync password (salt e)) db).2)
              (post_register cfg e req).
Proof. unfold post_register. solve_writes. eauto. Qed.

Lemma post_create_post_db e req :
  writes_with (λ db db', ∃ c title body,
                 req_user req = Some c
                 ∧ db' = (insert_post (toISOString (now e)) title body (userId c) db).2)
              (post_create_post e req).
Proof.
  unfold post_create_post, mustBeLoggedIn.
  destruct (req_user req) as [c|] eqn:Hc; solve_writes. eauto.
Qed.

End behaviour.

(** ** The handlers, case by case *)

Section claims.
Context `{!Sqlite, !Bcrypt, !Jwt, !Clock}.
Variable cfg : config.

Lemma register_errors_free db username password :
  select_user_by_username username db = None →
  3 ≤ js_length username ≤ 10 → test_alnum username = true →
  6 ≤ js_length password ≤ 70 →
  register_errors (bool_decide (is_Some (select_user_by_username username db)))
                  username password = [].
Proof.
  intros -> ???. apply register_errors_nil.
  split; [by apply bool_decide_eq_false; intros []|done].
Qed.

Lemma post_register_valid e req st username password :
  req_body req !! "username"%string = Some username →
  req_body req !! "password"%string = Some password →
  res_sent (st_res st) = None →
  select_user_by_username (trim username) (st_db st) = None →
  3 ≤ js_length (trim username) ≤ 10 →
  test_alnum (trim username) = true →
  6 ≤ js_length (trim password) ≤ 70 →
  post_register cfg e req st
  = if truthy (JWTSECRET cfg)
    then (Ok tt, registered cfg e (trim username) (trim password) st)
    else (Throw SecretOrPrivateKeyError,
          stored e (trim username) (trim password) st).
Proof.
  intros Hu Hp Hs Hfree Hlen Halnum Hpw.
  rewrite (post_register_run _ _ _ _ _ _ Hu Hp Hs). simpl.
  by rewrite register_errors_free.
Qed.

Lemma registered_db e username password st :
  wf_db (st_db st) →
  select_user_by_username username (st_db st) = None →
  let id := seq (user_table (st_db st)) + 1 in
  let row := User id (numeric_affinity username)
                  (VStr (hashSync password (salt e))) in
  select_user_by_username username (st_db (registered cfg e username password st))
  = Some row
  ∧ rows (user_table (st_db (registered cfg e username password st)))
    = <[id := row]> (rows (user_table (st_db st)))
  ∧ post_table (st_db (registered cfg e username password st))
    = post_table (st_db st).
Proof.
  intros Hwf Hfree id row. unfold registered. simpl.
  destruct (insert_user username (hashSync password (salt e)) (st_db st))
    as [r db'] eqn:Hins.
  assert (r = Ok id) as ->.
  { by apply insert_user_inv in Hins as [(_ & _ & [? ?])|(_ & ? & _)]; [congruence|]. }
  destruct (insert_user_select _ _ _ _ _ Hwf Hins) as [Hsel _].
  apply insert_user_inv in Hins as [(? & _)|(_ & _ & Hposts & _ & Hrows)]; [done|].
  subst row. rewrite <- numeric_affinity_hash. by split_and!.
Qed.

(** C2: a registration whose trimmed user name is already stored is
    answered by the home page with the error "User already exists"; no row
    is written and no cookie is set. *)
Theorem post_register_duplicate e req st username password u :
  req_body req !! "username"%string = Some username →
  req_body req !! "password"%string = Some password →
  res_sent (st_res st) = None →
  select_user_by_username (trim username) (st_db st) = Some u →
  ∃ errors,
    post_register cfg e req st
    = (Ok tt, mark_sent (Rendered "homepage" (with_errors errors)) st)
    ∧ "User already exists"%string ∈ errors.
Proof.
  intros Hu Hp Hs Hsel. rewrite (post_register_run _ _ _ _ _ _ Hu Hp Hs). simpl.
  set (errors := register_errors _ _ _).
  assert ("User already exists"%string ∈ errors) as Hin.
  { apply register_errors_taken, bool_decide_eq_true. by rewrite Hsel. }
  exists errors. split; [|done]. by destruct errors; [apply elem_of_nil in Hin|].
Qed.

(** A registration whose trimmed user name is not 3 to 10 letters and
    digits, or whose trimmed password is not 6 to 70 characters long, is
    answered by the home page with a non-empty list of errors; no row is
    written and no cookie is set. *)
Theorem post_register_rejects e req st username password :
  req_body req !! "username"%string = Some username →
  req_body req !! "password"%string = Some password →
  res_sent (st_res st) = None →
  ¬ (3 ≤ js_length (trim username) ≤ 10
     ∧ test_alnum (trim username) = true
     ∧ 6 ≤ js_length (trim password) ≤ 70) →
  ∃ errors,
    errors ≠ []
    ∧ post_register cfg e req st
      = (Ok tt, mark_sent (Rendered "homepage" (with_errors errors)) st).
Proof.
  intros Hu Hp Hs Hbad. rewrite (post_register_run _ _ _ _ _ _ Hu Hp Hs). simpl.
  set (errors := register_errors _ _ _). exists errors.
  assert (errors ≠ []) as Hne.
  { intros Hnil%register_errors_nil. tauto. }
  split; [done|]. by destruct errors.
Qed.

(** C3: when the secret of the tokens is set, a registration with a free
    user name of 3 to 10 letters and digits and a password of 6 to 70
    characters stores one user under the next id, with the name as SQLite
    stores it and the bcrypt hash of the password as a text; it sets the
    session cookie to a token for that user that expires in 24 hours and
    redirects to "/". *)
Theorem post_register_creates e req st username password :
  truthy (JWTSECRET cfg) = true →
  req_body req !! "username"%string = Some username →
  req_body req !! "password"%string = Some password →
  res_sent (st_res st) = None →
  wf_db (st_db st) →
  select_user_by_username (trim username) (st_db st) = None →
  3 ≤ js_length (trim username) ≤ 10 →
  test_alnum (trim username) = true →
  6 ≤ js_length (trim password) ≤ 70 →
  let id := seq (user_table (st_db st)) + 1 in
  let row := User id (numeric_affinity (trim username))
                  (VStr (hashSync (trim password) (salt e))) in
  let st' := (post_register cfg e req st).2 in
  (post_register cfg e req st).1 = Ok tt
  ∧ select_user_by_username (trim username) (st_db st') = Some row
  ∧ rows (user_table (st_db st')) = <[id := row]> (rows (user_table (st_db st)))
  ∧ post_table (st_db st') = post_table (st_db st)
  ∧ res_sent (st_res st') = Some (Redirected "/")
  ∧ res_cookies (st_res st')
    = res_cookies (st_res st)
      ++ [SetCookie "ourSimpleApp"
            (jwt_token (now_seconds e + 86400) id (numeric_affinity (trim username))
                      (JWTSECRET cfg) (now_seconds e))
            (CookieOptions true (production cfg) "strict" (Some 86400000))].
Proof.
  intros Hsecret Hu Hp Hs Hwf Hfree Hlen Halnum Hpw id row st'. subst st'.
  rewrite (post_register_valid e req st username password) by done.
  rewrite Hsecret. cbn [fst snd].
  destruct (registered_db e (trim username) (trim password) st Hwf Hfree)
    as (Hsel & Hrows & Hposts).
  by split_and!.
Qed.

(** When the secret of the tokens is unset or empty, the same
    registration stores the user all the same and then raises in
    [jwt.sign]: no cookie is set and nothing is sent, so the client is
    answered 500 while the name is taken. *)
Theorem post_register_unsigned e req st username password :
  truthy (JWTSECRET cfg) = false →
  req_body req !! "username"%string = Some username →
  req_body req !! "password"%string = Some password →
  res_sent (st_res st) = None →
  wf_db (st_db st) →
  select_user_by_username (trim username) (st_db st) = None →
  3 ≤ js_length (trim username) ≤ 10 →
  test_alnum (trim username) = true →
  6 ≤ js_length (trim password) ≤ 70 →
  let id := seq (user_table (st_db st)) + 1 in
  let row := User id (numeric_affinity (trim username))
                  (VStr (hashSync (trim password) (salt e))) in
  let st' := (post_register cfg e req st).2 in
  (post_register cfg e req st).1 = Throw SecretOrPrivateKeyError
  ∧ select_user_by_username (trim username) (st_db st') = Some row
  ∧ rows (user_table (st_db st')) = <[id := row]> (rows (user_table (st_db st)))
  ∧ st_res st' = st_res st.
Proof.
  intros Hsecret Hu Hp Hs Hwf Hfree Hlen Halnum Hpw id row st'. subst st'.
  rewrite (post_register_valid e req st username password) by done.
  rewrite Hsecret. cbn [fst snd].
  destruct (registered_db e (trim username) (trim password) st Hwf Hfree)
    as (Hsel & Hrows & Hposts).
  by split_and!.
Qed.

(** C4: a login with an unknown user name and a login with a wrong
    password get the same answer: the login page with the one error
    "username or password not found", no cookie, nothing written. *)
Theorem post_login_rejects e req st username password :
  req_body req !! "username"%string = Some username →
  req_body req !! "password"%string = Some password →
  res_sent (st_res st) = None →
  (select_user_by_username (trim username) (st_db st) = None
   ∨ ∃ u h, select_user_by_username (trim username) (st_db st) = Some u
            ∧ user_password u = VStr h
            ∧ compareSync (trim password) h = false) →
  post_login cfg e req st = (Ok tt, login_failed st).
Proof.
  intros Hu Hp Hs Hbad. rewrite (post_login_run _ _ _ _ _ _ Hu Hp Hs).
  by destruct Hbad as [->|(u & h & -> & -> & ->)].
Qed.

(** C38: when the secret of the tokens is set, after a successful
    registration a login with the same user name
    and password (whatever white space surrounds them) succeeds: it sets
    the session cookie to a token for the registered user and redirects to
    "/". *)
Theorem register_then_login e e' req req' st username password username' password' :
  req_body req !! "username"%string = Some username →
  req_body req !! "password"%string = Some password →
  req_body req' !! "username"%string = Some username' →
  req_body req' !! "password"%string = Some password' →
  trim username' = trim username →
  trim password' = trim password →
  res_sent (st_res st) = None →
  wf_db (st_db st) →
  select_user_by_username (trim username) (st_db st) = None →
  3 ≤ js_length (trim username) ≤ 10 →
  test_alnum (trim username) = true →
  6 ≤ js_length (trim password) ≤ 70 →
  truthy (JWTSECRET cfg) = true →
  let db' := st_db (post_register cfg e req st).2 in
  let id := seq (user_table (st_db st)) + 1 in
  post_login cfg e' req' (HState fresh_response db' [])
  = (Ok tt,
     mark_sent (Redirected "/")
       (queue_header
          (SetCookie "ourSimpleApp"
             (jwt_token (now_seconds e' + 86400) id
                       (numeric_affinity (trim username))
                       (JWTSECRET cfg) (now_seconds e'))
             (session_cookie_options cfg))
          (HState fresh_response db' []))).
Proof.
  intros Hu Hp Hu' Hp' Htu Htp Hs Hwf Hfree Hlen Halnum Hpw Hsecret db' id.
  rewrite (post_login_run _ _ _ _ _ _ Hu' Hp') by done. rewrite Htu, Htp.
  subst db'. rewrite (post_register_valid e req st username password) by done.
  rewrite Hsecret. cbn [snd st_db].
  destruct (registered_db e (trim username) (trim password) st Hwf Hfree)
    as (-> & _). simpl.
  by rewrite compareSync_hashSync, start_session_run.
Qed.

Lemma elem_of_post_errors title body m :
  m ∈ post_errors title body ↔
  (blank title = true ∧ m = "Add a title"%string)
  ∨ (blank body = true ∧ m = "Add a body"%string).
Proof.
  unfold post_errors.
  rewrite !elem_of_push_if, elem_of_nil, !truthy_trim, !negb_involutive. tauto.
Qed.

(** A new post whose title or body is empty or white space only is
    answered by the form again, with "Add a title" exactly when the title is
    blank and "Add a body" exactly when the body is blank; nothing is
    written. *)
Theorem post_create_post_rejects e req st c title body :
  req_user req = Some c →
  req_body req !! "title"%string = Some title →
  req_body req !! "body"%string = Some body →
  res_sent (st_res st) = None →
  blank title = true ∨ blank body = true →
  ∃ errors,
    post_create_post e req st
    = (Ok tt, mark_sent (Rendered "create-post" (with_errors errors)) st)
    ∧ ("Add a title"%string ∈ errors ↔ blank title = true)
    ∧ ("Add a body"%string ∈ errors ↔ blank body = true).
Proof.
  intros Hc Ht Hb Hs Hblank. exists (post_errors title body).
  rewrite (post_create_post_run _ _ _ _ _ _ Hc Ht Hb Hs). cbv zeta.
  destruct (has_errors _) eqn:Herr.
  - rewrite !elem_of_post_errors. split; [done|]. split; split; intros; intuition congruence.
  - apply has_errors_false, post_errors_nil in Herr. intuition congruence.
Qed.

(** C6: a new post of a logged-in user whose row exists, with a title and
    a body that are not blank, is stored under the next id with the time of
    the request, the title and body as submitted (not trimmed) and the
    session's user id as author; users and cookies are untouched and the
    answer is a redirect to the new post's page. *)
Theorem post_create_post_creates e req st c u title body :
  req_user req = Some c →
  req_body req !! "title"%string = Some title →
  req_body req !! "body"%string = Some body →
  res_sent (st_res st) = None →
  select_user_by_id (userId c) (st_db st) = Some u →
  blank title = false → blank body = false →
  let id := seq (post_table (st_db st)) + 1 in
  let row := Post id (toISOString (now e)) (numeric_affinity title)
                  (numeric_affinity body) (userId c) in
  let st' := (post_create_post e req st).2 in
  (post_create_post e req st).1 = Ok tt
  ∧ rows (post_table (st_db st')) = <[id := row]> (rows (post_table (st_db st)))
  ∧ user_table (st_db st') = user_table (st_db st)
  ∧ res_sent (st_res st') = Some (Redirected ("/post/" +:+ pretty id))
  ∧ res_cookies (st_res st') = res_cookies (st_res st).
Proof.
  intros Hc Ht Hb Hs Hu Hbt Hbb id row st'. subst st'.
  rewrite (post_create_post_run _ _ _ _ _ _ Hc Ht Hb Hs). cbv zeta.
  rewrite (proj2 (post_errors_nil title body)) by done. simpl. rewrite Hu.
  unfold created, insert_post. rewrite Hu. by simpl.
Qed.

(** C1: the three routes that check the owner of a post (the edit form,
    edit, delete) never reach their action, for any logged-in user, the
    author included: when the post exists the request is answered by a
    redirect to "/", the edit form prints its two lines, and the handler
    then raises [ERR_HTTP_HEADERS_SENT]; when it does not, the handler
    raises [TypeError].  The database is left as it was in both cases. *)
Theorem owner_check_outcome req st c :
  req_user req = Some c →
  res_sent (st_res st) = None →
  Forall (λ h : (request → handler unit) * (post → list log_line),
            h.1 req st
            = match select_post_by_id (param_id req) (st_db st) with
              | Some p =>
                  (Throw ERR_HTTP_HEADERS_SENT,
                   printed (h.2 p) (mark_sent (Redirected "/") st))
              | None => (Throw TypeError, st)
              end)
         [(get_edit_post, owner_lines); (post_edit_post, λ _, []);
          (post_delete_post, λ _, [])].
Proof.
  intros Hc Hs. repeat constructor; cbn [fst snd];
    unfold get_edit_post, post_edit_post, post_delete_post;
    rewrite (mustBeLoggedIn_user _ _ _ _ Hc), fetch_owned_post_run, Hs;
    by destruct (select_post_by_id _ _).
Qed.

(** C7: each of the five routes behind the login gate answers a request
    without a session by a redirect to "/" and does nothing else. *)
Theorem gate_anonymous e req st :
  req_user req = None →
  res_sent (st_res st) = None →
  Forall (λ h : request → handler unit,
            h req st = (Ok tt, mark_sent (Redirected "/") st))
         [get_create_post; post_create_post e; get_edit_post; post_edit_post;
          post_delete_post].
Proof.
  intros Hu Hs. repeat constructor;
    unfold get_create_post, post_create_post, get_edit_post, post_edit_post,
      post_delete_post;
    rewrite (mustBeLoggedIn_anonymous _ _ _ Hu); unfold res_redirect;
    by rewrite send_fresh.
Qed.

(** The cookie a registration or login sets has a max-age of 24 hours
    and, sent back in a later request, gives that request the identity of
    the user (id and stored name) as long as less than 86400 seconds have
    passed on the server's clock, and no identity from then on. *)
Theorem session_lasts_a_day e u st val opts e' req' :
  truthy (JWTSECRET cfg) = true →
  res_sent (st_res st) = None →
  last (res_cookies (st_res (start_session cfg e u st).2))
  = Some (SetCookie "ourSimpleApp" val opts) →
  req_cookies req' !! "ourSimpleApp"%string = Some val →
  maxAge opts = Some 86400000
  ∧ session cfg e' req'
    = if bool_decide (now_seconds e' < now_seconds e + 86400)
      then Some (Claims (now_seconds e + 86400) (user_id u) (user_username u)
                        (now_seconds e))
      else None.
Proof.
  intros Hsecret Hs Hlast Hcookie. rewrite start_session_run in Hlast by done.
  simpl in Hlast. rewrite last_snoc in Hlast. injection Hlast as <- <-.
  split; [done|]. by apply session_signed.
Qed.

(** C11: the home page of a logged-in user is the dashboard with exactly
    the stored posts of that user, listed from the latest time of creation
    to the earliest (for times that the clock writes with a four-digit
    year). *)
Theorem dashboard_newest_first req st c :
  req_user req = Some c → res_sent (st_res st) = None →
  ∃ posts,
    get_home req st
    = (Ok tt, mark_sent (Rendered "dashboard" (with_posts posts)) st)
    ∧ (∀ p, p ∈ posts ↔
            post_authorid p = userId c
            ∧ ∃ k, rows (post_table (st_db st)) !! k = Some p)
    ∧ ∀ i j p q tp tq,
        posts !! i = Some p → posts !! j = Some q → (i < j)%nat →
        post_createdDate p = toISOString tp →
        post_createdDate q = toISOString tq →
        0 ≤ tp ≤ iso_max → 0 ≤ tq ≤ iso_max → tq ≤ tp.
Proof.
  intros Hc Hs. exists (select_posts_by_author (userId c) (st_db st)).
  rewrite get_home_run, Hc by done. split_and!; [done| |].
  - apply elem_of_select_posts_by_author.
  - intros i j p q tp tq. apply select_posts_by_author_time_order.
Qed.

End claims.

(** ** The theorems on the examples *)

Lemma post_register_duplicate_witness :
  ∃ errors,
    post_register example_config example_env alice_form (example_state alice_db)
    = (Ok tt, mark_sent (Rendered "homepage" (with_errors errors))
                        (example_state alice_db))
    ∧ "User already exists"%string ∈ errors.
Proof.
  apply (post_register_duplicate example_config example_env alice_form
           (example_state alice_db) (js " alice1 ") (js "secret1") alice_row);
    reflexivity.
Defined.

Lemma post_register_rejects_witness :
  ∃ errors,
    errors ≠ []
    ∧ post_register example_config example_env short_form (example_state empty_db)
      = (Ok tt, mark_sent (Rendered "homepage" (with_errors errors))
                          (example_state empty_db)).
Proof.
  apply (post_register_rejects example_config example_env short_form
           (example_state empty_db) (js "al") (js "secret1"));
    [reflexivity..|]. vm_compute. by intros [[? _] _].
Defined.

Lemma post_register_creates_witness :
  select_user_by_username (js "alice1")
    (st_db (post_register example_config example_env alice_form
              (example_state empty_db)).2)
  = Some alice_row.
Proof.
  refine (proj1 (proj2 (post_register_creates example_config example_env
            alice_form (example_state empty_db) (js " alice1 ") (js "secret1")
            _ _ _ _ _ _ _ _ _)));
    first [reflexivity | apply wf_db_empty | by vm_compute].
Defined.

Lemma post_register_unsigned_witness :
  (post_register unset_config example_env alice_form (example_state empty_db)).1
  = Throw SecretOrPrivateKeyError.
Proof.
  refine (proj1 (post_register_unsigned unset_config example_env
            alice_form (example_state empty_db) (js " alice1 ") (js "secret1")
            _ _ _ _ _ _ _ _ _));
    first [reflexivity | apply wf_db_empty | by vm_compute].
Defined.

Lemma post_login_rejects_witness :
  post_login example_config example_env wrong_login (example_state alice_db)
  = (Ok tt, login_failed (example_state alice_db)).
Proof.
  apply (post_login_rejects example_config example_env wrong_login
           (example_state alice_db) (js "alice1") (js "secret2"));
    [reflexivity..|]. right.
  exists alice_row, (hashSync (js "secret1") (js "salt")). by vm_compute.
Defined.

Lemma register_then_login_witness :
  (post_login example_config example_env alice_login (example_state alice_db)).1
  = Ok tt.
Proof.
  change alice_db with
    (st_db (post_register example_config example_env alice_form
              (example_state empty_db)).2).
  unfold example_state at 1.
  rewrite (register_then_login example_config example_env example_env alice_form
             alice_login (example_state empty_db) (js " alice1 ") (js "secret1")
             (js "alice1 ") (js " secret1"));
    first [reflexivity | apply wf_db_empty | by vm_compute].
Defined.

Lemma post_create_post_rejects_witness :
  ∃ errors,
    post_create_post example_env blank_form (example_state alice_db)
    = (Ok tt, mark_sent (Rendered "create-post" (with_errors errors))
                        (example_state alice_db))
    ∧ ("Add a title"%string ∈ errors ↔ blank (js "  ") = true)
    ∧ ("Add a body"%string ∈ errors ↔ blank (js "World") = true).
Proof.
  apply (post_create_post_rejects example_env blank_form (example_state alice_db)
           alice (js "  ") (js "World")); [reflexivity..|]. by left.
Defined.

Lemma post_create_post_creates_witness :
  res_sent (st_res (post_create_post example_env hello_form
                      (example_state alice_db)).2)
  = Some (Redirected "/post/1").
Proof.
  refine (proj1 (proj2 (proj2 (proj2 (post_create_post_creates example_env
            hello_form (example_state alice_db) alice
            alice_row
            (js "Hi") (js "World") _ _ _ _ _ _ _))))); reflexivity.
Defined.

Lemma owner_check_outcome_witness :
  get_edit_post delete_form (example_state hello_db)
  = (Throw ERR_HTTP_HEADERS_SENT,
     printed [[LogString (js "aurthorid:1")]; [LogString (js "userid:undefined")]]
             (mark_sent (Redirected "/") (example_state hello_db))).
Proof.
  pose proof (owner_check_outcome delete_form (example_state hello_db) alice
                eq_refl eq_refl) as H.
  by apply Forall_cons_1 in H as [H _].
Defined.

Lemma gate_anonymous_witness :
  post_delete_post (with_id "1" (example_form "delete-post" []))
    (example_state hello_db)
  = (Ok tt, mark_sent (Redirected "/") (example_state hello_db)).
Proof.
  pose proof (gate_anonymous example_env
                (with_id "1" (example_form "delete-post" []))
                (example_state hello_db) eq_refl eq_refl) as H.
  by rewrite !Forall_cons in H.
Defined.

Lemma session_lasts_a_day_witness :
  session example_config (Env 1700086399999 (js "salt"))
    (Request GET [] {[ "ourSimpleApp"%string := alice_cookie ]} ∅ ∅ None)
  = Some alice.
Proof.
  refine (proj2 (session_lasts_a_day example_config example_env alice_row
            (example_state alice_db) alice_cookie
            (session_cookie_options example_config)
            (Env 1700086399999 (js "salt")) _ _ _ _ _)); reflexivity.
Defined.

Lemma get_post_run_witness :
  get_post (with_id "1" hello_form) (example_state hello_db)
  = (Ok tt,
     mark_sent
       (Rendered "single-post"
          (with_post
             (PostWithUsername
                (Post 1 (toISOString 1700000000000) (VStr (js "Hi"))
                      (VStr (js "World")) 1)
                (VStr (js "alice1")))
             (Some false)))
       (printed
          [[LogPost (PostWithUsername
                       (Post 1 (toISOString 1700000000000) (VStr (js "Hi"))
                             (VStr (js "World")) 1)
                       (VStr (js "alice1")))]]
          (example_state hello_db))).
Proof.
  rewrite (get_post_run (with_id "1" hello_form) (example_state hello_db))
    by reflexivity.
  reflexivity.
Defined.

Lemma dashboard_newest_first_witness :
  (get_home (as_user alice (Request GET [] ∅ ∅ ∅ None))
     (example_state two_posts_db)).1 = Ok tt
  ∧ select_posts_by_author 1 two_posts_db
    = [Post 2 (js "2023-11-15T22:13:20.000Z") (VStr (js "Later")) (VStr (js "...")) 1;
       Post 1 (js "2023-11-14T22:13:20.000Z") (VStr (js "Hi")) (VStr (js "World")) 1].
Proof.
  destruct (dashboard_newest_first (as_user alice (Request GET [] ∅ ∅ ∅ None))
              (example_state two_posts_db) alice eq_refl eq_refl)
    as (posts & -> & _). split; [done|]. by vm_compute.
Defined.
