(* ===== verification/Server.v ===== *)
(** * The server: routing, one request, runs

    - [match_route] is the routing table of lines 75-301: the method and
      the path of a request select a route and fill [req.params].  A path
      is given by its segments; as Express does by default, literal
      segments are compared without regard to the case of ASCII letters and
      a parameter matches any non-empty segment.
    - [app] is the application: the authentication middleware, then the
      handler of the route, or nothing when no route matches.
    - [handle] runs [app] on a fresh response object and gives what the
      client receives ([finish]) and the database the request leaves.
    - [step] is one request handled by the server; [reachable] are the
      databases a run can reach from the database [createTables] makes.

    The theorems of this file are about every request and every run: what
    a request can write, the invariant of the schema, and the fate of rows
    once they are stored. *)

From stdpp Require Import pretty.
From S2P Require Import Spec2Rocq JsString Platform Calendar Store Http Auth Handlers.

Local Open Scope Z_scope.

(** ** Routing *)

Inductive route : Type :=
| RHome
| RLogout
| RCreatePostForm
| RCreatePost
| RPost
| REditPostForm
| REditPost
| RDeletePost
| RRegister
| RLoginForm
| RLogin.

#[export] Instance route_eq_dec : EqDecision route.
Proof. solve_decision. Defined.

(** The lower-case form of an ASCII letter. *)
Definition to_lower (c : N) : N :=
  if ((65 <=? c) && (c <=? 90))%N then (c + 32)%N else c.

(** A segment of the path against a literal of a route. *)
Definition segment_is (lit : string) (s : jsstring) : bool :=
  bool_decide (to_lower <$> s = js lit).

(** The parameters of a route with one parameter [:id]. *)
Definition id_param (s : jsstring) : gmap string jsstring :=
  {[ "id"%string := s ]}.

Definition match_route (m : method) (path : list jsstring)
    : option (route * gmap string jsstring) :=
  match m, path with
  | GET, [] => Some (RHome, ∅)
  | GET, [s] =>
      if segment_is "logout" s then Some (RLogout, ∅)
      else if segment_is "create-post" s then Some (RCreatePostForm, ∅)
      else if segment_is "login" s then Some (RLoginForm, ∅)
      else None
  | POST, [s] =>
      if segment_is "create-post" s then Some (RCreatePost, ∅)
      else if segment_is "register" s then Some (RRegister, ∅)
      else if segment_is "login" s then Some (RLogin, ∅)
      else None
  | GET, [s; id] =>
      if negb (truthy id) then None
      else if segment_is "post" s then Some (RPost, id_param id)
      else if segment_is "edit-post" s then Some (REditPostForm, id_param id)
      else None
  | POST, [s; id] =>
      if negb (truthy id) then None
      else if segment_is "edit-post" s then Some (REditPost, id_param id)
      else if segment_is "delete-post" s then Some (RDeletePost, id_param id)
      else None
  | _, _ => None
  end.

Section server.
Context `{!Sqlite, !Bcrypt, !Jwt, !Clock}.
Variable cfg : config.

Definition route_handler (e : env) (r : route) : request → handler unit :=
  match r with
  | RHome => get_home
  | RLogout => get_logout cfg
  | RCreatePostForm => get_create_post
  | RCreatePost => post_create_post e
  | RPost => get_post
  | REditPostForm => get_edit_post
  | REditPost => post_edit_post
  | RDeletePost => post_delete_post
  | RRegister => post_register cfg e
  | RLoginForm => get_login
  | RLogin => post_login cfg e
  end.

(** The application: the result tells whether a route matched. *)
Definition app (e : env) (req : request) : handler bool :=
  req ← authenticate cfg e req;
  match match_route (req_method req) (req_path req) with
  | Some (r, params) => route_handler e r (set_params params req);; mret true
  | None => mret false
  end.

(** What the client receives, with the final handler of Express: a request
    that matched no route is answered 404, an uncaught exception 500 unless
    a response was already sent. *)
Definition finish (r : result exn bool) (res : response) : outcome :=
  Outcome
    (match res_sent res, r with
     | Some s, _ => Sent s
     | None, Throw _ => InternalServerError
     | None, Ok false => NotFound
     | None, Ok true => NoReply
     end)
    (res_cookies res)
    (match r with Throw e => Some e | Ok _ => None end).

Definition handle (e : env) (req : request) (db : database) : outcome * database :=
  let '(r, st) := app e req (HState fresh_response db []) in
  (finish r (st_res st), st_db st).

(** One request, and the databases a run of the server reaches. *)
Inductive step : database → env * request * outcome → database → Prop :=
| step_handle e req db :
    step db (e, req, (handle e req db).1) (handle e req db).2.

Definition reachable (db : database) : Prop :=
  rtc (λ a b, ∃ l, step a l b) (createTables None) db.

(** A run on a list of requests. *)
Fixpoint serve (inputs : list (env * request)) (db : database)
    : list outcome * database :=
  match inputs with
  | [] => ([], db)
  | (e, req) :: rest =>
      let '(o, db') := handle e req db in
      let '(os, db'') := serve rest db' in
      (o :: os, db'')
  end.

(** What one request may write: nothing, one user, or one post whose author
    is the identity of the request's session. *)
Inductive written (e : env) (req : request) (db : database) : database → Prop :=
| written_nothing : written e req db db
| written_user username password :
    written e req db (insert_user username (hashSync password (salt e)) db).2
| written_post c title body :
    session cfg e req = Some c →
    written e req db
      (insert_post (toISOString (now e)) title body (userId c) db).2.

End server.

(** ** Inputs of the examples *)

(** The request as a browser that holds the session cookie sends it. *)
Definition with_cookie (token : jsstring) (req : request) : request :=
  Request (req_method req) (req_path req) {[ "ourSimpleApp"%string := token ]}
          (req_body req) (req_params req) (req_user req).

Definition hello_request : request :=
  with_cookie alice_cookie
    (example_form "create-post" [("title", "Hi"); ("body", "World")]%string).

(** A run: a registration, the same registration again, a login, a new
    post, its author's attempt to delete it, a visit of its page, and a
    request no route matches. *)
Definition scenario : list (env * request) :=
  (λ req, (example_env, req)) <$>
    [alice_form; alice_form; alice_login; hello_request;
     with_cookie alice_cookie (Request POST [js "delete-post"; js "1"] ∅ ∅ ∅ None);
     Request GET [js "post"; js "1"] ∅ ∅ ∅ None;
     Request GET [js "nowhere"] ∅ ∅ ∅ None].

(** ** One request *)

Section server_facts.
Context `{!Sqlite, !Bcrypt, !Jwt, !Clock}.
Variable cfg : config.

(** What the handler of a route writes, for the request the middleware
    hands to it. *)
Lemma route_handler_writes e r req :
  writes_with (λ db db',
      (∃ username password,
         db' = (insert_user username (hashSync password (salt e)) db).2)
      ∨ (∃ c title body, req_user req = Some c
           ∧ db' = (insert_post (toISOString (now e)) title body (userId c) db).2))
    (route_handler cfg e r req).
Proof.
  destruct r; simpl;
    try (apply writes_with_preserving;
         first [apply preserving_get_home | apply preserving_get_logout
               | apply preserving_get_create_post | apply preserving_get_post
               | apply preserving_get_edit_post | apply preserving_post_edit_post
               | apply preserving_post_delete_post | apply preserving_get_login
               | apply preserving_post_login]).
  - intros st. destruct (post_create_post_db e req st); auto.
  - intros st. destruct (post_register_db cfg e req st); auto.
Qed.

Lemma app_run e req st :
  app cfg e req st
  = match match_route (req_method req) (req_path req) with
    | Some (r, params) =>
        (route_handler cfg e r (set_params params (set_user (session cfg e req) req));;
         mret true)
          (HState (Response [] (session cfg e req) (res_cookies (st_res st))
                            (res_sent (st_res st))) (st_db st) (st_log st))
    | None =>
        (Ok false,
         HState (Response [] (session cfg e req) (res_cookies (st_res st))
                          (res_sent (st_res st))) (st_db st) (st_log st))
    end.
Proof.
  unfold app. rewrite (eff_bind_ok _ _ _ _ _ (authenticate_run cfg e req st)).
  simpl. by destruct (match_route _ _) as [[r ps]|].
Qed.

Lemma handle_db e req db :
  (handle cfg e req db).2 = st_db (app cfg e req (HState fresh_response db [])).2.
Proof. unfold handle. by destruct (app _ _ _ _) as [r st]. Qed.

Lemma handle_written e req db : written cfg e req db (handle cfg e req db).2.
Proof.
  rewrite handle_db, app_run.
  destruct (match_route _ _) as [[r ps]|]; [|constructor].
  rewrite (preserving_bind_db _ (λ _, mret true)) by done.
  match goal with
  | |- context [route_handler _ _ _ ?req' ?st] =>
      destruct (route_handler_writes e r req' st)
        as [->|[(u & p & ->)|(c & t & b & Hc & ->)]]
  end; by constructor.
Qed.

Lemma written_wf e req db db' : wf_db db → written cfg e req db db' → wf_db db'.
Proof.
  intros Hwf [|u p|c t b _]; [done|by apply insert_user_wf|by apply insert_post_wf].
Qed.

Lemma written_extends e req db db' :
  wf_db db → written cfg e req db db' → extends db db'.
Proof.
  intros Hwf [|u p|c t b _]; [done|split..].
  - intros k r. by apply insert_user_keeps.
  - by rewrite insert_user_posts.
  - by rewrite insert_post_users.
  - intros k r. by apply insert_post_keeps.
Qed.

Lemma handle_wf e req db : wf_db db → wf_db (handle cfg e req db).2.
Proof. intros Hwf. eapply written_wf; [done|apply handle_written]. Qed.

Lemma handle_extends e req db : wf_db db → extends db (handle cfg e req db).2.
Proof. intros Hwf. eapply written_extends; [done|apply handle_written]. Qed.

Lemma step_wf db l db' : wf_db db → step cfg db l db' → wf_db db'.
Proof. intros Hwf Hstep. destruct Hstep. by apply handle_wf. Qed.

Lemma step_extends db l db' : wf_db db → step cfg db l db' → extends db db'.
Proof. intros Hwf Hstep. destruct Hstep. by apply handle_extends. Qed.

Lemma steps_wf db db' :
  wf_db db → rtc (λ a b, ∃ l, step cfg a l b) db db' → wf_db db' ∧ extends db db'.
Proof.
  intros Hwf Hrtc. induction Hrtc as [db|db db1 db2 [l Hstep] _ IH]; [done|].
  destruct (IH (step_wf _ _ _ Hwf Hstep)) as [Hwf2 Hext]. split; [done|].
  etrans; [by eapply step_extends|done].
Qed.

(** ** Every request, every run *)

Lemma route_handler_answers e r req : answers (route_handler cfg e r req).
Proof.
  destruct r; simpl;
    unfold get_home, get_logout, get_create_post, post_create_post, get_post,
      get_edit_post, post_edit_post, post_delete_post, post_register, get_login,
      post_login, mustBeLoggedIn, fetch_owned_post, start_session;
    solve_answers.
Qed.

(** C35: every request is answered: by what a handler sent, by 404 when no
    route matches, by 500 when a handler raised before sending. *)
Theorem handle_answers e req db : out_reply (handle cfg e req db).1 ≠ NoReply.
Proof.
  unfold handle. rewrite app_run.
  destruct (match_route _ _) as [[r ps]|]; [|done].
  match goal with
  | |- context [mbind _ (route_handler _ _ _ ?req') ?st] =>
      pose proof (answers_seq_ret _ true st (route_handler_answers e r req')) as Hs;
      destruct (mbind (λ _, mret true) (route_handler cfg e r req') st)
        as [[b|x] st']; simpl
  end.
  - by destruct Hs as [s ->].
  - by destruct (res_sent (st_res st')).
Qed.

(** C29: no run of the server removes or changes a row once it is stored:
    every user and every post of a database is, under the same id and with
    the same content, in every database a run reaches from it.  (Editing
    and deleting posts never take effect.) *)
Theorem stored_rows_stay db db' :
  wf_db db → rtc (λ a b, ∃ l, step cfg a l b) db db' → extends db db'.
Proof. intros Hwf Hrtc. by destruct (steps_wf db db' Hwf Hrtc). Qed.

(** C30: every database the server reaches from a new file satisfies the
    schema: ids are positive, at most the AUTOINCREMENT counter and the key
    of their row, user names are unique, stored texts are neither
    [undefined] nor [NULL], and every post has an author that exists. *)
Theorem reachable_wf db : reachable cfg db → wf_db db.
Proof. intros Hr. by destruct (steps_wf _ _ wf_db_empty Hr). Qed.

Lemma written_post_new e req db db' k p :
  written cfg e req db db' →
  rows (post_table db) !! k = None → rows (post_table db') !! k = Some p →
  ∃ c, session cfg e req = Some c
       ∧ post_authorid p = userId c
       ∧ post_createdDate p = toISOString (now e).
Proof.
  intros [|u pw|c t b Hc] Hnone Hnew.
  - congruence.
  - rewrite insert_user_posts in Hnew. congruence.
  - exists c. split; [done|].
    destruct (insert_post _ _ _ _ _) as [r db1] eqn:Hins. simpl in Hnew.
    apply insert_post_inv in Hins as [(_ & -> & _)|(_ & _ & _ & _ & Hrows)];
      [congruence|].
    rewrite Hrows in Hnew. apply lookup_insert_Some in Hnew as [[_ <-]|[_ ?]];
      [done|congruence].
Qed.

(** C8: a post that a request adds is authored by the identity of the
    request's session cookie and dated by the clock of the request: nobody
    posts in another user's name. *)
Theorem handle_post_author e req db k p :
  rows (post_table db) !! k = None →
  rows (post_table (handle cfg e req db).2) !! k = Some p →
  ∃ c, session cfg e req = Some c
       ∧ post_authorid p = userId c
       ∧ post_createdDate p = toISOString (now e).
Proof. intros. by eapply written_post_new; [apply handle_written|..]. Qed.

Lemma handle_anonymous_posts e req db :
  session cfg e req = None →
  post_table (handle cfg e req db).2 = post_table db.
Proof.
  intros Hs. destruct (handle_written e req db) as [|u pw|c t b Hc];
    [done|apply insert_user_posts|congruence].
Qed.

(** A request without a valid session cookie leaves the table of
    posts as it is, whatever its method, path and body. *)
Theorem anonymous_cannot_post e req db :
  session cfg e req = None →
  post_table (handle cfg e req db).2 = post_table db.
Proof. apply handle_anonymous_posts. Qed.

(** [serve] is a run of [step]: one outcome per request. *)
Lemma serve_rtc inputs db :
  rtc (λ a b, ∃ l, step cfg a l b) db (serve cfg inputs db).2
  ∧ length (serve cfg inputs db).1 = length inputs.
Proof.
  revert db. induction inputs as [|[e req] rest IH]; intros db; simpl; [done|].
  destruct (handle cfg e req db) as [o db1] eqn:Hh.
  destruct (IH db1) as [Hrtc Hlen].
  destruct (serve cfg rest db1) as [os db2]. simpl in *. split; [|by rewrite Hlen].
  eapply rtc_l; [|done]. exists (e, req, o).
  pose proof (step_handle cfg e req db) as Hstep. by rewrite Hh in Hstep.
Qed.

(** The server started on a new database file and given any list of
    requests answers each of them and ends in a reachable database. *)
Lemma serve_reachable inputs :
  reachable cfg (serve cfg inputs (createTables None)).2
  ∧ length (serve cfg inputs (createTables None)).1 = length inputs.
Proof. apply serve_rtc. Qed.

Lemma match_route_delete_post s id :
  segment_is "delete-post" s = true → truthy id = true →
  match_route POST [s; id] = Some (RDeletePost, id_param id).
Proof.
  unfold match_route, segment_is. intros Hs%bool_decide_eq_true ->. simpl.
  rewrite Hs. by rewrite bool_decide_false, bool_decide_true.
Qed.

(** C34: a request to delete a post, by any logged-in user, the author
    included, never deletes: when the post exists the client is redirected
    to "/" (and the handler then raises), when it does not the client gets
    the error response 500; the database is unchanged in both cases. *)
Theorem handle_delete_post e req db s id c :
  req_method req = POST → req_path req = [s; id] →
  segment_is "delete-post" s = true → truthy id = true →
  session cfg e req = Some c →
  handle cfg e req db
  = (match select_post_by_id (VStr id) db with
     | Some _ => Outcome (Sent (Redirected "/")) [] (Some ERR_HTTP_HEADERS_SENT)
     | None => Outcome InternalServerError [] (Some TypeError)
     end, db).
Proof.
  intros Hm Hp Hs Hid Hc. unfold handle.
  rewrite app_run, Hm, Hp, (match_route_delete_post s id Hs Hid), Hc. simpl.
  unfold post_delete_post. eff_unfold.
  rewrite (mustBeLoggedIn_user _ _ _ c) by done.
  rewrite fetch_owned_post_run. unfold param_id. simpl.
  unfold id_param. rewrite lookup_singleton_eq.
  by destruct (select_post_by_id (VStr id) db).
Qed.

End server_facts.

(** ** Routing *)

(** The routes with a parameter are matched with a non-empty [id] and
    by the method the source registers them with; the others get no
    parameter. *)
Theorem match_route_params m path r ps :
  match_route m path = Some (r, ps) →
  match r with
  | RPost | REditPostForm =>
      m = GET ∧ ∃ s id, path = [s; id] ∧ ps = id_param id ∧ truthy id = true
  | REditPost | RDeletePost =>
      m = POST ∧ ∃ s id, path = [s; id] ∧ ps = id_param id ∧ truthy id = true
  | RHome => m = GET ∧ path = [] ∧ ps = ∅
  | RLogout | RCreatePostForm | RLoginForm => m = GET ∧ length path = 1%nat ∧ ps = ∅
  | RCreatePost | RRegister | RLogin => m = POST ∧ length path = 1%nat ∧ ps = ∅
  end.
Proof.
  unfold match_route. intros Hm.
  destruct m, path as [|s [|id [|]]]; try done;
    repeat case_match; simplify_eq; try done;
    (split; [done|]); exists s, id; split_and!; try done;
    by destruct (truthy id).
Qed.

(** ** The theorems on the examples *)

(** The run [scenario] from a new database: the registration
    succeeds, its repetition is refused, the login succeeds, the post is
    stored as post 1, its author's request to delete it is redirected and
    raises, the post is still shown, and an unknown path is answered 404. *)
Example serve_scenario :
  out_reply <$> (serve example_config scenario empty_db).1
  = [Sent (Redirected "/");
     Sent (Rendered "homepage" (with_errors ["User already exists"%string]));
     Sent (Redirected "/");
     Sent (Redirected "/post/1");
     Sent (Redirected "/");
     Sent (Rendered "single-post"
             (with_post
                (PostWithUsername
                   (Post 1 (toISOString 1700000000000) (VStr (js "Hi"))
                         (VStr (js "World")) 1)
                   (VStr (js "alice1")))
                (Some false)));
     NotFound]
  ∧ out_error <$> (serve example_config scenario empty_db).1
    = [None; None; None; None; Some ERR_HTTP_HEADERS_SENT; None; None]
  ∧ (serve example_config scenario empty_db).2 = hello_db.
Proof. by vm_compute. Qed.

Lemma stored_rows_stay_witness :
  extends alice_db (serve example_config scenario alice_db).2.
Proof.
  apply (stored_rows_stay example_config alice_db).
  - apply insert_user_wf, wf_db_empty.
  - apply serve_rtc.
Defined.

Lemma reachable_wf_witness : wf_db (serve example_config scenario empty_db).2.
Proof.
  apply (reachable_wf example_config). apply (serve_rtc example_config scenario).
Defined.

Lemma handle_post_author_witness :
  ∃ c, session example_config example_env hello_request = Some c
       ∧ 1 = userId c
       ∧ toISOString 1700000000000 = toISOString (now example_env).
Proof.
  apply (handle_post_author example_config example_env hello_request alice_db 1
           (Post 1 (toISOString 1700000000000) (VStr (js "Hi"))
                 (VStr (js "World")) 1)); by vm_compute.
Defined.

Lemma anonymous_cannot_post_witness :
  post_table (handle example_config example_env
                (example_form "create-post" [("title", "Hi"); ("body", "World")]%string)
                alice_db).2
  = post_table alice_db.
Proof. apply (anonymous_cannot_post example_config). reflexivity. Defined.

Lemma match_route_params_witness :
  POST = POST
  ∧ ∃ s id, [js "Delete-Post"; js "7"] = [s; id]
            ∧ id_param (js "7") = id_param id ∧ truthy id = true.
Proof.
  apply (match_route_params POST [js "Delete-Post"; js "7"] RDeletePost
           (id_param (js "7"))). reflexivity.
Defined.

Lemma handle_delete_post_witness :
  handle example_config example_env
    (with_cookie alice_cookie (Request POST [js "delete-post"; js "1"] ∅ ∅ ∅ None))
    hello_db
  = (Outcome (Sent (Redirected "/")) [] (Some ERR_HTTP_HEADERS_SENT), hello_db).
Proof.
  rewrite (handle_delete_post example_config example_env
             (with_cookie alice_cookie
                (Request POST [js "delete-post"; js "1"] ∅ ∅ ∅ None))
             hello_db (js "delete-post") (js "1") alice) by reflexivity.
  reflexivity.
Defined.
