(* ===== verification/Refinement.v ===== *)
(** * The server refines the abstract blog

    - [served] says what one request does, outcome and database together:
      it is answered without writing and without a session cookie, or it
      registers a user (with a session when the secret of the tokens is
      set, with an exception of [jwt.sign] when it is not), or it logs a
      user in, or it stores a post.
      [handle_served] proves it of [Server.handle], route by route, from the
      lemmas of [Handlers].
    - [matches] relates a database to the blog of [Blog] it represents (the
      rows of [user] read as accounts by name, the rows of [post] as posts),
      and [announces] relates the outcome of a request to the event of the
      abstract step (a registration is announced by its session cookie,
      or by the exception of [jwt.sign] when the process has no secret).
    - The simulation diagram ([step_simulates]) is lifted to runs with
      [Traces.simulation_trace]; the invariant and the theorems of the
      abstract blog are then transferred to the server: the stored rows
      are those of the data model, who authored a post registered, sessions
      are granted for stored users only. *)

From stdpp Require Import pretty.
From S2P Require Import Spec2Rocq Traces JsString Platform Calendar Blog Store Http Auth Handlers Server.

Local Open Scope Z_scope.

(** ** What a request does *)

Section served.
Context `{!Sqlite, !Bcrypt, !Jwt, !Clock}.
Variable cfg : config.

(** The session cookie for the user [id] named [name], issued at [e]. *)
Definition session_cookie (e : env) (id : Z) (name : value) : cookie_header :=
  SetCookie "ourSimpleApp"
    (jwt_token (now_seconds e + 86400) id name (JWTSECRET cfg) (now_seconds e))
    (session_cookie_options cfg).

(** What the client receives when the handler of its route ends with the
    result [r] in the state [st]. *)
Definition outcome_of (r : result exn unit) (st : hstate) : outcome :=
  finish (match r with Ok _ => Ok true | Throw x => Throw x end) (st_res st).

(** The request of the session [who] handled at [e] in the database [db]:
    its outcome and the database it leaves. *)
Inductive served (e : env) (who : option claims) (db : database)
    : outcome → database → Prop :=
| served_quietly o :
    forallb is_clear (out_cookies o) = true →
    served e who db o db
| served_registration name password :
    truthy (JWTSECRET cfg) = true →
    select_user_by_username name db = None →
    3 ≤ js_length name ≤ 10 → test_alnum name = true →
    6 ≤ js_length password ≤ 70 → trim password = password →
    served e who db
      (Outcome (Sent (Redirected "/"))
               [session_cookie e (seq (user_table db) + 1) (numeric_affinity name)]
               None)
      (insert_user name (hashSync password (salt e)) db).2
| served_unsigned name password :
    truthy (JWTSECRET cfg) = false →
    select_user_by_username name db = None →
    3 ≤ js_length name ≤ 10 → test_alnum name = true →
    6 ≤ js_length password ≤ 70 → trim password = password →
    served e who db
      (Outcome InternalServerError [] (Some SecretOrPrivateKeyError))
      (insert_user name (hashSync password (salt e)) db).2
| served_login u password h :
    truthy (JWTSECRET cfg) = true →
    rows (user_table db) !! user_id u = Some u →
    user_password u = VStr h →
    trim password = password →
    compareSync password h = true →
    served e who db
      (Outcome (Sent (Redirected "/"))
               [session_cookie e (user_id u) (user_username u)] None)
      db
| served_post c u title body :
    who = Some c →
    rows (user_table db) !! userId c = Some u →
    blank title = false → blank body = false →
    served e who db
      (Outcome (Sent (Redirected ("/post/" +:+ pretty (seq (post_table db) + 1))))
               [] None)
      (insert_post (toISOString (now e)) title body (userId c) db).2.

End served.

(** ** The simulation relation *)

(** The post of the abstract blog that a row of [post] stands for. *)
Definition post_entry (p : post) : entry :=
  Entry (post_createdDate p) (post_title p) (post_body p) (post_authorid p).

(** The database [db] represents the blog [b]. *)
Record matches (db : database) (b : blog) : Prop := Matches {
  matches_accounts : ∀ name acc,
    accounts b !! name = Some acc ↔
    rows (user_table db) !! account_id acc
    = Some (User (account_id acc) name (account_password acc));
  matches_entries : entries b = post_entry <$> rows (post_table db);
  matches_accounts_issued : accounts_issued b = seq (user_table db);
  matches_entries_issued : entries_issued b = seq (post_table db);
}.

Section announces.
Context `{!Jwt}.
Variable cfg : config.

(** The response sets the session cookie, and only it, to a token of the
    server for the user [id] named [name]. *)
Definition grants (o : outcome) (name : value) (id : Z) : Prop :=
  ∃ token opts c,
    out_cookies o = [SetCookie "ourSimpleApp" token opts]
    ∧ jwt_decode token (JWTSECRET cfg) = Some c
    ∧ userId c = id ∧ username c = name.

(** What the client of a request can tell of the event it caused. *)
Definition announces (l : env * request * outcome) (ev : event) : Prop :=
  let '(e, req, o) := l in
  match ev with
  | Registered name id =>
      (out_reply o = Sent (Redirected "/") ∧ grants o name id)
      ∨ (truthy (JWTSECRET cfg) = false
         ∧ o = Outcome InternalServerError [] (Some SecretOrPrivateKeyError))
  | LoggedIn name id =>
      out_reply o = Sent (Redirected "/") ∧ grants o name id
  | Published id author =>
      out_reply o = Sent (Redirected ("/post/" +:+ pretty id))
      ∧ out_cookies o = []
      ∧ ∃ c, session cfg e req = Some c ∧ userId c = author
  | Quiet => forallb is_clear (out_cookies o) = true
  end.

End announces.

(** ** Every request is served *)

Section served_facts.
Context `{!Sqlite, !Bcrypt, !Jwt, !Clock}.
Variable cfg : config.
Implicit Types (e : env) (who : option claims) (st : hstate).

Lemma handle_route e req db r ps :
  match_route (req_method req) (req_path req) = Some (r, ps) →
  handle cfg e req db
  = let rs := route_handler cfg e r
                (set_params ps (set_user (session cfg e req) req))
                (HState (Response [] (session cfg e req) [] None) db []) in
    (outcome_of rs.1 rs.2, st_db rs.2).
Proof.
  intros Hr. unfold handle. rewrite app_run, Hr. simpl. eff_unfold.
  by destruct (route_handler _ _ _ _ _) as [[[]|x] st].
Qed.

Lemma handle_no_route e req db :
  match_route (req_method req) (req_path req) = None →
  handle cfg e req db = (Outcome NotFound [] None, db).
Proof. intros Hr. unfold handle. by rewrite app_run, Hr. Qed.

(** A result that leaves the database and sets no cookie. *)
Lemma served_same e who st st' r :
  st_db st' = st_db st → res_cookies (st_res st') = [] →
  served cfg e who (st_db st) (outcome_of r st') (st_db st').
Proof. intros -> Hc. apply served_quietly. simpl. by rewrite Hc. Qed.

Lemma served_quiet e who (m : handler unit) st :
  quiet m → res_cookies (st_res st) = [] →
  served cfg e who (st_db st) (outcome_of (m st).1 (m st).2) (st_db (m st).2).
Proof.
  intros Hm Hc. destruct (Hm st) as [-> (cs & Hcs & Hclear)].
  apply served_quietly. simpl. by rewrite Hcs, Hc.
Qed.

Ltac served_open :=
  unfold outcome_of, finish, mark_sent, queue_header; simpl.

Ltac served_close := cbn [fst snd]; by apply served_same.

Lemma post_register_served e who req st :
  res_sent (st_res st) = None → res_cookies (st_res st) = [] →
  served cfg e who (st_db st)
    (outcome_of (post_register cfg e req st).1 (post_register cfg e req st).2)
    (st_db (post_register cfg e req st).2).
Proof.
  intros Hs Hc.
  destruct (req_body req !! "username"%string) as [username|] eqn:Hu;
    [|rewrite post_register_missing by auto; served_close].
  destruct (req_body req !! "password"%string) as [password|] eqn:Hp;
    [|rewrite post_register_missing by auto; served_close].
  rewrite (post_register_run _ _ _ _ _ _ Hu Hp Hs). cbv zeta.
  destruct (has_errors _) eqn:Herr; [served_close|].
  apply has_errors_false, register_errors_nil in Herr as (Hfree & ? & ? & ?).
  apply bool_decide_eq_false in Hfree.
  assert (select_user_by_username (trim username) (st_db st) = None) as Hnone.
  { by destruct (select_user_by_username _ _); [destruct Hfree; eauto|]. }
  destruct (truthy (JWTSECRET cfg)) eqn:Hsecret;
    unfold registered, stored; served_open; rewrite Hc, ?Hs.
  - apply served_registration; [done..|apply trim_idemp].
  - apply served_unsigned; [done..|apply trim_idemp].
Qed.

Lemma post_login_served e who req st :
  wf_db (st_db st) →
  res_sent (st_res st) = None → res_cookies (st_res st) = [] →
  served cfg e who (st_db st)
    (outcome_of (post_login cfg e req st).1 (post_login cfg e req st).2)
    (st_db (post_login cfg e req st).2).
Proof.
  intros Hwf Hs Hc.
  destruct (req_body req !! "username"%string) as [username|] eqn:Hu;
    [|rewrite post_login_missing by auto; served_close].
  destruct (req_body req !! "password"%string) as [password|] eqn:Hp;
    [|rewrite post_login_missing by auto; served_close].
  rewrite (post_login_run _ _ _ _ _ _ Hu Hp Hs).
  destruct (select_user_by_username _ _) as [u|] eqn:Hsel;
    [|served_close].
  destruct (user_password u) as [| | | |h] eqn:Hpw;
    try served_close.
  destruct (compareSync _ _) eqn:Hcmp; [|served_close].
  destruct (truthy (JWTSECRET cfg)) eqn:Hsecret;
    [|rewrite start_session_unsigned by done; served_close].
  rewrite start_session_run by done. served_open. rewrite Hc.
  apply select_user_by_username_Some in Hsel as [[k Hk] _].
  pose proof (proj1 (proj2 (wf_users _ Hwf) _ _ Hk)) as Hid.
  eapply served_login; [done|by rewrite Hid|done|apply trim_idemp|done].
Qed.

Lemma post_create_post_served e req st :
  wf_db (st_db st) →
  res_sent (st_res st) = None → res_cookies (st_res st) = [] →
  served cfg e (req_user req) (st_db st)
    (outcome_of (post_create_post e req st).1 (post_create_post e req st).2)
    (st_db (post_create_post e req st).2).
Proof.
  intros Hwf Hs Hc. destruct (req_user req) as [c|] eqn:Hwho.
  2: { unfold post_create_post. rewrite mustBeLoggedIn_anonymous by done.
       unfold res_redirect. rewrite send_fresh by done.
       served_close. }
  destruct (req_body req !! "title"%string) as [title|] eqn:Ht;
    [|rewrite (post_create_post_missing _ _ _ c) by auto; served_close].
  destruct (req_body req !! "body"%string) as [body|] eqn:Hb;
    [|rewrite (post_create_post_missing _ _ _ c) by auto; served_close].
  rewrite (post_create_post_run _ _ _ _ _ _ Hwho Ht Hb Hs). cbv zeta.
  destruct (has_errors _) eqn:Herr; [served_close|].
  apply has_errors_false, post_errors_nil in Herr as [??].
  destruct (select_user_by_id _ _) as [u|] eqn:Hu; [|served_close].
  unfold created. served_open. rewrite Hc. by eapply served_post.
Qed.

(** The routes other than the three above neither write nor grant. *)
Lemma route_handler_quiet e r req :
  r ≠ RRegister → r ≠ RLogin → r ≠ RCreatePost →
  quiet (route_handler cfg e r req).
Proof.
  destruct r; try done; intros _ _ _; simpl;
    first [apply quiet_get_home | apply quiet_get_logout
          | apply quiet_get_create_post | apply quiet_get_post
          | apply quiet_get_login | apply quiet_gated_owner].
Qed.

Lemma route_served e r req st :
  wf_db (st_db st) →
  res_sent (st_res st) = None → res_cookies (st_res st) = [] →
  served cfg e (req_user req) (st_db st)
    (outcome_of (route_handler cfg e r req st).1 (route_handler cfg e r req st).2)
    (st_db (route_handler cfg e r req st).2).
Proof.
  intros Hwf Hs Hc.
  destruct (decide (r = RRegister)) as [->|?]; [by apply post_register_served|].
  destruct (decide (r = RLogin)) as [->|?]; [by apply post_login_served|].
  destruct (decide (r = RCreatePost)) as [->|?];
    [by apply post_create_post_served|].
  apply served_quiet; [by apply route_handler_quiet|done].
Qed.

(** Every request is served in one of the five ways. *)
Lemma handle_served e req db :
  wf_db db →
  served cfg e (session cfg e req) db
         (handle cfg e req db).1 (handle cfg e req db).2.
Proof.
  intros Hwf. destruct (match_route (req_method req) (req_path req))
    as [[r ps]|] eqn:Hr.
  - rewrite (handle_route _ _ _ _ _ Hr). cbv zeta.
    by apply (route_served e r
                (set_params ps (set_user (session cfg e req) req))
                (HState (Response [] (session cfg e req) [] None) db [])).
  - rewrite (handle_no_route _ _ _ Hr). by apply served_quietly.
Qed.

End served_facts.

(** ** The simulation *)

Section simulation_facts.
Context `{!Sqlite, !Bcrypt, !Jwt, !Clock}.
Variable cfg : config.

Lemma matches_empty : matches empty_db empty_blog.
Proof.
  split; simpl; [|by rewrite fmap_empty|done..].
  intros name acc. by rewrite !lookup_empty.
Qed.

(** A stored user has an account, under the user's name. *)
Lemma matches_row db b k u :
  wf_db db → matches db b → rows (user_table db) !! k = Some u →
  accounts b !! user_username u = Some (Account k (user_password u)).
Proof.
  intros Hwf Hm Hk. apply (matches_accounts _ _ Hm). simpl.
  destruct (proj2 (wf_users _ Hwf) _ _ Hk) as [<- _]. by destruct u.
Qed.

Lemma matches_free db b name :
  matches db b → select_user_by_username name db = None →
  accounts b !! numeric_affinity name = None.
Proof.
  intros Hm Hfree. destruct (accounts b !! _) as [acc|] eqn:Hacc; [|done].
  apply (matches_accounts _ _ Hm) in Hacc.
  rewrite select_user_by_username_None in Hfree. by destruct (Hfree _ _ Hacc).
Qed.

Lemma session_cookie_grants e id name :
  grants cfg (Outcome (Sent (Redirected "/")) [session_cookie cfg e id name] None)
         name id.
Proof.
  eexists _, _, _. split; [done|]. unfold jwt_token.
  by rewrite jwt_decode_encode.
Qed.

Lemma matches_registration db b name password salt :
  wf_db db → matches db b → select_user_by_username name db = None →
  matches (insert_user name (hashSync password salt) db).2
          (open_account (numeric_affinity name) (hashSync password salt) b).
Proof.
  intros Hwf Hm Hfree. rewrite (insert_user_free _ _ _ Hfree).
  pose proof (wf_table_fresh _ _ (wf_users _ Hwf)) as Hfresh.
  destruct Hm as [Hacc Hen Hai Hei]. rewrite numeric_affinity_hash.
  split; simpl; [|done|by rewrite Hai|done]. rewrite Hai. intros n a.
  rewrite select_user_by_username_None in Hfree.
  rewrite !lookup_insert_Some, Hacc. split.
  - intros [[<- <-]|[Hn Ha]]; [by left|right]. split; [|done].
    intros Heq. rewrite <- Heq in Ha. by rewrite Ha in Hfresh.
  - intros [[Hid [= <- Hpw]]|[Hid Ha]]; [left|right].
    + split; [done|]. destruct a; by simplify_eq/=.
    + split; [|done]. intros <-. by destruct (Hfree _ _ Ha).
Qed.

Lemma matches_post db b created title body u uid :
  matches db b → rows (user_table db) !! uid = Some u →
  matches (insert_post created title body uid db).2
          (publish (Entry created (numeric_affinity title)
                          (numeric_affinity body) uid) b).
Proof.
  intros [Hacc Hen Hai Hei] Hu. unfold insert_post, select_user_by_id.
  rewrite Hu. split; simpl; [done| |done|by rewrite Hei].
  by rewrite fmap_insert, Hen, Hei.
Qed.

(** The diagram, for a request served in one of the five ways. *)
Lemma served_simulates e req db o db' b :
  wf_db db → matches db b → served cfg e (session cfg e req) db o db' →
  ∃ ev b', blog_step b ev b' ∧ matches db' b' ∧ announces cfg (e, req, o) ev.
Proof.
  intros Hwf Hm [o' Hclear|name pw _ Hfree Hlen Halnum Hpwlen Htrim
                  |name pw Hsecret Hfree Hlen Halnum Hpwlen Htrim
                  |u pw h _ Hu Hpw Htrim Hcmp|c u title body Hc Hu Ht Hb].
  - exists Quiet, b. by split_and!; [constructor|..].
  - eexists (Registered _ _), _. split_and!.
    + apply (blog_registers b (numeric_affinity name) pw (salt e));
        [by eapply matches_free|by exists name|done].
    + by apply matches_registration.
    + rewrite (matches_accounts_issued _ _ Hm). left.
      split; [done|apply session_cookie_grants].
  - eexists (Registered _ _), _. split_and!.
    + apply (blog_registers b (numeric_affinity name) pw (salt e));
        [by eapply matches_free|by exists name|done].
    + by apply matches_registration.
    + by right.
  - exists (LoggedIn (user_username u) (user_id u)), b. split_and!; [|done|].
    + by apply (blog_logs_in b _ (Account (user_id u) (user_password u)) pw h);
        [eapply matches_row|..].
    + split; [done|apply session_cookie_grants].
  - eexists (Published _ (userId c)), _. split_and!.
    + apply (blog_publishes b (Entry (toISOString (now e)) (numeric_affinity title)
                                     (numeric_affinity body) (userId c))
                            (user_username u));
        [|by eexists..].
      eexists. split; [by eapply matches_row|done].
    + by eapply matches_post.
    + rewrite (matches_entries_issued _ _ Hm). split_and!; [done..|by exists c].
Qed.

(** The steps of the server are simulated by the steps of the blog. *)
Lemma step_simulates :
  simulation (step cfg) blog_step wf_db matches (announces cfg).
Proof.
  intros db l db' b Hwf Hm Hstep. destruct Hstep as [e req db].
  eapply served_simulates; [done..|by apply handle_served].
Qed.

(** A run of the server is a run of the abstract blog, event by event. *)
Lemma trace_simulates db ls db' b :
  wf_db db → matches db b → trace (step cfg) db ls db' →
  ∃ evs b', trace blog_step b evs b' ∧ matches db' b'
            ∧ Forall2 (announces cfg) ls evs.
Proof.
  apply (simulation_trace (step cfg) blog_step wf_db matches (announces cfg));
    [apply step_wf|apply step_simulates].
Qed.

(** [serve] is a run of [step], labelled by the requests and their
    outcomes. *)
Lemma serve_trace inputs db :
  trace (step cfg) db
        (zip_with (λ i o, (i.1, i.2, o)) inputs (serve cfg inputs db).1)
        (serve cfg inputs db).2.
Proof.
  revert db. induction inputs as [|[e req] rest IH]; intros db; simpl;
    [constructor|].
  pose proof (step_handle cfg e req db) as Hstep.
  destruct (handle cfg e req db) as [o db1]. specialize (IH db1).
  destruct (serve cfg rest db1) as [os db2]. simpl in *.
  by eapply trace_cons.
Qed.

(** A run from a new database is a run from the empty blog. *)
Lemma trace_simulates_new ls db :
  trace (step cfg) (createTables None) ls db →
  ∃ evs b, trace blog_step empty_blog evs b ∧ blog_ok b ∧ matches db b
           ∧ Forall2 (announces cfg) ls evs.
Proof.
  intros Hrun.
  destruct (trace_simulates _ _ _ _ wf_db_empty matches_empty Hrun)
    as (evs & b & Hb & Hm & Hev).
  exists evs, b. split_and!; [done| |done..].
  by eapply blog_trace_ok; [apply blog_ok_empty|].
Qed.

Lemma reachable_simulated db :
  reachable cfg db → wf_db db ∧ ∃ b, blog_ok b ∧ matches db b.
Proof.
  intros Hr. split; [by destruct (steps_wf cfg _ _ wf_db_empty Hr)|].
  apply rtc_trace in Hr as [ls Hrun].
  destruct (trace_simulates_new _ _ Hrun) as (evs & b & _ & Hok & Hm & _).
  by exists b.
Qed.

(** The users and the posts of a reachable database are those of the data
    model. *)
Lemma reachable_user db k u :
  reachable cfg db → rows (user_table db) !! k = Some u →
  valid_name (user_username u) ∧ hashed (user_password u).
Proof.
  intros (Hwf & b & Hok & Hm)%reachable_simulated Hk.
  pose proof (matches_row _ _ _ _ Hwf Hm Hk) as Hacc.
  by destruct (ok_account _ Hok _ _ Hacc) as (? & ? & _).
Qed.

Lemma reachable_post db k p :
  reachable cfg db → rows (post_table db) !! k = Some p →
  stamped (post_createdDate p)
  ∧ valid_text (post_title p) ∧ valid_text (post_body p)
  ∧ ∃ u, rows (user_table db) !! post_authorid p = Some u.
Proof.
  intros (Hwf & b & Hok & Hm)%reachable_simulated Hk.
  assert (entries b !! k = Some (post_entry p)) as Hen.
  { by rewrite (matches_entries _ _ Hm), lookup_fmap, Hk. }
  destruct (ok_entry _ Hok _ _ Hen) as (_ & ? & ? & ? & name & acc & Hacc & Hid).
  split_and!; [done..|]. apply (matches_accounts _ _ Hm) in Hacc.
  simpl in Hid. rewrite Hid in Hacc. eauto.
Qed.

(** The session cookie of a served request is for a stored user. *)
Lemma served_grant e who db o db' name token opts :
  wf_db db → served cfg e who db o db' →
  SetCookie name token opts ∈ out_cookies o →
  name = "ourSimpleApp"%string
  ∧ ∃ c u, jwt_decode token (JWTSECRET cfg) = Some c
           ∧ exp c = now_seconds e + 86400
           ∧ rows (user_table db') !! userId c = Some u
           ∧ user_username u = username c.
Proof.
  intros Hwf [o' Hclear|n pw _ Hfree _ _ _ _|n pw _ _ _ _ _ _
             |u pw h _ Hu Hpw _ Hcmp|c u title body Hc Hu _ _]; simpl;
    [| |by intros ?%elem_of_nil|..].
  - intros Hin. rewrite forallb_forall in Hclear.
    by apply list_elem_of_In, Hclear in Hin.
  - intros [= -> -> _]%list_elem_of_singleton. split; [done|].
    rewrite (insert_user_free _ _ _ Hfree). simpl. unfold jwt_token.
    eexists _, _. rewrite jwt_decode_encode.
    split_and!; [done|done|apply lookup_insert_eq|done].
  - intros [= -> -> _]%list_elem_of_singleton. split; [done|].
    unfold jwt_token. eexists _, u. rewrite jwt_decode_encode. by split_and!.
  - by intros ?%elem_of_nil.
Qed.

(** ** The size of the row ids

    SQLite keeps row ids in 64 bits and better-sqlite3 hands them to the
    handlers as numbers, exact up to 2^53; the model keeps them as
    integers without a bound.  A request stores at most one row, so the
    ids of a run are at most its length and the bound is out of reach. *)

Lemma written_seq e req db db' :
  written cfg e req db db' →
  seq (user_table db) ≤ seq (user_table db')
  ∧ seq (post_table db) ≤ seq (post_table db')
  ∧ seq (user_table db') + seq (post_table db')
    ≤ seq (user_table db) + seq (post_table db) + 1.
Proof.
  destruct 1; unfold insert_user, insert_post, table_insert;
    repeat case_match; simpl; lia.
Qed.

Lemma trace_seq db ls db' :
  trace (step cfg) db ls db' →
  seq (user_table db) ≤ seq (user_table db')
  ∧ seq (post_table db) ≤ seq (post_table db')
  ∧ seq (user_table db') + seq (post_table db')
    ≤ seq (user_table db) + seq (post_table db) + Z.of_nat (length ls).
Proof.
  induction 1 as [|db l db1 ls db2 Hstep _ IH]; [simpl; lia|].
  destruct Hstep as [e req db].
  pose proof (written_seq _ _ _ _ (handle_written cfg e req db)).
  rewrite length_cons. lia.
Qed.

(** C31: the row ids of a run from a new database file are positive and at
    most the number of its requests, so they stay far below 2^53. *)
Theorem ids_bounded ls db k :
  trace (step cfg) (createTables None) ls db →
  is_Some (rows (user_table db) !! k) ∨ is_Some (rows (post_table db) !! k) →
  0 < k ≤ Z.of_nat (length ls).
Proof.
  intros Hrun Hk. pose proof (trace_seq _ _ _ Hrun) as (Hu & Hp & Hsum).
  pose proof (trace_invariant _ wf_db _ _ _ (step_wf cfg) wf_db_empty Hrun)
    as Hwf.
  change (seq (user_table (createTables None))) with 0 in *.
  change (seq (post_table (createTables None))) with 0 in *.
  destruct Hk as [[u Hk]|[p Hk]].
  - destruct (proj2 (wf_users _ Hwf) _ _ Hk). lia.
  - destruct (proj2 (wf_posts _ Hwf) _ _ Hk). lia.
Qed.

(** ** The refinement theorems *)

(** C9: one request handled by the server is one step of the abstract
    blog: from a database that satisfies the schema and represents a blog,
    the request either opens the account its response grants a session
    for (in a process without a secret for its tokens: the account for
    which [jwt.sign] raised after the INSERT, answered 500), or logs in to
    an existing account with a password that verifies,
    or publishes a post under the account of its session, or changes
    nothing and grants no session; and the database it leaves represents
    the blog after that step. *)
Theorem handle_simulates e req db b :
  wf_db db → matches db b →
  ∃ ev b', blog_step b ev b'
           ∧ matches (handle cfg e req db).2 b'
           ∧ announces cfg (e, req, (handle cfg e req db).1) ev.
Proof. intros Hwf Hm. eapply served_simulates; [done..|by apply handle_served]. Qed.

(** C12: the server started on a new database file and given any list of
    requests performs a run of the abstract blog from the empty blog, one
    event per request, each announced by the outcome of its request; the
    final database represents the final blog, which satisfies the
    invariant of the abstract blog. *)
Theorem serve_simulates inputs :
  ∃ evs b,
    trace blog_step empty_blog evs b ∧ blog_ok b
    ∧ matches (serve cfg inputs (createTables None)).2 b
    ∧ Forall2 (announces cfg)
        (zip_with (λ i o, (i.1, i.2, o)) inputs
                  (serve cfg inputs (createTables None)).1)
        evs.
Proof. apply trace_simulates_new, serve_trace. Qed.

(** C25: in every run from a new database, the author of every stored
    post registered in this run: some request of the run was answered by
    a redirect to "/" with a session cookie for the author's id (or, in a
    process without a secret for its tokens, by the 500 response of the
    registration that stored the author). *)
Theorem authors_registered ls db k p :
  trace (step cfg) (createTables None) ls db →
  rows (post_table db) !! k = Some p →
  ∃ l name, l ∈ ls ∧ announces cfg l (Registered name (post_authorid p)).
Proof.
  intros (evs & b & Hrun & _ & Hm & Hev)%trace_simulates_new Hp.
  assert (entries b !! k = Some (post_entry p)) as Hen.
  { by rewrite (matches_entries _ _ Hm), lookup_fmap, Hp. }
  destruct (blog_authors_registered _ _ _ _ Hrun Hen) as [name Hin].
  apply list_elem_of_lookup in Hin as [i Hi].
  destruct (Forall2_lookup_r _ _ _ _ _ Hev Hi) as (l & Hl & Hann).
  exists l, name. split; [by eapply list_elem_of_lookup_2|done].
Qed.

(** C23: every database the server reaches from a new file holds the data
    model of the specification, as columns of NUMERIC affinity store it:
    the name of every user is what SQLite stores for a text of 3 to 10
    letters and digits, the password is a text, the bcrypt hash of a
    trimmed password of 6 to 70 characters; the date of every post is the
    ISO form of a time, its title and its body are what SQLite stores for
    texts that are not blank, and its author is a stored user. *)
Theorem stored_rows_valid db :
  reachable cfg db →
  (∀ k u, rows (user_table db) !! k = Some u →
     (∃ s, user_username u = numeric_affinity s
           ∧ 3 ≤ js_length s ≤ 10 ∧ test_alnum s = true)
     ∧ ∃ password salt, user_password u = VStr (hashSync password salt)
                        ∧ 6 ≤ js_length password ≤ 70
                        ∧ trim password = password)
  ∧ (∀ k p, rows (post_table db) !! k = Some p →
       (∃ t, post_createdDate p = toISOString t)
       ∧ (∃ s, post_title p = numeric_affinity s ∧ blank s = false)
       ∧ (∃ s, post_body p = numeric_affinity s ∧ blank s = false)
       ∧ ∃ u, rows (user_table db) !! post_authorid p = Some u).
Proof.
  intros Hr. split; intros k ? Hk; [|by apply (reachable_post db k)].
  destruct (reachable_user db k _ Hr Hk) as (? & pw & s & ? & ? & ?). eauto 7.
Qed.

(** C24: in a database the server reaches from a new file, a login with
    both fields never raises when the secret of the tokens is set: the
    comparison of the password always gets a text to compare with, so the
    answer is the login page with its error or the redirect with the
    session cookie.  Without a secret the only exception is the one of
    [jwt.sign], for the right password. *)
Theorem login_never_raises db e req st username password :
  reachable cfg db → st_db st = db →
  req_body req !! "username"%string = Some username →
  req_body req !! "password"%string = Some password →
  res_sent (st_res st) = None →
  (post_login cfg e req st).1
  = if truthy (JWTSECRET cfg) then Ok tt
    else match select_user_by_username (trim username) db with
         | Some (User _ _ (VStr h)) =>
             if compareSync (trim password) h
             then Throw SecretOrPrivateKeyError else Ok tt
         | _ => Ok tt
         end.
Proof.
  intros Hr <- Hu Hp Hs. rewrite (post_login_run _ _ _ _ _ _ Hu Hp Hs).
  destruct (select_user_by_username _ _) as [u|] eqn:Hsel;
    [|by destruct (truthy _)].
  apply select_user_by_username_Some in Hsel as [[k Hk] _].
  destruct (reachable_user _ _ _ Hr Hk) as (_ & pw & s & Hpw & _).
  destruct u as [id name hash]. simpl in Hpw. subst hash. simpl.
  destruct (truthy (JWTSECRET cfg)) eqn:Hsecret, (compareSync _ _); try done.
  - by rewrite start_session_run.
  - by rewrite start_session_unsigned.
Qed.

(** C17: a response sets a cookie value only to grant a session that
    belongs to a stored user: the cookie is the session cookie, its token
    decodes under the server's secret to claims that expire 24 hours after
    the request and carry the id and the name of a user stored in the
    database the request leaves. *)
Theorem granted_session_has_account e req db name token opts :
  wf_db db →
  SetCookie name token opts ∈ out_cookies (handle cfg e req db).1 →
  name = "ourSimpleApp"%string
  ∧ ∃ c u, jwt_decode token (JWTSECRET cfg) = Some c
           ∧ exp c = now_seconds e + 86400
           ∧ rows (user_table (handle cfg e req db).2) !! userId c = Some u
           ∧ user_username u = username c.
Proof. intros Hwf. eapply served_grant; [done|by apply handle_served]. Qed.

End simulation_facts.

(** ** The theorems on the examples *)

Lemma handle_simulates_witness :
  ∃ ev b', blog_step empty_blog ev b'
           ∧ matches (handle example_config example_env alice_form empty_db).2 b'
           ∧ announces example_config
               (example_env, alice_form,
                (handle example_config example_env alice_form empty_db).1) ev.
Proof.
  apply (handle_simulates example_config example_env alice_form empty_db
           empty_blog wf_db_empty matches_empty).
Defined.

Lemma ids_bounded_witness :
  0 < 1 ≤ Z.of_nat (length (zip_with (λ i o, (i.1, i.2, o))
                              [(example_env, alice_form)]
                              (serve example_config [(example_env, alice_form)]
                                     empty_db).1)).
Proof.
  apply (ids_bounded example_config _
           (serve example_config [(example_env, alice_form)] empty_db).2 1).
  - apply (serve_trace example_config [(example_env, alice_form)] empty_db).
  - left. by eexists.
Defined.

Lemma authors_registered_witness :
  ∃ l name,
    l ∈ zip_with (λ i o, (i.1, i.2, o)) scenario
                 (serve example_config scenario empty_db).1
    ∧ announces example_config l (Registered name 1).
Proof.
  apply (authors_registered example_config _
           (serve example_config scenario empty_db).2 1
           (Post 1 (toISOString 1700000000000) (VStr (js "Hi"))
                 (VStr (js "World")) 1)).
  - apply (serve_trace example_config scenario empty_db).
  - reflexivity.
Defined.

Lemma stored_rows_valid_witness :
  (∃ s, user_username alice_row = numeric_affinity s
        ∧ 3 ≤ js_length s ≤ 10 ∧ test_alnum s = true)
  ∧ ∃ password salt, user_password alice_row = VStr (hashSync password salt)
                     ∧ 6 ≤ js_length password ≤ 70
                     ∧ trim password = password.
Proof.
  refine (proj1 (stored_rows_valid example_config
                   (serve example_config [(example_env, alice_form)] empty_db).2
                   _) 1 alice_row _).
  - apply (serve_rtc example_config [(example_env, alice_form)]).
  - reflexivity.
Defined.

Lemma login_never_raises_witness :
  (post_login example_config example_env wrong_login
     (example_state
        (serve example_config [(example_env, alice_form)] empty_db).2)).1
  = Ok tt.
Proof.
  apply (login_never_raises example_config
           (serve example_config [(example_env, alice_form)] empty_db).2
           example_env wrong_login _ (js "alice1") (js "secret2"));
    [apply (serve_rtc example_config [(example_env, alice_form)])
    |reflexivity..].
Defined.

Lemma granted_session_has_account_witness :
  "ourSimpleApp"%string = "ourSimpleApp"%string
  ∧ ∃ c u, jwt_decode alice_cookie (JWTSECRET example_config) = Some c
           ∧ exp c = now_seconds example_env + 86400
           ∧ rows (user_table
                     (handle example_config example_env alice_form empty_db).2)
                !! userId c = Some u
           ∧ user_username u = username c.
Proof.
  apply (granted_session_has_account example_config example_env alice_form
           empty_db "ourSimpleApp" alice_cookie
           (session_cookie_options example_config) wf_db_empty).
  vm_compute. by left.
Defined.
