(* ===== verification/Browser.v ===== *)
(** * A client with a cookie jar

    The server keeps no session state: a session is the cookie a response
    sets and the client sends back.  This file composes the server with
    such a client.

    - [jar], [attach], [keep_cookies]: the session cookie a client holds
      with the time its Max-Age ends, a request sent with it while it has
      not expired, and the jar after the Set-Cookie headers of a response
      (a header that sets or clears another cookie is ignored).
    - [visit], [browse]: one request, and a sequence of requests, of one
      client against [Server.handle].

    The theorems follow a session from the response that grants it to the
    requests that use it and to the logout that ends it.  [Client] proves
    that a client of RFC 6265, on the texts of [Wire], behaves as this
    one. *)

From stdpp Require Import pretty.
From S2P Require Import Spec2Rocq Traces JsString Platform Calendar Blog Store Http Auth Handlers Server Refinement.

Local Open Scope Z_scope.

(** ** The client *)

(** The cookie jar of a client for this server: the value of the session
    cookie, if it holds one, and the time (in milliseconds) at which the
    cookie expires, if it has a Max-Age. *)
Definition jar : Type := option (jsstring * option Z).

(** A cookie is sent until its time is reached. *)
Definition unexpired (e : env) (c : jsstring * option Z) : bool :=
  match c.2 with
  | Some t => bool_decide (now e < t)
  | None => true
  end.

(** The request as the client sends it at the time of [e]: with the cookie
    of its jar and no other. *)
Definition attach (e : env) (j : jar) (req : request) : request :=
  Request (req_method req) (req_path req)
          (match j with
           | Some c =>
               if unexpired e c then {[ "ourSimpleApp"%string := c.1 ]} else ∅
           | None => ∅
           end)
          (req_body req) (req_params req) (req_user req).

(** The jar after one Set-Cookie header received at the time of [e], and
    after those of a response.  [res.cookie] sends [maxAge] as a Max-Age in
    whole seconds; [res.clearCookie] sends an expiry in the past. *)
Definition keep_cookie (e : env) (j : jar) (c : cookie_header) : jar :=
  match c with
  | SetCookie name token opts =>
      if decide (name = "ourSimpleApp"%string)
      then Some (token, (λ age, now e + age / 1000 * 1000) <$> maxAge opts)
      else j
  | ClearCookie name _ =>
      if decide (name = "ourSimpleApp"%string) then None else j
  end.

Definition keep_cookies (e : env) (j : jar) (o : outcome) : jar :=
  foldl (keep_cookie e) j (out_cookies o).

Section browse.
Context `{!Sqlite, !Bcrypt, !Jwt, !Clock}.
Variable cfg : config.

(** One request of the client, and a sequence of them. *)
Definition visit (e : env) (req : request) (s : jar * database)
    : outcome * (jar * database) :=
  let '(o, db) := handle cfg e (attach e s.1 req) s.2 in
  (o, (keep_cookies e s.1 o, db)).

Fixpoint browse (inputs : list (env * request)) (s : jar * database)
    : list outcome * (jar * database) :=
  match inputs with
  | [] => ([], s)
  | (e, req) :: rest =>
      let '(o, s') := visit e req s in
      let '(os, s'') := browse rest s' in
      (o :: os, s'')
  end.

End browse.

(** ** Requests end to end *)

Section browse_facts.
Context `{!Sqlite, !Bcrypt, !Jwt, !Clock}.
Variable cfg : config.

(** The process was started with a secret for the tokens. *)
Hypothesis secret_set : truthy (JWTSECRET cfg) = true.

Lemma match_route_attach e j req :
  match_route (req_method (attach e j req)) (req_path (attach e j req))
  = match_route (req_method req) (req_path req).
Proof. done. Qed.

(** The jar of a client that received the session cookie at the time of
    [e]. *)
Lemma keep_session_cookie e j id name :
  keep_cookie e j (session_cookie cfg e id name)
  = Some (jwt_token (now_seconds e + 86400) id name (JWTSECRET cfg)
                   (now_seconds e),
          Some (now e + 86400000)).
Proof. done. Qed.

(** While the token is valid the client still holds its cookie. *)
Lemma token_within_cookie e e' :
  now_seconds e' < now_seconds e + 86400 → now e' < now e + 86400000.
Proof. unfold now_seconds. intros. lia_div. Qed.

(** The session of a request of a client that holds a cookie of the
    server. *)
Lemma session_attach e e' id name req :
  session cfg e'
    (attach e' (keep_cookie e None (session_cookie cfg e id name)) req)
  = if bool_decide (now_seconds e' < now_seconds e + 86400)
    then Some (Claims (now_seconds e + 86400) id name (now_seconds e))
    else None.
Proof.
  rewrite keep_session_cookie. unfold attach, unexpired. cbn [fst snd].
  case_bool_decide as Hheld.
  - apply session_signed. simpl. by rewrite lookup_singleton_eq.
  - rewrite bool_decide_false; [|by intros ?%(token_within_cookie e e')].
    unfold session. simpl. by rewrite lookup_empty.
Qed.

Lemma session_attach_none e req : session cfg e (attach e None req) = None.
Proof. unfold session. simpl. by rewrite lookup_empty. Qed.

(** A valid registration, end to end. *)
Lemma handle_register_valid e req db ps username password :
  match_route (req_method req) (req_path req) = Some (RRegister, ps) →
  req_body req !! "username"%string = Some username →
  req_body req !! "password"%string = Some password →
  select_user_by_username (trim username) db = None →
  3 ≤ js_length (trim username) ≤ 10 →
  test_alnum (trim username) = true →
  6 ≤ js_length (trim password) ≤ 70 →
  handle cfg e req db
  = (Outcome (Sent (Redirected "/"))
             [session_cookie cfg e (seq (user_table db) + 1)
                             (numeric_affinity (trim username))] None,
     (insert_user (trim username) (hashSync (trim password) (salt e)) db).2).
Proof.
  intros Hr Hu Hp Hfree Hlen Halnum Hpw. rewrite (handle_route _ _ _ _ _ _ Hr).
  cbv zeta. simpl route_handler.
  rewrite (post_register_valid cfg e _ _ username password) by done.
  by rewrite secret_set.
Qed.

(** A valid new post of a logged-in user, end to end. *)
Lemma handle_create_post_valid e req db ps c u title body :
  match_route (req_method req) (req_path req) = Some (RCreatePost, ps) →
  session cfg e req = Some c →
  req_body req !! "title"%string = Some title →
  req_body req !! "body"%string = Some body →
  blank title = false → blank body = false →
  rows (user_table db) !! userId c = Some u →
  handle cfg e req db
  = (Outcome (Sent (Redirected ("/post/" +:+ pretty (seq (post_table db) + 1))))
             [] None,
     (insert_post (toISOString (now e)) title body (userId c) db).2).
Proof.
  intros Hr Hc Ht Hb Hbt Hbb Hu. rewrite (handle_route _ _ _ _ _ _ Hr).
  cbv zeta. simpl route_handler. rewrite Hc.
  rewrite (post_create_post_run e _ _ c title body) by done. cbv zeta.
  rewrite (proj2 (post_errors_nil title body)) by done.
  unfold select_user_by_id. simpl. by rewrite Hu.
Qed.

(** A logout, end to end. *)
Lemma handle_logout e req db ps :
  match_route (req_method req) (req_path req) = Some (RLogout, ps) →
  handle cfg e req db
  = (Outcome (Sent (Redirected "/"))
             [ClearCookie "ourSimpleApp" (clear_cookie_options cfg)] None, db).
Proof.
  intros Hr. rewrite (handle_route _ _ _ _ _ _ Hr). cbv zeta.
  simpl route_handler. by rewrite get_logout_run.
Qed.

(** A client that registers and then, within 24 hours, submits a
    post with a title and a body publishes it under its new account: the
    registration sets the session cookie, the client sends it back, the
    middleware accepts it, and the post is stored with the id of the new
    user as its author. *)
Theorem register_then_publish e1 e2 req1 req2 db ps1 ps2 username password
    title body :
  wf_db db →
  match_route (req_method req1) (req_path req1) = Some (RRegister, ps1) →
  match_route (req_method req2) (req_path req2) = Some (RCreatePost, ps2) →
  req_body req1 !! "username"%string = Some username →
  req_body req1 !! "password"%string = Some password →
  select_user_by_username (trim username) db = None →
  3 ≤ js_length (trim username) ≤ 10 →
  test_alnum (trim username) = true →
  6 ≤ js_length (trim password) ≤ 70 →
  req_body req2 !! "title"%string = Some title →
  req_body req2 !! "body"%string = Some body →
  blank title = false → blank body = false →
  now_seconds e2 < now_seconds e1 + 86400 →
  let id := seq (user_table db) + 1 in
  let name := numeric_affinity (trim username) in
  let db1 := (insert_user (trim username) (hashSync (trim password) (salt e1)) db).2 in
  browse cfg [(e1, req1); (e2, req2)] (None, db)
  = ([Outcome (Sent (Redirected "/")) [session_cookie cfg e1 id name] None;
      Outcome (Sent (Redirected ("/post/" +:+ pretty (seq (post_table db) + 1))))
              [] None],
     (Some (jwt_token (now_seconds e1 + 86400) id name (JWTSECRET cfg)
                     (now_seconds e1),
            Some (now e1 + 86400000)),
      (insert_post (toISOString (now e2)) title body id db1).2)).
Proof.
  intros Hwf Hr1 Hr2 Hu Hp Hfree Hlen Halnum Hpw Ht Hb Hbt Hbb Hnow id name db1.
  unfold browse, visit. cbn [fst snd].
  rewrite (handle_register_valid e1 (attach e1 None req1) db ps1 username password)
    by done.
  unfold keep_cookies. cbn [out_cookies foldl fst snd]. fold id name db1.
  rewrite (handle_create_post_valid e2 _ db1 ps2
             (Claims (now_seconds e1 + 86400) id name (now_seconds e1))
             (User id name (numeric_affinity (hashSync (trim password) (salt e1))))
             title body); try done.
  - cbn [out_cookies foldl]. rewrite keep_session_cookie.
    subst db1. by rewrite insert_user_posts.
  - by rewrite session_attach, bool_decide_true.
  - subst db1. rewrite (insert_user_free _ _ _ Hfree). apply lookup_insert_eq.
Qed.

(** C27: the cookie outlives its token by less than a second.  A client
    that received the session cookie at the time of [e] sends it back until
    24 hours (the cookie's Max-Age) have passed, and the server accepts its
    token while the clock in seconds is below the token's [exp]: the
    request has the session exactly until [exp], the client still holds the
    cookie whenever the token is valid, and the cookie is sent with a token
    the server refuses only in the last fraction of a second of the 24
    hours. *)
Theorem session_cookie_lifetime e e' id name req :
  let j := keep_cookie e None (session_cookie cfg e id name) in
  let sent := req_cookies (attach e' j req) !! "ourSimpleApp"%string in
  session cfg e' (attach e' j req)
  = (if bool_decide (now_seconds e' < now_seconds e + 86400)
     then Some (Claims (now_seconds e + 86400) id name (now_seconds e))
     else None)
  ∧ (is_Some sent ↔ now e' < now e + 86400000)
  ∧ (is_Some sent ∧ session cfg e' (attach e' j req) = None ↔
     (now_seconds e + 86400) * 1000 ≤ now e' < now e + 86400000)
  ∧ 0 ≤ now e + 86400000 - (now_seconds e + 86400) * 1000 < 1000.
Proof.
  intros j sent. assert (is_Some sent ↔ now e' < now e + 86400000) as Hsent.
  { subst sent j. rewrite keep_session_cookie. unfold attach, unexpired.
    cbn [fst snd req_cookies]. case_bool_decide.
    - by rewrite lookup_singleton_eq.
    - rewrite lookup_empty. split; [by intros []|done]. }
  subst j. rewrite session_attach. do 2 (split; [done|]). split.
  - rewrite Hsent. unfold now_seconds. case_bool_decide.
    + split; [by intros [_ [=]]|]. intros [??]. exfalso. lia_div.
    + split; [intros [? _]; lia_div|]. by intros [??].
  - unfold now_seconds. lia_div.
Qed.

(** After a logout the client holds no session: whatever its jar
    held, the logout clears it, the next request is handled as the request
    of an anonymous client, and it leaves the posts as they are. *)
Theorem logout_ends_session e1 e2 req1 req2 j db ps :
  match_route (req_method req1) (req_path req1) = Some (RLogout, ps) →
  let next := handle cfg e2 (attach e2 None req2) db in
  browse cfg [(e1, req1); (e2, req2)] (j, db)
  = ([Outcome (Sent (Redirected "/"))
              [ClearCookie "ourSimpleApp" (clear_cookie_options cfg)] None;
      next.1],
     (keep_cookies e2 None next.1, next.2))
  ∧ post_table next.2 = post_table db.
Proof.
  intros Hr next. split; [|apply handle_anonymous_posts, session_attach_none].
  unfold browse, visit. cbn [fst snd].
  rewrite (handle_logout e1 (attach e1 j req1) db ps) by done.
  unfold keep_cookies at 1. cbn [out_cookies foldl keep_cookie fst snd].
  rewrite decide_True by done. fold next. by destruct next.
Qed.

End browse_facts.

(** ** The theorems on the examples *)

Lemma register_then_publish_witness :
  (browse example_config
     [(example_env, alice_form);
      (example_env, example_form "create-post" [("title", "Hi"); ("body", "World")]%string)]
     (None, empty_db)).2.2
  = hello_db.
Proof.
  rewrite (register_then_publish example_config eq_refl example_env example_env
             alice_form
             (example_form "create-post" [("title", "Hi"); ("body", "World")]%string)
             empty_db ∅ ∅ (js " alice1 ") (js "secret1") (js "Hi") (js "World"));
    first [reflexivity | apply wf_db_empty | by vm_compute].
Defined.

Lemma logout_ends_session_witness :
  post_table
    (handle example_config example_env
       (attach example_env None
          (example_form "create-post" [("title", "Hi"); ("body", "World")]%string))
       alice_db).2
  = post_table alice_db.
Proof.
  refine (proj2 (logout_ends_session example_config example_env example_env
            (Request GET [js "logout"] ∅ ∅ ∅ None)
            (example_form "create-post" [("title", "Hi"); ("body", "World")]%string)
            (Some (alice_cookie, None)) alice_db ∅ _)).
  reflexivity.
Defined.
