(* ===== verification/Completeness.v ===== *)
(** * The server performs every step of the abstract blog

    [Refinement] shows that the server does nothing the abstract blog does
    not allow; a server that refused every request would satisfy it.  This
    file shows the converse: whatever [Blog.blog_step] allows, some request
    makes the server do, so the validation of the handlers refuses no name,
    password, title or body of the data model.  The process has a secret
    for its tokens ([secret_set]): without one a login is never answered
    by a session.

    - [register_request], [login_request], [publish_request],
      [quiet_request]: the requests that perform the four events, as a
      client fills the forms of the routes /register, /login and
      /create-post (lines 207, 262, 97).
    - [performs]: the server is in a database that satisfies the schema and
      represents the blog.
    - one lemma per event, then the simulation of [blog_step] by
      [Server.step] and its lifting to runs with [Traces.simulation_trace]. *)

From stdpp Require Import pretty.
From S2P Require Import Spec2Rocq Traces JsString Platform Calendar Blog Store Http Auth Handlers Server Refinement Browser.

Local Open Scope Z_scope.

(** ** The requests *)

(** A form with two fields, posted without a cookie. *)
Definition form (path : string) (f1 : string) (v1 : jsstring) (f2 : string)
    (v2 : jsstring) : request :=
  Request POST [js path] ∅ (<[f1 := v1]> {[ f2 := v2 ]}) ∅ None.

Definition register_request (name password : jsstring) : request :=
  form "register" "username" name "password" password.

Definition login_request (name password : jsstring) : request :=
  form "login" "username" name "password" password.

Definition publish_request (token title body : jsstring) : request :=
  with_cookie token (form "create-post" "title" title "body" body).

Definition quiet_request : request := Request GET [js "login"] ∅ ∅ ∅ None.

(** The blog [b] is performed by a server in the database [db]. *)
Definition performs `{!Sqlite} (b : blog) (db : database) : Prop :=
  wf_db db ∧ matches db b.

(** ** One lemma per event *)

Section completeness.
Context `{!Sqlite, !Bcrypt, !Jwt, !Clock}.
Variable cfg : config.

(** The process was started with a secret for the tokens: without one no
    login is answered by a session. *)
Hypothesis secret_set : truthy (JWTSECRET cfg) = true.

(** A login with the right password, end to end. *)
Lemma handle_login_valid e req db ps username password u h :
  match_route (req_method req) (req_path req) = Some (RLogin, ps) →
  req_body req !! "username"%string = Some username →
  req_body req !! "password"%string = Some password →
  select_user_by_username (trim username) db = Some u →
  user_password u = VStr h →
  compareSync (trim password) h = true →
  handle cfg e req db
  = (Outcome (Sent (Redirected "/"))
             [session_cookie cfg e (user_id u) (user_username u)] None, db).
Proof.
  intros Hr Hu Hp Hsel Hpw Hcmp. rewrite (handle_route _ _ _ _ _ _ Hr).
  cbv zeta. simpl route_handler.
  rewrite (post_login_run cfg e _ _ username password) by done.
  cbn [st_db]. rewrite Hsel, Hpw, Hcmp. by rewrite start_session_run.
Qed.

(** The row of an account, and a name that has no account. *)
Lemma matches_account db b name acc :
  matches db b → accounts b !! name = Some acc →
  rows (user_table db) !! account_id acc
  = Some (User (account_id acc) name (account_password acc)).
Proof. intros Hm. apply (matches_accounts _ _ Hm). Qed.

Lemma matches_absent db b s :
  performs b db → accounts b !! numeric_affinity s = None →
  select_user_by_username s db = None.
Proof.
  intros [Hwf Hm] Hfree. apply select_user_by_username_None.
  intros k u Hk Hname.
  by rewrite <- Hname, (matches_row _ _ _ _ Hwf Hm Hk) in Hfree.
Qed.

Lemma registers_performed db b name password sl :
  performs b db → accounts b !! name = None →
  valid_name name → valid_password password →
  ∃ e req,
    performs (open_account name (hashSync password sl) b)
             (handle cfg e req db).2
    ∧ announces cfg (e, req, (handle cfg e req db).1)
                (Registered name (accounts_issued b + 1)).
Proof.
  intros Hp Hfree (s & -> & Hlen & Halnum) [Hpw Htrim].
  pose proof (matches_absent _ _ _ Hp Hfree) as Habs. destruct Hp as [Hwf Hm].
  set (e := Env 0 sl). set (req := register_request s password).
  exists e, req. pose proof (handle_wf cfg e req db Hwf) as Hwf'. revert Hwf'.
  rewrite (handle_register_valid cfg secret_set e req db ∅ s password);
    rewrite ?(test_alnum_trim _ Halnum), ?Htrim; try done.
  cbn [fst snd]. intros Hwf'. unfold performs.
  split_and!; [done|by apply matches_registration|].
  left. split; [done|].
  rewrite (matches_accounts_issued _ _ Hm). apply session_cookie_grants.
Qed.

Lemma logs_in_performed db b name acc password hash :
  performs b db → blog_ok b →
  accounts b !! name = Some acc → account_password acc = VStr hash →
  trim password = password → compareSync password hash = true →
  ∃ e req,
    performs b (handle cfg e req db).2
    ∧ announces cfg (e, req, (handle cfg e req db).1)
                (LoggedIn name (account_id acc)).
Proof.
  intros [Hwf Hm] Hok Hacc Hhash Htrim Hcmp.
  destruct (ok_account _ Hok _ _ Hacc) as ((s & -> & _ & Halnum) & _).
  pose proof (test_alnum_trim _ Halnum) as Hs.
  exists (Env 0 []), (login_request s password).
  rewrite (handle_login_valid _ _ db ∅ s password
             (User (account_id acc) (numeric_affinity s) (account_password acc))
             hash); rewrite ?Hs, ?Htrim; try done.
  - cbn [fst snd]. unfold performs.
    split_and!; [done..|]. split; [done|apply session_cookie_grants].
  - eapply select_user_by_username_unique; [done| |done].
    by apply (matches_account db b).
Qed.

Lemma publishes_performed db b en name :
  performs b db → account_of (entry_author en) name b →
  stamped (entry_date en) →
  valid_text (entry_title en) → valid_text (entry_body en) →
  ∃ e req,
    performs (publish en b) (handle cfg e req db).2
    ∧ announces cfg (e, req, (handle cfg e req db).1)
                (Published (entries_issued b + 1) (entry_author en)).
Proof.
  destruct en as [date title body author]. cbn [entry_author entry_date
    entry_title entry_body].
  intros [Hwf Hm] (acc & Hacc & <-) [t ->] (st & -> & Ht) (sb & -> & Hb).
  apply (matches_account _ _ _ _ Hm) in Hacc.
  set (e := Env t []).
  set (c := Claims (now_seconds e + 1) (account_id acc) name 0).
  set (req := publish_request
                (jwt_token (exp c) (userId c) name (JWTSECRET cfg) 0) st sb).
  assert (session cfg e req = Some c) as Hc.
  { unfold req. erewrite session_signed; [|by apply lookup_singleton_eq].
    by rewrite bool_decide_true by (simpl; lia). }
  exists e, req.
  pose proof (handle_wf cfg e req db Hwf) as Hwf'. revert Hwf'.
  rewrite (handle_create_post_valid cfg e req db ∅ c _ st sb) by done.
  cbn [fst snd]. intros Hwf'. unfold performs.
  split_and!; [done|by eapply (matches_post db b (toISOString t) st sb)|].
  rewrite (matches_entries_issued _ _ Hm). split_and!; [done..|by exists c].
Qed.

Lemma quiet_performed db b :
  performs b db →
  ∃ e req,
    performs b (handle cfg e req db).2
    ∧ announces cfg (e, req, (handle cfg e req db).1) Quiet.
Proof.
  intros Hp. exists (Env 0 []), quiet_request.
  rewrite (handle_route cfg _ _ db RLoginForm ∅) by done. cbv zeta.
  simpl route_handler. unfold get_login, res_render.
  by rewrite send_fresh.
Qed.

(** ** The simulation *)

(** The steps of the blog are simulated by the steps of the server. *)
Lemma blog_step_simulated :
  simulation blog_step (step cfg) blog_ok performs (λ ev l, announces cfg l ev).
Proof.
  intros b ev b' db Hok Hp Hstep.
  assert (∃ e req, performs b' (handle cfg e req db).2
                   ∧ announces cfg (e, req, (handle cfg e req db).1) ev)
    as (e & req & Hp' & Hev).
  { destruct Hstep; eauto using registers_performed, logs_in_performed,
      publishes_performed, quiet_performed. }
  exists (e, req, (handle cfg e req db).1), (handle cfg e req db).2.
  split_and!; [constructor|done..].
Qed.

(** C10: a server with a secret for its tokens refuses nothing the
    abstract blog allows.  From a database that satisfies the schema and represents a blog, for every
    step of the blog (the registration of a free name of 3 to 10 letters
    and digits with a trimmed password of 6 to 70 characters, a login with
    the password of an account, a post with a title and a body that are
    not blank under an account) there is a request that the server answers
    by announcing this event and after which the database represents the
    blog after the step. *)
Theorem blog_step_performed db b ev b' :
  wf_db db → matches db b → blog_ok b → blog_step b ev b' →
  ∃ e req,
    matches (handle cfg e req db).2 b'
    ∧ announces cfg (e, req, (handle cfg e req db).1) ev.
Proof.
  intros Hwf Hm Hok Hstep.
  destruct (blog_step_simulated b ev b' db Hok (conj Hwf Hm) Hstep)
    as ([[e req] o] & db' & Hs & [_ Hm'] & Hev).
  inversion Hs; subst. by exists e, req.
Qed.

(** C13: every run of the abstract blog from the empty blog is performed
    by a run of a server with a secret for its tokens from a new database: there are requests, one
    per event, whose outcomes announce the events in order and after which
    the database represents the final blog. *)
Theorem blog_run_performed evs b :
  trace blog_step empty_blog evs b →
  ∃ ls db,
    trace (step cfg) (createTables None) ls db
    ∧ matches db b ∧ Forall2 (λ ev l, announces cfg l ev) evs ls.
Proof.
  intros Hrun.
  destruct (simulation_trace blog_step (step cfg) blog_ok performs
              (λ ev l, announces cfg l ev) empty_blog evs b empty_db
              blog_step_ok blog_step_simulated blog_ok_empty
              (conj wf_db_empty matches_empty) Hrun)
    as (ls & db & Hserved & [_ Hm] & Hev).
  by exists ls, db.
Qed.

End completeness.

(** ** The theorems on the examples *)

Lemma blog_step_performed_witness :
  ∃ e req,
    matches (handle example_config e req empty_db).2
            (open_account (numeric_affinity (js "alice1"))
                          (hashSync (js "secret1") (js "salt")) empty_blog)
    ∧ announces example_config
        (e, req, (handle example_config e req empty_db).1)
        (Registered (numeric_affinity (js "alice1")) 1).
Proof.
  apply (blog_step_performed example_config eq_refl empty_db empty_blog
           (Registered (numeric_affinity (js "alice1")) 1) _
           wf_db_empty matches_empty blog_ok_empty).
  apply (blog_registers empty_blog (numeric_affinity (js "alice1"))
           (js "secret1") (js "salt")); [done| |by vm_compute].
  exists (js "alice1"). by vm_compute.
Defined.

(** A run of the abstract blog with its four events: an account is
    opened, its owner logs in, publishes a post, and looks at a page. *)
Lemma blog_run_performed_witness :
  let name := numeric_affinity (js "alice1") in
  let hash := hashSync (js "secret1") (js "salt") in
  let en := Entry (toISOString 1700000000000) (numeric_affinity (js "Hi"))
                  (numeric_affinity (js "World")) 1 in
  ∃ ls db,
    trace (step example_config) (createTables None) ls db
    ∧ matches db (publish en (open_account name hash empty_blog))
    ∧ Forall2 (λ ev l, announces example_config l ev)
        [Registered name 1; LoggedIn name 1; Published 1 1; Quiet] ls.
Proof.
  intros name hash en.
  apply (blog_run_performed example_config eq_refl).
  eapply trace_cons.
  { apply (blog_registers empty_blog name (js "secret1") (js "salt"));
      [done|by exists (js "alice1")|by vm_compute]. }
  eapply trace_cons.
  { by apply (blog_logs_in (open_account name hash empty_blog) name
                (Account 1 (VStr hash)) (js "secret1") hash). }
  eapply trace_cons.
  { apply (blog_publishes (open_account name hash empty_blog) en name);
      [by exists (Account 1 (VStr hash))|by exists 1700000000000
      |by exists (js "Hi")|by exists (js "World")]. }
  apply trace_one, blog_quiet.
Defined.
