(* ===== verification/Names.v ===== *)
(** * User names that SQLite stores as numbers

    The column [username] is declared [STRING] (line 16), a type name to
    which SQLite gives NUMERIC affinity: a name made of digits, which the
    validation of lines 218-223 accepts, is stored as the integer it
    denotes, and the comparisons of [WHERE username = ?] (lines 213, 268)
    and of the UNIQUE constraint are comparisons of integers.

    - [digit_name]: a valid name made of digits only.
    - [handle_register_taken]: the registration of a name that is taken, end
      to end.
    - the theorems: a name of digits is stored as a number, and two names
      that denote the same number (["070"] and ["0070"]) are one account. *)

From stdpp Require Import pretty.
From S2P Require Import Spec2Rocq Traces JsString Platform Calendar Blog Store Http Auth Handlers Server Refinement Browser Completeness.

Local Open Scope Z_scope.

(** A valid user name made of digits. *)
Definition digit_name (s : jsstring) : Prop :=
  forallb is_digit s = true ∧ 3 ≤ js_length s ≤ 10.

#[export] Instance digit_name_dec s : Decision (digit_name s).
Proof. unfold digit_name. apply _. Defined.

Lemma is_digit_alnum c : is_digit c = true → is_alnum c = true.
Proof. unfold is_digit, is_alnum. intros ->. by rewrite !orb_true_r. Qed.

Lemma digit_name_truthy s : digit_name s → truthy s = true.
Proof.
  intros [_ Hlen]. destruct s; [|done]. unfold js_length in Hlen.
  simpl in Hlen. lia.
Qed.

Lemma digit_name_alnum s : digit_name s → test_alnum s = true.
Proof.
  intros Hs. unfold test_alnum. rewrite (digit_name_truthy s Hs).
  destruct Hs as [Hd Hlen]. simpl.
  rewrite forallb_forall in *. intros c Hc. by apply is_digit_alnum, Hd.
Qed.

Lemma digit_name_trim s : digit_name s → trim s = s.
Proof. intros Hs. by apply test_alnum_trim, digit_name_alnum. Qed.

Lemma register_errors_only_taken username password :
  3 ≤ js_length username ≤ 10 → test_alnum username = true →
  6 ≤ js_length password ≤ 70 →
  register_errors true username password = ["User already exists"%string].
Proof.
  intros Hlen Halnum Hpw. unfold register_errors, push_if. rewrite Halnum.
  rewrite !(proj2 (orb_false_iff _ _)); [done|split; lia..].
Qed.

Section names.
Context `{!Sqlite, !Bcrypt, !Jwt, !Clock}.
Variable cfg : config.

(** The process was started with a secret for the tokens. *)
Hypothesis secret_set : truthy (JWTSECRET cfg) = true.

(** A name of digits is stored as the number it denotes. *)
Lemma digit_name_stored s :
  digit_name s → numeric_affinity s = VNum (digits_value s).
Proof.
  intros Hs. apply numeric_affinity_digits;
    [by apply digit_name_truthy|by destruct Hs|].
  destruct Hs as [_ Hlen]. unfold js_length in Hlen. lia.
Qed.

(** The registration of a valid name that is taken, end to end. *)
Lemma handle_register_taken e req db ps username password u :
  match_route (req_method req) (req_path req) = Some (RRegister, ps) →
  req_body req !! "username"%string = Some username →
  req_body req !! "password"%string = Some password →
  select_user_by_username (trim username) db = Some u →
  3 ≤ js_length (trim username) ≤ 10 →
  test_alnum (trim username) = true →
  6 ≤ js_length (trim password) ≤ 70 →
  handle cfg e req db
  = (Outcome (Sent (Rendered "homepage"
                      (with_errors ["User already exists"%string]))) [] None,
     db).
Proof.
  intros Hr Hu Hp Hsel Hlen Halnum Hpw. rewrite (handle_route _ _ _ _ _ _ Hr).
  cbv zeta. simpl route_handler.
  rewrite (post_register_run cfg e _ _ username password) by done.
  cbn [st_db]. rewrite Hsel, bool_decide_true by eauto.
  by rewrite register_errors_only_taken.
Qed.

(** C36: a user name made of digits is stored as a number, and two such
    names that denote the same number are one account.  After the
    registration of a free name [s1] of 3 to 10 digits, the row of the new
    user holds the integer [s1] denotes, not the text; the registration of
    another name [s2] that denotes the same integer is refused with "User
    already exists" although no user ever chose [s2]; and a login under
    [s2] with the password of [s1] is granted the session of [s1], whose
    token carries the number as its username. *)
Theorem numeric_name_alias e1 e2 e3 db s1 s2 password other :
  wf_db db → digit_name s1 → digit_name s2 →
  digits_value s1 = digits_value s2 →
  select_user_by_username s1 db = None →
  6 ≤ js_length password ≤ 70 → trim password = password →
  6 ≤ js_length other ≤ 70 → trim other = other →
  let id := seq (user_table db) + 1 in
  let name := VNum (digits_value s1) in
  let registration := handle cfg e1 (register_request s1 password) db in
  registration.1
  = Outcome (Sent (Redirected "/")) [session_cookie cfg e1 id name] None
  ∧ rows (user_table registration.2) !! id
    = Some (User id name (VStr (hashSync password (salt e1))))
  ∧ handle cfg e2 (register_request s2 other) registration.2
    = (Outcome (Sent (Rendered "homepage"
                        (with_errors ["User already exists"%string]))) [] None,
       registration.2)
  ∧ handle cfg e3 (login_request s2 password) registration.2
    = (Outcome (Sent (Redirected "/")) [session_cookie cfg e3 id name] None,
       registration.2).
Proof.
  intros Hwf Hs1 Hs2 Hv Hfree Hpw Htrim Hother Htrim' id name registration.
  pose proof (handle_wf cfg e1 (register_request s1 password) db Hwf) as Hwf'.
  fold registration in Hwf'. revert Hwf'. subst registration.
  rewrite (handle_register_valid cfg secret_set e1 _ db ∅ s1 password);
    rewrite ?(digit_name_trim s1), ?Htrim; try done;
    [|by destruct Hs1|by apply digit_name_alnum].
  cbn [fst snd]. rewrite (digit_name_stored s1 Hs1). fold name. intros Hwf'.
  assert (rows (user_table (insert_user s1 (hashSync password (salt e1)) db).2)
            !! id = Some (User id name (VStr (hashSync password (salt e1)))))
    as Hrow.
  { rewrite (insert_user_free _ _ _ Hfree). simpl. rewrite lookup_insert_eq.
    by rewrite numeric_affinity_hash, (digit_name_stored s1 Hs1). }
  assert (select_user_by_username s2
            (insert_user s1 (hashSync password (salt e1)) db).2
          = Some (User id name (VStr (hashSync password (salt e1))))) as Hsel.
  { eapply select_user_by_username_unique; [done..|].
    simpl. rewrite (digit_name_stored s2 Hs2). unfold name. by rewrite Hv. }
  split_and!; [done|done| |].
  - eapply (handle_register_taken e2 _ _ ∅ s2 other);
      rewrite ?(digit_name_trim s2), ?Htrim'; try done;
      [by destruct Hs2|by apply digit_name_alnum].
  - rewrite (handle_login_valid cfg secret_set e3 _ _ ∅ s2 password
               (User id name (VStr (hashSync password (salt e1))))
               (hashSync password (salt e1)));
      rewrite ?(digit_name_trim s2), ?Htrim; try done.
    apply compareSync_hashSync.
Qed.

End names.

(** ** The theorem on an example *)

Lemma numeric_name_alias_witness :
  let registration :=
    handle example_config example_env
           (register_request (js "070") (js "secret1")) empty_db in
  registration.1
  = Outcome (Sent (Redirected "/"))
            [session_cookie example_config example_env 1 (VNum 70)] None
  ∧ rows (user_table registration.2) !! 1
    = Some (User 1 (VNum 70) (VStr (hashSync (js "secret1") (js "salt"))))
  ∧ handle example_config example_env
           (register_request (js "0070") (js "another1")) registration.2
    = (Outcome (Sent (Rendered "homepage"
                        (with_errors ["User already exists"%string]))) [] None,
       registration.2)
  ∧ handle example_config example_env
           (login_request (js "0070") (js "secret1")) registration.2
    = (Outcome (Sent (Redirected "/"))
               [session_cookie example_config example_env 1 (VNum 70)] None,
       registration.2).
Proof.
  apply (numeric_name_alias example_config eq_refl example_env example_env example_env
           empty_db (js "070") (js "0070") (js "secret1") (js "another1")
           wf_db_empty); by vm_compute.
Defined.
