(* ===== verification/Secret.v ===== *)
(** * The process without a secret for its tokens

    [process.env.JWTSECRET] is read where a token is signed (lines 245 and
    290) and where one is verified (line 52), and nothing checks that it is
    set.  [Platform.jwt_sign] raises when the secret is unset or empty, as
    jsonwebtoken does ("secretOrPrivateKey must have a value"), and
    [Handlers.start_session] calls it after the user is stored (line 232)
    or found (line 268).

    This file follows a process started without the variable
    ([Http.config_of_env]): a registration stores its user and is answered
    500, the name is taken from then on, a login with the right password
    is answered 500, and no response of any run sets the session cookie. *)

From S2P Require Import Spec2Rocq JsString Platform Calendar Blog Store Http Auth Handlers Server Refinement Browser Completeness Names.

Local Open Scope Z_scope.

(** ** Definitions *)

(** What the client of a request receives when [jwt.sign] raises. *)
Definition unsigned_outcome : outcome :=
  Outcome InternalServerError [] (Some SecretOrPrivateKeyError).

(** A response that sets no cookie value: it grants no session. *)
Definition sessionless (o : outcome) : bool :=
  forallb is_clear (out_cookies o).

(** ** The environment *)

Lemma config_of_env_unset vars :
  vars !! "JWTSECRET"%string = None ∨ vars !! "JWTSECRET"%string = Some [] →
  truthy (JWTSECRET (config_of_env vars)) = false.
Proof. unfold config_of_env. by intros [-> | ->]. Qed.

Lemma config_of_env_set vars secret :
  vars !! "JWTSECRET"%string = Some secret → secret ≠ [] →
  JWTSECRET (config_of_env vars) = secret
  ∧ truthy (JWTSECRET (config_of_env vars)) = true.
Proof. unfold config_of_env. intros -> ?. by destruct secret. Qed.

(** ** Requests end to end *)

Section unsigned.
Context `{!Sqlite, !Bcrypt, !Jwt, !Clock}.
Variable cfg : config.

(** The process was started without a secret for the tokens. *)
Hypothesis secret_unset : truthy (JWTSECRET cfg) = false.

(** A valid registration stores the user and is answered 500. *)
Lemma handle_register_unsigned e req db ps username password :
  match_route (req_method req) (req_path req) = Some (RRegister, ps) →
  req_body req !! "username"%string = Some username →
  req_body req !! "password"%string = Some password →
  select_user_by_username (trim username) db = None →
  3 ≤ js_length (trim username) ≤ 10 →
  test_alnum (trim username) = true →
  6 ≤ js_length (trim password) ≤ 70 →
  handle cfg e req db
  = (unsigned_outcome,
     (insert_user (trim username) (hashSync (trim password) (salt e)) db).2).
Proof.
  intros Hr Hu Hp Hfree Hlen Halnum Hpw. rewrite (handle_route _ _ _ _ _ _ Hr).
  cbv zeta. simpl route_handler.
  rewrite (post_register_valid cfg e _ _ username password) by done.
  by rewrite secret_unset.
Qed.

(** A login with the right password is answered 500. *)
Lemma handle_login_unsigned e req db ps username password u h :
  match_route (req_method req) (req_path req) = Some (RLogin, ps) →
  req_body req !! "username"%string = Some username →
  req_body req !! "password"%string = Some password →
  select_user_by_username (trim username) db = Some u →
  user_password u = VStr h →
  compareSync (trim password) h = true →
  handle cfg e req db = (unsigned_outcome, db).
Proof.
  intros Hr Hu Hp Hsel Hpw Hcmp. rewrite (handle_route _ _ _ _ _ _ Hr).
  cbv zeta. simpl route_handler.
  rewrite (post_login_run cfg e _ _ username password) by done.
  cbn [st_db]. rewrite Hsel, Hpw, Hcmp. by rewrite start_session_unsigned.
Qed.

Lemma served_unsigned_clear e who db o db' :
  served cfg e who db o db' → sessionless o = true.
Proof. unfold sessionless. intros []; simpl; congruence. Qed.

(** No response to a request sets the session cookie. *)
Lemma handle_no_session e req db :
  wf_db db → sessionless (handle cfg e req db).1 = true.
Proof.
  intros Hwf. eapply served_unsigned_clear. by apply handle_served.
Qed.

(** C22: a process started without a secret never grants a session: no
    response of any run sets the session cookie, whatever the requests,
    from any database that satisfies the constraints of the schema. *)
Theorem unset_secret_no_session inputs db :
  wf_db db →
  Forall (λ o, sessionless o = true) (serve cfg inputs db).1.
Proof.
  revert db. induction inputs as [|[e req] rest IH]; intros db Hwf; simpl.
  { constructor. }
  pose proof (handle_no_session e req db Hwf) as Ho.
  pose proof (handle_wf cfg e req db Hwf) as Hwf'.
  destruct (handle cfg e req db) as [o db1]. specialize (IH db1 Hwf').
  destruct (serve cfg rest db1) as [os db2]. by constructor.
Qed.

(** C21: a process started without a secret locks its users out.  The
    registration of a free name of 3 to 10 letters and digits with a
    password of 6 to 70 characters is answered 500 with the exception of
    [jwt.sign], and the user is stored all the same; from then on a
    registration under the name is refused with "User already exists",
    and a login with the name and the password is answered 500 again. *)
Theorem unset_secret_locks_out e1 e2 e3 db name password other :
  wf_db db →
  select_user_by_username name db = None →
  3 ≤ js_length name ≤ 10 → test_alnum name = true →
  6 ≤ js_length password ≤ 70 → trim password = password →
  6 ≤ js_length other ≤ 70 → trim other = other →
  let id := seq (user_table db) + 1 in
  let row := User id (numeric_affinity name)
                  (VStr (hashSync password (salt e1))) in
  let registration := handle cfg e1 (register_request name password) db in
  registration.1 = unsigned_outcome
  ∧ select_user_by_username name registration.2 = Some row
  ∧ handle cfg e2 (register_request name other) registration.2
    = (Outcome (Sent (Rendered "homepage"
                        (with_errors ["User already exists"%string]))) [] None,
       registration.2)
  ∧ handle cfg e3 (login_request name password) registration.2
    = (unsigned_outcome, registration.2).
Proof.
  intros Hwf Hfree Hlen Halnum Hpw Htrim Hother Htrim' id row registration.
  pose proof (test_alnum_trim _ Halnum) as Hname. subst registration.
  rewrite (handle_register_unsigned e1 _ db ∅ name password);
    rewrite ?Hname, ?Htrim; try done.
  cbn [fst snd].
  destruct (registered_db cfg e1 name password (HState fresh_response db [])
              Hwf Hfree) as (Hrow & _).
  unfold registered in Hrow. cbn [st_db mark_sent queue_header stored] in Hrow.
  fold id row in Hrow. split_and!; [done|done| |].
  - apply (handle_register_taken cfg e2 _ _ ∅ name other row);
      rewrite ?Hname, ?Htrim'; done.
  - apply (handle_login_unsigned e3 _ _ ∅ name password row
             (hashSync password (salt e1)));
      rewrite ?Hname, ?Htrim; try done. apply compareSync_hashSync.
Qed.

End unsigned.

(** ** The theorems on the examples *)

Lemma unset_secret_no_session_witness :
  Forall (λ o, sessionless o = true) (serve unset_config scenario empty_db).1.
Proof.
  apply (unset_secret_no_session unset_config eq_refl scenario empty_db
           wf_db_empty).
Defined.

(** The run of the examples in a process without a secret: the
    registration and the login are answered 500, the post is refused for
    want of a session, and the database holds the user and no post. *)
Example serve_scenario_unsigned :
  out_reply <$> (serve unset_config scenario empty_db).1
  = [InternalServerError;
     Sent (Rendered "homepage" (with_errors ["User already exists"%string]));
     InternalServerError;
     Sent (Redirected "/");
     Sent (Redirected "/");
     Sent (Redirected "/");
     NotFound]
  ∧ (serve unset_config scenario empty_db).2 = alice_db.
Proof. by vm_compute. Qed.

Lemma unset_secret_locks_out_witness :
  let registration :=
    handle unset_config example_env
           (register_request (js "alice1") (js "secret1")) empty_db in
  registration.1 = unsigned_outcome
  ∧ select_user_by_username (js "alice1") registration.2
    = Some (User 1 (numeric_affinity (js "alice1"))
                 (VStr (hashSync (js "secret1") (js "salt"))))
  ∧ handle unset_config example_env
           (register_request (js "alice1") (js "another1")) registration.2
    = (Outcome (Sent (Rendered "homepage"
                        (with_errors ["User already exists"%string]))) [] None,
       registration.2)
  ∧ handle unset_config example_env
           (login_request (js "alice1") (js "secret1")) registration.2
    = (unsigned_outcome, registration.2).
Proof.
  apply (unset_secret_locks_out unset_config eq_refl example_env example_env
           example_env empty_db (js "alice1") (js "secret1") (js "another1")
           wf_db_empty); by vm_compute.
Defined.
