(* ===== verification/Wire.v ===== *)
(** * Requests and responses as text

    [Http.request] is what a handler reads; a client sends text.  Between
    the two stand the middleware of lines 40-43 and the router of Express:
    [express.urlencoded] and [express.json] fill [req.body] from the body,
    [express.static] answers the requests for the files of [public],
    [cookieParser] fills [req.cookies] from the header Cookie, and the
    router splits the path, selects the route and decodes [:id].  This
    file models them (body-parser 1.x, cookie 0.4 and cookie-parser 1.4,
    path-to-regexp 0.1, as Express 4 loads them) and composes them with
    [Server.handle].

    - [split_on], [cut], [join], [assoc]: pieces of text.
    - [pathname], [path_segments], [decode_params]: the path of the
      request target, its segments as the patterns of the routes see them
      (one slash at the end is optional), and [:id] decoded.
    - [cookie_parse], [json_cookie], [read_cookies]: the header Cookie.
    - [form_parse], [read_body]: the body and the limits of its parsers.
    - [receive]: the whole pipeline, from a [raw_request] to an [answer];
      [status] is the status code of an answer.
    - [wire_step], [listen], [wire_announces]: the server on the requests
      as they arrive, as a step relation and as a function on a list of
      requests, and what an answer tells of the event of the abstract
      blog.
    - [form_body], [cookie_line], [post_form]: the text a browser sends for
      a form and for the cookie of its jar.
    - [set_cookie_line], [set_cookie_pair]: the header Set-Cookie that
      [res.cookie] and [res.clearCookie] write, and the name and value a
      client takes from it.
    - [known_header], [queued]: the headers that the handlers queue, and
      the relation on states that every statement of the handlers keeps;
      from it, every header of an outcome has a line.

    Two libraries are left abstract: [JSON.parse] ([Json]) and the lenient
    decoding of Node's [querystring] for escapes that are not UTF-8
    ([Querystring]).  The request target is taken in origin form (it
    starts with a slash) and bodies are taken to be UTF-8.  HEAD requests
    are answered by the routes of GET and OPTIONS by the router, as in
    Express. *)

From stdpp Require Import pretty.
From S2P Require Import Spec2Rocq Traces JsString Uri Platform Calendar Blog Store Http Auth Handlers Server Refinement Browser.

Local Open Scope Z_scope.

(** ** Pieces of text *)

(** [s.split(sep)] for a separator of one character. *)
Fixpoint split_on (sep : N) (s : jsstring) : list jsstring :=
  match s with
  | [] => [[]]
  | c :: s' =>
      if decide (c = sep) then [] :: split_on sep s'
      else match split_on sep s' with
           | p :: ps => (c :: p) :: ps
           | [] => [[c]]
           end
  end.

(** [ps.join(sep)] *)
Fixpoint join (sep : N) (ps : list jsstring) : jsstring :=
  match ps with
  | [] => []
  | [p] => p
  | p :: ps' => p ++ sep :: join sep ps'
  end.

(** The text before the first [sep] and the text after it, if there is
    one: [s.indexOf(sep)] and the two calls of [substr]. *)
Fixpoint cut (sep : N) (s : jsstring) : jsstring * option jsstring :=
  match s with
  | [] => ([], None)
  | c :: s' =>
      if decide (c = sep) then ([], Some s')
      else let '(k, v) := cut sep s' in (c :: k, v)
  end.

(** The value of the first pair with the key [k]. *)
Fixpoint assoc {A} (k : jsstring) (ps : list (jsstring * A)) : option A :=
  match ps with
  | [] => None
  | (k', v) :: ps' => if decide (k' = k) then Some v else assoc k ps'
  end.

(** The number of occurrences of [sep]. *)
Definition occurrences (sep : N) (s : jsstring) : nat :=
  length (filter (λ c, c = sep) s).

(** ** The path *)

(** The request target up to the first "?" or "#". *)
Definition pathname (url : jsstring) : jsstring := (cut 35 (cut 63 url).1).1.

(** [s] without the slash it ends with, if it ends with one. *)
Definition strip_slash (s : jsstring) : jsstring :=
  match reverse s with
  | c :: r => if decide (c = 47%N) then reverse r else s
  | [] => s
  end.

(** The segments of a path, as the patterns that path-to-regexp makes of
    the routes see it: the path starts with a slash, a slash at its end is
    optional.  [None] stands for a path that no pattern matches because it
    does not start with a slash. *)
Definition path_segments (p : jsstring) : option (list jsstring) :=
  match p with
  | 47%N :: rest =>
      Some (if decide (rest = []) then [] else split_on 47 (strip_slash rest))
  | _ => None
  end.

(** The path matches the pattern of a route of the method [m]. *)
Definition routed (m : method) (segs : list jsstring) : bool :=
  bool_decide (is_Some (match_route m segs)).

(** The router decodes the parameter when the path matches the pattern of
    a route, before it looks at the method of the route; [None] stands
    for the URIError that it turns into the status 400. *)
Definition decode_params (segs : list jsstring) : option (list jsstring) :=
  match segs with
  | [s; id] =>
      if routed GET segs || routed POST segs
      then (λ id', [s; id']) <$> decodeURIComponent id
      else Some segs
  | _ => Some segs
  end.

(** ** JSON *)

(** What [JSON.parse] gives: a string, an object, an array, or a number, a
    boolean or [null], of which only the truth value is kept. *)
#[warnings="-register-all"] Inductive json : Type :=
| JString (s : jsstring)
| JObject (fields : list (jsstring * json))
| JArray (items : list json)
| JAtom (truth : bool).

(** [JSON.parse]: [None] stands for its SyntaxError.  The fields of an
    object are listed once each.  A text of the characters of a token
    between quotes denotes that text. *)
Class Json := {
  json_parse : jsstring → option json;
  json_parse_string s :
    forallb is_token_char s = true →
    json_parse (34%N :: s ++ [34%N]) = Some (JString s);
}.

(** ** Cookies *)

(** [val.slice(1, -1)] for a value that starts with a quote. *)
Definition unquote (v : jsstring) : jsstring :=
  match v with
  | c :: v' => if decide (c = 34%N) then take (length v' - 1) v' else v
  | [] => v
  end.

(** [tryDecode]: the value decoded, or as it is when it cannot be. *)
Definition try_decode (v : jsstring) : jsstring :=
  default v (decodeURIComponent v).

(** One piece of the header: a piece without "=" is skipped. *)
Definition cookie_pair (piece : jsstring) : option (jsstring * jsstring) :=
  match cut 61 piece with
  | (k, Some v) => Some (trim k, try_decode (unquote (trim v)))
  | (_, None) => None
  end.

(** [cookie.parse]: the pairs of the header in their order; the first pair
    of a name is the one that counts ([assoc]). *)
Definition cookie_parse (h : jsstring) : list (jsstring * jsstring) :=
  omap cookie_pair (split_on 59 h).

(** [JSONCookies]: a value [j:text] is replaced by what [text] denotes when
    that is truthy.  [None] stands for a value that is not a string: the
    middleware finds it truthy, [jwt.verify] raises on it, and the request
    goes on without a user, as it does without the cookie. *)
Definition json_cookie `{!Json} (v : jsstring) : option jsstring :=
  match v with
  | c1 :: c2 :: text =>
      if decide (c1 = 106%N ∧ c2 = 58%N) then
        match json_parse text with
        | Some (JString s) => Some (if truthy s then s else v)
        | Some (JAtom false) | None => Some v
        | Some _ => None
        end
      else Some v
  | _ => Some v
  end.

(** [req.cookies], of which the server reads [ourSimpleApp] only. *)
Definition read_cookies `{!Json} (h : option jsstring) : gmap string jsstring :=
  match text ← h; v ← assoc (js "ourSimpleApp") (cookie_parse text);
        json_cookie v with
  | Some v => {[ "ourSimpleApp"%string := v ]}
  | None => ∅
  end.

(** ** Bodies *)

(** What [querystring.unescape] gives for a text that [decodeURIComponent]
    refuses. *)
Class Querystring := {
  unescape_lenient : jsstring → jsstring;
}.

Definition plus_space (c : N) : N := if decide (c = 43%N) then 32%N else c.

(** A key or a value of a form: "+" is a space, then the escapes. *)
Definition form_decode `{!Querystring} (s : jsstring) : jsstring :=
  let s' := plus_space <$> s in
  default (unescape_lenient s') (decodeURIComponent s').

(** One piece of the body: without "=" it is a key with an empty value. *)
Definition form_pair `{!Querystring} (piece : jsstring) : jsstring * jsstring :=
  let '(k, v) := cut 61 piece in (form_decode k, form_decode (default [] v)).

(** [querystring.parse]: the pairs of the body; empty pieces are skipped. *)
Definition form_parse `{!Querystring} (body : jsstring)
    : list (jsstring * jsstring) :=
  form_pair <$> filter (λ p, p ≠ []) (split_on 38 body).

(** The field [f] of the form when it occurs once.  A field that occurs
    more than once is an array, on which [.trim()] raises as it does on a
    field that is missing. *)
Definition form_field (ps : list (jsstring * jsstring)) (f : jsstring)
    : option jsstring :=
  match filter (λ p, p.1 = f) ps with
  | [(_, v)] => Some v
  | _ => None
  end.

(** The field [f] of an object when it is a string. *)
Definition json_field (fields : list (jsstring * json)) (f : jsstring)
    : option jsstring :=
  match assoc f fields with
  | Some (JString s) => Some s
  | _ => None
  end.

(** The fields of [req.body] that the handlers read (lines 100-101 and
    209-210). *)
Definition field_names : list string :=
  ["username"; "password"; "title"; "body"]%string.

Definition body_map (field : jsstring → option jsstring) : gmap string jsstring :=
  list_to_map (omap (λ f, (f,.) <$> field (js f)) field_names).

(** The body of a request by its Content-Type: none or of another type, a
    form, JSON. *)
Inductive content : Type :=
| NoContent
| FormContent (text : jsstring)
| JsonContent (text : jsstring).

(** The method of a request: the three that reach a handler, OPTIONS,
    which the router answers itself, and the others. *)
Inductive verb : Type := Get | Head | Post | Options | OtherVerb.

#[export] Instance verb_eq_dec : EqDecision verb.
Proof. solve_decision. Defined.

(** The routes that a method selects: Express answers HEAD with the
    routes of GET. *)
Definition verb_method (v : verb) : option method :=
  match v with
  | Get | Head => Some GET
  | Post => Some POST
  | Options | OtherVerb => None
  end.

(** A request as the server of Node reads it: the method, the request
    target, the header Cookie, the body and its length in bytes. *)
Record raw_request : Type := RawRequest {
  raw_verb : verb;
  raw_url : jsstring;
  raw_cookie : option jsstring;
  raw_content : content;
  raw_length : Z;
}.

(** The defaults of body-parser: bodies of at most 100 kilobytes, forms
    of fewer than 1000 "&". *)
Definition body_limit : Z := 102400.
Definition parameter_limit : nat := 1000.

(** [req.body] after lines 40 and 41, or the status with which the parser
    refuses the request: 413 for a body that is too large or has too many
    parameters, 400 for JSON that is not an object or an array. *)
Definition read_body `{!Json, !Querystring} (raw : raw_request)
    : result Z (gmap string jsstring) :=
  match raw_content raw with
  | NoContent => Ok ∅
  | FormContent text =>
      if decide (body_limit < raw_length raw) then Throw 413
      else if decide (parameter_limit ≤ occurrences 38 text)%nat then Throw 413
      else Ok (body_map (form_field (form_parse text)))
  | JsonContent text =>
      if decide (body_limit < raw_length raw) then Throw 413
      else if decide (text = []) then Ok ∅
      else match json_parse text with
           | Some (JObject fields) => Ok (body_map (json_field fields))
           | Some (JArray _) => Ok ∅
           | _ => Throw 400
           end
  end.

(** ** The pipeline *)

Definition raw_method (raw : raw_request) : method :=
  default GET (verb_method (raw_verb raw)).

(** What the client receives: the outcome of the application, a refusal
    by the middleware or the router with its status, a file of [public],
    or the answer of the router to OPTIONS, which tells whether the path
    has routes of GET and of POST. *)
Inductive answer : Type :=
| Handled (o : outcome)
| Refused (code : Z)
| Static
| Allowed (get post : bool).

(** The status code of an answer, where the model determines it. *)
Definition status (a : answer) : option Z :=
  match a with
  | Handled o =>
      match out_reply o with
      | Sent (Rendered _ _) => Some 200
      | Sent (Redirected _) => Some 302
      | InternalServerError => Some 500
      | NotFound => Some 404
      | NoReply => None
      end
  | Refused code => Some code
  | Static => None
  | Allowed _ _ => Some 200
  end.

Section receive.
Context `{!Sqlite, !Bcrypt, !Jwt, !Clock, !Json, !Querystring}.
Variable cfg : config.

(** The paths that [express.static("public")] answers. *)
Variable public : jsstring → bool.

(** Line 42: [express.static] answers GET and HEAD requests for its
    files. *)
Definition is_static (raw : raw_request) : bool :=
  match raw_verb raw with
  | Get | Head => public (pathname (raw_url raw))
  | _ => false
  end.

(** The request that the application receives for the path [path]. *)
Definition parsed (raw : raw_request) (path : list jsstring)
    (body : gmap string jsstring) : request :=
  Request (raw_method raw) path (read_cookies (raw_cookie raw)) body ∅ None.

(** Lines 40-43 and the router: the parsers of the body, the static files,
    the cookies, then the application on the decoded path.  For OPTIONS
    the router answers itself when the path has a route; a request of
    another method finds no route. *)
Definition receive (e : env) (raw : raw_request) (db : database)
    : answer * database :=
  match read_body raw with
  | Throw code => (Refused code, db)
  | Ok body =>
      if is_static raw then (Static, db)
      else
        match path_segments (pathname (raw_url raw)) with
        | None => (Handled (Outcome NotFound [] None), db)
        | Some segs =>
            match decode_params segs, verb_method (raw_verb raw) with
            | None, _ => (Refused 400, db)
            | Some path, Some _ =>
                let '(o, db') := handle cfg e (parsed raw path body) db in
                (Handled o, db')
            | Some path, None =>
                if bool_decide (raw_verb raw = Options)
                   && (routed GET path || routed POST path)
                then (Allowed (routed GET path) (routed POST path), db)
                else (Handled (Outcome NotFound [] None), db)
            end
        end
  end.

(** One request received, and the runs of the server that [app.listen]
    starts, on the requests as they arrive. *)
Inductive wire_step
    : database → env * raw_request * answer → database → Prop :=
| wire_step_receive e raw db :
    wire_step db (e, raw, (receive e raw db).1) (receive e raw db).2.

Fixpoint listen (inputs : list (env * raw_request)) (db : database)
    : list answer * database :=
  match inputs with
  | [] => ([], db)
  | (e, raw) :: rest =>
      let '(a, db') := receive e raw db in
      let '(answers, db'') := listen rest db' in
      (a :: answers, db'')
  end.

(** What the client of a request can tell of the event it caused: what the
    outcome of the application announces, and nothing for a refusal or a
    file. *)
Definition wire_announces (l : env * raw_request * answer) (ev : event)
    : Prop :=
  let '(e, raw, a) := l in
  match a with
  | Handled o => ∃ path body, announces cfg (e, parsed raw path body, o) ev
  | Refused _ | Static | Allowed _ _ => ev = Quiet
  end.

(** A header that the handlers queue: the one of [res.clearCookie] in
    [/logout], or the one of [res.cookie] where a session starts. *)
Definition known_header (e : env) (c : cookie_header) : Prop :=
  c = ClearCookie "ourSimpleApp" (clear_cookie_options cfg)
  ∨ ∃ id name, c = session_cookie cfg e id name.

(** The response of the second state has the headers of the first,
    followed by headers that the handlers queue. *)
Definition queued (e : env) (st st' : hstate) : Prop :=
  ∃ cs, res_cookies (st_res st') = res_cookies (st_res st) ++ cs
        ∧ Forall (known_header e) cs.

End receive.

(** ** The client *)

(** The characters that a browser leaves as they are in a form: letters,
    digits and [* - . _]; a space is kept here and written "+" afterwards. *)
Definition is_form_safe (c : N) : bool :=
  (is_alnum c || (c =? 42) || (c =? 45) || (c =? 46) || (c =? 95) || (c =? 32))%N.

Definition space_plus (c : N) : N := if decide (c = 32%N) then 43%N else c.

(** A key or a value as a browser writes it in the body of a form. *)
Definition form_encode (s : jsstring) : option jsstring :=
  fmap (M:=list) space_plus <$> percent_encode is_form_safe s.

(** The characters of an encoded key or value. *)
Definition is_form_char (c : N) : bool :=
  (is_alnum c || (c =? 42) || (c =? 45) || (c =? 46) || (c =? 95) || (c =? 43)
   || (c =? 37))%N.

Definition form_piece (p : jsstring * jsstring) : option jsstring :=
  k ← form_encode p.1; v ← form_encode p.2; Some (k ++ 61%N :: v).

(** The body of a form with the fields [fields]. *)
Definition form_body (fields : list (jsstring * jsstring)) : option jsstring :=
  join 38 <$> mapM form_piece fields.

(** The header Cookie of a client that holds the session cookie [token]
    beside the cookies [others] of other names, sent before it. *)
Definition cookie_line (others : list (jsstring * jsstring)) (token : jsstring)
    : jsstring :=
  foldr (λ p r, p.1 ++ 61%N :: p.2 ++ js "; " ++ r)
        (js "ourSimpleApp=" ++ token) others.

(** A cookie of another name, written so that the header can be split. *)
Definition other_cookie (p : jsstring * jsstring) : Prop :=
  (59%N ∉ p.1) ∧ (61%N ∉ p.1) ∧ (59%N ∉ p.2) ∧ trim p.1 ≠ js "ourSimpleApp".

(** The request of a client for the form [fields] posted to [url] with
    the cookie [token]. *)
Definition post_form (url : jsstring) (token : option jsstring)
    (fields : list (jsstring * jsstring)) : option raw_request :=
  body ← form_body fields;
  Some (RawRequest Post url (cookie_line [] <$> token) (FormContent body)
                   (Z.of_nat (length body))).

(** ** Set-Cookie *)

(** The attribute SameSite; [None] stands for the TypeError that
    [cookie.serialize] raises for a value it does not know. *)
Definition same_site_attribute (s : string) : option jsstring :=
  if decide (s = ""%string) then Some []
  else if bool_decide (to_lower <$> js s = js "strict") then
    Some (js "; SameSite=Strict")
  else if bool_decide (to_lower <$> js s = js "lax") then
    Some (js "; SameSite=Lax")
  else if bool_decide (to_lower <$> js s = js "none") then
    Some (js "; SameSite=None")
  else None.

(** [cookie.serialize] with the options as [res.cookie] completes them:
    the value encoded, Max-Age in seconds, the path, Expires, HttpOnly,
    Secure and SameSite, in this order. *)
Definition serialize (name : string) (val : jsstring) (opts : cookie_options)
    (max_age expires : option Z) : option jsstring :=
  v ← encodeURIComponent val;
  site ← same_site_attribute (sameSite opts);
  Some (js name ++ 61%N :: v
        ++ from_option (λ age, js "; Max-Age=" ++ js (pretty age)) [] max_age
        ++ js "; Path=/"
        ++ from_option (λ t, js "; Expires=" ++ to_utc_string t) [] expires
        ++ (if httpOnly opts then js "; HttpOnly" else [])
        ++ (if secure opts then js "; Secure" else [])
        ++ site).

(** The header that [res.cookie] and [res.clearCookie] append at the time
    of [e]: a cookie with a [maxAge] expires that many milliseconds from
    now, a cleared cookie without one expired at the time 1. *)
Definition set_cookie_line (e : env) (c : cookie_header) : option jsstring :=
  match c with
  | SetCookie name val opts =>
      serialize name val opts ((λ age, age / 1000) <$> maxAge opts)
                ((λ age, now e + age) <$> maxAge opts)
  | ClearCookie name opts =>
      serialize name [] opts ((λ age, age / 1000) <$> maxAge opts)
                (Some (from_option (λ age, now e + age) 1 (maxAge opts)))
  end.

(** White space around the name and the value of a cookie (RFC 6265). *)
Definition is_wsp (c : N) : bool := ((c =? 32) || (c =? 9))%N.

Fixpoint drop_wsp (s : jsstring) : jsstring :=
  match s with
  | c :: s' => if is_wsp c then drop_wsp s' else s
  | [] => []
  end.

Definition strip_wsp (s : jsstring) : jsstring :=
  reverse (drop_wsp (reverse (drop_wsp s))).

(** The name and the value that a client takes from a header Set-Cookie:
    the text up to the first ";", cut at its first "=". *)
Definition set_cookie_pair (line : jsstring) : option (jsstring * jsstring) :=
  match cut 61 (cut 59 line).1 with
  | (n, Some v) => Some (strip_wsp n, strip_wsp v)
  | (_, None) => None
  end.

(** ** Inputs of the examples *)

(** A parser that knows the quoted strings, the empty object and nothing
    else, and a decoder that leaves what it cannot decode. *)
Definition quoted_string (s : jsstring) : option json :=
  match s with
  | 34%N :: s' =>
      match reverse s' with
      | 34%N :: r =>
          if forallb is_token_char (reverse r) then Some (JString (reverse r))
          else None
      | _ => None
      end
  | _ => if decide (s = js "{}") then Some (JObject []) else None
  end.

(** ** Facts on pieces of text *)

(** The four facts below go through the text up to the separator. *)
Ltac scan s :=
  let Hs := fresh "Hs" in
  induction s as [|? s IH]; simpl; intros Hs;
    [by rewrite ?decide_True
    |apply not_elem_of_cons in Hs as [? ?];
     rewrite decide_False by done; by rewrite IH].

(** A character is absent from a text put together from texts whose
    characters are of a class that excludes it. *)
Ltac absent :=
  repeat (rewrite not_elem_of_app || rewrite not_elem_of_cons);
  repeat split; try done; try apply not_elem_of_nil;
  try (eapply forallb_not_elem; [eassumption|reflexivity]);
  try (eapply (forallb_not_elem is_white_space); [eassumption|reflexivity]).

Lemma cut_app sep s t : sep ∉ s → cut sep (s ++ sep :: t) = (s, Some t).
Proof. scan s. Qed.

Lemma cut_absent sep s : sep ∉ s → cut sep s = (s, None).
Proof. scan s. Qed.

Lemma split_on_app sep s t :
  sep ∉ s → split_on sep (s ++ sep :: t) = s :: split_on sep t.
Proof. scan s. Qed.

Lemma split_on_absent sep s : sep ∉ s → split_on sep s = [s].
Proof. scan s. Qed.

Lemma join_cons sep p q ps :
  join sep (p :: q :: ps) = p ++ sep :: join sep (q :: ps).
Proof. done. Qed.

Lemma split_on_join sep ps :
  ps ≠ [] → Forall (λ p, sep ∉ p) ps → split_on sep (join sep ps) = ps.
Proof.
  intros Hne Hps. induction Hps as [|p ps Hp Hps IH]; [done|].
  destruct ps as [|q ps]; [by apply split_on_absent|].
  rewrite join_cons, split_on_app by done. by rewrite IH.
Qed.

Lemma strip_slash_app s : strip_slash (s ++ [47%N]) = s.
Proof.
  unfold strip_slash. rewrite reverse_snoc, decide_True by done.
  apply reverse_involutive.
Qed.

Lemma strip_slash_fixed s : last s ≠ Some 47%N → strip_slash s = s.
Proof.
  unfold strip_slash. rewrite <- head_reverse.
  destruct (reverse s) as [|c r]; [done|]. simpl. intros Hc.
  rewrite decide_False; [done|congruence].
Qed.

(** ** Facts on the path *)

Lemma pathname_query p q :
  63%N ∉ p → 35%N ∉ p → pathname (p ++ 63%N :: q) = p.
Proof. intros H1 H2. unfold pathname. by rewrite cut_app, cut_absent. Qed.

Lemma pathname_plain p : 63%N ∉ p → 35%N ∉ p → pathname p = p.
Proof.
  intros H1 H2. unfold pathname. rewrite (cut_absent 63) by done.
  by rewrite cut_absent.
Qed.

Lemma join_nonempty sep p ps : p ≠ [] → join sep (p :: ps) ≠ [].
Proof. intros Hp. destruct ps, p; done. Qed.

Lemma last_join sep ps :
  Forall (λ s, s ≠ [] ∧ sep ∉ s) ps → last (join sep ps) ≠ Some sep.
Proof.
  induction 1 as [|p ps [Hp Hin] Hps IH]; [done|].
  destruct Hps as [|q ps [Hq _] _].
  - simpl. by intros ?%last_Some_elem_of.
  - rewrite join_cons, last_app_cons, last_cons.
    pose proof (join_nonempty sep q ps Hq) as Hne%last_is_Some.
    destruct Hne as [c Hc]. by rewrite Hc in *.
Qed.

(** The path of the segments [segs], and the same path with a slash at
    its end. *)
Lemma path_segments_join segs tail :
  Forall (λ s, s ≠ [] ∧ 47%N ∉ s) segs → segs ≠ [] →
  tail = [] ∨ tail = [47%N] →
  path_segments (47%N :: join 47 segs ++ tail) = Some segs.
Proof.
  intros Hsegs Hne Htail.
  assert (Forall (λ s, 47%N ∉ s) segs) as Hin
    by (eapply Forall_impl; [done|]; by intros s []).
  assert (join 47 segs ≠ []) as Hj.
  { destruct Hsegs as [|s segs [Hs _] _]; [done|]. by apply join_nonempty. }
  simpl. rewrite decide_False by (by destruct (join 47 segs)).
  destruct Htail as [-> | ->].
  - rewrite app_nil_r, strip_slash_fixed by (by apply last_join).
    by rewrite split_on_join.
  - by rewrite strip_slash_app, split_on_join.
Qed.

(** ** Characters *)

Lemma token_char_unreserved c : is_token_char c = true → is_unreserved c = true.
Proof. unfold is_token_char, is_unreserved. bool_to_prop. tauto. Qed.

Lemma token_char_not_white_space c :
  is_token_char c = true → is_white_space c = false.
Proof.
  unfold is_token_char. rewrite !orb_true_iff, !N.eqb_eq.
  intros [[[?%is_alnum_not_white_space| ->]| ->]| ->]; done.
Qed.

Lemma token_plain s : forallb is_token_char s = true → plain s = true.
Proof.
  apply forallb_impl. intros c Hc. destruct (N.eqb_spec c 37) as [->|]; done.
Qed.

Section tokens.
Context `{!Json}.
Variable s : jsstring.
Hypothesis token : forallb is_token_char s = true.

Lemma token_trim : trim s = s.
Proof.
  rewrite forallb_forall in token.
  apply trim_fixed; intros c Hc; apply token_char_not_white_space, token,
    list_elem_of_In; [by apply head_Some_elem_of|by apply last_Some_elem_of].
Qed.

Lemma token_unquote : unquote s = s.
Proof.
  destruct s as [|c s']; [done|]. simpl in *.
  apply andb_prop in token as [Hc _]. rewrite decide_False; [done|].
  by intros ->.
Qed.

Lemma token_try_decode : try_decode s = s.
Proof. unfold try_decode. by rewrite decode_plain by (by apply token_plain). Qed.

Lemma token_encode : encodeURIComponent s = Some s.
Proof.
  apply percent_encode_kept. revert token. apply forallb_impl.
  apply token_char_unreserved.
Qed.

Lemma token_json_cookie : json_cookie s = Some s.
Proof.
  destruct s as [|c1 [|c2 s']]; [done..|]. simpl in *.
  apply andb_prop in token as [_ [Hc _]%andb_prop].
  rewrite decide_False; [done|]. by intros [_ ->].
Qed.

(** A piece [name=token] of a header: the name is trimmed, the token is
    taken as it is. *)
Lemma token_cookie_pair name :
  61%N ∉ name → cookie_pair (name ++ 61%N :: s) = Some (trim name, s).
Proof.
  intros Hname. unfold cookie_pair. rewrite cut_app by done.
  by rewrite token_trim, token_unquote, token_try_decode.
Qed.

End tokens.

(** ** Cookies *)

Lemma trim_blank_app pre s : blank pre = true → trim (pre ++ s) = trim s.
Proof. intros Hpre. unfold trim. by rewrite trimStart_blank_app. Qed.

Lemma cookie_line_cons p others token :
  cookie_line (p :: others) token
  = (p.1 ++ 61%N :: p.2) ++ 59%N :: [32%N] ++ cookie_line others token.
Proof. unfold cookie_line. simpl. by rewrite <- !app_assoc. Qed.

Lemma cookie_parse_cons piece rest :
  59%N ∉ piece →
  cookie_parse (piece ++ 59%N :: rest)
  = from_option (λ p, [p]) [] (cookie_pair piece) ++ cookie_parse rest.
Proof.
  intros Hp. unfold cookie_parse. rewrite split_on_app by done. simpl.
  by destruct (cookie_pair piece).
Qed.

(** The session cookie in the header of a client that holds other
    cookies. *)
Lemma cookie_parse_line others token pre :
  blank pre = true → Forall other_cookie others →
  forallb is_token_char token = true →
  assoc (js "ourSimpleApp") (cookie_parse (pre ++ cookie_line others token))
  = Some token.
Proof.
  intros Hpre Hothers Htok. revert pre Hpre.
  induction Hothers as [|p others (H1 & H2 & H3 & H4) _ IH]; intros pre Hpre.
  - change (cookie_line [] token) with (js "ourSimpleApp" ++ 61%N :: token).
    pose proof (eq_refl : forallb is_token_char (js "ourSimpleApp") = true).
    rewrite app_assoc. unfold cookie_parse. rewrite split_on_absent by absent.
    simpl. rewrite token_cookie_pair by (done || absent).
    rewrite trim_blank_app by done. by vm_compute.
  - rewrite cookie_line_cons, !app_assoc, <- (app_assoc pre).
    rewrite cookie_parse_cons by absent.
    unfold cookie_pair at 1. rewrite app_assoc, cut_app by absent.
    simpl. rewrite trim_blank_app by done. rewrite decide_False by done.
    by apply (IH [32%N]).
Qed.

(** ** Forms *)

Lemma encoded_form_char c :
  is_encoded_char is_form_safe c = true → is_form_char (space_plus c) = true.
Proof.
  unfold space_plus. case_decide as Hc; [by subst|]. revert Hc.
  unfold is_encoded_char, is_form_safe, is_hex_upper, is_form_char.
  intros Hc H. bool_to_prop. rewrite is_alnum_spec in H |- *. lia.
Qed.

Lemma plus_space_plus (t : jsstring) :
  43%N ∉ t → plus_space <$> (space_plus <$> t) = t.
Proof.
  induction t as [|c t IH]; [done|]. intros [Hc Ht]%not_elem_of_cons.
  csimpl. rewrite IH by done. f_equal. unfold plus_space, space_plus.
  repeat case_decide; congruence.
Qed.

Section forms.
Context `{!Querystring}.

Lemma form_encode_chars s t :
  Forall code_unit s → form_encode s = Some t → forallb is_form_char t = true.
Proof.
  unfold form_encode. intros Hs (t' & Ht & ->)%fmap_Some.
  rewrite forallb_fmap. eapply forallb_impl; [apply encoded_form_char|].
  by eapply percent_encode_chars.
Qed.

Lemma form_decode_encode s t :
  Forall code_unit s → form_encode s = Some t → form_decode t = s.
Proof.
  unfold form_encode, form_decode. intros Hs (t' & Ht & ->)%fmap_Some.
  rewrite plus_space_plus.
  - by rewrite (decode_percent_encode is_form_safe eq_refl s t').
  - eapply forallb_not_elem; [by eapply percent_encode_chars|done].
Qed.

(** A piece of the body of a form: it has no "&", it is not empty, and it
    is parsed to the pair it was written for. *)
Lemma form_piece_pair p piece :
  Forall code_unit p.1 → Forall code_unit p.2 → form_piece p = Some piece →
  (38%N ∉ piece) ∧ piece ≠ [] ∧ form_pair piece = p.
Proof.
  destruct p as [k v]. unfold form_piece. simpl. intros Hk Hv Hp.
  destruct (form_encode k) as [k'|] eqn:Hk'; [|done].
  destruct (form_encode v) as [v'|] eqn:Hv'; [|done].
  injection Hp as <-.
  pose proof (form_encode_chars _ _ Hk Hk') as Hkc.
  pose proof (form_encode_chars _ _ Hv Hv') as Hvc.
  split_and!.
  - absent.
  - by destruct k'.
  - unfold form_pair. rewrite cut_app by absent.
    simpl. by rewrite (form_decode_encode k k'), (form_decode_encode v v').
Qed.

Lemma occurrences_absent sep s : sep ∉ s → occurrences sep s = 0%nat.
Proof.
  intros Hs. unfold occurrences. induction s as [|c s IH]; [done|].
  apply not_elem_of_cons in Hs as [? ?].
  rewrite filter_cons_False by done. auto.
Qed.

Lemma occurrences_join sep ps :
  Forall (λ p, sep ∉ p) ps →
  occurrences sep (join sep ps) = (length ps - 1)%nat.
Proof.
  induction 1 as [|p ps Hp Hps IH]; [done|].
  destruct ps as [|q ps]; [by apply occurrences_absent|].
  rewrite join_cons. unfold occurrences in *.
  rewrite filter_app, filter_cons_True, length_app by done.
  pose proof (occurrences_absent sep p Hp) as H0. unfold occurrences in H0.
  rewrite H0. simpl in *. rewrite IH. lia.
Qed.

(** The pieces of the body of a form. *)
Lemma form_pieces fields pieces :
  Forall (λ p, Forall code_unit p.1 ∧ Forall code_unit p.2) fields →
  mapM form_piece fields = Some pieces →
  Forall (λ piece, 38%N ∉ piece) pieces ∧ Forall (λ piece, piece ≠ []) pieces
  ∧ form_pair <$> pieces = fields.
Proof.
  intros Hf Hm%mapM_Some. induction Hm as [|p piece fields pieces Hp _ IH].
  { by split_and!. }
  apply Forall_cons in Hf as [[Hk Hv] Hf].
  destruct (IH Hf) as (? & ? & ?).
  destruct (form_piece_pair p piece Hk Hv Hp) as (? & ? & ?).
  split_and!; [by constructor..|]. csimpl. congruence.
Qed.

Lemma form_parse_join pieces :
  Forall (λ piece, 38%N ∉ piece) pieces → Forall (λ piece, piece ≠ []) pieces →
  form_parse (join 38 pieces) = form_pair <$> pieces.
Proof.
  intros Hsep Hne. unfold form_parse.
  destruct (decide (pieces = [])) as [->|Hp]; [done|].
  by rewrite split_on_join, filter_all.
Qed.

End forms.

(** ** Set-Cookie *)

Lemma drop_wsp_fixed s :
  (∀ c, head s = Some c → is_wsp c = false) → drop_wsp s = s.
Proof. destruct s as [|c s]; [done|]. simpl. intros ->; done. Qed.

Lemma strip_wsp_token s : forallb is_token_char s = true → strip_wsp s = s.
Proof.
  intros Hs. unfold strip_wsp.
  assert (∀ c, c ∈ s → is_wsp c = false) as Hw.
  { intros c Hc%list_elem_of_In. rewrite forallb_forall in Hs.
    apply Hs in Hc. by destruct (is_wsp c) eqn:Hw;
      [apply orb_prop in Hw as [->%N.eqb_eq| ->%N.eqb_eq]|]. }
  rewrite (drop_wsp_fixed s), drop_wsp_fixed, reverse_involutive; [done|..].
  - intros c Hc. rewrite head_reverse in Hc. by apply Hw, last_Some_elem_of.
  - intros c Hc. by apply Hw, head_Some_elem_of.
Qed.

(** The name and the value that a client takes from a header that starts
    with [ourSimpleApp=token]. *)
Lemma set_cookie_pair_token token rest :
  forallb is_token_char token = true →
  set_cookie_pair (js "ourSimpleApp" ++ 61%N :: token ++ 59%N :: rest)
  = Some (js "ourSimpleApp", token).
Proof.
  intros Htok. unfold set_cookie_pair.
  replace (js "ourSimpleApp" ++ 61%N :: token ++ 59%N :: rest)
    with ((js "ourSimpleApp" ++ 61%N :: token) ++ 59%N :: rest)
    by (by rewrite <- app_assoc).
  pose proof (eq_refl : forallb is_token_char (js "ourSimpleApp") = true).
  rewrite cut_app by absent. cbn [fst]. rewrite cut_app by absent.
  by rewrite !strip_wsp_token.
Qed.

Section set_cookie.
Context `{!Jwt}.
Variable cfg : config.

(** The header that grants a session. *)
Lemma set_cookie_line_session e id name :
  set_cookie_line e (session_cookie cfg e id name)
  = Some (js "ourSimpleApp" ++ 61%N
          :: jwt_token (now_seconds e + 86400) id name (JWTSECRET cfg)
                      (now_seconds e)
          ++ 59%N :: js " Max-Age=86400; Path=/; Expires="
          ++ to_utc_string (now e + 86400000) ++ js "; HttpOnly"
          ++ (if production cfg then js "; Secure" else [])
          ++ js "; SameSite=Strict").
Proof.
  unfold set_cookie_line, session_cookie, serialize, session_cookie_options.
  cbn [maxAge httpOnly secure sameSite fmap option_fmap option_map from_option].
  rewrite token_encode by apply jwt_encode_chars. done.
Qed.

End set_cookie.

(** ** The stand-ins *)

Lemma quoted_string_token s :
  forallb is_token_char s = true →
  quoted_string (34%N :: s ++ [34%N]) = Some (JString s).
Proof.
  intros Hs. unfold quoted_string.
  by rewrite reverse_snoc, reverse_involutive, Hs.
Qed.

#[export] Instance plain_json : Json := {|
  json_parse := quoted_string;
  json_parse_string := quoted_string_token;
|}.

#[export] Instance plain_querystring : Querystring := {|
  unescape_lenient := id;
|}.

(** ** The pipeline *)

(** The route of a path with a parameter does not depend on the
    parameter, as long as there is one. *)
Lemma match_route_param m s id id' :
  id ≠ [] → id' ≠ [] →
  fst <$> match_route m [s; id'] = fst <$> match_route m [s; id].
Proof.
  intros Hid Hid'. destruct m, id, id'; try done; simpl;
    by repeat case_match.
Qed.

Lemma routed_param m s id : routed m [s; id] = true → id ≠ [].
Proof. intros Hr ->. by destruct m. Qed.

(** The path with the parameter decoded selects the route that the path
    as the client wrote it selects: [Server.handle] can match it again. *)
Lemma decode_params_route m segs path :
  decode_params segs = Some path →
  fst <$> match_route m path = fst <$> match_route m segs.
Proof.
  unfold decode_params.
  destruct segs as [|s [|id [|]]]; try (by intros [= <-]).
  destruct (routed GET [s; id] || routed POST [s; id]) eqn:Hr;
    [|by intros [= <-]].
  intros (id' & Hid & ->)%fmap_Some. apply match_route_param.
  - apply orb_prop in Hr as [Hr|Hr]; by eapply routed_param.
  - intros ->. apply decode_nonempty in Hid as ->.
    by apply orb_prop in Hr as [Hr|Hr].
Qed.

Section receive_facts.
Context `{!Sqlite, !Bcrypt, !Jwt, !Clock, !Json, !Querystring}.
Variable cfg : config.
Variable public : jsstring → bool.

(** A request that passes the middleware and the router is handled by the
    application. *)
Lemma receive_handle e raw db body segs path :
  read_body raw = Ok body → is_static public raw = false →
  path_segments (pathname (raw_url raw)) = Some segs →
  decode_params segs = Some path → is_Some (verb_method (raw_verb raw)) →
  receive cfg public e raw db
  = (Handled (handle cfg e (parsed raw path body) db).1,
     (handle cfg e (parsed raw path body) db).2).
Proof.
  intros Hb Hs Hsegs Hpath [m Hm]. unfold receive.
  rewrite Hb, Hs, Hsegs, Hpath, Hm. by destruct (handle _ _ _ _).
Qed.

(** What a request leaves: the database as it was, or the database that
    the application leaves. *)
Lemma receive_database e raw db :
  (receive cfg public e raw db).2 = db
  ∨ ∃ req, (receive cfg public e raw db).2 = (handle cfg e req db).2.
Proof.
  unfold receive. destruct (read_body raw) as [body|]; [|by left].
  destruct (is_static public raw); [by left|].
  destruct (path_segments _) as [segs|]; [|by left].
  destruct (decode_params segs) as [path|]; [|by left].
  destruct (verb_method _); [|left; by case_match].
  right. exists (parsed raw path body). by destruct (handle _ _ _ _).
Qed.

(** The invariant of the schema holds after every request. *)
Lemma receive_wf_db e raw db :
  wf_db db → wf_db (receive cfg public e raw db).2.
Proof.
  intros Hwf. destruct (receive_database e raw db) as [-> | [req ->]];
    [done|by apply handle_wf].
Qed.

Lemma read_body_status raw code :
  read_body raw = Throw code → code = 400 ∨ code = 413.
Proof.
  unfold read_body. repeat case_match; intros [= <-] || done; auto.
Qed.

(** A refusal has the status 400 or 413 and leaves the database. *)
Lemma receive_refused e raw db code :
  (receive cfg public e raw db).1 = Refused code →
  (code = 400 ∨ code = 413) ∧ (receive cfg public e raw db).2 = db.
Proof.
  unfold receive. destruct (read_body raw) as [body|code'] eqn:Hb.
  - destruct (is_static public raw); [done|].
    destruct (path_segments _) as [segs|]; [|done].
    destruct (decode_params segs) as [path|]; [|intros [= <-]; auto].
    destruct (verb_method _); [by destruct (handle _ _ _ _)|by case_match].
  - intros [= <-]. split; [by eapply read_body_status|done].
Qed.

End receive_facts.

(** ** The theorems *)

Section wire.
Context `{!Sqlite, !Bcrypt, !Jwt, !Clock, !Json, !Querystring}.
Variable cfg : config.
Variable public : jsstring → bool.

(** The pairs and the number of "&" of the body of a form. *)
Lemma form_body_pairs fields body :
  Forall (λ p, Forall code_unit p.1 ∧ Forall code_unit p.2) fields →
  form_body fields = Some body → form_parse body = fields.
Proof.
  unfold form_body. intros Hf (pieces & Hm & ->)%fmap_Some.
  destruct (form_pieces fields pieces Hf Hm) as (Hsep & Hne & <-).
  by apply form_parse_join.
Qed.

Lemma form_body_occurrences fields body :
  Forall (λ p, Forall code_unit p.1 ∧ Forall code_unit p.2) fields →
  form_body fields = Some body →
  occurrences 38 body = (length fields - 1)%nat.
Proof.
  unfold form_body. intros Hf (pieces & Hm & ->)%fmap_Some.
  destruct (form_pieces fields pieces Hf Hm) as (Hsep & Hne & <-).
  by rewrite occurrences_join, length_fmap.
Qed.

(** The body that a browser writes for a form is read back as the
    form.  For fields whose names and values are strings of code units
    without unpaired surrogates (the body is defined), [express.urlencoded]
    gives the pairs of the form, in their order and with their values,
    whatever characters they contain; and the body has one "&" less than
    the form has fields. *)
Theorem form_parse_body fields body :
  Forall (λ p, Forall code_unit p.1 ∧ Forall code_unit p.2) fields →
  form_body fields = Some body →
  form_parse body = fields
  ∧ occurrences 38 body = (length fields - 1)%nat.
Proof.
  intros Hf Hb. split; [by apply form_body_pairs|by apply form_body_occurrences].
Qed.

(** The cookies that the server reads from the header of a client that
    holds the token [token]. *)
Lemma read_cookies_line others token :
  Forall other_cookie others → forallb is_token_char token = true →
  read_cookies (Some (cookie_line others token))
  = {[ "ourSimpleApp"%string := token ]}.
Proof.
  intros Ho Ht. unfold read_cookies.
  assert (assoc (js "ourSimpleApp") (cookie_parse (cookie_line others token))
          = Some token) as Hc by exact (cookie_parse_line _ _ [] eq_refl Ho Ht).
  cbn [mbind option_bind]. rewrite Hc.
  cbn [mbind option_bind]. by rewrite token_json_cookie.
Qed.

(** C19: the session that a response grants comes back with the next
    request.  The header Set-Cookie written for the session of the user
    [id] carries the token as the value of [ourSimpleApp]; a client that
    takes the value from it and sends it back in its header Cookie, after
    cookies of other names, is recognised as that user for as long as the
    token has not expired. *)
Theorem session_cookie_sent_back e e' id name others raw path body :
  Forall other_cookie others →
  raw_cookie raw
  = Some (cookie_line others
            (jwt_token (now_seconds e + 86400) id name (JWTSECRET cfg)
                      (now_seconds e))) →
  now_seconds e' < now_seconds e + 86400 →
  set_cookie_line e (session_cookie cfg e id name) ≫= set_cookie_pair
  = Some (js "ourSimpleApp",
          jwt_token (now_seconds e + 86400) id name (JWTSECRET cfg)
                   (now_seconds e))
  ∧ session cfg e' (parsed raw path body)
    = Some (Claims (now_seconds e + 86400) id name (now_seconds e)).
Proof.
  intros Ho Hraw He'. split.
  - rewrite set_cookie_line_session. cbn [mbind option_bind].
    apply set_cookie_pair_token, jwt_encode_chars.
  - erewrite session_signed.
    + by rewrite bool_decide_true.
    + unfold parsed. cbn [req_cookies]. rewrite Hraw.
      rewrite read_cookies_line by (done || apply jwt_encode_chars).
      apply lookup_singleton_eq.
Qed.

(** The body of a form that the parser accepts. *)
Lemma read_body_form fields body url cookie :
  Forall (λ p, Forall code_unit p.1 ∧ Forall code_unit p.2) fields →
  (length fields ≤ parameter_limit)%nat →
  form_body fields = Some body → Z.of_nat (length body) ≤ body_limit →
  read_body (RawRequest Post url cookie (FormContent body)
                        (Z.of_nat (length body)))
  = Ok (body_map (form_field fields)).
Proof.
  intros Hf Hn Hb Hlen. pose proof (form_body_pairs fields body Hf Hb) as Hp.
  pose proof (form_body_occurrences fields body Hf Hb) as Ho.
  unfold read_body. cbn [raw_content raw_length].
  rewrite decide_False by lia. rewrite decide_False, Hp; [done|].
  rewrite Ho. unfold parameter_limit in *. lia.
Qed.

(** C16: a form posted by a browser is handled as the request of its
    fields.  For a form of at most 1000 fields and 100 kilobytes posted to
    a path of one segment, with or without the session cookie, the server
    answers as the application does on the request with that segment, that
    cookie and, for each field the handlers read, the value of the form
    when the field occurs once. *)
Theorem receive_post_form e db url s token fields raw :
  Forall (λ p, Forall code_unit p.1 ∧ Forall code_unit p.2) fields →
  (length fields ≤ parameter_limit)%nat →
  from_option (λ t, forallb is_token_char t = true) True token →
  post_form url token fields = Some raw → raw_length raw ≤ body_limit →
  path_segments (pathname url) = Some [s] →
  receive cfg public e raw db
  = (let req := Request POST [s]
                  (from_option (λ t, {[ "ourSimpleApp"%string := t ]}) ∅ token)
                  (body_map (form_field fields)) ∅ None in
     (Handled (handle cfg e req db).1, (handle cfg e req db).2)).
Proof.
  intros Hf Hn Htok Hraw Hlen Hs. unfold post_form in Hraw.
  destruct (form_body fields) as [body|] eqn:Hb; [|done].
  injection Hraw as <-. cbn [raw_length] in Hlen. cbv zeta.
  rewrite (receive_handle cfg public e _ db (body_map (form_field fields))
             [s] [s]); [|by apply read_body_form|done..].
  unfold parsed, raw_method. cbn [raw_verb raw_cookie verb_method default].
  destruct token as [t|]; [|done]. cbn [fmap option_fmap option_map from_option].
  by rewrite (read_cookies_line [] t).
Qed.

Lemma path_app (s enc t : jsstring) :
  (47%N :: s ++ 47%N :: enc) ++ t = 47%N :: s ++ 47%N :: enc ++ t.
Proof. by rewrite <- app_comm_cons, <- app_assoc. Qed.

(** The segments of a path with a parameter and, on request, a query. *)
Lemma path_segments_param s enc query :
  (47%N ∉ s) → (63%N ∉ s) → (35%N ∉ s) → s ≠ [] → enc ≠ [] →
  forallb (is_encoded_char is_unreserved) enc = true →
  path_segments
    (pathname (47%N :: s ++ 47%N :: enc ++ from_option (λ q, 63%N :: q) [] query))
  = Some [s; enc].
Proof.
  intros Hs1 Hs2 Hs3 Hs Henc Hchars.
  assert (pathname (47%N :: s ++ 47%N :: enc
                    ++ from_option (λ q, 63%N :: q) [] query)
          = 47%N :: join 47 [s; enc]) as ->.
  { cbn [join]. destruct query as [q|]; cbn [from_option].
    - rewrite <- path_app. apply pathname_query; absent.
    - rewrite app_nil_r. apply pathname_plain; absent. }
  rewrite <- (app_nil_r (join _ _)).
  apply path_segments_join; [|done|by left]. repeat constructor; absent.
Qed.

(** The parameter of a route is what the client encoded.  For a text
    [id] that is not empty, a request for the path of a route with [:id]
    in which the text is written with [encodeURIComponent], with or
    without a query, is handled as the request whose parameter is [id]:
    slashes, question marks and characters outside ASCII in the text
    reach the handler as they are.  HEAD is handled as GET. *)
Theorem receive_param e db v m s id enc query cookie :
  verb_method v = Some m →
  Forall code_unit id → id ≠ [] → encodeURIComponent id = Some enc →
  (47%N ∉ s) → (63%N ∉ s) → (35%N ∉ s) →
  is_Some (match_route m [s; enc]) →
  let raw := RawRequest v (47%N :: s ++ 47%N :: enc
                           ++ from_option (λ q, 63%N :: q) [] query)
                        cookie NoContent 0 in
  is_static public raw = false →
  receive cfg public e raw db
  = (let req := Request m [s; id] (read_cookies cookie) ∅ ∅ None in
     (Handled (handle cfg e req db).1, (handle cfg e req db).2)).
Proof.
  intros Hv Hid Hne Henc Hs1 Hs2 Hs3 Hr raw Hstatic.
  destruct (decode_encode id enc Hid Henc) as [Hdec Hchars].
  assert (enc ≠ []) as Hne' by (intros ->; rewrite decode_nil in Hdec; congruence).
  assert (s ≠ []) as Hs by (intros ->; destruct Hr, m, enc; by simplify_eq/=).
  assert (routed m [s; enc] = true) as Hm by (by apply bool_decide_eq_true).
  subst raw.
  rewrite (receive_handle cfg public e _ db ∅ [s; enc] [s; id]);
    [|done|done|by apply path_segments_param| |by exists m].
  - unfold parsed, raw_method. cbn [raw_verb raw_cookie]. by rewrite Hv.
  - unfold decode_params. rewrite Hdec. by destruct m; rewrite Hm, ?orb_true_r.
Qed.

(** A path of a route with [:id] whose parameter has no decoding is
    answered 400. *)
Lemma receive_undecodable e raw db body s id :
  read_body raw = Ok body → is_static public raw = false →
  path_segments (pathname (raw_url raw)) = Some [s; id] →
  routed GET [s; id] || routed POST [s; id] = true →
  decodeURIComponent id = None →
  receive cfg public e raw db = (Refused 400, db).
Proof.
  intros Hb Hs Hsegs Hr Hid. unfold receive, decode_params.
  by rewrite Hb, Hs, Hsegs, Hr, Hid.
Qed.

(** The three paths with a parameter are routes of GET or of POST for
    every parameter that is not empty. *)
Lemma routed_literal s id :
  s ∈ [js "post"; js "edit-post"; js "delete-post"] → id ≠ [] →
  routed GET [s; id] || routed POST [s; id] = true
  ∧ (47%N ∉ s) ∧ (63%N ∉ s) ∧ (35%N ∉ s) ∧ s ≠ [].
Proof.
  intros Hs Hid. destruct id as [|c id]; [done|].
  repeat (apply elem_of_cons in Hs as [->|Hs]);
    [| | |by apply elem_of_nil in Hs];
    split_and!; done || evaluate.
Qed.

(** C37: a parameter with an escape that does not write a character is
    refused.  A request of whatever method for /post/:id, /edit-post/:id
    or /delete-post/:id, with or without a query, whose parameter has,
    after characters other than "%", a "%" that is not followed by the
    escapes of the UTF-8 form of a scalar value (a digit is missing or is
    not hexadecimal, the byte cannot start a sequence, a continuation is
    missing, the form is overlong or a surrogate) is answered 400 by the
    router: no handler runs and the database is as it was. *)
Theorem receive_bad_param e db v s pre rest query cookie :
  s ∈ [js "post"; js "edit-post"; js "delete-post"] →
  plain pre = true →
  forallb (is_encoded_char is_unreserved) (pre ++ 37%N :: rest) = true →
  escape_value rest = None →
  let raw := RawRequest v (47%N :: s ++ 47%N :: (pre ++ 37%N :: rest)
                           ++ from_option (λ q, 63%N :: q) [] query)
                        cookie NoContent 0 in
  is_static public raw = false →
  receive cfg public e raw db = (Refused 400, db).
Proof.
  intros Hs Hpre Hchars Hbad raw Hstatic.
  assert (pre ++ 37%N :: rest ≠ []) as Hne by (by destruct pre).
  destruct (routed_literal s _ Hs Hne) as (Hr & Hs1 & Hs2 & Hs3 & Hs4).
  apply (receive_undecodable e raw db ∅ s (pre ++ 37%N :: rest));
    [done|done|by apply path_segments_param|done|by apply decode_bad_escape].
Qed.

(** The middleware and the router keep the database safe.  Whatever
    text a client sends, the database satisfies the schema after the
    request if it did before; a request that is refused (with the status
    400 or 413) or answered with a static file leaves the database as it
    was. *)
Theorem receive_safe e raw db :
  wf_db db →
  wf_db (receive cfg public e raw db).2
  ∧ (∀ code, (receive cfg public e raw db).1 = Refused code →
             (code = 400 ∨ code = 413) ∧ (receive cfg public e raw db).2 = db)
  ∧ ((receive cfg public e raw db).1 = Static →
     (receive cfg public e raw db).2 = db).
Proof.
  intros Hwf. split_and!.
  - by apply receive_wf_db.
  - apply receive_refused.
  - unfold receive. repeat case_match; simplify_eq/=; try done.
Qed.

Lemma wire_step_wf db l db' :
  wf_db db → wire_step cfg public db l db' → wf_db db'.
Proof. intros Hwf Hstep. destruct Hstep. by apply receive_wf_db. Qed.

(** One request received is one step of the abstract blog. *)
Lemma wire_step_simulates :
  simulation (wire_step cfg public) blog_step wf_db matches (wire_announces cfg).
Proof.
  intros db l db' b Hwf Hm Hstep. destruct Hstep as [e raw db].
  assert (∀ a, a = Static ∨ (∃ code, a = Refused code)
               ∨ (∃ get post, a = Allowed get post)
               ∨ a = Handled (Outcome NotFound [] None) →
               ∃ ev b', blog_step b ev b' ∧ matches db b'
                        ∧ wire_announces cfg (e, raw, a) ev) as Hquiet.
  { intros a Ha. exists Quiet, b. split_and!; [constructor|done|].
    destruct Ha as [-> | [[code ->] | [(g & p & ->) | ->]]]; [done..|].
    by exists [], ∅. }
  unfold receive. destruct (read_body raw) as [body|code]; [|eauto 6].
  destruct (is_static public raw); [eauto|].
  destruct (path_segments _) as [segs|]; [|eauto 7].
  destruct (decode_params segs) as [path|]; [|eauto 6].
  destruct (verb_method _); [|case_match; eauto 8].
  destruct (step_simulates cfg db _ _ b Hwf Hm
              (step_handle cfg e (parsed raw path body) db))
    as (ev & b' & Hev & Hm' & Ha).
  destruct (handle _ _ _ _) as [o db'] eqn:Hh. exists ev, b'.
  split_and!; [done..|]. by exists path, body.
Qed.

(** [listen] is a run of [wire_step]. *)
Lemma listen_trace inputs db :
  trace (wire_step cfg public) db
        (zip_with (λ i a, (i.1, i.2, a)) inputs (listen cfg public inputs db).1)
        (listen cfg public inputs db).2.
Proof.
  revert db. induction inputs as [|[e raw] rest IH]; intros db; simpl;
    [constructor|].
  pose proof (wire_step_receive cfg public e raw db) as Hstep.
  destruct (receive _ _ _ _ _) as [a db']. specialize (IH db').
  destruct (listen _ _ _ _) as [answers db'']. by eapply trace_cons.
Qed.

(** C14: the server started on a new database file performs a run of the
    abstract blog on whatever arrives.  For every list of requests given
    as text (method, request target, header Cookie and body), there is a
    run of the abstract blog from the empty blog with one event per
    request, which the answer to the request announces (nothing for a
    request that the middleware or the router refuses or that a static
    file answers); the final database represents the final blog, and the
    final blog satisfies the invariant of the data model. *)
Theorem listen_simulates inputs :
  ∃ evs b,
    trace blog_step empty_blog evs b ∧ blog_ok b
    ∧ matches (listen cfg public inputs (createTables None)).2 b
    ∧ Forall2 (wire_announces cfg)
        (zip_with (λ i a, (i.1, i.2, a)) inputs
                  (listen cfg public inputs (createTables None)).1)
        evs.
Proof.
  destruct (simulation_trace (wire_step cfg public) blog_step wf_db matches
              (wire_announces cfg) empty_db _ _ empty_blog wire_step_wf
              wire_step_simulates wf_db_empty matches_empty
              (listen_trace inputs empty_db)) as (evs & b & Hrun & Hm & Hev).
  exists evs, b. split_and!; [done| |done..].
  by eapply blog_trace_ok; [apply blog_ok_empty|].
Qed.

End wire.

(** ** The headers Set-Cookie of the answers

    [res.cookie] raises a TypeError for an option that [cookie.serialize]
    refuses.  The handlers queue two kinds of header only, and both have a
    line: the analysis is the one of [Http.stable], on the relation
    [queued]. *)

Section headers.
Context `{!Sqlite, !Bcrypt, !Jwt, !Clock}.
Variable cfg : config.
Variable e : env.

#[local] Instance queued_preorder : PreOrder (queued cfg e).
Proof.
  split.
  - intros st. exists []. by rewrite app_nil_r.
  - intros a b c (cs & Hcs & Hk) (cs' & Hcs' & Hk'). exists (cs ++ cs').
    rewrite Hcs', Hcs, app_assoc. split; [done|by apply Forall_app].
Qed.

(** A statement that leaves the headers as they are. *)
Lemma queued_same {A} (m : handler A) :
  (∀ st, res_cookies (st_res (m st).2) = res_cookies (st_res st)) →
  stable (queued cfg e) m.
Proof. intros Hm st. exists []. by rewrite app_nil_r. Qed.

Lemma queued_send s : stable (queued cfg e) (send s).
Proof.
  apply queued_same. intros st. unfold send, check_headers. eff_unfold.
  by destruct (res_sent (st_res st)).
Qed.

Lemma queued_run {A} (q : database → result exn A * database) :
  stable (queued cfg e) (run q).
Proof. apply queued_same. intros st. unfold run. by destruct (q _). Qed.

Lemma queued_lift_result {A} (r : result exn A) :
  stable (queued cfg e) (lift_result r).
Proof. apply queued_same. by destruct r. Qed.

Lemma queued_add_header c :
  known_header cfg e c → stable (queued cfg e) (add_header c).
Proof.
  intros Hc st. unfold add_header, check_headers. eff_unfold.
  destruct (res_sent (st_res st)); [reflexivity|]. simpl.
  exists [c]. split; [done|by constructor].
Qed.

(** The session cookie is queued when [jwt.sign] returns. *)
Lemma queued_start_session u : stable (queued cfg e) (start_session cfg e u).
Proof.
  intros st. unfold start_session, jwt_sign.
  destruct (truthy _); cbn [lift_result]; [|reflexivity].
  rewrite eff_bind_ret_l. revert st. apply (stable_bind (queued cfg e)).
  - apply queued_add_header. right. by eexists _, _.
  - intros _. apply queued_send.
Qed.

Ltac queued_step :=
  match goal with
  | |- stable _ _ => stable_step
  | |- stable _ (start_session _ _ _) => apply queued_start_session
  | |- stable _ (run _) => apply queued_run
  | |- stable _ (lift_result _) => apply queued_lift_result
  | |- stable _ (exec _) => by apply queued_same
  | |- stable _ (set_locals_errors _) => by apply queued_same
  | |- stable _ (set_locals_user _) => by apply queued_same
  | |- stable _ (console_log _) => by apply queued_same
  | |- stable _ (print_all _) =>
      apply queued_same; intros ?; by rewrite print_all_run
  | |- stable _ (res_render _ _) => apply queued_send
  | |- stable _ (res_redirect _) => apply queued_send
  | |- stable _ (res_clearCookie _ _) => apply queued_add_header; by left
  | |- stable _ (res_cookie _ _ _) =>
      apply queued_add_header; right; by eexists _, _
  end.

Lemma queued_route_handler r req :
  stable (queued cfg e) (route_handler cfg e r req).
Proof.
  destruct r; simpl;
    unfold get_home, get_logout, get_create_post, post_create_post, get_post,
      get_edit_post, post_edit_post, post_delete_post, post_register,
      get_login, post_login, mustBeLoggedIn, fetch_owned_post,
      compare_password, sharedPostValidation;
    repeat queued_step.
Qed.

Lemma queued_app req : stable (queued cfg e) (app cfg e req).
Proof.
  unfold app, authenticate. repeat queued_step. apply queued_route_handler.
Qed.

(** The headers of every outcome are headers of a logout or of a
    session. *)
Lemma handle_headers req db :
  Forall (known_header cfg e) (out_cookies (handle cfg e req db).1).
Proof.
  unfold handle. pose proof (queued_app req (HState fresh_response db [])) as Hq.
  destruct (app _ _ _ _) as [r st]. destruct Hq as (cs & Hcs & Hk).
  simpl in *. by rewrite Hcs.
Qed.

Lemma known_header_line c :
  known_header cfg e c →
  ∃ line v, set_cookie_line e c = Some line
            ∧ set_cookie_pair line = Some (js "ourSimpleApp", v).
Proof.
  intros [->|(id & name & ->)].
  - unfold clear_cookie_options. destruct (production cfg); by eexists _, [].
  - eexists _, _. split; [apply set_cookie_line_session|].
    apply set_cookie_pair_token, jwt_encode_chars.
Qed.

(** C20: [res.cookie] and [res.clearCookie] never raise: every header
    Set-Cookie of every outcome has a line, and a client reads the name
    [ourSimpleApp] from it. *)
Theorem handle_set_cookie req db c :
  c ∈ out_cookies (handle cfg e req db).1 →
  ∃ line v, set_cookie_line e c = Some line
            ∧ set_cookie_pair line = Some (js "ourSimpleApp", v).
Proof.
  intros Hc. apply known_header_line.
  by eapply (proj1 (Forall_forall _ _) (handle_headers req db)).
Qed.

End headers.

(** ** The theorems on examples *)

#[local] Instance other_cookie_dec p : Decision (other_cookie p).
Proof. unfold other_cookie. apply _. Defined.

Lemma form_parse_body_witness :
  form_parse (js "username=+alice1+&note=a%26b%3Dc%2Bd%E2%82%AC")
  = [(js "username", js " alice1 "); (js "note", js "a&b=c+d" ++ [0x20AC%N])]
  ∧ occurrences 38 (js "username=+alice1+&note=a%26b%3Dc%2Bd%E2%82%AC") = 1%nat.
Proof.
  apply (form_parse_body
           [(js "username", js " alice1 "); (js "note", js "a&b=c+d" ++ [0x20AC%N])]);
    [|by vm_compute].
  evaluate.
Defined.

Lemma session_cookie_sent_back_witness :
  set_cookie_line example_env
    (session_cookie example_config example_env 1 (VStr (js "alice1")))
  ≫= set_cookie_pair
  = Some (js "ourSimpleApp",
          jwt_token (now_seconds example_env + 86400) 1 (VStr (js "alice1"))
                   (JWTSECRET example_config) (now_seconds example_env))
  ∧ session example_config example_env
      (parsed (RawRequest Get (js "/")
                 (Some (cookie_line [(js "theme", js "dark")]
                          (jwt_token (now_seconds example_env + 86400) 1
                                    (VStr (js "alice1"))
                                    (JWTSECRET example_config)
                                    (now_seconds example_env))))
                 NoContent 0) [] ∅)
    = Some (Claims (now_seconds example_env + 86400) 1 (VStr (js "alice1"))
                   (now_seconds example_env)).
Proof.
  apply (session_cookie_sent_back example_config example_env example_env 1
           (VStr (js "alice1")) [(js "theme", js "dark")]);
    [|done|by vm_compute].
  evaluate.
Defined.

Lemma receive_post_form_witness :
  receive example_config (λ _, false) example_env
    (RawRequest Post (js "/register?next=1") None
       (FormContent (js "username=alice1&password=secret1")) 32) empty_db
  = (let req := Request POST [js "register"] ∅
                  (body_map (form_field [(js "username", js "alice1");
                                         (js "password", js "secret1")]))
                  ∅ None in
     (Handled (handle example_config example_env req empty_db).1,
      (handle example_config example_env req empty_db).2)).
Proof.
  apply (receive_post_form example_config (λ _, false) example_env empty_db
           (js "/register?next=1") (js "register") None
           [(js "username", js "alice1"); (js "password", js "secret1")]);
    [|unfold parameter_limit; simpl; lia|by vm_compute..].
  evaluate.
Defined.

Lemma receive_param_witness :
  receive example_config (λ _, false) example_env
    (RawRequest Get (js "/post/a%2Fb%3F?x=1") None NoContent 0) empty_db
  = (let req := Request GET [js "post"; js "a/b?"] (read_cookies None) ∅ ∅ None in
     (Handled (handle example_config example_env req empty_db).1,
      (handle example_config example_env req empty_db).2)).
Proof.
  apply (receive_param example_config (λ _, false) example_env empty_db Get GET
           (js "post") (js "a/b?") (js "a%2Fb%3F") (Some (js "x=1")) None);
    try (by vm_compute); try evaluate.
Defined.

Lemma receive_bad_param_witness :
  receive example_config (λ _, false) example_env
    (RawRequest OtherVerb (js "/edit-post/a%E0%A4%A?x=1") None NoContent 0)
    empty_db
  = (Refused 400, empty_db).
Proof.
  apply (receive_bad_param example_config (λ _, false) example_env empty_db
           OtherVerb (js "edit-post") (js "a") (js "E0%A4%A") (Some (js "x=1"))
           None);
    first [by vm_compute | evaluate].
Defined.

Lemma receive_safe_witness :
  wf_db (receive example_config (λ _, false) example_env
           (RawRequest Post (js "/register") None
              (FormContent (js "username=alice1&password=secret1")) 32)
           empty_db).2.
Proof.
  apply (receive_safe example_config (λ _, false) example_env _ empty_db
           wf_db_empty).
Defined.

Lemma handle_set_cookie_witness :
  ∃ line v,
    set_cookie_line example_env
      (session_cookie example_config example_env 1 (VStr (js "alice1")))
    = Some line
    ∧ set_cookie_pair line = Some (js "ourSimpleApp", v).
Proof.
  apply (handle_set_cookie example_config example_env alice_form empty_db).
  vm_compute. by left.
Defined.

(** The paths of the routes: a slash at the end is optional, an empty
    segment is a segment, a path that does not start with a slash has no
    segments, and the case of the letters is left to [match_route]. *)
Example path_segments_examples :
  path_segments <$> [js "/"; js "/login/"; js "//"; js "/post/1/"; js "login";
                     js "/post//1"]
  = [Some []; Some [js "login"]; Some [[]]; Some [js "post"; js "1"]; None;
     Some [js "post"; []; js "1"]].
Proof. by vm_compute. Qed.

(** A header Cookie: the first pair of a name counts for [assoc], quotes
    are removed, escapes are decoded when they can be, a piece without "="
    is skipped. *)
Example cookie_parse_example :
  cookie_parse (js "a=1; ourSimpleApp=" ++ 34%N :: js "x%20y" ++ 34%N
                :: js "; a=2; b; c = %E0%A4%A ")
  = [(js "a", js "1"); (js "ourSimpleApp", js "x y"); (js "a", js "2");
     (js "c", js "%E0%A4%A")].
Proof. by vm_compute. Qed.

(** The headers of a logout and of a cookie with other options. *)
Example set_cookie_line_examples :
  set_cookie_line example_env
    (ClearCookie "ourSimpleApp" (clear_cookie_options example_config))
  = Some (js "ourSimpleApp=; Path=/; Expires=Thu, 01 Jan 1970 00:00:00 GMT; HttpOnly; SameSite=Strict")
  ∧ set_cookie_line example_env
      (SetCookie "a" (js "x y;z") (CookieOptions true true "Lax" (Some 1500)))
    = Some (js "a=x%20y%3Bz; Max-Age=1; Path=/; Expires=Tue, 14 Nov 2023 22:13:21 GMT; HttpOnly; Secure; SameSite=Lax")
  ∧ set_cookie_line example_env
      (SetCookie "a" [] (CookieOptions true true "always" None)) = None.
Proof. by vm_compute. Qed.

(** A form of a thousand fields is refused, one of 999 is read; a body of
    JSON that is not an object is refused. *)
Example read_body_examples :
  read_body (RawRequest Post (js "/login") None
               (FormContent (replicate 1000 38%N)) 1000) = Throw 413
  ∧ read_body (RawRequest Post (js "/login") None
                 (FormContent (replicate 999 38%N)) 999) = Ok ∅
  ∧ read_body (RawRequest Post (js "/login") None
                 (FormContent (js "a=1")) 102401) = Throw 413
  ∧ read_body (RawRequest Post (js "/login") None
                 (JsonContent (js "12")) 2) = Throw 400.
Proof. by vm_compute. Qed.

(** The other written forms of a cookie that the server reads as the same
    value: with escapes, and as a JSON string after [j:]. *)
Example read_cookies_examples :
  read_cookies (Some (js "ourSimpleApp=e30%2Ee30"))
  = {[ "ourSimpleApp"%string := js "e30.e30" ]}
  ∧ read_cookies (Some (js "ourSimpleApp=j:" ++ 34%N :: js "e30.e30" ++ [34%N]))
    = {[ "ourSimpleApp"%string := js "e30.e30" ]}.
Proof. by vm_compute. Qed.

(** A field that occurs twice is an array: the registration raises
    TypeError on [.trim()] and is answered 500. *)
Example repeated_field_example :
  status (receive example_config (λ _, false) example_env
            (RawRequest Post (js "/register") None
               (FormContent (js "username=alice1&username=bob&password=secret1"))
               45) empty_db).1
  = Some 500.
Proof. by vm_compute. Qed.

(** The methods: HEAD is answered by the route of GET (a HEAD request
    for /logout clears the session cookie), OPTIONS by the router when the
    path has a route, another method finds no route; and a parameter that
    does not decode is refused before the method is looked at. *)
Example verb_examples :
  let answer v url :=
    (receive example_config (λ _, false) example_env
             (RawRequest v (js url) None NoContent 0) empty_db).1 in
  answer Head "/logout"
  = Handled (Outcome (Sent (Redirected "/"))
               [ClearCookie "ourSimpleApp" (clear_cookie_options example_config)]
               None)
  ∧ answer Options "/login" = Allowed true true
  ∧ answer Options "/post/7" = Allowed true false
  ∧ status (answer Options "/nowhere") = Some 404
  ∧ status (answer OtherVerb "/login") = Some 404
  ∧ status (answer Get "/delete-post/7") = Some 404
  ∧ answer Get "/delete-post/%E0" = Refused 400.
Proof. by vm_compute. Qed.

(** The status codes of a registration, of the same registration again,
    of a path that no route matches and of a file of [public]. *)
Example status_examples :
  let raw := RawRequest Post (js "/register") None
               (FormContent (js "username=alice1&password=secret1")) 32 in
  let '(a1, db1) := receive example_config (λ _, false) example_env raw empty_db in
  let '(a2, _) := receive example_config (λ _, false) example_env raw db1 in
  let '(a3, _) := receive example_config (λ _, false) example_env
                    (RawRequest Get (js "/nowhere") None NoContent 0) db1 in
  let '(a4, _) := receive example_config (λ p, bool_decide (p = js "/main.css"))
                    example_env
                    (RawRequest Get (js "/main.css?v=2") None NoContent 0) db1 in
  (status a1, status a2, status a3, a4) = (Some 302, Some 200, Some 404, Static).
Proof. by vm_compute. Qed.
