(* ===== verification/Client.v ===== *)
(** * A client on the wire

    [Browser] follows a session on the requests and the headers as the
    handlers see them; a client has the texts of [Wire] only.  This file
    models the client of RFC 6265 on those texts and proves that the two
    agree on the headers this server writes.

    - [is_delimiter], [date_tokens], [leading_number], [time_token],
      [month_token], [date_step], [parse_cookie_date]: the dates of
      cookies (RFC 6265, 5.1.1), read token by token.
    - [cookie_av], [max_age_value], [set_cookie_parse]: a header
      Set-Cookie as the client reads it (5.2): name, value, the last
      Max-Age and the last Expires.
    - [wire_keep], [wire_attach]: the jar after one header, where Max-Age
      takes precedence over Expires and a cookie that has expired is
      removed (5.3), and the request sent with the cookie of the jar.
    - [wire_visit], [wire_browse]: one request and a sequence of requests
      of one client against [Wire.receive].
    - [reads]: a raw request that the middleware and the router hand to
      the application as a given request.

    The theorems: the client reads every header of the server as
    [Browser.keep_cookie] says; [wire_browse] refines [Browser.browse];
    the attribute Expires of the session cookie denotes the time of its
    Max-Age up to a second; a registration and a post, and a logout, end
    to end on text. *)

From stdpp Require Import pretty.
From S2P Require Import Spec2Rocq Traces JsString Uri Platform Calendar Blog Store Http Auth Handlers Server Refinement Browser Names Wire.

Local Open Scope Z_scope.

(** ** Dates of cookies *)

(** The delimiters of a cookie date: tab, space to slash, semicolon to at,
    bracket to backquote, brace to tilde. *)
Definition is_delimiter (c : N) : bool :=
  ((c =? 9) || (32 <=? c) && (c <=? 47) || (59 <=? c) && (c <=? 64)
   || (91 <=? c) && (c <=? 96) || (123 <=? c) && (c <=? 126))%N.

(** The date tokens of a text: its longest pieces without delimiter. *)
Fixpoint date_tokens (s : jsstring) : list jsstring :=
  match s with
  | [] => []
  | c :: s' =>
      if is_delimiter c then date_tokens s'
      else match s' with
           | [] => [[c]]
           | c' :: _ =>
               if is_delimiter c' then [c] :: date_tokens s'
               else match date_tokens s' with
                    | t :: ts => (c :: t) :: ts
                    | [] => [[c]]
                    end
           end
  end.

(** The digits at the start of a text, and the rest. *)
Fixpoint span_digits (s : jsstring) : jsstring * jsstring :=
  match s with
  | c :: s' =>
      if is_digit c then let '(ds, r) := span_digits s' in (c :: ds, r)
      else ([], s)
  | [] => ([], [])
  end.

(** [lo*hi DIGIT ( non-digit *OCTET )]: the number that starts a token,
    of [lo] to [hi] digits, and what follows it. *)
Definition leading_number (lo hi : nat) (t : jsstring)
    : option (Z * jsstring) :=
  let '(ds, r) := span_digits t in
  if bool_decide (lo ≤ length ds ≤ hi)%nat then Some (digits_value ds, r)
  else None.

(** A colon, then a number of one or two digits. *)
Definition colon_number (r : jsstring) : option (Z * jsstring) :=
  match r with
  | c :: r' => if decide (c = 58%N) then leading_number 1 2 r' else None
  | [] => None
  end.

(** [time]: hours, minutes and seconds. *)
Definition time_token (t : jsstring) : option (Z * Z * Z) :=
  '(h, r) ← leading_number 1 2 t;
  '(mi, r') ← colon_number r;
  '(s, _) ← colon_number r';
  Some (h, mi, s).

(** [month]: a token that starts with the first three letters of the name
    of a month, in either case. *)
Definition month_token (t : jsstring) : option Z :=
  (λ i, Z.of_nat (S i.1))
    <$> list_find (λ m, to_lower <$> js m = to_lower <$> take 3 t) month_names.

(** What has been found of a date. *)
Record date_parts : Type := DateParts {
  found_time : option (Z * Z * Z);
  found_day : option Z;
  found_month : option Z;
  found_year : option Z;
}.

(** One token: the first production it matches among those not found
    yet, in the order time, day of the month, month, year. *)
Definition date_step (p : date_parts) (t : jsstring) : date_parts :=
  match found_time p, time_token t with
  | None, Some x => DateParts (Some x) (found_day p) (found_month p) (found_year p)
  | _, _ =>
  match found_day p, leading_number 1 2 t with
  | None, Some (d, _) =>
      DateParts (found_time p) (Some d) (found_month p) (found_year p)
  | _, _ =>
  match found_month p, month_token t with
  | None, Some m => DateParts (found_time p) (found_day p) (Some m) (found_year p)
  | _, _ =>
  match found_year p, leading_number 2 4 t with
  | None, Some (y, _) =>
      DateParts (found_time p) (found_day p) (found_month p) (Some y)
  | _, _ => p
  end end end end.

(** The year of two digits: 70 to 99 are of the last century. *)
Definition full_year (y : Z) : Z :=
  if bool_decide (70 ≤ y ≤ 99) then y + 1900
  else if bool_decide (0 ≤ y ≤ 69) then y + 2000
  else y.

(** The date of a text, as a time value: every part has to be found and
    to be in its range. *)
Definition parse_cookie_date (s : jsstring) : option Z :=
  let p := foldl date_step (DateParts None None None None) (date_tokens s) in
  '(h, mi, sec) ← found_time p;
  d ← found_day p;
  m ← found_month p;
  y ← full_year <$> found_year p;
  if bool_decide (1 ≤ d ≤ 31 ∧ 1601 ≤ y ∧ h ≤ 23 ∧ mi ≤ 59 ∧ sec ≤ 59)
  then Some (make_date [y; m; d; h; mi; sec; 0])
  else None.

(** The characters of [toUTCString]: letters, digits, the comma, the
    colon and the space. *)
Definition is_date_char (c : N) : bool :=
  is_alnum c || (c =? 32)%N || (c =? 44)%N || (c =? 58)%N.

(** A date token: a text that is not empty and has no delimiter. *)
Definition is_token_text (t : jsstring) : Prop :=
  t ≠ [] ∧ forallb (λ c, negb (is_delimiter c)) t = true.

(** ** Set-Cookie as the client reads it *)

(** An attribute: its name in lower case and its value, both without the
    white space around them. *)
Definition cookie_av (piece : jsstring) : jsstring * jsstring :=
  let '(n, v) := cut 61 piece in
  (to_lower <$> strip_wsp n, strip_wsp (default [] v)).

(** The value of Max-Age: digits, with or without a minus sign before
    them. *)
Definition max_age_value (v : jsstring) : option Z :=
  match v with
  | [] => None
  | c :: ds =>
      if decide (c = 45%N) then
        if forallb is_digit ds then Some (- digits_value ds) else None
      else if forallb is_digit v then Some (digits_value v)
      else None
  end.

(** The value of the attribute [name], read by [read]: the last one
    counts, and an attribute whose value cannot be read is ignored. *)
Fixpoint last_attribute {A} (name : string) (read : jsstring → option A)
    (avs : list (jsstring * jsstring)) : option A :=
  match avs with
  | [] => None
  | a :: avs' =>
      match last_attribute name read avs' with
      | Some x => Some x
      | None => if decide (a.1 = js name) then read a.2 else None
      end
  end.

Record received : Type := Received {
  received_name : jsstring;
  received_value : jsstring;
  received_max_age : option Z;
  received_expires : option Z;
}.

(** The header: the pair of the name and the value up to the first ";",
    then the attributes.  A header without "=" or without a name is
    ignored. *)
Definition set_cookie_parse (line : jsstring) : option received :=
  '(n, v) ← set_cookie_pair line;
  if decide (n = []) then None
  else
    let avs := cookie_av <$> from_option (split_on 59) [] (cut 59 line).2 in
    Some (Received n v (last_attribute "max-age" max_age_value avs)
                   (last_attribute "expires" parse_cookie_date avs)).

(** The jar after a header received at the time of [e]: the cookie of the
    session replaces the one of the jar and is removed when it has expired;
    a cookie of another name is none of the jar. *)
Definition wire_keep (e : env) (j : jar) (line : jsstring) : jar :=
  match set_cookie_parse line with
  | Some c =>
      if decide (received_name c = js "ourSimpleApp") then
        match received_max_age c, received_expires c with
        | Some age, _ =>
            if decide (0 < age)
            then Some (received_value c, Some (now e + age * 1000))
            else None
        | None, Some t =>
            if decide (now e < t) then Some (received_value c, Some t)
            else None
        | None, None => Some (received_value c, None)
        end
      else j
  | None => j
  end.

(** The request as the client sends it at the time of [e]: with the
    cookie of its jar and no other. *)
Definition wire_attach (e : env) (j : jar) (raw : raw_request) : raw_request :=
  RawRequest (raw_verb raw) (raw_url raw)
             (match j with
              | Some c =>
                  if unexpired e c then Some (cookie_line [] c.1) else None
              | None => None
              end)
             (raw_content raw) (raw_length raw).

(** The jar holds a token that can be sent as it is. *)
Definition jar_ok (j : jar) : Prop :=
  from_option (λ c, forallb is_token_char c.1 = true) True j.

Section client.
Context `{!Sqlite, !Bcrypt, !Jwt, !Clock, !Json, !Querystring}.
Variable cfg : config.
Variable public : jsstring → bool.

(** The lines Set-Cookie of an answer. *)
Definition set_cookie_lines (e : env) (a : answer) : list jsstring :=
  match a with
  | Handled o => omap (set_cookie_line e) (out_cookies o)
  | Refused _ | Static | Allowed _ _ => []
  end.

(** One request of the client, and a sequence of them. *)
Definition wire_visit (e : env) (raw : raw_request) (s : jar * database)
    : answer * (jar * database) :=
  let '(a, db) := receive cfg public e (wire_attach e s.1 raw) s.2 in
  (a, (foldl (wire_keep e) s.1 (set_cookie_lines e a), db)).

Fixpoint wire_browse (inputs : list (env * raw_request)) (s : jar * database)
    : list answer * (jar * database) :=
  match inputs with
  | [] => ([], s)
  | (e, raw) :: rest =>
      let '(a, s') := wire_visit e raw s in
      let '(answers, s'') := wire_browse rest s' in
      (a :: answers, s'')
  end.

(** The middleware and the router hand [raw] to the application as
    [req], whatever cookie is sent with it. *)
Definition reads (raw : raw_request) (req : request) : Prop :=
  ∃ body segs,
    read_body raw = Ok body ∧ is_static public raw = false
    ∧ path_segments (pathname (raw_url raw)) = Some segs
    ∧ decode_params segs = Some (req_path req)
    ∧ verb_method (raw_verb raw) = Some (req_method req)
    ∧ req_body req = body ∧ req_params req = ∅ ∧ req_user req = None.

End client.

(** ** Dates read back *)

Lemma span_digits_app ds rest :
  forallb is_digit ds = true →
  from_option (λ c, is_digit c = false) True (head rest) →
  span_digits (ds ++ rest) = (ds, rest).
Proof.
  intros Hds Hrest. induction ds as [|c ds IH]; simpl in *.
  - destruct rest as [|c rest]; [done|]. simpl in *. by rewrite Hrest.
  - apply andb_prop in Hds as [-> Hds]. by rewrite IH.
Qed.

(** The number of a token that starts with the digits of [k]. *)
Lemma leading_number_digits lo hi w k rest :
  0 ≤ k < 10 ^ Z.of_nat w → (lo ≤ w ≤ hi)%nat →
  from_option (λ c, is_digit c = false) True (head rest) →
  leading_number lo hi (digits_of w k ++ rest) = Some (k, rest).
Proof.
  intros Hk Hw Hrest. unfold leading_number.
  rewrite span_digits_app by (done || apply digits_of_digits).
  by rewrite digits_of_length, digits_value_of, bool_decide_true.
Qed.

(** A token of more digits than a field takes is not that field. *)
Lemma leading_number_long lo hi w k :
  (hi < w)%nat → leading_number lo hi (digits_of w k) = None.
Proof.
  intros Hw. unfold leading_number.
  rewrite <- (app_nil_r (digits_of w k)).
  rewrite span_digits_app by (done || apply digits_of_digits).
  rewrite digits_of_length, bool_decide_false; [done|lia].
Qed.

Lemma date_tokens_delimiter c s :
  is_delimiter c = true → date_tokens (c :: s) = date_tokens s.
Proof. simpl. by intros ->. Qed.

Lemma date_tokens_app t c rest :
  is_token_text t → is_delimiter c = true →
  date_tokens (t ++ c :: rest) = t :: date_tokens rest.
Proof.
  intros [Hne Ht] Hc. induction t as [|a t IH]; [done|].
  cbn [forallb] in Ht. apply andb_prop in Ht as [Ha%negb_true_iff Ht].
  destruct t as [|b t].
  - simpl. by rewrite Ha, Hc.
  - specialize (IH ltac:(done) Ht). rewrite <- !app_comm_cons in *.
    cbn [date_tokens] in *. rewrite Ha.
    cbn [forallb] in Ht. apply andb_prop in Ht as [Hb%negb_true_iff _].
    rewrite Hb in *. by rewrite IH.
Qed.

Lemma digits_token w k : w ≠ O → is_token_text (digits_of w k).
Proof.
  intros Hw. split.
  - intros Hnil%(f_equal length). rewrite digits_of_length in Hnil. done.
  - eapply forallb_impl, digits_of_digits. intros c Hc.
    destruct (is_delimiter c) eqn:Hd; [exfalso|done]. revert Hc Hd.
    unfold is_digit, is_delimiter. bool_to_prop. lia.
Qed.

(** The names of the days are skipped, the names of the months are the
    months. *)
Lemma day_name_skipped i :
  (i < 7)%nat →
  let t := js (nth i day_names ""%string) in
  is_token_text t ∧ time_token t = None ∧ leading_number 1 2 t = None
  ∧ month_token t = None ∧ leading_number 2 4 t = None.
Proof.
  intros Hi. do 7 (destruct i as [|i]; [by vm_compute|]). lia.
Qed.

Lemma month_name_token i :
  (i < 12)%nat →
  let t := js (nth i month_names ""%string) in
  is_token_text t ∧ time_token t = None ∧ leading_number 1 2 t = None
  ∧ month_token t = Some (Z.of_nat (S i)).
Proof.
  intros Hi. do 12 (destruct i as [|i]; [by vm_compute|]). lia.
Qed.

Lemma clock_text_token h mi s : is_token_text (clock_text h mi s).
Proof.
  split; [by destruct (digits_of 2 h) eqn:Hd; [apply (f_equal length) in Hd|]|].
  pose proof (λ k, proj2 (digits_token 2 k ltac:(done))) as Hd.
  unfold clock_text. rewrite !forallb_app. cbn [forallb].
  rewrite !forallb_app. cbn [forallb]. by rewrite !Hd.
Qed.

Lemma time_token_clock h mi s :
  0 ≤ h < 100 → 0 ≤ mi < 100 → 0 ≤ s < 100 →
  time_token (clock_text h mi s) = Some (h, mi, s).
Proof.
  intros Hh Hmi Hs. unfold time_token, clock_text.
  rewrite (leading_number_digits 1 2 2 h) by (done || lia).
  cbn [mbind option_bind colon_number]. rewrite decide_True by done.
  rewrite (leading_number_digits 1 2 2 mi) by (done || lia).
  cbn [mbind option_bind colon_number]. rewrite decide_True by done.
  rewrite <- (app_nil_r (digits_of 2 s)).
  by rewrite (leading_number_digits 1 2 2 s) by (done || lia).
Qed.

(** A number alone is no time of day. *)
Lemma time_token_digits w k : time_token (digits_of w k) = None.
Proof.
  unfold time_token, leading_number. rewrite <- (app_nil_r (digits_of w k)).
  rewrite span_digits_app by (done || apply digits_of_digits).
  by case_bool_decide.
Qed.

(** One step of the reader of dates, by what the token is. *)
Ltac date_step_cases :=
  unfold date_step; cbn [found_time found_day found_month found_year];
  repeat match goal with H : _ = _ |- _ => rewrite H; clear H end;
  repeat case_match; simplify_eq; done.

Lemma date_step_skip p t :
  time_token t = None → leading_number 1 2 t = None → month_token t = None →
  leading_number 2 4 t = None → date_step p t = p.
Proof. intros Ht Hd Hm Hy. destruct p. date_step_cases. Qed.

Lemma date_step_time d mo yr t x :
  time_token t = Some x →
  date_step (DateParts None d mo yr) t = DateParts (Some x) d mo yr.
Proof. intros Ht. date_step_cases. Qed.

Lemma date_step_day tm mo yr t d r :
  time_token t = None → leading_number 1 2 t = Some (d, r) →
  date_step (DateParts tm None mo yr) t = DateParts tm (Some d) mo yr.
Proof. intros Ht Hd. date_step_cases. Qed.

Lemma date_step_month tm d yr t m :
  time_token t = None → month_token t = Some m →
  date_step (DateParts tm (Some d) None yr) t
  = DateParts tm (Some d) (Some m) yr.
Proof. intros Ht Hm. date_step_cases. Qed.

Lemma date_step_year tm d m t y r :
  time_token t = None → leading_number 2 4 t = Some (y, r) →
  date_step (DateParts tm (Some d) (Some m) None) t
  = DateParts tm (Some d) (Some m) (Some y).
Proof. intros Ht Hy. date_step_cases. Qed.

Section utc.
Variables (wd mon : jsstring) (d m y h mi s : Z).
Hypothesis Hwd : is_token_text wd ∧ time_token wd = None
  ∧ leading_number 1 2 wd = None ∧ month_token wd = None
  ∧ leading_number 2 4 wd = None.
Hypothesis Hmon : is_token_text mon ∧ time_token mon = None
  ∧ leading_number 1 2 mon = None ∧ month_token mon = Some m.
Hypothesis Hd : 0 ≤ d < 100.
Hypothesis Hy : 0 ≤ y < 10000.
Hypothesis Hh : 0 ≤ h < 100.
Hypothesis Hmi : 0 ≤ mi < 100.
Hypothesis Hs : 0 ≤ s < 100.

(** The tokens of a date of [toUTCString]. *)
Lemma date_tokens_utc :
  date_tokens (wd ++ js ", " ++ digits_of 2 d ++ 32%N :: mon ++ 32%N
               :: digits_of 4 y ++ 32%N :: clock_text h mi s ++ js " GMT")
  = [wd; digits_of 2 d; mon; digits_of 4 y; clock_text h mi s; js "GMT"].
Proof.
  change (js ", " ++ ?r) with (44%N :: 32%N :: r).
  change (js " GMT") with (32%N :: js "GMT").
  rewrite (date_tokens_app wd), date_tokens_delimiter by (done || apply Hwd).
  rewrite (date_tokens_app (digits_of 2 d)) by (done || by apply digits_token).
  rewrite (date_tokens_app mon) by (done || apply Hmon).
  rewrite (date_tokens_app (digits_of 4 y)) by (done || by apply digits_token).
  by rewrite (date_tokens_app (clock_text h mi s))
    by (done || apply clock_text_token).
Qed.

(** What the reader finds in them: the day is the first number, the year
    the second, the name of the day and [GMT] are skipped. *)
Lemma date_steps_utc :
  foldl date_step (DateParts None None None None)
        [wd; digits_of 2 d; mon; digits_of 4 y; clock_text h mi s; js "GMT"]
  = DateParts (Some (h, mi, s)) (Some d) (Some m) (Some y).
Proof.
  destruct Hwd as (_ & Hw1 & Hw2 & Hw3 & Hw4).
  destruct Hmon as (_ & Hm1 & Hm2 & Hm3).
  pose proof (leading_number_digits 1 2 2 d [] Hd ltac:(lia) I) as Hday.
  pose proof (leading_number_digits 2 4 4 y [] Hy ltac:(lia) I) as Hyear.
  rewrite app_nil_r in Hday, Hyear. cbn [foldl].
  rewrite (date_step_skip _ wd) by done.
  rewrite (date_step_day _ _ _ _ d []) by (done || apply time_token_digits).
  rewrite (date_step_month _ _ _ mon m) by done.
  rewrite (date_step_year _ _ _ _ y []) by (done || apply time_token_digits).
  rewrite (date_step_time _ _ _ _ (h, mi, s)) by by apply time_token_clock.
  by apply date_step_skip.
Qed.

End utc.

Lemma full_year_long y : 100 ≤ y → full_year y = y.
Proof. intros Hy. unfold full_year. by rewrite !bool_decide_false by lia. Qed.

(** The date that [toUTCString] writes is read back as its time value,
    without the milliseconds. *)
Theorem parse_utc_date ms :
  0 ≤ ms ≤ iso_max →
  parse_cookie_date (to_utc_string ms) = Some (ms / 1000 * 1000).
Proof.
  intros Hms. destruct (date_fields_ranges ms Hms) as (Hy & Hm & Hd & Hh).
  rewrite to_utc_string_eq. unfold parse_cookie_date.
  assert (Z.to_nat (week_day ms) < 7)%nat as Hwd
    by (unfold week_day; lia_div).
  apply day_name_skipped in Hwd. cbv zeta in Hwd.
  assert (Z.to_nat (month_field ms - 1) < 12)%nat as Hmon by lia.
  apply month_name_token in Hmon. cbv zeta in Hmon.
  replace (Z.of_nat (S (Z.to_nat (month_field ms - 1)))) with (month_field ms)
    in Hmon by lia.
  rewrite (date_tokens_utc _ _ _ (month_field ms)) by done.
  rewrite (date_steps_utc _ _ _ (month_field ms)) by (done || lia_div).
  cbn [found_time found_day found_month found_year mbind option_bind fmap
       option_fmap option_map].
  rewrite full_year_long by lia.
  rewrite bool_decide_true by (split_and!; lia_div).
  by rewrite make_date_seconds.
Qed.

Lemma wsp_delimiter c : is_wsp c = true → is_delimiter c = true.
Proof. unfold is_wsp, is_delimiter. bool_to_prop. lia. Qed.

Lemma strip_wsp_fixed s :
  (∀ c, head s = Some c → is_wsp c = false) →
  (∀ c, last s = Some c → is_wsp c = false) → strip_wsp s = s.
Proof.
  intros Hh Hl. unfold strip_wsp.
  rewrite (drop_wsp_fixed s), drop_wsp_fixed, reverse_involutive; [done|..|done].
  intros c Hc. rewrite head_reverse in Hc. by apply Hl.
Qed.

(** White space around it is none of the date of [toUTCString]. *)
Lemma strip_wsp_utc ms :
  0 ≤ ms ≤ iso_max → strip_wsp (to_utc_string ms) = to_utc_string ms.
Proof.
  intros Hms. rewrite to_utc_string_eq.
  assert (Z.to_nat (week_day ms) < 7)%nat as Hwd
    by (unfold week_day; lia_div).
  destruct (day_name_skipped _ Hwd) as ([Hne Hchars] & _).
  destruct (js (nth _ day_names _)) as [|c wd]; [done|].
  cbn [forallb] in Hchars. apply andb_prop in Hchars as [Hc%negb_true_iff _].
  apply strip_wsp_fixed.
  - intros ? [= <-]. destruct (is_wsp c) eqn:Hw; [|done].
    by rewrite (wsp_delimiter c Hw) in Hc.
  - intros c'. repeat (rewrite last_app || rewrite last_cons).
    by intros [= <-].
Qed.

Lemma to_utc_string_chars ms : forallb is_date_char (to_utc_string ms) = true.
Proof.
  assert (∀ w k, forallb is_date_char (digits_of w k) = true) as Hd.
  { intros w k. eapply forallb_impl, digits_of_digits.
    intros c Hc. unfold is_date_char. by rewrite (is_digit_alnum c Hc). }
  assert (∀ i (names : list string),
            forallb (λ s, forallb is_date_char (js s)) (""%string :: names) = true →
            forallb is_date_char (js (nth i names ""%string)) = true) as Hn.
  { intros i names Hl. rewrite forallb_forall in Hl.
    apply (Hl (nth i names ""%string)), list_elem_of_In, nth_elem_of. }
  rewrite to_utc_string_eq. unfold clock_text.
  repeat (rewrite forallb_app; cbn [forallb]).
  rewrite !Hd, !Hn by done. done.
Qed.

(** ** The headers of the server as the client reads them *)

Lemma last_attribute_app {A} name (read : jsstring → option A) avs avs' :
  last_attribute name read avs' = None →
  last_attribute name read (avs ++ avs') = last_attribute name read avs.
Proof. intros Hn. induction avs as [|a avs IH]; simpl; [done|by rewrite IH]. Qed.

Lemma session_attributes u tail :
  forallb is_date_char u = true →
  cookie_av <$> split_on 59 (js " Max-Age=86400; Path=/; Expires=" ++ u
                             ++ 59%N :: tail)
  = [(js "max-age", js "86400"); (js "path", js "/");
     (js "expires", strip_wsp u)] ++ (cookie_av <$> split_on 59 tail).
Proof.
  intros Hu.
  change (js " Max-Age=86400; Path=/; Expires=" ++ u ++ 59%N :: tail)
    with (js " Max-Age=86400" ++ 59%N :: js " Path=/" ++ 59%N
          :: js " Expires=" ++ u ++ 59%N :: tail).
  rewrite (split_on_app 59 (js " Max-Age=86400")) by evaluate.
  rewrite (split_on_app 59 (js " Path=/")) by evaluate.
  rewrite (app_assoc _ u), split_on_app.
  - rewrite !fmap_cons. unfold cookie_av at 3.
    change (js " Expires=" ++ u) with (js " Expires" ++ 61%N :: u).
    rewrite (cut_app 61 (js " Expires") u) by evaluate. done.
  - rewrite not_elem_of_app.
    split; [evaluate|by apply (forallb_not_elem is_date_char)].
Qed.

(** The attributes that follow Expires in the header of a session: none
    of them is a Max-Age or an Expires. *)
Lemma session_tail (secure : bool) :
  ∃ tail,
    js "; HttpOnly" ++ (if secure then js "; Secure" else [])
    ++ js "; SameSite=Strict" = 59%N :: tail
    ∧ last_attribute "max-age" max_age_value (cookie_av <$> split_on 59 tail)
      = None
    ∧ last_attribute "expires" parse_cookie_date
                     (cookie_av <$> split_on 59 tail) = None.
Proof. destruct secure; eexists; (split; [reflexivity|by vm_compute]). Qed.

Section client_facts.
Context `{!Sqlite, !Bcrypt, !Jwt, !Clock, !Json, !Querystring}.
Variable cfg : config.
Variable public : jsstring → bool.

(** The process was started with a secret for the tokens. *)
Hypothesis secret_set : truthy (JWTSECRET cfg) = true.

(** The session header as the client reads it. *)
Lemma set_cookie_parse_session e id name :
  set_cookie_line e (session_cookie cfg e id name) ≫= set_cookie_parse
  = Some (Received (js "ourSimpleApp")
            (jwt_token (now_seconds e + 86400) id name (JWTSECRET cfg)
                      (now_seconds e))
            (Some 86400)
            (parse_cookie_date (strip_wsp (to_utc_string (now e + 86400000))))).
Proof.
  rewrite set_cookie_line_session. cbn [mbind option_bind].
  unfold set_cookie_parse.
  rewrite set_cookie_pair_token by apply jwt_encode_chars.
  cbn [mbind option_bind]. rewrite decide_False by done.
  pose proof (jwt_encode_chars
                (Claims (now_seconds e + 86400) id name (now_seconds e))
                (JWTSECRET cfg)) as Htok.
  pose proof (eq_refl : forallb is_token_char (js "ourSimpleApp") = true).
  rewrite (app_comm_cons _ _ 61%N), app_assoc, cut_app by absent.
  cbn [snd from_option].
  destruct (session_tail (production cfg)) as (tail & -> & Hm & He).
  rewrite session_attributes, !last_attribute_app
    by (done || apply to_utc_string_chars).
  cbn [last_attribute fst snd]. by destruct (parse_cookie_date _).
Qed.

(** The header of a logout as the client reads it: a cookie without
    value that expired in 1970. *)
Lemma set_cookie_parse_clear e :
  set_cookie_line e (ClearCookie "ourSimpleApp" (clear_cookie_options cfg))
  ≫= set_cookie_parse
  = Some (Received (js "ourSimpleApp") [] None (Some 0)).
Proof. unfold clear_cookie_options. destruct (production cfg); by vm_compute. Qed.

Lemma wire_keep_session e j id name :
  wire_keep e j <$> set_cookie_line e (session_cookie cfg e id name)
  = Some (keep_cookie e j (session_cookie cfg e id name)).
Proof.
  pose proof (set_cookie_parse_session e id name) as Hp.
  destruct (set_cookie_line _ _) as [line|]; [|done].
  cbn [mbind option_bind fmap option_fmap option_map] in *.
  unfold wire_keep. rewrite Hp.
  cbn [received_name received_max_age received_value].
  rewrite !decide_True by done. by rewrite keep_session_cookie.
Qed.

Lemma wire_keep_clear e j :
  0 ≤ now e →
  wire_keep e j
    <$> set_cookie_line e (ClearCookie "ourSimpleApp" (clear_cookie_options cfg))
  = Some None.
Proof.
  intros He. pose proof (set_cookie_parse_clear e) as Hp.
  destruct (set_cookie_line _ _) as [line|]; [|done].
  cbn [mbind option_bind fmap option_fmap option_map] in *.
  unfold wire_keep. rewrite Hp.
  cbn [received_name received_max_age received_value received_expires].
  rewrite decide_True by done. by rewrite decide_False by lia.
Qed.

(** The client reads the headers of the server as [Browser] says. *)
Lemma wire_keep_known e j c :
  0 ≤ now e → known_header cfg e c →
  wire_keep e j <$> set_cookie_line e c = Some (keep_cookie e j c).
Proof.
  intros He [->|(id & name & ->)];
    [by rewrite wire_keep_clear|apply wire_keep_session].
Qed.

(** The request of a client that holds a token, as the application
    receives it. *)
Lemma parsed_attach e j raw path body :
  jar_ok j →
  parsed (wire_attach e j raw) path body = attach e j (parsed raw path body).
Proof.
  intros Hj. unfold parsed, attach, wire_attach, raw_method.
  cbn [raw_verb raw_cookie req_method req_path req_body req_params req_user].
  f_equal. destruct j as [c|]; [|done].
  destruct (unexpired e c); [|done]. by apply (read_cookies_line []).
Qed.

Lemma keep_cookies_wire e j cs :
  0 ≤ now e → Forall (known_header cfg e) cs →
  foldl (wire_keep e) j (omap (set_cookie_line e) cs)
  = foldl (keep_cookie e) j cs.
Proof.
  intros He Hcs. revert j. induction Hcs as [|c cs Hc _ IH]; intros j; [done|].
  pose proof (wire_keep_known e j c He Hc) as Hk. cbn [omap list_omap foldl].
  destruct (set_cookie_line e c) as [line|]; [|done].
  injection Hk as <-. apply IH.
Qed.

Lemma jar_ok_keep e j cs :
  jar_ok j → Forall (known_header cfg e) cs →
  jar_ok (foldl (keep_cookie e) j cs).
Proof.
  intros Hj Hcs. revert j Hj.
  induction Hcs as [|c cs [->|(id & name & ->)] _ IH]; intros j Hj;
    [done|apply IH..]; [done|apply jwt_encode_chars].
Qed.

(** One request of the client on text is the request of [Browser]. *)
Lemma wire_visit_visit e raw req j db :
  0 ≤ now e → jar_ok j → reads public raw req →
  wire_visit cfg public e raw (j, db)
  = (Handled (visit cfg e req (j, db)).1, (visit cfg e req (j, db)).2).
Proof.
  intros He Hj (body & segs & Hb & Hs & Hsegs & Hpath & Hm & Hbody & Hps & Hu).
  unfold wire_visit, visit. cbn [fst snd].
  assert (attach e j req = parsed (wire_attach e j raw) (req_path req) body)
    as ->.
  { rewrite parsed_attach by done. unfold attach, parsed, raw_method.
    cbn [req_method req_path req_body req_params req_user].
    by rewrite Hm, Hbody, Hps, Hu. }
  rewrite (receive_handle cfg public e _ db body segs (req_path req));
    [|done..|by exists (req_method req)].
  pose proof (handle_headers cfg e
                (parsed (wire_attach e j raw) (req_path req) body) db) as Hk.
  destruct (handle _ _ _ _) as [o db']. cbn [fst snd set_cookie_lines] in *.
  by rewrite keep_cookies_wire.
Qed.

(** The jar of [Browser] stays a jar that can be sent. *)
Lemma visit_jar_ok e req j db :
  jar_ok j → jar_ok (visit cfg e req (j, db)).2.1.
Proof.
  intros Hj. unfold visit. cbn [fst snd].
  pose proof (handle_headers cfg e (attach e j req) db) as Hk.
  destruct (handle _ _ _ _) as [o db']. by apply (jar_ok_keep e).
Qed.

Lemma wire_browse_cons e raw req raws j db :
  0 ≤ now e → jar_ok j → reads public raw req →
  wire_browse cfg public ((e, raw) :: raws) (j, db)
  = (Handled (visit cfg e req (j, db)).1
       :: (wire_browse cfg public raws (visit cfg e req (j, db)).2).1,
     (wire_browse cfg public raws (visit cfg e req (j, db)).2).2).
Proof.
  intros He Hj Hr. cbn [wire_browse].
  rewrite (wire_visit_visit e raw req) by done.
  by destruct (wire_browse _ _ _ _).
Qed.

(** C15: the client and the server on text refine [Browser]: for raw
    requests that the middleware and the router hand over as the requests
    [reqs], a client that keeps its jar from the lines Set-Cookie, as
    RFC 6265 says, and sends its cookie in the header Cookie gets the
    outcomes of [Browser.browse] and ends with the same jar and the same
    database. *)
Theorem wire_browse_refines raws reqs j db :
  Forall2 (λ i i', i.1 = i'.1 ∧ 0 ≤ now i.1 ∧ reads public i.2 i'.2) raws reqs →
  jar_ok j →
  wire_browse cfg public raws (j, db)
  = (Handled <$> (browse cfg reqs (j, db)).1, (browse cfg reqs (j, db)).2).
Proof.
  intros Hrs. revert j db.
  induction Hrs as [|[e raw] [e' req] raws reqs (He' & He & Hr) _ IH];
    intros j db Hj; [done|]. cbn [fst snd] in *. subst e'.
  rewrite (wire_browse_cons e raw req) by done. cbn [browse].
  pose proof (visit_jar_ok e req j db Hj) as Hj'.
  destruct (visit cfg e req (j, db)) as [o [j' db']]. cbn [fst snd] in *.
  rewrite (IH j' db' Hj'). by destruct (browse cfg reqs (j', db')).
Qed.

(** The request for a form, as the application receives it. *)
Lemma post_form_reads url s token fields raw :
  Forall (λ p, Forall code_unit p.1 ∧ Forall code_unit p.2) fields →
  (length fields ≤ parameter_limit)%nat →
  post_form url token fields = Some raw → raw_length raw ≤ body_limit →
  path_segments (pathname url) = Some [s] →
  reads public raw (Request POST [s] ∅ (body_map (form_field fields)) ∅ None).
Proof.
  intros Hf Hn Hraw Hlen Hs. unfold post_form in Hraw.
  destruct (form_body fields) as [body|] eqn:Hb; [|done].
  injection Hraw as <-. cbn [raw_length] in Hlen.
  exists (body_map (form_field fields)), [s].
  split; [by apply read_body_form|done].
Qed.

(** C18: a registration and a post, end to end on text.  A client without
    cookie posts the form of a registration with a free and valid name and
    a valid password and then, within 24 hours, the form of a post with a
    title and a body: the first answer is the redirect to / with the session
    cookie, the client reads the token and the Max-Age from the line
    Set-Cookie and sends the token back, and the post is stored under the
    id of the new account. *)
Theorem wire_register_then_publish e1 e2 db username password title body
    raw1 raw2 :
  wf_db db → 0 ≤ now e1 → 0 ≤ now e2 →
  Forall code_unit username → Forall code_unit password →
  Forall code_unit title → Forall code_unit body →
  post_form (js "/register") None
            [(js "username", username); (js "password", password)] = Some raw1 →
  post_form (js "/create-post") None
            [(js "title", title); (js "body", body)] = Some raw2 →
  raw_length raw1 ≤ body_limit → raw_length raw2 ≤ body_limit →
  select_user_by_username (trim username) db = None →
  3 ≤ js_length (trim username) ≤ 10 →
  test_alnum (trim username) = true →
  6 ≤ js_length (trim password) ≤ 70 →
  blank title = false → blank body = false →
  now_seconds e2 < now_seconds e1 + 86400 →
  let id := seq (user_table db) + 1 in
  let name := numeric_affinity (trim username) in
  let db1 :=
    (insert_user (trim username) (hashSync (trim password) (salt e1)) db).2 in
  wire_browse cfg public [(e1, raw1); (e2, raw2)] (None, db)
  = ([Handled (Outcome (Sent (Redirected "/"))
                       [session_cookie cfg e1 id name] None);
      Handled (Outcome (Sent (Redirected
                                ("/post/" +:+ pretty (seq (post_table db) + 1))))
                       [] None)],
     (Some (jwt_token (now_seconds e1 + 86400) id name (JWTSECRET cfg)
                     (now_seconds e1),
            Some (now e1 + 86400000)),
      (insert_post (toISOString (now e2)) title body id db1).2)).
Proof.
  intros Hwf He1 He2 Hu Hp Ht Hb Hraw1 Hraw2 Hl1 Hl2 Hfree Hlen Halnum Hpw
    Hbt Hbb Hnow id name db1.
  set (req1 := Request POST [js "register"] ∅
                 (body_map (form_field [(js "username", username);
                                        (js "password", password)])) ∅ None).
  set (req2 := Request POST [js "create-post"] ∅
                 (body_map (form_field [(js "title", title); (js "body", body)]))
                 ∅ None).
  assert (reads public raw1 req1 ∧ reads public raw2 req2) as [Hr1 Hr2].
  { split; (eapply post_form_reads; [| |eassumption|done|by vm_compute];
            [by repeat constructor|unfold parameter_limit; simpl; lia]). }
  pose proof (register_then_publish cfg secret_set e1 e2 req1 req2 db ∅ ∅ username
                password title body Hwf eq_refl eq_refl eq_refl eq_refl Hfree
                Hlen Halnum Hpw eq_refl eq_refl Hbt Hbb Hnow) as Hrun.
  clearbody req1 req2. cbn [browse] in Hrun.
  rewrite (wire_browse_cons e1 raw1 req1) by done.
  pose proof (visit_jar_ok e1 req1 None db I) as Hj.
  destruct (visit cfg e1 req1 _) as [o1 [j1 db1']]. cbn [fst snd] in *.
  rewrite (wire_browse_cons e2 raw2 req2) by done.
  destruct (visit cfg e2 req2 (j1, db1')) as [o2 s2]. cbn [wire_browse fst snd].
  by injection Hrun as -> -> ->.
Qed.

(** C28: Max-Age and Expires of the session cookie agree.  The client
    reads from the line Set-Cookie of a session a Max-Age of 86400 seconds
    and, in the attribute Expires, the date that [toUTCString] wrote for
    24 hours after the response, as the time value of that date without
    its milliseconds: a client that goes by Expires drops the cookie less
    than a second before a client that goes by Max-Age. *)
Theorem session_expires_agrees e id name :
  0 ≤ now e → now e + 86400000 ≤ iso_max →
  ∃ c, set_cookie_line e (session_cookie cfg e id name) ≫= set_cookie_parse
       = Some c
       ∧ received_max_age c = Some 86400
       ∧ received_expires c = Some ((now e + 86400000) / 1000 * 1000)
       ∧ 0 ≤ now e + 86400 * 1000 - (now e + 86400000) / 1000 * 1000 < 1000.
Proof.
  intros He Hmax. eexists. split; [apply set_cookie_parse_session|].
  cbn [received_max_age received_expires].
  rewrite strip_wsp_utc, parse_utc_date by lia. split_and!; try done; lia_div.
Qed.

(** The request for the logout, as the application receives it. *)
Lemma logout_reads :
  public (js "/logout") = false →
  reads public (RawRequest Get (js "/logout") None NoContent 0)
        (Request GET [js "logout"] ∅ ∅ ∅ None).
Proof. intros Hpub. by exists ∅, [js "logout"]. Qed.

(** C26: a logout, end to end on text.  Whatever token the client holds,
    the answer to GET /logout carries a line Set-Cookie for ourSimpleApp
    without value and with an Expires in 1970; the client drops its
    cookie, its next request is handled as the request of an anonymous
    client and leaves the posts as they are. *)
Theorem wire_logout_ends_session e1 e2 raw2 req2 j db :
  0 ≤ now e1 → 0 ≤ now e2 → jar_ok j → public (js "/logout") = false →
  reads public raw2 req2 →
  let clear := ClearCookie "ourSimpleApp" (clear_cookie_options cfg) in
  let next := handle cfg e2 (attach e2 None req2) db in
  wire_browse cfg public
    [(e1, RawRequest Get (js "/logout") None NoContent 0); (e2, raw2)] (j, db)
  = ([Handled (Outcome (Sent (Redirected "/")) [clear] None); Handled next.1],
     (keep_cookies e2 None next.1, next.2))
  ∧ post_table next.2 = post_table db
  ∧ set_cookie_line e1 clear
    = Some (js "ourSimpleApp=; Path=/; Expires=Thu, 01 Jan 1970 00:00:00 GMT"
            ++ js "; HttpOnly" ++ (if production cfg then js "; Secure" else [])
            ++ js "; SameSite=Strict").
Proof.
  intros He1 He2 Hj Hpub Hr2 clear next.
  destruct (logout_ends_session cfg e1 e2 (Request GET [js "logout"] ∅ ∅ ∅ None)
              req2 j db ∅ eq_refl) as [Hrun Hposts].
  split; [|split; [done|]];
    [|unfold clear, clear_cookie_options; by destruct (production cfg)].
  cbn [browse] in Hrun.
  rewrite (wire_browse_cons e1 _ (Request GET [js "logout"] ∅ ∅ ∅ None))
    by (done || by apply logout_reads).
  pose proof (visit_jar_ok e1 (Request GET [js "logout"] ∅ ∅ ∅ None) j db Hj)
    as Hj1.
  destruct (visit cfg e1 _ _) as [o1 [j1 db1]]. cbn [fst snd] in *.
  rewrite (wire_browse_cons e2 raw2 req2) by done.
  destruct (visit cfg e2 req2 (j1, db1)) as [o2 s2]. cbn [wire_browse fst snd].
  by injection Hrun as -> -> ->.
Qed.

End client_facts.

(** ** The theorems on examples *)

Lemma wire_browse_refines_witness :
  let fields := [(js "username", js " alice1 "); (js "password", js "secret1")] in
  let req := Request POST [js "register"] ∅ (body_map (form_field fields)) ∅ None in
  wire_browse example_config (λ _, false)
    [(example_env,
      RawRequest Post (js "/register") None
                 (FormContent (js "username=+alice1+&password=secret1")) 34)]
    (None, empty_db)
  = (Handled <$> (browse example_config [(example_env, req)] (None, empty_db)).1,
     (browse example_config [(example_env, req)] (None, empty_db)).2).
Proof.
  apply (wire_browse_refines example_config (λ _, false)); [|done].
  repeat constructor; [done|].
  apply (post_form_reads (λ _, false) (js "/register") (js "register") None
           [(js "username", js " alice1 "); (js "password", js "secret1")]);
    [evaluate|unfold parameter_limit; simpl; lia|by vm_compute..].
Defined.

Lemma wire_register_then_publish_witness :
  (wire_browse example_config (λ _, false)
     [(example_env,
       RawRequest Post (js "/register") None
                  (FormContent (js "username=+alice1+&password=secret1")) 34);
      (example_env,
       RawRequest Post (js "/create-post") None
                  (FormContent (js "title=Hi&body=World")) 19)]
     (None, empty_db)).2.2
  = hello_db.
Proof.
  rewrite (wire_register_then_publish example_config (λ _, false) eq_refl example_env
             example_env empty_db (js " alice1 ") (js "secret1") (js "Hi")
             (js "World"));
    first [reflexivity | apply wf_db_empty | evaluate | by vm_compute].
Defined.

Lemma session_expires_agrees_witness :
  ∃ c, set_cookie_line example_env
         (session_cookie example_config example_env 1 (VStr (js "alice1")))
       ≫= set_cookie_parse = Some c
       ∧ received_max_age c = Some 86400
       ∧ received_expires c
         = Some ((now example_env + 86400000) / 1000 * 1000)
       ∧ 0 ≤ now example_env + 86400 * 1000
             - (now example_env + 86400000) / 1000 * 1000 < 1000.
Proof.
  apply (session_expires_agrees example_config example_env 1
           (VStr (js "alice1"))); by vm_compute.
Defined.

Lemma wire_logout_ends_session_witness :
  post_table
    (handle example_config example_env
       (attach example_env None (Request GET [] ∅ ∅ ∅ None)) alice_db).2
  = post_table alice_db.
Proof.
  assert (reads (λ _, false) (RawRequest Get (js "/") None NoContent 0)
                (Request GET [] ∅ ∅ ∅ None)) as Hr
    by (by exists ∅, []).
  assert (jar_ok (Some (alice_cookie, None))) as Hj by (by vm_compute).
  assert (0 ≤ now example_env) as He by (by vm_compute).
  exact (proj1 (proj2 (wire_logout_ends_session example_config (λ _, false)
                         example_env example_env _ _ _ alice_db He He Hj
                         eq_refl Hr))).
Defined.

(** ** Examples of dates *)

Example parse_cookie_date_examples :
  parse_cookie_date <$> [js "Thu, 01 Jan 1970 00:00:00 GMT";
                         js "Tue, 14 Nov 2023 22:13:20 GMT";
                         js "Wednesday, 09-Nov-99 23:12:40 GMT";
                         js "Sun Nov  6 08:49:37 1994";
                         js "14 Nov 2023";
                         js "Tue, 32 Nov 2023 22:13:20 GMT";
                         js "Tue, 14 Nov 1600 22:13:20 GMT"]
  = [Some 0; Some 1700000000000; Some 942189160000; Some 784111777000;
     None; None; None].
Proof. by vm_compute. Qed.
