(* ===== verification/Console.v ===== *)
(** * The console of the process

    [console.log] of src/server.js: the lines the handlers print (lines
    104, 116, 136, 152 and 153) and the line of the callback of
    [app.listen] (line 303).  The console is the field [st_log] of the
    state of a handler ([Http.hstate]); [Http.console_log] appends a call
    with its arguments.

    The file defines what one request prints ([console]) and what the
    process has printed after a run ([console_after] on the requests of
    the application, [listen_console] on the requests as they arrive),
    and a reference that reads only the route, the session, the fields
    [title] and [body] and the rows the request names ([lines_of],
    [expected_console]).  Its theorems: the console of a run is the
    reference, whatever the process had printed before
    ([console_after_expected], [listen_console_expected]; [write_only] is
    the lemma that sets what was printed before aside); the console
    holds neither the password of a form nor the hash of a stored
    password ([console_hides_passwords]). *)

From S2P Require Import Spec2Rocq JsString Platform Calendar Store Http Auth Handlers Server Wire.

(** ** Definitions *)

(** The state in a process that had printed [out] before. *)
Definition prefixed (out : list log_line) (st : hstate) : hstate :=
  HState (st_res st) (st_db st) (out ++ st_log st).

(** A computation that only appends to the console: it runs the same in a
    process that had printed [out] before. *)
Definition write_only {A} (m : handler A) : Prop :=
  ∀ out st, m (prefixed out st) = ((m st).1, prefixed out (m st).2).

(** The second state has the console of the first. *)
Definition same_log (st st' : hstate) : Prop := st_log st' = st_log st.

(** A computation that prints nothing. *)
Definition silent {A} (m : handler A) : Prop := stable same_log m.

(** The routes that print nothing. *)
Definition silent_route (r : route) : bool :=
  bool_decide (r ∉ [RCreatePost; RPost; REditPostForm]).

(** Two requests that differ at most in the field [password] of the form. *)
Definition same_but_password (req req' : request) : Prop :=
  req_method req = req_method req' ∧ req_path req = req_path req'
  ∧ req_cookies req = req_cookies req'
  ∧ delete "password"%string (req_body req) = delete "password"%string (req_body req').

(** What a database holds apart from the hashes of the passwords: the name
    of each user and the posts. *)
Definition public_rows (db : database) : gmap Z value * gmap Z post :=
  (user_username <$> rows (user_table db), rows (post_table db)).

Definition same_public (db db' : database) : Prop :=
  public_rows db = public_rows db'.

(** Line 303: the callback of [app.listen]. *)
Definition startup_line : log_line :=
  [LogString (js "Server running on port 3000")].

Section console.
Context `{!Sqlite, !Bcrypt, !Jwt, !Clock}.
Variable cfg : config.

(** What the process prints while it answers one request. *)
Definition console (e : env) (req : request) (db : database) : list log_line :=
  st_log (app cfg e req (HState fresh_response db [])).2.

(** The console of the process after a run: a request is answered in a
    process that has printed what the requests before it printed. *)
Fixpoint console_after (inputs : list (env * request)) (db : database)
    (out : list log_line) : list log_line :=
  match inputs with
  | [] => out
  | (e, req) :: rest =>
      let st := (app cfg e req (HState fresh_response db out)).2 in
      console_after rest (st_db st) (st_log st)
  end.

(** The reference: the lines of a request, from its route, its session,
    its fields and the rows it names. *)
Definition lines_of (e : env) (req : request) (db : database) : list log_line :=
  match match_route (req_method req) (req_path req) with
  | Some (RCreatePost, _) =>
      match session cfg e req,
            req_body req !! "title"%string, req_body req !! "body"%string with
      | Some c, Some title, Some body =>
          if has_errors (post_errors title body) then []
          else user_line (Some c)
               :: (if select_user_by_id (userId c) db is Some _
                   then [author_line (userId c)] else [])
      | _, _, _ => []
      end
  | Some (RPost, params) =>
      match select_post_with_author (param_id (set_params params req)) db with
      | Some p => [[LogPost p]]
      | None => []
      end
  | Some (REditPostForm, params) =>
      match session cfg e req,
            select_post_by_id (param_id (set_params params req)) db with
      | Some _, Some p => owner_lines p
      | _, _ => []
      end
  | _ => []
  end.

(** The reference for a run: the lines of each request on the database
    the requests before it left. *)
Fixpoint expected_console (inputs : list (env * request)) (db : database)
    : list log_line :=
  match inputs with
  | [] => []
  | (e, req) :: rest =>
      lines_of e req db ++ expected_console rest (handle cfg e req db).2
  end.

End console.

Section wire_console.
Context `{!Sqlite, !Bcrypt, !Jwt, !Clock, !Json, !Querystring}.
Variable cfg : config.
Variable public : jsstring → bool.

(** The request the middleware and the router hand to the application, if
    they do. *)
Definition handed_on (raw : raw_request) : option request :=
  match read_body raw with
  | Throw _ => None
  | Ok body =>
      if is_static public raw then None
      else
        segs ← path_segments (pathname (raw_url raw));
        path ← decode_params segs;
        _ ← verb_method (raw_verb raw);
        Some (parsed raw path body)
  end.

Definition requests_of (inputs : list (env * raw_request))
    : list (env * request) :=
  omap (λ i, pair i.1 <$> handed_on i.2) inputs.

(** The console of the server that [app.listen] starts, after the requests
    that arrived. *)
Fixpoint wire_console (inputs : list (env * raw_request)) (db : database)
    (out : list log_line) : list log_line :=
  match inputs with
  | [] => out
  | (e, raw) :: rest =>
      match handed_on raw with
      | Some req =>
          let st := (app cfg e req (HState fresh_response db out)).2 in
          wire_console rest (st_db st) (st_log st)
      | None => wire_console rest db out
      end
  end.

Definition listen_console (inputs : list (env * raw_request)) (db : database)
    : list log_line :=
  wire_console inputs db [startup_line].

End wire_console.

(** ** Inputs of the examples *)

(** The run of [Server.scenario], then the author asks for the form that
    edits the post. *)
Definition console_scenario : list (env * request) :=
  scenario
  ++ [(example_env,
       with_cookie alice_cookie (Request GET [js "edit-post"; js "1"] ∅ ∅ ∅ None))].

(** A new post sent with a field [password], and the database of the
    examples with another hash for the password of its user. *)
Definition hello_with_password (password : string) : request :=
  with_cookie alice_cookie
    (example_form "create-post"
       [("title", "Hi"); ("body", "World"); ("password", password)]%string).

Definition rehashed_db : database :=
  Database
    (Table (<[1%Z := User 1 (VStr (js "alice1")) (VStr (js "another hash"))]>
              (rows (user_table hello_db)))
           (seq (user_table hello_db)))
    (post_table hello_db).

(** ** The handlers only write the console *)

Section write_only.
Context {A B : Type}.

Lemma write_only_ret (a : A) : write_only (mret a).
Proof. by intros out st. Qed.

Lemma write_only_throw (e : exn) : write_only (@throw _ _ A e).
Proof. by intros out st. Qed.

Lemma write_only_bind (m : handler A) (f : A → handler B) :
  write_only m → (∀ a, write_only (f a)) → write_only (m ≫= f).
Proof.
  intros Hm Hf out st. specialize (Hm out st). eff_unfold. rewrite Hm.
  destruct (m st) as [[a|e] st']; simpl; [apply Hf|done].
Qed.

Lemma write_only_fmap (g : A → B) (m : handler A) :
  write_only m → write_only (g <$> m).
Proof. intros Hm. apply write_only_bind; [done|]. by intros a out st. Qed.

Lemma write_only_try_catch (m : handler A) (h : exn → handler A) :
  write_only m → (∀ x, write_only (h x)) → write_only (try_catch m h).
Proof.
  intros Hm Hh out st. specialize (Hm out st). unfold try_catch. rewrite Hm.
  destruct (m st) as [[a|x] st']; simpl; [done|apply Hh].
Qed.

Lemma write_only_modify (f : hstate → hstate) :
  (∀ out st, f (prefixed out st) = prefixed out (f st)) →
  write_only (modify_state f).
Proof. intros Hf out st. eff_unfold. simpl. by rewrite Hf. Qed.

Lemma write_only_query (q : database → A) : write_only (query q).
Proof. by intros out st. Qed.

Lemma write_only_run (q : database → result exn A * database) :
  write_only (run q).
Proof. intros out st. unfold run. simpl. by destruct (q (st_db st)). Qed.

Lemma write_only_property (o : option A) : write_only (property o).
Proof. destruct o; by intros out st. Qed.

Lemma write_only_lift_result (r : result exn A) : write_only (lift_result r).
Proof. destruct r; by intros out st. Qed.

End write_only.

Lemma write_only_check_headers : write_only check_headers.
Proof.
  intros out st. unfold check_headers. eff_unfold. simpl.
  by destruct (res_sent (st_res st)).
Qed.

Lemma write_only_console_log args : write_only (console_log args).
Proof.
  apply write_only_modify. intros out st. unfold printed, prefixed. simpl.
  by rewrite app_assoc.
Qed.

Ltac write_only_step :=
  match goal with
  | |- write_only (_ ≫= _) => apply write_only_bind; [|intros ?]
  | |- write_only (_ <$> _) => apply write_only_fmap
  | |- write_only (try_catch _ _) => apply write_only_try_catch; [|intros ?]
  | |- write_only (match ?x with _ => _ end) => destruct x
  | |- write_only (let _ := _ in _) => cbv zeta
  | |- write_only (mret _) => apply write_only_ret
  | |- write_only (throw _) => apply write_only_throw
  | |- write_only (query _) => apply write_only_query
  | |- write_only (run _) => apply write_only_run
  | |- write_only (property _) => apply write_only_property
  | |- write_only (body_field _ _) => apply write_only_property
  | |- write_only (lift_result _) => apply write_only_lift_result
  | |- write_only check_headers => apply write_only_check_headers
  | |- write_only (console_log _) => apply write_only_console_log
  | |- write_only (modify_state _) => apply write_only_modify; by intros ??
  | |- write_only (set_locals_errors _) => unfold set_locals_errors
  | |- write_only (set_locals_user _) => unfold set_locals_user
  | |- write_only (exec _) => unfold exec
  | |- write_only (send _) => unfold send
  | |- write_only (add_header _) => unfold add_header
  | |- write_only (res_render _ _) => unfold res_render
  | |- write_only (res_redirect _) => unfold res_redirect
  | |- write_only (res_cookie _ _ _) => unfold res_cookie
  | |- write_only (res_clearCookie _ _) => unfold res_clearCookie
  end.

Ltac solve_write_only := repeat write_only_step.

Lemma write_only_print_all ls : write_only (print_all ls).
Proof. unfold print_all. induction ls; simpl; solve_write_only. done. Qed.

Section handlers.
Context `{!Sqlite, !Bcrypt, !Jwt, !Clock}.
Variable cfg : config.

Lemma write_only_authenticate e req : write_only (authenticate cfg e req).
Proof. unfold authenticate. solve_write_only. Qed.

Lemma write_only_fetch_owned_post req lines k :
  (∀ p, write_only (k p)) → write_only (fetch_owned_post req lines k).
Proof.
  intros Hk. unfold fetch_owned_post. solve_write_only;
    first [apply write_only_print_all | apply Hk].
Qed.

Lemma write_only_route_handler e r req : write_only (route_handler cfg e r req).
Proof.
  destruct r; simpl;
    unfold get_home, get_logout, get_create_post, post_create_post, get_post,
      get_edit_post, post_edit_post, post_delete_post, post_register,
      get_login, post_login, mustBeLoggedIn, start_session, compare_password,
      sharedPostValidation;
    solve_write_only; apply write_only_fetch_owned_post; intros p;
    solve_write_only.
Qed.

Lemma write_only_app e req : write_only (app cfg e req).
Proof.
  unfold app. solve_write_only; [apply write_only_authenticate|].
  apply write_only_route_handler.
Qed.

End handlers.

#[export] Instance same_log_preorder : PreOrder same_log.
Proof. split; [done|]. intros a b c Hab Hbc. unfold same_log in *. congruence. Qed.

Lemma silent_modify (f : hstate → hstate) :
  (∀ st, st_log (f st) = st_log st) → silent (modify_state f).
Proof. intros Hf st. apply Hf. Qed.

Lemma silent_check_headers : silent check_headers.
Proof. intros st. unfold check_headers. eff_unfold. by destruct (res_sent _). Qed.

Lemma silent_run {A} (q : database → result exn A * database) : silent (run q).
Proof. intros st. unfold run. by destruct (q (st_db st)). Qed.

Lemma silent_send s : silent (send s).
Proof.
  intros st. destruct (res_sent (st_res st)) eqn:Hs.
  - by rewrite send_sent.
  - by rewrite send_fresh.
Qed.

Ltac silent_step :=
  match goal with
  | |- silent _ => unfold silent
  | |- stable same_log _ => stable_step
  | |- stable same_log (run _) => apply silent_run
  | |- stable same_log check_headers => apply silent_check_headers
  | |- stable same_log (modify_state _) => apply silent_modify; by intros ?
  | |- stable same_log (lift_result ?r) => destruct r; simpl
  | |- stable same_log (exec _) => unfold exec
  | |- stable same_log (send _) => apply silent_send
  | |- stable same_log (add_header _) => unfold add_header
  | |- stable same_log (res_render _ _) => unfold res_render
  | |- stable same_log (res_redirect _) => unfold res_redirect
  | |- stable same_log (res_cookie _ _ _) => unfold res_cookie
  | |- stable same_log (res_clearCookie _ _) => unfold res_clearCookie
  end.

Ltac solve_silent := repeat silent_step.

Section console_facts.
Context `{!Sqlite, !Bcrypt, !Jwt, !Clock}.
Variable cfg : config.

Lemma silent_unowned req k : silent (fetch_owned_post req (λ _, []) k).
Proof.
  intros st. rewrite fetch_owned_post_run. unfold same_log.
  repeat case_match; simpl; by rewrite ?app_nil_r.
Qed.

Lemma silent_route_handler e r req :
  silent_route r = true → silent (route_handler cfg e r req).
Proof.
  destruct r; intros Hr; try done; simpl;
    unfold get_home, get_logout, get_create_post, post_edit_post,
      post_delete_post, post_register, get_login, post_login, mustBeLoggedIn,
      start_session, compare_password;
    solve_silent; apply silent_unowned.
Qed.

Lemma then_ret_log {A} (m : handler unit) (a : A) st :
  st_log ((m;; mret a) st).2 = st_log (m st).2.
Proof. eff_unfold. by destruct (m st) as [[[]|x] st']. Qed.

Lemma post_create_post_log e req st :
  res_sent (st_res st) = None →
  st_log (post_create_post e req st).2
  = st_log st
    ++ match req_user req,
             req_body req !! "title"%string, req_body req !! "body"%string with
       | Some c, Some title, Some body =>
           if has_errors (post_errors title body) then []
           else user_line (Some c)
                :: (if select_user_by_id (userId c) (st_db st) is Some _
                    then [author_line (userId c)] else [])
       | _, _, _ => []
       end.
Proof.
  intros Hs. destruct (req_user req) as [c|] eqn:Hc.
  2: { unfold post_create_post. rewrite mustBeLoggedIn_anonymous by done.
       rewrite app_nil_r. apply (silent_send (Redirected "/")). }
  destruct (req_body req !! "title"%string) as [title|] eqn:Ht;
    [destruct (req_body req !! "body"%string) as [body|] eqn:Hb|].
  - rewrite (post_create_post_run e req st c title body) by done. cbv zeta.
    unfold created. repeat case_match; simpl; by rewrite ?app_nil_r.
  - rewrite (post_create_post_missing e req st c) by auto. by rewrite app_nil_r.
  - rewrite (post_create_post_missing e req st c) by auto. by rewrite app_nil_r.
Qed.

Lemma get_post_log req st :
  res_sent (st_res st) = None →
  st_log (get_post req st).2
  = st_log st ++ match select_post_with_author (param_id req) (st_db st) with
                 | Some p => [[LogPost p]]
                 | None => []
                 end.
Proof.
  intros Hs. unfold get_post, query, res_redirect, res_render. eff_unfold.
  destruct (select_post_with_author _ _) as [p|]; simpl;
    rewrite send_fresh by done; simpl; by rewrite ?app_nil_r.
Qed.

Lemma get_edit_post_log req st :
  res_sent (st_res st) = None →
  st_log (get_edit_post req st).2
  = st_log st ++ match req_user req, select_post_by_id (param_id req) (st_db st) with
                 | Some _, Some p => owner_lines p
                 | _, _ => []
                 end.
Proof.
  intros Hs. unfold get_edit_post. destruct (req_user req) as [c|] eqn:Hc.
  - rewrite (mustBeLoggedIn_user _ _ _ c) by done. rewrite fetch_owned_post_run.
    rewrite Hs. case_match; simpl; by rewrite ?app_nil_r.
  - rewrite mustBeLoggedIn_anonymous by done. rewrite app_nil_r.
    apply (silent_send (Redirected "/")).
Qed.

(** What the application prints on a response that is not yet sent. *)
Lemma app_log e req st :
  res_sent (st_res st) = None →
  st_log (app cfg e req st).2 = st_log st ++ lines_of cfg e req (st_db st).
Proof.
  intros Hs. rewrite app_run. unfold lines_of.
  destruct (match_route _ _) as [[r params]|]; [|by rewrite app_nil_r].
  rewrite then_ret_log.
  destruct (silent_route r) eqn:Hr.
  { rewrite (silent_route_handler e r _ Hr).
    destruct r; try done; by rewrite app_nil_r. }
  destruct r; try done; simpl route_handler.
  - by rewrite post_create_post_log.
  - by rewrite get_post_log.
  - by rewrite get_edit_post_log.
Qed.

Lemma console_lines e req db : console cfg e req db = lines_of cfg e req db.
Proof. unfold console. by rewrite app_log. Qed.

(** The application started in a process that has printed [out]. *)
Lemma app_prefixed e req db out :
  app cfg e req (HState fresh_response db out)
  = let '(r, st) := app cfg e req (HState fresh_response db []) in
    (r, HState (st_res st) (st_db st) (out ++ console cfg e req db)).
Proof.
  pose proof (write_only_app cfg e req out (HState fresh_response db [])) as Hw.
  unfold prefixed in Hw. simpl in Hw. rewrite app_nil_r in Hw. rewrite Hw.
  clear Hw. unfold console. by destruct (app cfg e req _).
Qed.

(** The state the application leaves in a process that has printed [out]:
    the database of [handle] and the lines of the reference after [out]. *)
Lemma app_after e req db out :
  let st := (app cfg e req (HState fresh_response db out)).2 in
  st_db st = (handle cfg e req db).2
  ∧ st_log st = out ++ lines_of cfg e req db.
Proof.
  rewrite app_prefixed, console_lines. unfold handle.
  by destruct (app cfg e req _) as [r st].
Qed.

(** C32: the console of the process after a run, each request answered in
    the process as the requests before it left it, is what the process had
    printed followed by the lines of the reference definition, which reads
    the route, the session, the fields [title] and [body] and the rows the
    request names. *)
Theorem console_after_expected inputs db out :
  console_after cfg inputs db out = out ++ expected_console cfg inputs db.
Proof.
  revert db out. induction inputs as [|[e req] rest IH]; intros db out; simpl.
  { by rewrite app_nil_r. }
  destruct (app_after e req db out) as [-> ->]. by rewrite IH, app_assoc.
Qed.

(** *** Passwords *)

Lemma session_cookies e req req' :
  req_cookies req = req_cookies req' → session cfg e req = session cfg e req'.
Proof. intros Hc. unfold session. by rewrite Hc. Qed.

Lemma body_but_password req req' (f : string) :
  delete "password"%string (req_body req) = delete "password"%string (req_body req') →
  f ≠ "password"%string → req_body req !! f = req_body req' !! f.
Proof.
  intros Hb Hf.
  rewrite <- (lookup_delete_ne (req_body req) "password"%string f) by done.
  rewrite Hb. by apply lookup_delete_ne.
Qed.

Lemma select_user_public db db' id :
  same_public db db' →
  user_username <$> select_user_by_id id db
  = user_username <$> select_user_by_id id db'.
Proof.
  intros [= Hu _]. unfold select_user_by_id.
  by rewrite <- !lookup_fmap, Hu.
Qed.

Lemma select_post_public db db' id :
  same_public db db' → select_post_by_id id db = select_post_by_id id db'.
Proof. intros [= _ Hp]. unfold select_post_by_id. by rewrite Hp. Qed.

Lemma select_post_with_author_public db db' id :
  same_public db db' →
  select_post_with_author id db = select_post_with_author id db'.
Proof.
  intros Hdb. unfold select_post_with_author.
  rewrite (select_post_public db db') by done.
  destruct (select_post_by_id id db') as [p|]; simpl; [|done].
  pose proof (select_user_public db db' (post_authorid p) Hdb) as Hu.
  destruct (select_user_by_id _ db), (select_user_by_id _ db');
    simplify_eq/=; by rewrite ?Hu.
Qed.

#[export] Instance same_but_password_equivalence : Equivalence same_but_password.
Proof.
  unfold same_but_password. split.
  - by intros req.
  - intros req req' (? & ? & ? & ?). by repeat split.
  - intros a b c (? & ? & ? & ?) (? & ? & ? & ?). repeat split; congruence.
Qed.

#[export] Instance same_public_equivalence : Equivalence same_public.
Proof.
  unfold same_public. split; [by intros db|by intros db db'|].
  intros a b c. congruence.
Qed.

#[export] Instance lines_of_proper e :
  Proper (same_but_password ==> same_public ==> (=)) (lines_of cfg e).
Proof.
  intros req req' (Hm & Hp & Hc & Hb) db db' Hdb. unfold lines_of.
  rewrite Hm, Hp, (session_cookies e req req' Hc).
  rewrite !(body_but_password req req' _ Hb) by done.
  destruct (match_route _ _) as [[r params]|]; [|done].
  change (param_id (set_params params req)) with (param_id (set_params params req')).
  rewrite (select_post_with_author_public db db') by done.
  rewrite (select_post_public db db') by done.
  destruct r; try done. repeat case_match; try done.
  all: pose proof (select_user_public db db' (userId c) Hdb) as Hu.
  all: destruct (select_user_by_id _ db), (select_user_by_id _ db'); by simplify_eq/=.
Qed.

(** C33: what a request prints depends neither on the field [password] of
    its form nor on the hashes of the passwords in the database: two
    requests that agree on the method, the path, the cookies and the other
    fields print the same lines on two databases with the same posts and
    the same user names. *)
Theorem console_hides_passwords e req req' db db' :
  same_but_password req req' → same_public db db' →
  console cfg e req db = console cfg e req' db'.
Proof. intros Hreq Hdb. rewrite !console_lines. by apply lines_of_proper. Qed.

End console_facts.

(** ** The server on the requests as they arrive *)

Section wire_console_facts.
Context `{!Sqlite, !Bcrypt, !Jwt, !Clock, !Json, !Querystring}.
Variable cfg : config.
Variable public : jsstring → bool.

(** The database after a request is the one the application leaves for
    the request handed on, and the same database when none is. *)
Lemma receive_handed_on e raw db :
  (receive cfg public e raw db).2
  = match handed_on public raw with
    | Some req => (handle cfg e req db).2
    | None => db
    end.
Proof.
  unfold receive, handed_on. destruct (read_body raw) as [body|]; [|done].
  destruct (is_static public raw); [done|].
  destruct (path_segments _) as [segs|]; [|done]. simpl.
  destruct (decode_params segs) as [path|]; [|done]. simpl.
  destruct (verb_method _); simpl; [by destruct (handle _ _ _ _)|by case_match].
Qed.

Lemma listen_requests inputs db :
  (listen cfg public inputs db).2 = (serve cfg (requests_of public inputs) db).2.
Proof.
  revert db. induction inputs as [|[e raw] rest IH]; intros db; [done|].
  simpl. pose proof (receive_handed_on e raw db) as Hr.
  destruct (receive cfg public e raw db) as [a db1]. simpl in Hr. subst db1.
  specialize (IH (match handed_on public raw with
                  | Some req => (handle cfg e req db).2 | None => db end)).
  destruct (listen _ _ rest _) as [answers db2]. simpl in *. subst db2.
  unfold requests_of. simpl. destruct (handed_on public raw) as [req|]; simpl; [|done].
  destruct (handle cfg e req db) as [o db1]. simpl.
  by destruct (serve _ _ _) as [os db2].
Qed.

Lemma wire_console_requests inputs db out :
  wire_console cfg public inputs db out
  = console_after cfg (requests_of public inputs) db out.
Proof.
  revert db out. induction inputs as [|[e raw] rest IH]; intros db out; [done|].
  unfold requests_of. simpl. by destruct (handed_on public raw); simpl.
Qed.

Lemma wire_console_expected inputs db out :
  wire_console cfg public inputs db out
  = out ++ expected_console cfg (requests_of public inputs) db.
Proof.
  revert db out. induction inputs as [|[e raw] rest IH]; intros db out.
  { simpl. by rewrite app_nil_r. }
  unfold requests_of. simpl. destruct (handed_on public raw) as [req|]; simpl;
    [|apply IH].
  destruct (app_after cfg e req db out) as [-> ->]. by rewrite IH, app_assoc.
Qed.

(** The console of the server after the requests that arrived is the
    line of [app.listen] followed by the lines of the reference for the
    requests that were handed to the application. *)
Theorem listen_console_expected inputs db :
  listen_console cfg public inputs db
  = startup_line :: expected_console cfg (requests_of public inputs) db.
Proof. apply wire_console_expected. Qed.

End wire_console_facts.

(** ** The theorems on the examples *)

(** The run of the examples prints the session and the author of the new
    post, the row of the post that is shown, and the two lines of the form
    that edits it. *)
Example console_after_scenario :
  console_after example_config console_scenario empty_db [startup_line]
  = [startup_line;
     user_line (Some alice);
     author_line 1;
     [LogPost (PostWithUsername
                 (Store.Post 1 (toISOString 1700000000000) (VStr (js "Hi"))
                       (VStr (js "World")) 1)
                 (VStr (js "alice1")))];
     [LogString (js "aurthorid:1")];
     [LogString (js "userid:undefined")]].
Proof. by vm_compute. Qed.

Lemma console_hides_passwords_witness :
  console example_config example_env (hello_with_password "secret1") hello_db
  = console example_config example_env (hello_with_password "another") rehashed_db.
Proof.
  apply (console_hides_passwords example_config example_env
           (hello_with_password "secret1") (hello_with_password "another")
           hello_db rehashed_db); [|by vm_compute].
  repeat split; by vm_compute.
Defined.
